(** * Diffuse: the line alignment engine and its undo log

    A shallow embedding of the alignment core of [src/main.py]: the block
    partition helpers ([createBlock], [cutBlocks], [mergeBlocks]), the spacer
    compactor ([removeNullLines]), the sequence matcher ([patience_diff] with
    its two helpers), the pairwise aligner ([FileDiffViewer.alignBlocks]) and
    the undo/redo log of [FileDiffViewer].

    Conventions.  Python integers are [Z].  Python lists are Rocq lists; the
    list operations that Python defines for negative or out-of-range
    positions are written out in the [py_*] helpers below.  A Python
    exception is a [Raise] result.  [while] loops that are not structurally
    recursive take a fuel argument and return [Raise OutOfFuel] when it is
    used up; a theorem that states the result of such a loop thereby states
    that the fuel supplied was enough. *)

From Stdlib Require Import ZArith Lia Ascii.
From stdpp Require Import base list option strings.
From Equations Require Import Equations.

Open Scope Z_scope.

(** ** Results of fallible code *)

Inductive exn := IndexError | TypeError | AttributeError | KeyError | OutOfFuel.

Inductive result (A : Type) := Ok (a : A) | Raise (e : exn).
Arguments Ok {A} a.
Arguments Raise {A} e.

Global Instance result_ret : MRet result := fun A a => Ok a.
Global Instance result_bind : MBind result := fun A B k m =>
  match m with
  | Ok a => k a
  | Raise e => Raise e
  end.

Definition is_ok {A} (r : result A) : Prop :=
  match r with Ok _ => True | Raise _ => False end.

(** ** Python list operations *)

Definition len {A} (l : list A) : Z := Z.of_nat (length l).

(** [sum(l)] *)
Definition sumZ (l : list Z) : Z := foldr Z.add 0 l.

(** Position denoted by an index [i] that may be negative. *)
Definition py_norm {A} (l : list A) (i : Z) : Z :=
  if i <? 0 then len l + i else i.

(** [l[i]] *)
Definition py_get {A} (l : list A) (i : Z) : result A :=
  let j := py_norm l i in
  if j <? 0 then Raise IndexError
  else match l !! Z.to_nat j with
       | Some x => Ok x
       | None => Raise IndexError
       end.

(** Bound of a slice: negative bounds count from the end, and every bound
    is clamped to [0 .. len l]. *)
Definition py_clamp {A} (l : list A) (i : Z) : nat :=
  Z.to_nat (Z.min (Z.max (py_norm l i) 0) (len l)).

(** [l[i:j]] *)
Definition py_slice {A} (l : list A) (i j : Z) : list A :=
  let lo := py_clamp l i in
  let hi := py_clamp l j in
  take (hi - lo) (drop lo l).

(** [l[i:]] *)
Definition py_slice_from {A} (l : list A) (i : Z) : list A :=
  drop (py_clamp l i) l.

(** [l.insert(i, x)]: the position is clamped like a slice bound. *)
Definition py_insert {A} (l : list A) (i : Z) (x : A) : list A :=
  let p := py_clamp l i in
  take p l ++ x :: drop p l.

(** [l[i:i] = xs] *)
Definition py_splice {A} (l : list A) (i : Z) (xs : list A) : list A :=
  let p := py_clamp l i in
  take p l ++ xs ++ drop p l.

(** [del l[i]] *)
Definition py_del {A} (l : list A) (i : Z) : result (list A) :=
  let j := py_norm l i in
  if j <? 0 then Raise IndexError
  else if j <? len l then Ok (delete (Z.to_nat j) l)
  else Raise IndexError.

(** [l[i] = x] *)
Definition py_set {A} (l : list A) (i : Z) (x : A) : result (list A) :=
  let j := py_norm l i in
  if j <? 0 then Raise IndexError
  else if j <? len l then Ok (<[Z.to_nat j := x]> l)
  else Raise IndexError.

(** [n * [x]] *)
Definition py_repeat {A} (n : Z) (x : A) : list A := replicate (Z.to_nat n) x.

(** ** Block partitions *)

Definition createBlock (n : Z) : list Z :=
  if 0 <? n then [n] else [].

(** One iteration of the [for b in blocks] loop of [cutBlocks]; the loop
    state is [(pre, post, nlines)]. *)
Definition cutBlocks_step (i : Z) (st : list Z * list Z * Z) (b : Z)
  : list Z * list Z * Z :=
  let '(pre, post, nlines) := st in
  if i <=? nlines then (pre, post ++ [b], nlines + b)
  else if nlines + b <=? i then (pre ++ [b], post, nlines + b)
  else let n := i - nlines in (pre ++ [n], post ++ [b - n], nlines + b).

Definition cutBlocks (i : Z) (blocks : list Z) : list Z * list Z :=
  let '(pre, post, _) := foldl (cutBlocks_step i) ([], [], 0) blocks in
  (pre, post).

(** The [while len(leftblocks) > 0] loop of [mergeBlocks].  Every iteration
    deletes the head of at least one of the two lists. *)
Equations? mergeBlocks_loop (leftblocks rightblocks b : list Z) : result (list Z)
  by wf (length leftblocks + length rightblocks)%nat lt :=
mergeBlocks_loop [] _ b := Ok b;
mergeBlocks_loop (nleft :: _) [] b := Raise IndexError;
mergeBlocks_loop (nleft :: ltl) (nright :: rtl) b :=
  mergeBlocks_loop
    (if Z.min nleft nright <? nleft
     then (nleft - Z.min nleft nright) :: ltl else ltl)
    (if Z.min nleft nright <? nright
     then (nright - Z.min nleft nright) :: rtl else rtl)
    (b ++ [Z.min nleft nright]).
Proof.
  destruct (Z.ltb_spec (Z.min nleft nright) nleft),
           (Z.ltb_spec (Z.min nleft nright) nright); simpl; lia.
Qed.

Definition mergeBlocks (leftblocks rightblocks : list Z) : result (list Z) :=
  mergeBlocks_loop leftblocks rightblocks [].

(** Cut points of a partition laid out from row [n]: the row numbers at
    which one block ends and another begins. *)
Fixpoint cut_points_from (n : Z) (blocks : list Z) : list Z :=
  match blocks with
  | [] => []
  | b :: rest =>
      match rest with
      | [] => []
      | _ :: _ => (n + b) :: cut_points_from (n + b) rest
      end
  end.

Definition cut_points (blocks : list Z) : list Z := cut_points_from 0 blocks.

Definition positive_blocks (blocks : list Z) : Prop := Forall (fun b => 0 < b) blocks.

(** [cutBlocks] read recursively: [j] is the distance from the start of
    [blocks] to the cut.  Used to reason about the loop. *)
Fixpoint cut_rec (j : Z) (blocks : list Z) : list Z * list Z :=
  match blocks with
  | [] => ([], [])
  | b :: rest =>
      let '(p, q) := cut_rec (j - b) rest in
      if j <=? 0 then (p, b :: q)
      else if b <=? j then (b :: p, q)
      else (j :: p, (b - j) :: q)
  end.

(** ** Spacer compactor *)

(** A pane's rows: [None] is a spacer row. *)
Abbreviation rows L := (list (option L)).

Section RemoveNullLines.
Context {L : Type}.
Local Abbreviation rows := (rows L).

(** The scan [for lines in lines_set: if lines[i] is not None: ... break]:
    [true] when some sequence holds a line at row [i] (the [else] branch of
    the [for] is taken on [false]). *)
Fixpoint any_not_none (lines_set : list rows) (i : Z) : result bool :=
  match lines_set with
  | [] => Ok false
  | lines :: others =>
      x ← py_get lines i;
      match x with
      | Some _ => Ok true
      | None => any_not_none others i
      end
  end.

(** [for lines in lines_set: del lines[i]] *)
Fixpoint del_row (lines_set : list rows) (i : Z) : result (list rows) :=
  match lines_set with
  | [] => Ok []
  | lines :: others =>
      lines' ← py_del lines i;
      others' ← del_row others i;
      Ok (lines' :: others')
  end.

(** The inner loop [while i < bn + blocks[bi]]. *)
Fixpoint removeNullLines_inner (fuel : nat) (blocks : list Z)
    (lines_set : list rows) (bi bn i : Z)
  : result (list Z * list rows * Z) :=
  b ← py_get blocks bi;
  if i <? bn + b then
    match fuel with
    | O => Raise OutOfFuel
    | S fuel =>
        found ← any_not_none lines_set i;
        if found : bool then
          removeNullLines_inner fuel blocks lines_set bi bn (i + 1)
        else
          lines_set ← del_row lines_set i;
          blocks ← py_set blocks bi (b - 1);
          removeNullLines_inner fuel blocks lines_set bi bn i
    end
  else Ok (blocks, lines_set, i).

(** The outer loop [while bi < len(blocks)].  The inner loop runs exactly
    [bn + blocks[bi] - i] times, which is the fuel it is given. *)
Fixpoint removeNullLines_outer (fuel : nat) (blocks : list Z)
    (lines_set : list rows) (bi bn i : Z)
  : result (list Z * list rows) :=
  if bi <? len blocks then
    match fuel with
    | O => Raise OutOfFuel
    | S fuel =>
        b ← py_get blocks bi;
        '(blocks, lines_set, i) ←
          removeNullLines_inner (Z.to_nat (bn + b - i)) blocks lines_set bi bn i;
        b ← py_get blocks bi;
        if b =? 0 then
          blocks ← py_del blocks bi;
          removeNullLines_outer fuel blocks lines_set bi bn i
        else
          removeNullLines_outer fuel blocks lines_set (bi + 1) (bn + b) i
    end
  else Ok (blocks, lines_set).

(** [removeNullLines(blocks, lines_set)]; the two arguments are updated in
    place by the source and returned here.  Each outer iteration deletes a
    block or moves to the next one, so [len(blocks)] iterations suffice. *)
Definition removeNullLines (blocks : list Z) (lines_set : list rows)
  : result (list Z * list rows) :=
  removeNullLines_outer (length blocks) blocks lines_set 0 0 0.

(** *** What the compactor is meant to compute *)

(** Row [k] holds a line in at least one sequence. *)
Definition row_has_line (lines_set : list rows) (k : nat) : bool :=
  existsb (fun lines : rows =>
             match lines !! k with Some (Some _) => true | _ => false end)
          lines_set.

(** For each of the first [n] rows, whether it is kept. *)
Definition keep_mask (lines_set : list rows) (n : nat) : list bool :=
  fmap (row_has_line lines_set) (seq 0 n).

(** The entries of [l] at the rows marked [true]. *)
Fixpoint select {A} (mask : list bool) (l : list A) : list A :=
  match mask, l with
  | m :: mask', x :: l' =>
      if m then x :: select mask' l' else select mask' l'
  | _, _ => []
  end.

Definition count_true (mask : list bool) : nat :=
  length (filter (fun m => m = true) mask).

(** Number of kept rows in each block. *)
Fixpoint block_counts (mask : list bool) (blocks : list Z) : list Z :=
  match blocks with
  | [] => []
  | b :: rest =>
      Z.of_nat (count_true (take (Z.to_nat b) mask))
      :: block_counts (drop (Z.to_nat b) mask) rest
  end.

(** Blocks shrunk to their kept rows; emptied blocks disappear. *)
Definition compacted_blocks (mask : list bool) (blocks : list Z) : list Z :=
  filter (fun c => c <> 0) (block_counts mask blocks).

(** A sequence while the scan is under way: the rows already visited are
    filtered by [mask], the others are still untouched. *)
Definition partly_compacted {A} (mask : list bool) (l : list A) : list A :=
  select mask l ++ drop (length mask) l.

(** The keep marks of the [r] rows that follow the rows marked by [m]. *)
Definition scan_mask (lines_set0 : list rows) (m : list bool) (r : nat)
  : list bool :=
  fmap (row_has_line lines_set0) (seq (length m) r).

End RemoveNullLines.

(** ** Dictionaries

    A Python [dict] keeps its keys in insertion order, and assigning to an
    existing key keeps the key's place; iteration follows that order. *)

Section Dict.
Context {K V : Type} `{EqDecision K}.

Definition dict := list (K * V).

Fixpoint dict_get (d : dict) (k : K) : option V :=
  match d with
  | [] => None
  | (k', v) :: d' => if decide (k = k') then Some v else dict_get d' k
  end.

(** [k in d] *)
Definition dict_mem (d : dict) (k : K) : bool :=
  match dict_get d k with Some _ => true | None => false end.

(** [d[k]] *)
Definition dict_lookup (d : dict) (k : K) : result V :=
  match dict_get d k with Some v => Ok v | None => Raise KeyError end.

(** [d[k] = v] *)
Fixpoint dict_set (d : dict) (k : K) (v : V) : dict :=
  match d with
  | [] => [(k, v)]
  | (k', v') :: d' =>
      if decide (k = k') then (k, v) :: d' else (k', v') :: dict_set d' k v
  end.

Definition dict_keys (d : dict) : list K := d.*1.
End Dict.
Arguments dict : clear implicits.

(** [for x in l: st = f(st, x)], stopping at the first exception. *)
Fixpoint for_each {A S} (l : list A) (f : S -> A -> result S) (st : S) : result S :=
  match l with
  | [] => Ok st
  | x :: l' => st' ← f st x; for_each l' f st'
  end.

(** [enumerate(l)] counted from [i]. *)
Fixpoint enumerate_from {A} (i : Z) (l : list A) : list (Z * A) :=
  match l with
  | [] => []
  | x :: l' => (i, x) :: enumerate_from (i + 1) l'
  end.

Definition enumerate {A} (l : list A) : list (Z * A) := enumerate_from 0 l.

(** ** Sequence matcher *)

(** A match block [(start_a, start_b, length)]. *)
Definition match_block : Type := Z * Z * Z.

Section Matcher.
Context {K : Type} `{EqDecision K}.

(** The two loops that "value unique lines by their order in each list":
    a key seen once maps to its position, a repeated key to [-1]. *)
Definition unique_values (a : list K) : dict K Z :=
  foldl (fun value '(i, s) =>
           if dict_mem value s then dict_set value s (-1)
           else dict_set value s i)
        [] (enumerate a).

(** Binary search [while start < end] for the pile that takes [v]. *)
Fixpoint find_pile (fuel : nat) (pile : list Z) (v start end_ : Z) : result Z :=
  if start <? end_ then
    match fuel with
    | O => Raise OutOfFuel
    | S fuel =>
        let mid := (start + end_) `div` 2 in
        p ← py_get pile mid;
        if v <? p then find_pile fuel pile v start mid
        else find_pile fuel pile v (mid + 1) end_
    end
  else Ok start.

(** One iteration of [for s in b] in [__patience_subsequence]; the state
    is [(pile, pointers, atob)]. *)
Definition patience_step (value_a value_b : dict K Z)
    (st : list Z * dict Z Z * dict Z Z) (s : K)
  : result (list Z * dict Z Z * dict Z Z) :=
  let '(pile, pointers, atob) := st in
  let v := default (-1) (dict_get value_a s) in
  if v =? -1 then Ok st
  else
    vb ← dict_lookup value_b s;
    if vb =? -1 then Ok st
    else
      let atob := dict_set atob v vb in
      let end_ := len pile in
      start ←
        (if end_ =? 0 then find_pile (S (length pile)) pile v 0 end_
         else
           top ← py_get pile (-1);
           if top <? v then Ok end_
           else find_pile (S (length pile)) pile v 0 end_);
      pile ← (if start <? len pile then py_set pile start v
              else Ok (pile ++ [v]));
      pointers ←
        (if start =? 0 then Ok pointers
         else p ← py_get pile (start - 1); Ok (dict_set pointers v p));
      Ok (pile, pointers, atob).

(** [while v in pointers]: walk back through the piles. *)
Fixpoint follow_pointers (fuel : nat) (pointers atob : dict Z Z) (v : Z)
    (result_ : list (Z * Z)) : result (list (Z * Z)) :=
  match dict_get pointers v with
  | None => Ok result_
  | Some v' =>
      match fuel with
      | O => Raise OutOfFuel
      | S fuel =>
          vb ← dict_lookup atob v';
          follow_pointers fuel pointers atob v' (result_ ++ [(v', vb)])
      end
  end.

(** [__patience_subsequence(a, b)]: "longest common subsequence of unique
    elements common to 'a' and 'b'". *)
Definition patience_subsequence (a b : list K) : result (list (Z * Z)) :=
  let value_a := unique_values a in
  let value_b := unique_values b in
  '(pile, pointers, atob) ←
    for_each b (patience_step value_a value_b) ([], [], []);
  match pile with
  | [] => Ok []
  | _ :: _ =>
      v ← py_get pile (-1);
      vb ← dict_lookup atob v;
      r ← follow_pointers (length pointers) pointers atob v [(v, vb)];
      Ok (reverse r)
  end.

(** *** The difflib-style fallback *)

(** [count1[s] = count1.get(s, 0) + 1] for every [s] of [a]. *)
Definition count_elements (a : list K) : dict K Z :=
  foldl (fun count1 s => dict_set count1 s (default 0 (dict_get count1 s) + 1))
        [] a.

(** "a mapping from a element to where it can be found in 'b'" *)
Definition build_lookup (b : list K) : dict K (list Z) :=
  foldl (fun lookup '(i, s) =>
           match dict_get lookup s with
           | Some at_ => dict_set lookup s (at_ ++ [i])
           | None => dict_set lookup s [i]
           end)
        [] (enumerate b).

(** The "popular" keys, given the lengths of the two sequences. *)
Definition popular_keys (count1 : dict K Z) (lookup : dict K (list Z))
    (len_a len_b : Z) : dict K Z :=
  let popular :=
    if 200 <? len_a then
      foldl (fun popular '(k, v) =>
               if len_a <? 100 * v then dict_set popular k 1 else popular)
            [] count1
    else [] in
  if 200 <? len_b then
    foldl (fun popular '(k, v) =>
             if len_b <? 100 * len v then dict_set popular k 1 else popular)
          popular lookup
  else popular.

(** "check if this is now the longest match" *)
Definition note_match (v ai bi : Z) (best : Z * list (Z * Z)) : Z * list (Z * Z) :=
  let '(max_length, max_indices) := best in
  if max_length <=? v then
    if v =? max_length then (max_length, max_indices ++ [(ai, bi)])
    else (v, [(ai, bi)])
  else best.

(** Body of [for bi in prev_matches] for a popular key [s]; the state is
    [(matches, (max_length, max_indices))]. *)
Definition extend_popular (b : list K) (n : Z) (prev_matches : dict Z Z)
    (ai : Z) (s : K) (st : dict Z Z * (Z * list (Z * Z))) (bi : Z)
  : result (dict Z Z * (Z * list (Z * Z))) :=
  let '(matches, best) := st in
  hit ← (if bi + 1 <? n then x ← py_get b (bi + 1); Ok (bool_decide (x = s))
         else Ok false);
  if hit : bool then
    p ← dict_lookup prev_matches bi;
    let v := p + 1 in
    Ok (dict_set matches bi v, note_match v ai bi best)
  else Ok st.

(** Body of [for bi in lookup[s]] for a key that is not popular. *)
Definition extend_plain (prev_matches : dict Z Z) (ai : Z)
    (st : dict Z Z * (Z * list (Z * Z))) (bi : Z)
  : result (dict Z Z * (Z * list (Z * Z))) :=
  let '(matches, best) := st in
  let v := default 0 (dict_get prev_matches (bi - 1)) + 1 in
  Ok (dict_set matches bi v, note_match v ai bi best).

(** Body of [for ai, s in enumerate(a)]; the state is
    [(prev_matches, (max_length, max_indices))], and [matches] is empty at
    the start of every iteration. *)
Definition lcs_step (b : list K) (n : Z) (lookup : dict K (list Z))
    (popular : dict K Z) (st : dict Z Z * (Z * list (Z * Z))) (x : Z * K)
  : result (dict Z Z * (Z * list (Z * Z))) :=
  let '(prev_matches, best) := st in
  let '(ai, s) := x in
  match dict_get lookup s with
  | Some at_ =>
      if dict_mem popular s then
        for_each (dict_keys prev_matches)
                 (extend_popular b n prev_matches ai s) ([], best)
      else
        for_each at_ (extend_plain prev_matches ai) ([], best)
  | None => Ok ([], best)
  end.

(** [while ai and bi and a[ai - 1] == b[bi - 1]] *)
Fixpoint extend_start (fuel : nat) (a b : list K) (ai bi n : Z)
  : result (Z * Z * Z) :=
  go ← (if ai =? 0 then Ok false
        else if bi =? 0 then Ok false
        else x ← py_get a (ai - 1); y ← py_get b (bi - 1);
             Ok (bool_decide (x = y)));
  if go : bool then
    match fuel with
    | O => Raise OutOfFuel
    | S fuel => extend_start fuel a b (ai - 1) (bi - 1) (n + 1)
    end
  else Ok (ai, bi, n).

(** Body of [for ai, bi in max_indices]; the state is [(aidx, bidx, nidx)]. *)
Definition pick_longest (a b : list K) (max_length : Z)
    (st : Z * Z * Z) (x : Z * Z) : result (Z * Z * Z) :=
  let '(aidx, bidx, nidx) := st in
  let '(ai, bi) := x in
  let n := max_length in
  '(ai, bi, n) ←
    extend_start (S (length a)) a b (ai + (1 - n)) (bi + (1 - n)) n;
  if nidx <? n then Ok (ai, bi, n) else Ok st.

(** [__lcs_approx(a, b)]; [None] is the implicit [return None]. *)
Definition lcs_approx (a b : list K) : result (option match_block) :=
  let count1 := count_elements a in
  let lookup := build_lookup b in
  if existsb (dict_mem count1) (dict_keys lookup) then
    let popular := popular_keys count1 lookup (len a) (len b) in
    let n := len b in
    '(_, (max_length, max_indices)) ←
      for_each (enumerate a) (lcs_step b n lookup popular) ([], (0, []));
    match max_indices with
    | [] => Ok None
    | _ :: _ =>
        r ← for_each max_indices (pick_longest a b max_length) (0, 0, 0);
        Ok (Some r)
    end
  else Ok None.

(** *** patience_diff *)

(** A pending segment [(start_a, end_a, start_b, end_b, match_idx)]. *)
Definition segment : Type := Z * Z * Z * Z * Z.

(** "extend before":
    [while start_a < idx_a and start_b < idx_b and a[idx_a - 1] == b[idx_b - 1]] *)
Fixpoint extend_before (fuel : nat) (a b : list K) (start_a start_b idx_a idx_b : Z)
  : result (Z * Z) :=
  go ← (if start_a <? idx_a then
          if start_b <? idx_b then
            x ← py_get a (idx_a - 1); y ← py_get b (idx_b - 1);
            Ok (bool_decide (x = y))
          else Ok false
        else Ok false);
  if go : bool then
    match fuel with
    | O => Raise OutOfFuel
    | S fuel => extend_before fuel a b start_a start_b (idx_a - 1) (idx_b - 1)
    end
  else Ok (idx_a, idx_b).

(** "extend after":
    [while start_a < end_a and start_b < end_b and a[start_a] == b[start_b]] *)
Fixpoint extend_after (fuel : nat) (a b : list K) (start_a start_b end_a end_b : Z)
  : result (Z * Z) :=
  go ← (if start_a <? end_a then
          if start_b <? end_b then
            x ← py_get a start_a; y ← py_get b start_b;
            Ok (bool_decide (x = y))
          else Ok false
        else Ok false);
  if go : bool then
    match fuel with
    | O => Raise OutOfFuel
    | S fuel => extend_after fuel a b (start_a + 1) (start_b + 1) end_a end_b
    end
  else Ok (start_a, start_b).

(** Body of [for pivot_a, pivot_b in pivots]; the state is
    [(start_a, start_b, match_idx, blocks, matches)].  The work list
    [blocks] is used as a stack ([append] and [pop]): its last element is
    the head of the model list. *)
Definition pivot_step (a b : list K) (offset_a offset_b end_a end_b : Z)
    (st : Z * Z * Z * list segment * list match_block) (pivot : Z * Z)
  : result (Z * Z * Z * list segment * list match_block) :=
  let '(start_a, start_b, match_idx, blocks, matches) := st in
  let '(pivot_a, pivot_b) := pivot in
  let pivot_a := pivot_a + offset_a in
  let pivot_b := pivot_b + offset_b in
  if start_a <=? pivot_a then
    '(idx_a, idx_b) ←
      extend_before (length a) a b start_a start_b pivot_a pivot_b;
    let blocks :=
      if (start_a <? idx_a) && (start_b <? idx_b)
      then (start_a, idx_a, start_b, idx_b, match_idx) :: blocks
      else blocks in
    '(start_a, start_b) ←
      extend_after (length a) a b (pivot_a + 1) (pivot_b + 1) end_a end_b;
    let matches := py_insert matches match_idx (idx_a, idx_b, start_a - idx_a) in
    Ok (start_a, start_b, match_idx + 1, blocks, matches)
  else Ok st.

(** One iteration of [while blocks], after the [pop]. *)
Definition diff_segment (a b : list K) (seg : segment)
    (blocks : list segment) (matches : list match_block)
  : result (list segment * list match_block) :=
  let '(start_a, end_a, start_b, end_b, match_idx) := seg in
  let aa := py_slice a start_a end_a in
  let bb := py_slice b start_b end_b in
  pivots ← patience_subsequence aa bb;
  match pivots with
  | _ :: _ =>
      '(start_a, start_b, match_idx, blocks, matches) ←
        for_each pivots (pivot_step a b start_a start_b end_a end_b)
                 (start_a, start_b, match_idx, blocks, matches);
      let blocks :=
        if (start_a <? end_a) && (start_b <? end_b)
        then (start_a, end_a, start_b, end_b, match_idx) :: blocks
        else blocks in
      Ok (blocks, matches)
  | [] =>
      pivots ← lcs_approx aa bb;
      match pivots with
      | Some (idx_a, idx_b, n) =>
          let idx_a := idx_a + start_a in
          let idx_b := idx_b + start_b in
          let blocks :=
            if (start_a <? idx_a) && (start_b <? idx_b)
            then (start_a, idx_a, start_b, idx_b, match_idx) :: blocks
            else blocks in
          let matches := py_insert matches match_idx (idx_a, idx_b, n) in
          let match_idx := match_idx + 1 in
          let idx_a := idx_a + n in
          let idx_b := idx_b + n in
          let blocks :=
            if (idx_a <? end_a) && (idx_b <? end_b)
            then (idx_a, end_a, idx_b, end_b, match_idx) :: blocks
            else blocks in
          Ok (blocks, matches)
      | None => Ok (blocks, matches)
      end
  end.

(** [while blocks: ... = blocks.pop()] *)
Fixpoint diff_segments (fuel : nat) (a b : list K)
    (blocks : list segment) (matches : list match_block)
  : result (list match_block) :=
  match blocks with
  | [] => Ok matches
  | seg :: blocks =>
      match fuel with
      | O => Raise OutOfFuel
      | S fuel =>
          '(blocks, matches) ← diff_segment a b seg blocks matches;
          diff_segments fuel a b blocks matches
      end
  end.

(** [while i < end_a and i < end_b and a[i] == b[i]] *)
Fixpoint common_prefix (fuel : nat) (a b : list K) (i end_a end_b : Z) : result Z :=
  go ← (if i <? end_a then
          if i <? end_b then
            x ← py_get a i; y ← py_get b i; Ok (bool_decide (x = y))
          else Ok false
        else Ok false);
  if go : bool then
    match fuel with
    | O => Raise OutOfFuel
    | S fuel => common_prefix fuel a b (i + 1) end_a end_b
    end
  else Ok i.

(** [while start_a < end_a and start_b < end_b and a[end_a - 1] == b[end_b - 1]] *)
Fixpoint common_suffix (fuel : nat) (a b : list K) (start_a start_b end_a end_b : Z)
  : result (Z * Z) :=
  go ← (if start_a <? end_a then
          if start_b <? end_b then
            x ← py_get a (end_a - 1); y ← py_get b (end_b - 1);
            Ok (bool_decide (x = y))
          else Ok false
        else Ok false);
  if go : bool then
    match fuel with
    | O => Raise OutOfFuel
    | S fuel => common_suffix fuel a b start_a start_b (end_a - 1) (end_b - 1)
    end
  else Ok (end_a, end_b).

(** [patience_diff(a, b)]: "patinence diff with difflib-style fallback".
    A segment that yields a match is split into strictly shorter segments,
    one that yields none is dropped, so the work list is popped at most
    [2 * len(a) + 1] times. *)
Definition patience_diff (a b : list K) : result (list match_block) :=
  let len_a := len a in
  let len_b := len b in
  matches ←
    (if (len_a =? 0) || (len_b =? 0) then Ok []
     else diff_segments (2 * length a + 2) a b [(0, len_a, 0, len_b, 0)] []);
  let '(end_a, end_b) :=
    match matches with
    | (sa, sb, _) :: _ => (sa, sb)
    | [] => (len_a, len_b)
    end in
  i ← common_prefix (length a) a b 0 end_a end_b;
  let matches := if i =? 0 then matches else py_insert matches 0 (0, 0, i) in
  let '(start_a, start_b) :=
    match last matches with
    | Some (sa, sb, n) => (sa + n, sb + n)
    | None => (0, 0)
    end in
  '(end_a, end_b) ← common_suffix (length a) a b start_a start_b len_a len_b;
  let matches :=
    if end_a <? len_a then matches ++ [(end_a, end_b, len_a - end_a)]
    else matches in
  Ok (matches ++ [(len_a, len_b, 0)]).
End Matcher.

(** ** Pairwise alignment

    [FileDiffViewer.alignBlocks].  An element of [L] stands for one [Line]
    object, so that Python's [is] on two lines is equality in [L].  The
    comparison key of a line is computed by [_alignmentHash], which depends
    on the comparison preferences; it is a parameter here. *)

Section AlignBlocks.
Context {L K : Type} `{EqDecision L} `{EqDecision K}.
Variable alignmentHash : L -> K.

(** [x is y] for two row entries. *)
Definition same_entry (x y : option L) : bool :=
  match x, y with
  | None, None => true
  | Some u, Some v => bool_decide (u = v)
  | _, _ => false
  end.

(** [[ line for line in lines if line is not None ]] *)
Definition real_lines (lines : rows L) : list L := omap id lines.

(** Body of [for block in patience_diff(t1, t2)]; the state is
    [(s1, s2, n1, n2)]. *)
Definition place_block (st : rows L * rows L * Z * Z) (block : match_block)
  : rows L * rows L * Z * Z :=
  let '(s1, s2, n1, n2) := st in
  let '(block0, block1, _) := block in
  let delta := (n1 + block0) - (n2 + block1) in
  if delta <? 0 then
    (py_splice s1 (n1 + block0) (py_repeat (- delta) None), s2, n1 - delta, n2)
  else if 0 <? delta then
    (s1, py_splice s2 (n2 + block1) (py_repeat delta None), n1, n2 + delta)
  else st.

(** [while bnj + blocksj[bij] < i] *)
Fixpoint find_block (fuel : nat) (blocksj : list Z) (bij bnj i : Z) : result Z :=
  b ← py_get blocksj bij;
  if bnj + b <? i then
    match fuel with
    | O => Raise OutOfFuel
    | S fuel => find_block fuel blocksj (bij + 1) (bnj + b) i
    end
  else Ok bij.

(** The block update after a spacer went in at row [i]: "append a new
    block if needed", "advance to the current block", "increase the
    current block size".  [bi[j]] and [bn[j]] are never written by the
    source, so the search starts from [0] every time. *)
Definition grow_block (blocksj : list Z) (i : Z) : result (list Z) :=
  let blocksj := if len blocksj =? 0 then blocksj ++ [0] else blocksj in
  bij ← find_block (length blocksj) blocksj 0 0 i;
  b ← py_get blocksj bij;
  py_set blocksj bij (b + 1).

(** "insert spacers lines for side 'j'" *)
Definition insert_spacer (blocksj : list Z) (linesj : list (rows L)) (i : Z)
  : result (list Z * list (rows L)) :=
  let linesj := (fun temp => py_insert temp i None) <$> linesj in
  blocksj ← grow_block blocksj i;
  Ok (blocksj, linesj).

(** The [for j in range(2)] test of one side against the expected pair:
    returns the updated [(insert[j], accept)]. *)
Definition expect_entry (cur m : option L) (insertj accept : bool) : bool * bool :=
  if same_entry cur m then (insertj, accept)
  else match m with
       | None => (true, accept)
       | Some _ => (insertj, false)
       end.

(** The first half of the loop body: which sides get a spacer at row [i]
    ([insert]), and the pair of neighbours to look at next ([k]). *)
Definition choose_inserts (mlines0 mlines1 middle0 middle1 : rows L)
    (nmatch i k : Z) : result (bool * bool * Z) :=
  let insert0 := len middle0 <=? i in
  let insert1 := len middle1 <=? i in
  if negb insert0 && negb insert1 && (k <? nmatch) then
    m0 ← py_get mlines0 k;
    cur0 ← py_get middle0 i;
    let '(insert0, accept) := expect_entry cur0 m0 insert0 true in
    m1 ← py_get mlines1 k;
    cur1 ← py_get middle1 i;
    let '(insert1, accept) := expect_entry cur1 m1 insert1 accept in
    if accept then Ok (insert0, insert1, k + 1)
    else Ok (bool_decide (cur0 <> None), bool_decide (cur1 <> None), k)
  else Ok (insert0, insert1, k).

(** The [while True] loop.  [middle] holds references to [leftlines[-1]]
    and [rightlines[0]], which the loop updates in place, so they are read
    from the current lists in every iteration. *)
Fixpoint align_rows (fuel : nat) (mlines0 mlines1 : rows L) (nmatch : Z)
    (leftblocks : list Z) (leftlines : list (rows L))
    (rightblocks : list Z) (rightlines : list (rows L)) (i k : Z)
  : result (list Z * list (rows L) * list Z * list (rows L)) :=
  middle0 ← py_get leftlines (-1);
  middle1 ← py_get rightlines 0;
  if (len middle0 <=? i) && (len middle1 <=? i)
  then Ok (leftblocks, leftlines, rightblocks, rightlines)
  else
    match fuel with
    | O => Raise OutOfFuel
    | S fuel =>
        '(insert0, insert1, k) ←
          choose_inserts mlines0 mlines1 middle0 middle1 nmatch i k;
        '(leftblocks, leftlines) ←
          (if insert0 : bool then insert_spacer leftblocks leftlines i
           else Ok (leftblocks, leftlines));
        '(rightblocks, rightlines) ←
          (if insert1 : bool then insert_spacer rightblocks rightlines i
           else Ok (rightblocks, rightlines));
        align_rows fuel mlines0 mlines1 nmatch
                   leftblocks leftlines rightblocks rightlines (i + 1) k
    end.

(** The first half of [alignBlocks]: the two inner sequences without
    their spacers, padded so that matched lines face each other. *)
Definition expected_pairs (middle0 middle1 : rows L)
  : result (rows L * rows L) :=
  let s1 := real_lines middle0 in
  let s2 := real_lines middle1 in
  let t1 := alignmentHash <$> s1 in
  let t2 := alignmentHash <$> s2 in
  diff ← patience_diff t1 t2;
  let '(s1, s2, _, _) :=
    foldl place_block (Some <$> s1, Some <$> s2, 0, 0) diff in
  Ok (s1, s2).

(** [alignBlocks(leftblocks, leftlines, rightblocks, rightlines)]; the
    four arguments are updated in place by the source and returned here.
    Every iteration of the [while True] loop uses up a row of an inner
    sequence or an expected pair, which bounds the fuel. *)
Definition alignBlocks (leftblocks : list Z) (leftlines : list (rows L))
    (rightblocks : list Z) (rightlines : list (rows L))
  : result (list Z * list (rows L) * list Z * list (rows L)) :=
  middle0 ← py_get leftlines (-1);
  middle1 ← py_get rightlines 0;
  '(s1, s2) ← expected_pairs middle0 middle1;
  let nmatch := len s1 in
  align_rows (length middle0 + length middle1 + length s1 + 1) s1 s2 nmatch
             leftblocks leftlines rightblocks rightlines 0 0.
End AlignBlocks.

(** ** What the matcher and the aligner are meant to deliver *)

Section MatcherSpec.
Context {K : Type}.

(** The block [(sa, sb, n)] pairs equal slices [a[sa:sa+n]] and
    [b[sb:sb+n]]. *)
Definition block_slices_equal (a b : list K) (blk : match_block) : Prop :=
  let '(sa, sb, n) := blk in
  py_slice a sa (sa + n) = py_slice b sb (sb + n).

(** Consecutive blocks do not overlap and start strictly later in both
    sequences. *)
Definition blocks_increasing (ms : list match_block) : Prop :=
  forall i sa sb n sa' sb' n',
    ms !! i = Some (sa, sb, n) -> ms !! S i = Some (sa', sb', n') ->
    sa + n <= sa' /\ sb + n <= sb' /\ sa < sa' /\ sb < sb'.

(** The list ends with the sentinel [(len(a), len(b), 0)], which is its
    only zero-length block. *)
Definition ends_with_sentinel (a b : list K) (ms : list match_block) : Prop :=
  exists init,
    ms = init ++ [(len a, len b, 0)] /\
    Forall (fun blk : match_block => 0 < blk.2) init.

Definition valid_matching (a b : list K) (ms : list match_block) : Prop :=
  blocks_increasing ms /\ ends_with_sentinel a b ms /\
  Forall (block_slices_equal a b) ms.
End MatcherSpec.

Section AlignerSpec.
Context {L : Type} `{EqDecision L}.

(** Row at which the line [x] sits in a sequence. *)
Fixpoint row_of (x : L) (lines : rows L) : option nat :=
  match lines with
  | [] => None
  | y :: rest =>
      if decide (y = Some x) then Some O else S <$> row_of x rest
  end.

(** Every pair of lines that a block of [diff] matches sits at one row:
    [s1] and [s2] are the two inner sequences without spacers, [left] and
    [right] the aligned inner sequences. *)
Definition matched_lines_share_rows (diff : list match_block)
    (s1 s2 : list L) (left right : rows L) : Prop :=
  forall sa sb n t x y,
    (sa, sb, n) ∈ diff -> 0 <= t < n ->
    py_get s1 (sa + t) = Ok x -> py_get s2 (sb + t) = Ok y ->
    row_of x left = row_of y right.

(** Exactly one of the two entries of a row is a line. *)
Definition one_sided (x y : option L) : Prop :=
  (x = None /\ y <> None) \/ (x <> None /\ y = None).
End AlignerSpec.

(** A sequence extended with spacers up to [n] rows. *)
Definition padded {L} (l : rows L) (n : nat) : rows L :=
  l ++ replicate (n - length l) None.

(** The partition of a pane of [n] lines once it has been extended to
    cover the rows below [i]. *)
Definition grown_block (n i : nat) : list Z := createBlock (Z.of_nat (n `max` i)).

(** ** A comparison that meets the popular-key pruning

    File [a] has four lines, file [b] has 201 lines, so that every key
    occurring more than twice in [b] is "popular".  No key occurs exactly
    once in both files. *)

Definition popular_a : list string := ["p"; "q"; "q"; "q"]%string.
Definition popular_b : list string :=
  ["p"; "q"; "p"; "q"; "q"]%string ++ replicate 196 "z"%string.

(** [Line] objects for the lines of a file: the object number and the text. *)
Definition file_lines (first : nat) (texts : list string) : list (nat * string) :=
  zip (seq first (length texts)) texts.

(** The two aligned panes that [alignBlocks] produces for these files. *)
Definition popular_left : rows (nat * string) :=
  (Some <$> file_lines 0 popular_a) ++ replicate 197 None.
Definition popular_right : rows (nat * string) :=
  Some <$> file_lines 1000 popular_b.

(** ** The viewer and its undo log

    The part of [FileDiffViewer] that the undo log reads and writes: the
    panes, the block partition, the two undo stacks, the open undo block
    and the selection.  Rendering, caches ([syntax_cache], [diff_cache],
    [compare_string], [line_lengths]), signals and the input method belong
    to the widget toolkit and are left out.  [Line] and list objects are
    modelled by their contents; the one list object that is reached under
    two names, the open undo block in [undo()] and [redo()], is dealt with
    there. *)

Inductive Mode := LINE_MODE | CHAR_MODE | ALIGN_MODE.

Global Instance Mode_eq_dec : EqDecision Mode.
Proof. solve_decision. Defined.

Record Line := mkLine {
  line_number : option Z;
  text : option string;
  is_modified : bool;
  modified_text : option string;
}.

(** [FileDiffViewer.Line()] *)
Definition new_Line : Line := mkLine None None false None.

(** [Line.getText] *)
Definition getText (line : Line) : option string :=
  if is_modified line then modified_text line else text line.

Record Pane := mkPane {
  lines : rows Line;
  format : Z;
  max_line_number : Z;
  num_edits : Z;
}.

(** The records of the undo log, one constructor per [...Undo] class with
    the class's [data] tuple. *)
Inductive Undo :=
| SetFormatUndo (f format_ old_format : Z)
| InstanceLineUndo (f i : Z) (reverse_ : bool)
| UpdateLineTextUndo (f i : Z) (old_is_modified : bool) (old_text : option string)
                     (is_modified_ : bool) (text_ : option string)
| InsertNullUndo (f i : Z) (reverse_ : bool)
| InvalidateLineMatchingUndo (i n new_n : Z)
| AlignmentChangeUndo (finished : bool)
| UpdateBlocksUndo (old_blocks blocks_ : list Z)
| ReplaceLinesUndo (f : Z) (lines_ new_lines : rows Line) (max_num new_max_num : Z)
| EditModeUndo (mode_ : Mode) (current_pane_ current_line_ current_char_
                selection_line_ selection_char_ cursor_column_ : Z)
| SwapPanesUndo (f_dst f_src : Z).

Record Viewer := mkViewer {
  panes : list Pane;
  blocks : list Z;
  undos : list (list Undo);
  redos : list (list Undo);
  undoblock : option (list Undo);
  mode : Mode;
  current_pane : Z;
  current_line : Z;
  current_char : Z;
  selection_line : Z;
  selection_char : Z;
  cursor_column : Z;
}.

Definition set_panes (v : Viewer) (x : list Pane) : Viewer :=
  mkViewer x (blocks v) (undos v) (redos v) (undoblock v) (mode v)
           (current_pane v) (current_line v) (current_char v)
           (selection_line v) (selection_char v) (cursor_column v).

Definition set_blocks (v : Viewer) (x : list Z) : Viewer :=
  mkViewer (panes v) x (undos v) (redos v) (undoblock v) (mode v)
           (current_pane v) (current_line v) (current_char v)
           (selection_line v) (selection_char v) (cursor_column v).

Definition set_stacks (v : Viewer) (us rs : list (list Undo)) : Viewer :=
  mkViewer (panes v) (blocks v) us rs (undoblock v) (mode v)
           (current_pane v) (current_line v) (current_char v)
           (selection_line v) (selection_char v) (cursor_column v).

Definition set_undoblock (v : Viewer) (x : option (list Undo)) : Viewer :=
  mkViewer (panes v) (blocks v) (undos v) (redos v) x (mode v)
           (current_pane v) (current_line v) (current_char v)
           (selection_line v) (selection_char v) (cursor_column v).

Definition set_selection (v : Viewer) (m : Mode) (cp cl cc sl sc col : Z) : Viewer :=
  mkViewer (panes v) (blocks v) (undos v) (redos v) (undoblock v) m
           cp cl cc sl sc col.

(** [l.pop()] *)
Definition py_pop {A} (l : list A) : result (list A * A) :=
  match reverse l with
  | [] => Raise IndexError
  | x :: rest => Ok (reverse rest, x)
  end.

(** *** Transactions *)

Definition openUndoBlock (v : Viewer) : Viewer := set_undoblock v (Some []).

(** [self.undoblock.append(u)] *)
Definition addUndo (u : Undo) (v : Viewer) : result Viewer :=
  match undoblock v with
  | Some block => Ok (set_undoblock v (Some (block ++ [u])))
  | None => Raise AttributeError
  end.

(** [if self.undoblock is not None: self.addUndo(u)] *)
Definition record_undo (u : Undo) (v : Viewer) : result Viewer :=
  match undoblock v with
  | Some _ => addUndo u v
  | None => Ok v
  end.

Definition closeUndoBlock (v : Viewer) : result Viewer :=
  match undoblock v with
  | None => Raise TypeError
  | Some block =>
      let v := if 0 <? len block
               then set_stacks v (undos v ++ [block]) []
               else v in
      Ok (set_undoblock v None)
  end.

(** *** Primitive mutations *)

(** [pane = self.panes[f]] followed by an update of that pane object. *)
Definition with_pane (f : Z) (upd : Pane -> result Pane) (v : Viewer)
  : result Viewer :=
  pane ← py_get (panes v) f;
  pane ← upd pane;
  ps ← py_set (panes v) f pane;
  Ok (set_panes v ps).

Definition setFormat (f format_ : Z) (v : Viewer) : result Viewer :=
  pane ← py_get (panes v) f;
  v ← record_undo (SetFormatUndo f format_ (format pane)) v;
  with_pane f (fun pane =>
    Ok (mkPane (lines pane) format_ (max_line_number pane) (num_edits pane))) v.

Definition instanceLine (f i : Z) (reverse_ : bool) (v : Viewer) : result Viewer :=
  v ← record_undo (InstanceLineUndo f i reverse_) v;
  with_pane f (fun pane =>
    ls ← py_set (lines pane) i (if reverse_ then None else Some new_Line);
    Ok (mkPane ls (format pane) (max_line_number pane) (num_edits pane))) v.

Definition updateLineText (f i : Z) (is_modified_ : bool) (text_ : option string)
    (v : Viewer) : result Viewer :=
  pane ← py_get (panes v) f;
  entry ← py_get (lines pane) i;
  match entry with
  | None => Raise AttributeError
  | Some line =>
      v ← record_undo (UpdateLineTextUndo f i (is_modified line)
                         (modified_text line) is_modified_ text_) v;
      with_pane f (fun pane =>
        let edits :=
          if is_modified_ && negb (is_modified line) then num_edits pane + 1
          else if negb is_modified_ && is_modified line then num_edits pane - 1
          else num_edits pane in
        ls ← py_set (lines pane) i
               (Some (mkLine (line_number line) (text line) is_modified_ text_));
        Ok (mkPane ls (format pane) (max_line_number pane) edits)) v
  end.

Definition insertNull (f i : Z) (reverse_ : bool) (v : Viewer) : result Viewer :=
  v ← record_undo (InsertNullUndo f i reverse_) v;
  with_pane f (fun pane =>
    ls ← (if reverse_ then py_del (lines pane) i
          else Ok (py_insert (lines pane) i None));
    Ok (mkPane ls (format pane) (max_line_number pane) (num_edits pane))) v.

(** Only caches are touched besides the record. *)
Definition invalidateLineMatching (i n new_n : Z) (v : Viewer) : result Viewer :=
  record_undo (InvalidateLineMatchingUndo i n new_n) v.

(** Only the viewport size is touched besides the record. *)
Definition alignmentChange (finished : bool) (v : Viewer) : result Viewer :=
  record_undo (AlignmentChangeUndo finished) v.

Definition updateBlocks (blocks_ : list Z) (v : Viewer) : result Viewer :=
  v ← record_undo (UpdateBlocksUndo (blocks v) blocks_) v;
  Ok (set_blocks v blocks_).

Definition count_modified (ls : rows Line) : Z :=
  len (filter (fun entry : option Line =>
                 from_option is_modified false entry = true) ls).

Definition replaceLines (f : Z) (lines_ new_lines : rows Line)
    (max_num new_max_num : Z) (v : Viewer) : result Viewer :=
  v ← record_undo (ReplaceLinesUndo f lines_ new_lines max_num new_max_num) v;
  with_pane f (fun pane =>
    Ok (mkPane new_lines (format pane) new_max_num (count_modified new_lines))) v.

Definition recordEditMode (v : Viewer) : result Viewer :=
  record_undo (EditModeUndo (mode v) (current_pane v) (current_line v)
                 (current_char v) (selection_line v) (selection_char v)
                 (cursor_column v)) v.

(** [getLine(f, i)] *)
Definition getLine (f i : Z) (v : Viewer) : result (option Line) :=
  pane ← py_get (panes v) f;
  if i <? len (lines pane) then py_get (lines pane) i else Ok None.

(** [getLineText(f, i)] *)
Definition getLineText (f i : Z) (v : Viewer) : result (option string) :=
  line ← getLine f i v;
  match line with
  | Some line => Ok (getText line)
  | None => Ok None
  end.

(** [setCurrentLine(f, i, selection)] *)
Definition setCurrentLine (f i : Z) (selection : option Z) (v : Viewer)
  : result Viewer :=
  let f := Z.max (Z.min f (len (panes v) - 1)) 0 in
  pane ← py_get (panes v) f;
  let i := Z.max (Z.min i (len (lines pane))) 0 in
  Ok (set_selection v (mode v) f i (current_char v)
        (default i selection) (selection_char v) (cursor_column v)).

(** [_get_cursor_x_offset] slices the text of the current line when the
    cursor is not in column 0; the width itself is a rendering matter. *)
Definition cursor_x_offset (v : Viewer) : result unit :=
  if 0 <? current_char v then
    t ← getLineText (current_pane v) (current_line v) v;
    match t with
    | Some _ => Ok tt
    | None => Raise TypeError
    end
  else Ok tt.

(** [setCurrentChar(i, j, si, sj)] when the selection is not extended, as
    in the call [setCurrentChar(i, j, True)] made by [setEditMode]. *)
Definition setCurrentChar (i j : Z) (v : Viewer) : result Viewer :=
  let v := set_selection v (mode v) (current_pane v) i j i j (-1) in
  _ ← cursor_x_offset v;
  Ok v.

Definition setEditMode (mode_ : Mode) (f current_line_ current_char_
    selection_line_ selection_char_ cursor_column_ : Z) (v : Viewer)
  : result Viewer :=
  let v := set_selection v mode_ f current_line_ current_char_
             selection_line_ selection_char_ cursor_column_ in
  if decide (mode_ = CHAR_MODE) then
    setCurrentChar (current_line v) (current_char v) v
  else
    setCurrentLine (current_pane v) (current_line v) (Some (selection_line v)) v.

Definition swapPanes (f_dst f_src : Z) (v : Viewer) : result Viewer :=
  v ← record_undo (SwapPanesUndo f_dst f_src) v;
  let v := set_selection v (mode v) f_dst (current_line v) (current_char v)
             (selection_line v) (selection_char v) (cursor_column v) in
  f0 ← py_get (panes v) f_dst;
  f1 ← py_get (panes v) f_src;
  ps ← py_set (panes v) f_dst f1;
  ps ← py_set ps f_src f0;
  Ok (set_panes v ps).

(** *** Undo and redo *)

(** [u.undo(viewer)] *)
Definition undo_record (v : Viewer) (u : Undo) : result Viewer :=
  match u with
  | SetFormatUndo f _ old_format => setFormat f old_format v
  | InstanceLineUndo f i reverse_ => instanceLine f i (negb reverse_) v
  | UpdateLineTextUndo f i old_is_modified old_text _ _ =>
      updateLineText f i old_is_modified old_text v
  | InsertNullUndo f i reverse_ => insertNull f i (negb reverse_) v
  | InvalidateLineMatchingUndo i n new_n => invalidateLineMatching i new_n n v
  | AlignmentChangeUndo finished => alignmentChange (negb finished) v
  | UpdateBlocksUndo old_blocks _ => updateBlocks old_blocks v
  | ReplaceLinesUndo f lines_ new_lines max_num new_max_num =>
      replaceLines f new_lines lines_ new_max_num max_num v
  | EditModeUndo m cp cl cc sl sc col => setEditMode m cp cl cc sl sc col v
  | SwapPanesUndo f_dst f_src => swapPanes f_src f_dst v
  end.

(** [u.redo(viewer)] *)
Definition redo_record (v : Viewer) (u : Undo) : result Viewer :=
  match u with
  | SetFormatUndo f format_ _ => setFormat f format_ v
  | InstanceLineUndo f i reverse_ => instanceLine f i reverse_ v
  | UpdateLineTextUndo f i _ _ is_modified_ text_ =>
      updateLineText f i is_modified_ text_ v
  | InsertNullUndo f i reverse_ => insertNull f i reverse_ v
  | InvalidateLineMatchingUndo i n new_n => invalidateLineMatching i n new_n v
  | AlignmentChangeUndo finished => alignmentChange finished v
  | UpdateBlocksUndo _ blocks_ => updateBlocks blocks_ v
  | ReplaceLinesUndo f lines_ new_lines max_num new_max_num =>
      replaceLines f lines_ new_lines max_num new_max_num v
  | EditModeUndo m cp cl cc sl sc col => setEditMode m cp cl cc sl sc col v
  | SwapPanesUndo f_dst f_src => swapPanes f_dst f_src v
  end.

(** The states that a loop [for x in l: ...] goes through when [f] is what
    one turn does to the state: the state it starts in and the state after
    every turn. *)
Fixpoint loop_states {A S} (l : list A) (f : S -> A -> result S) (st : S)
  : result (list S) :=
  match l with
  | [] => Ok [st]
  | x :: l => st' ← f st x; sts ← loop_states l f st'; Ok (st :: sts)
  end.

(** [self.undoblock, old_block = None, self.undoblock], the first statement
    of [undo()] and of [redo()]: the viewer after it and [old_block]. *)
Definition take_undoblock (v : Viewer) : Viewer * option (list Undo) :=
  (set_undoblock v None, undoblock v).

(** ['undo' action], the statements between its two assignments to
    [self.undoblock]. *)
Definition undo_loop (v : Viewer) : result Viewer :=
  if decide (mode v = LINE_MODE \/ mode v = CHAR_MODE) then
    if 0 <? len (undos v) then
      '(us, block) ← py_pop (undos v);
      let v := set_stacks v us (redos v ++ [block]) in
      for_each (reverse block) undo_record v
    else Ok v
  else Ok v.

(** ['undo' action].  The list object of the open transaction changes its
    name: the first statement makes [old_block] its only name, the last
    one makes [self.undoblock] its name again.  It is never reached under
    both names, which is why it can be kept by its records under the name
    it has.  While [undo_loop] runs, the primitives can append in place
    only to an object that [self.undoblock] names ([addUndo], called when
    [self.undoblock] is not [None]): whatever is recorded during the loop
    shows as an open block in a state of the loop. *)
Definition undo (v : Viewer) : result Viewer :=
  let '(v, old_block) := take_undoblock v in
  v ← undo_loop v;
  Ok (set_undoblock v old_block).

(** ['redo' action], the statements between its two assignments to
    [self.undoblock]. *)
Definition redo_loop (v : Viewer) : result Viewer :=
  if decide (mode v = LINE_MODE \/ mode v = CHAR_MODE) then
    if 0 <? len (redos v) then
      '(rs, block) ← py_pop (redos v);
      let v := set_stacks v (undos v ++ [block]) rs in
      for_each block redo_record v
    else Ok v
  else Ok v.

(** ['redo' action], with [old_block] as in [undo]. *)
Definition redo (v : Viewer) : result Viewer :=
  let '(v, old_block) := take_undoblock v in
  v ← redo_loop v;
  Ok (set_undoblock v old_block).

(** [setLineMode()] *)
Definition setLineMode (v : Viewer) : Viewer :=
  match mode v with
  | LINE_MODE => v
  | CHAR_MODE =>
      set_selection v LINE_MODE (current_pane v) (current_line v) 0
                    (selection_line v) 0 (cursor_column v)
  | ALIGN_MODE =>
      set_selection v LINE_MODE (current_pane v) (current_line v)
                    (current_char v) (selection_line v) (selection_char v)
                    (cursor_column v)
  end.

(** ['enter_align_mode' keybinding action], without its input-method and
    redraw calls. *)
Definition line_mode_enter_align_mode (v : Viewer) : Viewer :=
  set_selection v ALIGN_MODE (current_pane v) (current_line v) (current_char v)
                (current_line v) (selection_char v) (cursor_column v).

(** [button_cb] for the undo and redo buttons and menu items. *)
Definition button_undo (v : Viewer) : result Viewer :=
  v ← undo (openUndoBlock v); closeUndoBlock v.

Definition button_redo (v : Viewer) : result Viewer :=
  v ← redo (openUndoBlock v); closeUndoBlock v.

(** *** The recording primitives as one type *)

(** A call of one of the recording primitives, with the arguments the
    viewer's methods give it ([replaceLines] is always handed the pane's
    current lines and line count as the old values). *)
Inductive Op :=
| OpSetFormat (f format_ : Z)
| OpInstanceLine (f i : Z) (reverse_ : bool)
| OpUpdateLineText (f i : Z) (is_modified_ : bool) (text_ : option string)
| OpInsertNull (f i : Z) (reverse_ : bool)
| OpInvalidateLineMatching (i n new_n : Z)
| OpAlignmentChange (finished : bool)
| OpUpdateBlocks (blocks_ : list Z)
| OpReplaceLines (f : Z) (new_lines : rows Line) (new_max_num : Z)
| OpRecordEditMode
| OpSwapPanes (f_dst f_src : Z).

Definition run_op (op : Op) (v : Viewer) : result Viewer :=
  match op with
  | OpSetFormat f format_ => setFormat f format_ v
  | OpInstanceLine f i reverse_ => instanceLine f i reverse_ v
  | OpUpdateLineText f i is_modified_ text_ => updateLineText f i is_modified_ text_ v
  | OpInsertNull f i reverse_ => insertNull f i reverse_ v
  | OpInvalidateLineMatching i n new_n => invalidateLineMatching i n new_n v
  | OpAlignmentChange finished => alignmentChange finished v
  | OpUpdateBlocks blocks_ => updateBlocks blocks_ v
  | OpReplaceLines f new_lines new_max_num =>
      pane ← py_get (panes v) f;
      replaceLines f (lines pane) new_lines (max_line_number pane) new_max_num v
  | OpRecordEditMode => recordEditMode v
  | OpSwapPanes f_dst f_src => swapPanes f_dst f_src v
  end.

(** The row entry [self.panes[f].lines[i]]. *)
Definition entry_at (v : Viewer) (f i : Z) : result (option Line) :=
  pane ← py_get (panes v) f; py_get (lines pane) i.

(** The situations in which the viewer's methods call the primitives that
    lose information: a spacer row is deleted only where the pane holds a
    spacer and inserted at a row of the pane, a [Line] object is dropped
    only when it is blank and created only on a spacer, and the selection
    that is recorded is one that can be set again. *)
Definition invertible_in (v : Viewer) (op : Op) : Prop :=
  match op with
  | OpInstanceLine f i false => entry_at v f i = Ok None
  | OpInstanceLine f i true => entry_at v f i = Ok (Some new_Line)
  | OpInsertNull f i false =>
      exists pane, py_get (panes v) f = Ok pane /\ 0 <= i <= len (lines pane)
  | OpInsertNull f i true => 0 <= i /\ entry_at v f i = Ok None
  | OpRecordEditMode =>
      is_ok (setEditMode (mode v) (current_pane v) (current_line v)
               (current_char v) (selection_line v) (selection_char v)
               (cursor_column v) v)
  | _ => True
  end.

(** [setCharMode()] *)
Definition setCharMode (v : Viewer) : result Viewer :=
  match mode v with
  | CHAR_MODE => Ok v
  | _ =>
      let v := set_selection v (mode v) (current_pane v) (current_line v)
                 (current_char v) (selection_line v) (selection_char v) (-1) in
      v ← setCurrentChar (current_line v) 0 v;
      Ok (set_selection v CHAR_MODE (current_pane v) (current_line v)
            (current_char v) (selection_line v) (selection_char v)
            (cursor_column v))
  end.

(** What a user action does between [openUndoBlock()] and
    [closeUndoBlock()]: calls of the recording primitives, and changes of
    the edit mode and of the selection.  The latter are not recorded by
    themselves; an action calls [recordEditMode()] where it wants the
    selection of the moment in the transaction ([merge_lines] begins with
    [self.recordEditMode(); self.setLineMode()] and later assigns to
    [self.selection_line] and [self.current_line]).  [Assign] stands for
    assignments to the selection attributes. *)
Inductive Step :=
| Mutate (op : Op)
| SetLineMode
| SetCharMode
| EnterAlignMode
| SetCurrentLine (f i : Z) (selection : option Z)
| SetCurrentChar (i j : Z)
| Assign (mode_ : Mode) (current_pane_ current_line_ current_char_
          selection_line_ selection_char_ cursor_column_ : Z).

Definition run_step (s : Step) (v : Viewer) : result Viewer :=
  match s with
  | Mutate op => run_op op v
  | SetLineMode => Ok (setLineMode v)
  | SetCharMode => setCharMode v
  | EnterAlignMode => Ok (line_mode_enter_align_mode v)
  | SetCurrentLine f i selection => setCurrentLine f i selection v
  | SetCurrentChar i j => setCurrentChar i j v
  | Assign mode_ f current_line_ current_char_ selection_line_ selection_char_
           cursor_column_ =>
      Ok (set_selection v mode_ f current_line_ current_char_ selection_line_
            selection_char_ cursor_column_)
  end.

(** A mutation made where [invertible_in] holds; the other steps are not
    recorded. *)
Definition invertible_step (v : Viewer) (s : Step) : Prop :=
  match s with
  | Mutate op => invertible_in v op
  | _ => True
  end.

(** The steps that the records can take back for any number of [undo()]s
    in a row: besides [invertible_step], the selection is not recorded in
    alignment mode, because undoing such a record puts the viewer in
    alignment mode, in which [undo()] does nothing. *)
Definition undoable_in (v : Viewer) (s : Step) : Prop :=
  invertible_step v s /\ (s = Mutate OpRecordEditMode -> mode v <> ALIGN_MODE).

(** The steps of one user action, run one after the other, each one in a
    state in which [ok] holds of it. *)
Inductive performs (ok : Viewer -> Step -> Prop)
  : Viewer -> list Step -> Viewer -> Prop :=
| performs_nil v : performs ok v [] v
| performs_cons v s v1 steps v' :
    ok v s -> run_step s v = Ok v1 -> performs ok v1 steps v' ->
    performs ok v (s :: steps) v'.

(** One user action: [openUndoBlock()], its steps, [closeUndoBlock()]. *)
Definition user_action (ok : Viewer -> Step -> Prop)
    (v : Viewer) (steps : list Step) (v' : Viewer) : Prop :=
  exists v1, performs ok (openUndoBlock v) steps v1 /\ closeUndoBlock v1 = Ok v'.

(** A sequence of user actions. *)
Inductive session (ok : Viewer -> Step -> Prop)
  : Viewer -> list (list Step) -> Viewer -> Prop :=
| session_nil v : session ok v [] v
| session_cons v steps v1 actions v' :
    user_action ok v steps v1 -> session ok v1 actions v' ->
    session ok v (steps :: actions) v'.

(** The same as functions: what the calls return on any steps. *)
Definition run_action (steps : list Step) (v : Viewer) : result Viewer :=
  v ← for_each steps (fun v s => run_step s v) (openUndoBlock v);
  closeUndoBlock v.

Definition run_session (actions : list (list Step)) (v : Viewer) : result Viewer :=
  for_each actions (fun v steps => run_action steps v) v.

(** [n] calls of an action in a row. *)
Fixpoint repeat_action (n : nat) (act : Viewer -> result Viewer) (v : Viewer)
  : result Viewer :=
  match n with
  | O => Ok v
  | S n => v ← act v; repeat_action n act v
  end.

(** *** The document and what a record does to it *)

(** What the panes show and how they are cut into blocks. *)
Definition document : Type := list (rows Line) * list Z.

Definition contents (v : Viewer) : document := (lines <$> panes v, blocks v).

Global Instance result_fmap : FMap result := fun A B g m =>
  match m with
  | Ok a => Ok (g a)
  | Raise e => Raise e
  end.

(** The list position that a Python index denotes, if any. *)
Definition py_index {A} (l : list A) (i : Z) : option nat :=
  let j := py_norm l i in
  if j <? 0 then None
  else if j <? len l then Some (Z.to_nat j)
  else None.

Definition doc_with_pane (f : Z) (upd : rows Line -> result (rows Line))
    (d : document) : result document :=
  ls ← py_get d.1 f;
  ls ← upd ls;
  ps ← py_set d.1 f ls;
  Ok (ps, d.2).

(** Whether [setEditMode] succeeds on a document. *)
Definition doc_selection_ok (m : Mode) (cp cl cc : Z) (d : document) : result unit :=
  if decide (m = CHAR_MODE) then
    if 0 <? cc then
      ls ← py_get d.1 cp;
      entry ← (if cl <? len ls then py_get ls cl else Ok None);
      match entry ≫= getText with
      | Some _ => Ok tt
      | None => Raise TypeError
      end
    else Ok tt
  else
    _ ← py_get d.1 (Z.max (Z.min cp (len d.1 - 1)) 0);
    Ok tt.

(** The effect on the document of replaying ([forward]) or reverting a
    record. *)
Definition doc_apply (forward : bool) (d : document) (u : Undo) : result document :=
  match u with
  | SetFormatUndo f _ _ => doc_with_pane f Ok d
  | InstanceLineUndo f i reverse_ =>
      let reverse_ := if forward then reverse_ else negb reverse_ in
      doc_with_pane f (fun ls =>
        py_set ls i (if reverse_ then None else Some new_Line)) d
  | UpdateLineTextUndo f i old_is_modified old_text is_modified_ text_ =>
      let m := if forward then is_modified_ else old_is_modified in
      let t := if forward then text_ else old_text in
      doc_with_pane f (fun ls =>
        entry ← py_get ls i;
        match entry with
        | None => Raise AttributeError
        | Some line =>
            py_set ls i (Some (mkLine (line_number line) (text line) m t))
        end) d
  | InsertNullUndo f i reverse_ =>
      let reverse_ := if forward then reverse_ else negb reverse_ in
      doc_with_pane f (fun ls =>
        if reverse_ then py_del ls i else Ok (py_insert ls i None)) d
  | InvalidateLineMatchingUndo _ _ _ => Ok d
  | AlignmentChangeUndo _ => Ok d
  | UpdateBlocksUndo old_blocks blocks_ =>
      Ok (d.1, if forward then blocks_ else old_blocks)
  | ReplaceLinesUndo f lines_ new_lines _ _ =>
      doc_with_pane f (fun _ => Ok (if forward then new_lines else lines_)) d
  | EditModeUndo m cp cl cc _ _ _ =>
      _ ← doc_selection_ok m cp cl cc d; Ok d
  | SwapPanesUndo f_dst f_src =>
      let x := if forward then f_dst else f_src in
      let y := if forward then f_src else f_dst in
      f0 ← py_get d.1 x;
      f1 ← py_get d.1 y;
      ps ← py_set d.1 x f1;
      ps ← py_set ps y f0;
      Ok (ps, d.2)
  end.

(** The records of one transaction take document [d] to [d'] and back. *)
Definition reversible (block : list Undo) (d d' : document) : Prop :=
  for_each (reverse block) (doc_apply false) d' = Ok d /\
  for_each block (doc_apply true) d = Ok d'.

(** The transactions [blocks] take document [d] to [d'], one after the
    other. *)
Inductive history : document -> list (list Undo) -> document -> Prop :=
| history_nil d : history d [] d
| history_cons d d1 d' block blocks_ :
    reversible block d d1 -> history d1 blocks_ d' ->
    history d (block :: blocks_) d'.

(** A selection record that restores line or character mode. *)
Definition restores_edit_mode (u : Undo) : Prop :=
  match u with
  | EditModeUndo m _ _ _ _ _ _ => m <> ALIGN_MODE
  | _ => True
  end.

(** The fields that no primitive mutation writes when no transaction is
    open. *)
Definition same_log (v v' : Viewer) : Prop :=
  undoblock v' = undoblock v /\ undos v' = undos v /\ redos v' = redos v.

(** ** The alignment operations of the viewer

    The methods of [FileDiffViewer] that change how the panes are aligned.
    They read the panes and the partition, compute new rows and a new
    partition with [removeNullLines], [alignBlocks], [cutBlocks] and
    [mergeBlocks] on copies, and then bring the panes there with the
    recording primitives.  Redraws, caches and signals are left out. *)

Global Instance Line_eq_dec : EqDecision Line.
Proof. solve_decision. Defined.

(** [range(start, stop)] *)
Definition py_range (start stop : Z) : list Z :=
  (fun k : nat => start + Z.of_nat k) <$> seq 0 (Z.to_nat (stop - start)).

(** [for dst, s in zip(dsts, srcs): dst.extend(s)], on the lists [dsts]. *)
Fixpoint extend_each {A} (dsts srcs : list (list A)) : list (list A) :=
  match dsts, srcs with
  | dst :: dsts, s :: srcs => (dst ++ s) :: extend_each dsts srcs
  | _, _ => dsts
  end.

(** [for j in range(hi - 1, lo - 1, -1): if self.getLine(f, j) is None:
    self.insertNull(f, j, True)] *)
Definition drop_spacers (f lo hi : Z) (v : Viewer) : result Viewer :=
  for_each (reverse (py_range lo hi)) (fun v j =>
    line ← getLine f j v;
    match line with
    | None => insertNull f j true v
    | Some _ => Ok v
    end) v.

(** [for j in range(new_n): if temp[j] is None: self.insertNull(f, i + j,
    False)] *)
Definition put_spacers (f i new_n : Z) (temp : rows Line) (v : Viewer)
  : result Viewer :=
  for_each (py_range 0 new_n) (fun v j =>
    entry ← py_get temp j;
    match entry with
    | None => insertNull f (i + j) false v
    | Some _ => Ok v
    end) v.

(** [updateAlignment(i, n, lines)]: "updates the alignment of 'n' lines
    starting from 'i'". *)
Definition updateAlignment (i n : Z) (lines_ : list (rows Line)) (v : Viewer)
  : result Viewer :=
  v ← alignmentChange false v;
  first ← py_get lines_ 0;
  let new_n := len first in
  let i2 := i + n in
  v ← for_each (py_range 0 (len (panes v))) (fun v f =>
         v ← drop_spacers f i i2 v;
         temp ← py_get lines_ f;
         put_spacers f i new_n temp v) v;
  v ← invalidateLineMatching i n new_n v;
  alignmentChange true v.

(** [insertLines(i, n)]: "insert 'n' blank lines in all panes". *)
Definition insertLines (i n : Z) (v : Viewer) : result Viewer :=
  v ← updateAlignment i 0 ((fun _ => py_repeat n None) <$> panes v) v;
  let '(pre, post) := cutBlocks i (blocks v) in
  v ← updateBlocks (pre ++ [n] ++ post) v;
  let cl := if i <=? current_line v then current_line v + n else current_line v in
  let sl := if i <=? selection_line v then selection_line v + n
            else selection_line v in
  Ok (set_selection v (mode v) (current_pane v) cl (current_char v)
                    sl (selection_char v) (cursor_column v)).

(** The test that makes [removeSpacerLines] keep row [j] because of pane
    [f]: the entry is a line with a number, or with text unless [f] is the
    pane to skip. *)
Definition holds_row (skip f : Z) (entry : option Line) : bool :=
  match entry with
  | Some line =>
      bool_decide (line_number line <> None)
      || (bool_decide (f <> skip) && bool_decide (getText line <> None))
  | None => false
  end.

(** The inner [for f in range(npanes)] loop up to its [break]. *)
Definition row_is_held (j skip : Z) (v : Viewer) : result bool :=
  for_each (py_range 0 (len (panes v))) (fun held f =>
    if held : bool then Ok true
    else line ← getLine f j v; Ok (holds_row skip f line)) false.

(** The [else] branch: "remove line". *)
Definition clear_row (j : Z) (v : Viewer) : result Viewer :=
  for_each (py_range 0 (len (panes v))) (fun v f =>
    line ← getLine f j v;
    match line with
    | Some _ => v ← updateLineText f j false None v; instanceLine f j true v
    | None => Ok v
    end) v.

(** [while bii + blocks[bi] < j] *)
Fixpoint skip_blocks (fuel : nat) (blocks_ : list Z) (bi bii j : Z)
  : result (Z * Z) :=
  b ← py_get blocks_ bi;
  if bii + b <? j then
    match fuel with
    | O => Raise OutOfFuel
    | S fuel => skip_blocks fuel blocks_ (bi + 1) (bii + b) j
    end
  else Ok (bi, bii).

(** Body of [for j in removed] in the "update blocks" part; the state is
    [(bi, bii, blocks)]. *)
Definition shrink_block (st : Z * Z * list Z) (j : Z) : result (Z * Z * list Z) :=
  let '(bi, bii, blocks_) := st in
  '(bi, bii) ← skip_blocks (length blocks_) blocks_ bi bii j;
  b ← py_get blocks_ bi;
  blocks_ ← (if b =? 1 then py_del blocks_ bi else py_set blocks_ bi (b - 1));
  Ok (bi, bii + 1, blocks_).

(** [removeSpacerLines(i, n, skip)]; returns the viewer and [nremoved]. *)
Definition removeSpacerLines (i n skip : Z) (v : Viewer) : result (Viewer * Z) :=
  let npanes := len (panes v) in
  '(v, removed) ←
    for_each (py_range i (i + n)) (fun '(v, removed) j =>
      held ← row_is_held j skip v;
      if held : bool then Ok (v, removed)
      else v ← clear_row j v; Ok (v, removed ++ [j])) (v, []);
  let nremoved := len removed in
  v ← (if 0 <? nremoved then
         '(_, _, blocks_) ← for_each removed shrink_block (0, 0, blocks v);
         v ← updateBlocks blocks_ v;
         v ← alignmentChange false v;
         v ← for_each (reverse removed) (fun v j =>
                for_each (py_range 0 npanes) (fun v f => insertNull f j true v) v) v;
         v ← invalidateLineMatching i n (n - nremoved) v;
         alignmentChange true v
       else Ok v);
  Ok (v, nremoved).

Section AlignmentOperations.
Context {K : Type} `{EqDecision K}.
(** [_alignmentHash], which depends on the comparison preferences, and
    [getFormat], which looks at line endings. *)
Variable alignmentHash : Line -> K.
Variable getFormat : list (option string) -> Z.

(** [[ Line(j + 1, ss[j]) for j in range(n) ]] *)
Definition new_lines_of (ss : list (option string)) : rows Line :=
  (fun '(j, s) => Some (mkLine (Some (j + 1)) s false None)) <$> enumerate ss.

(** The two steps of [replaceContents] that align the new lines [mid] with
    the panes on one side: "use copies so the originals can be used by the
    Undo object". *)
Definition align_with_left (f : Z) (v : Viewer)
    (blocks_ : list Z) (mid : list (rows Line))
  : result (list Z * list (rows Line)) :=
  let leftblocks := blocks v in
  let leftlines := lines <$> py_slice (panes v) 0 f in
  '(leftblocks, leftlines) ← removeNullLines leftblocks leftlines;
  '(leftblocks, leftlines, blocks_, mid) ←
    alignBlocks alignmentHash leftblocks leftlines blocks_ mid;
  blocks_ ← mergeBlocks leftblocks blocks_;
  Ok (blocks_, leftlines ++ mid).

Definition align_with_right (f : Z) (v : Viewer)
    (blocks_ : list Z) (mid : list (rows Line))
  : result (list Z * list (rows Line)) :=
  let rightblocks := blocks v in
  let rightlines := lines <$> py_slice_from (panes v) (f + 1) in
  '(rightblocks, rightlines) ← removeNullLines rightblocks rightlines;
  '(blocks_, mid, rightblocks, rightlines) ←
    alignBlocks alignmentHash blocks_ mid rightblocks rightlines;
  blocks_ ← mergeBlocks blocks_ rightblocks;
  Ok (blocks_, mid ++ rightlines).

(** [replaceContents(f, ss)]: "replace the contents of pane 'f' with the
    strings list of strings 'ss'". *)
Definition replaceContents (f : Z) (ss : list (option string)) (v : Viewer)
  : result Viewer :=
  v ← alignmentChange false v;
  v ← setFormat f (getFormat ss) v;
  let n := len ss in
  let blocks_ := createBlock n in
  let mid := [new_lines_of ss] in
  '(blocks_, mid) ←
    (if 0 <? f then align_with_left f v blocks_ mid else Ok (blocks_, mid));
  '(blocks_, mid) ←
    (if f + 1 <? len (panes v) then align_with_right f v blocks_ mid
     else Ok (blocks_, mid));
  pane ← py_get (panes v) f;
  let old_n := len (lines pane) in
  new_lines ← py_get mid f;
  let new_n := len new_lines in
  v ← replaceLines f (lines pane) new_lines (max_line_number pane) n v;
  v ← for_each (py_range 0 (len (panes v))) (fun v f_idx =>
         if bool_decide (f_idx <> f) then
           v ← drop_spacers f_idx 0 old_n v;
           temp ← py_get mid f_idx;
           put_spacers f_idx 0 new_n temp v
         else Ok v) v;
  v ← invalidateLineMatching 0 old_n new_n v;
  v ← updateBlocks blocks_ v;
  v ← alignmentChange true v;
  let v := setLineMode v in
  pane ← py_get (panes v) f;
  setCurrentLine (current_pane v)
                 (Z.min (current_line v) (len (lines pane) + 1)) None v.

(** Body of [for pane in self.panes] in [realign_all]; the state is
    [(blocks, lines)]. *)
Definition realign_pane (st : list Z * list (rows Line)) (pane : Pane)
  : result (list Z * list (rows Line)) :=
  let '(blocks_, lines_) := st in
  let newlines := [Some <$> real_lines (lines pane)] in
  let newblocks := createBlock (len (real_lines (lines pane))) in
  if 0 <? len lines_ then
    '(blocks_, lines_, newblocks, newlines) ←
      alignBlocks alignmentHash blocks_ lines_ newblocks newlines;
    blocks_ ← mergeBlocks blocks_ newblocks;
    Ok (blocks_, lines_ ++ newlines)
  else Ok (newblocks, lines_ ++ newlines).

(** ['realign_all' action] *)
Definition realign_all (v : Viewer) : result Viewer :=
  let v := setLineMode v in
  let f := current_pane v in
  v ← recordEditMode v;
  '(blocks_, lines_) ← for_each (panes v) realign_pane ([], []);
  pane ← py_get (panes v) f;
  v ← updateAlignment 0 (len (lines pane)) lines_ v;
  v ← updateBlocks blocks_ v;
  pane ← py_get (panes v) f;
  v ← setCurrentLine f (Z.min (current_line v) (len (lines pane))) None v;
  recordEditMode v.

(** ['isolate' action] *)
Definition isolate (v : Viewer) : result Viewer :=
  let v := setLineMode v in
  v ← recordEditMode v;
  let f := current_pane v in
  let start := Z.min (selection_line v) (current_line v) in
  let end_ := Z.max (selection_line v) (current_line v) + 1 in
  pane ← py_get (panes v) f;
  let nlines := len (lines pane) in
  let end_ := Z.min end_ nlines in
  let n := end_ - start in
  v ← (if 0 <? n then
         let lines_ := (fun pane => py_slice (lines pane) start end_) <$> panes v in
         let space := (fun _ : Pane => py_repeat n (@None Line)) <$> panes v in
         lines_f ← py_get lines_ f;
         space_f ← py_get space f;
         lines_ ← py_set lines_ f space_f;
         space ← py_set space f lines_f;
         let '(pre, post) := cutBlocks end_ (blocks v) in
         let '(pre, middle) := cutBlocks start pre in
         '(b, space) ← removeNullLines (createBlock n) space;
         let end_ := start + sumZ b in
         let end_ := if start <? end_ then end_ - 1 else end_ in
         '(middle, lines_) ← removeNullLines middle lines_;
         let space := extend_each space lines_ in
         v ← updateAlignment start n space v;
         v ← updateBlocks (pre ++ b ++ middle ++ post) v;
         '(v, _) ← removeSpacerLines end_ (sumZ middle) (-1) v;
         '(v, k) ← removeSpacerLines start (sumZ b) (-1) v;
         setCurrentLine f (end_ - k) (Some start) v
       else Ok v);
  recordEditMode v.

(** The [for b in self.blocks] loop of [align]: "find the smallest span of
    blocks that includes line1 and line2".  The state is
    [(pre_blocks, mid, post_blocks, n)]. *)
Definition span_step (start end_ : Z) (st : list Z * list Z * list Z * Z) (b : Z)
  : list Z * list Z * list Z * Z :=
  let '(pre_blocks, mid, post_blocks, n) := st in
  if n + b <=? start then (pre_blocks ++ [b], mid, post_blocks, n + b)
  else if n <=? end_ then (pre_blocks, mid ++ [b], post_blocks, n + b)
  else (pre_blocks, mid, post_blocks ++ [b], n + b).

(** One side of the cut made by [align]: the body of [for temp, m in
    zip(...)].  Returns the lines and blocks of the three sections. *)
Definition cut_side (temp : list (rows Line)) (m start end_ nlines : Z)
    (mid : list Z)
  : result ((list (rows Line) * list Z) * (list (rows Line) * list Z)
            * (list (rows Line) * list Z)) :=
  let '(pre, post) := cutBlocks (m - start) mid in
  let pre := if len temp =? 1 then createBlock (sumZ pre) else pre in
  let s0 := (fun s => py_slice s start m) <$> temp in
  '(m1, b1, m2, b2) ←
    (if m <? nlines then
       m1 ← for_each temp (fun acc s => x ← py_get s m; Ok (acc ++ [[x]])) [];
       let m2 := (fun s => py_slice s (m + 1) end_) <$> temp in
       let '(b1, b2) := cutBlocks 1 post in
       let b2 := if len temp =? 1 then createBlock (sumZ b2) else b2 in
       Ok (m1, b1, m2, b2)
     else
       Ok ((fun _ => []) <$> temp, [], (fun _ => []) <$> temp, []));
  Ok ((s0, pre), (m1, b1), (m2, b2)).

(** One section of [align]: the body of [for b, lines_t in zip(cutblocks,
    lines_s)].  Returns the merged blocks and the rows of all panes. *)
Definition align_section (left right : list (rows Line) * list Z)
  : result (list Z * list (rows Line)) :=
  let '(ll, lb) := left in
  let '(rl, rb) := right in
  '(lb, ll) ← removeNullLines lb ll;
  '(rb, rl) ← removeNullLines rb rl;
  '(lb, ll, rb, rl) ← alignBlocks alignmentHash lb ll rb rl;
  merged ← mergeBlocks lb rb;
  Ok (merged, ll ++ rl).

(** [align(f, line1, line2)]: line [line1] of pane [f] is to face line
    [line2] of pane [f + 1]. *)
Definition align (f line1 line2 : Z) (v : Viewer) : result Viewer :=
  v ← recordEditMode v;
  let start := Z.min line1 line2 in
  let end_ := Z.max line1 line2 in
  let '(pre_blocks, mid, post_blocks, _) :=
    foldl (span_step start end_) ([], [], [], 0) (blocks v) in
  let start := sumZ pre_blocks in
  let end_ := start + sumZ mid in
  let lines_ := lines <$> panes v in
  first ← py_get lines_ 0;
  let nlines := len first in
  '(l0, l1, l2) ← cut_side (py_slice lines_ 0 (f + 1)) line1 start end_ nlines mid;
  '(r0, r1, r2) ← cut_side (py_slice_from lines_ (f + 1)) line2 start end_ nlines mid;
  let finallines := (fun _ => []) <$> lines_ in
  '(b0, t0) ← align_section l0 r0;
  let finallines := extend_each finallines t0 in
  '(b1, t1) ← align_section l1 r1;
  let finallines := extend_each finallines t1 in
  '(b2, t2) ← align_section l2 r2;
  let finallines := extend_each finallines t2 in
  let pre_blocks := pre_blocks ++ b0 ++ b1 ++ b2 ++ post_blocks in
  v ← updateAlignment start (end_ - start) finallines v;
  v ← updateBlocks pre_blocks v;
  first0 ← py_get t0 0;
  let i := len first0 in
  final0 ← py_get finallines 0;
  '(v, _) ← removeSpacerLines (start + i) (len final0 - i) (-1) v;
  '(v, k) ← removeSpacerLines start i (-1) v;
  let i := i - Z.min k (i - 1) in
  v ← setCurrentLine (current_pane v) (start + i) None v;
  recordEditMode v.
End AlignmentOperations.

(** The state that the alignment operations are to keep: all panes have
    as many rows as the partition sums to, and the partition has no entry
    that is zero or negative. *)
Definition partition_ok (v : Viewer) : Prop :=
  Forall (fun pane => len (lines pane) = sumZ (blocks v)) (panes v) /\
  positive_blocks (blocks v).

(** One side of a pairwise alignment is well formed: the partition has
    positive entries and all sequences have as many rows as it sums to. *)
Definition side_ok {L} (blocks_ : list Z) (lines_ : list (rows L)) (n : Z) : Prop :=
  positive_blocks blocks_ /\ sumZ blocks_ = n /\
  Forall (fun l => len l = n) lines_.

(** Sequence by sequence, [lines'] holds the lines of [lines_] in the same
    order; only spacers may differ. *)
Definition same_real_lines {L} (lines_ lines' : list (rows L)) : Prop :=
  Forall2 (fun l l' => real_lines l' = real_lines l) lines_ lines'.

(** What [updateAlignment(i, n, lines)] asks of the rows [temp] that are
    to replace rows [i .. i + n - 1] of a pane with rows [ls]: the section
    lies inside the pane, [temp] has [new_n] rows, and it holds as many
    lines as the section does. *)
Definition fits_section (i n new_n : nat) (ls temp : rows Line) : Prop :=
  (i + n <= length ls)%nat /\ length temp = new_n /\
  length (real_lines temp) = length (real_lines (take n (drop i ls))).

(** [l] lists rows in strictly increasing order, all of them at or after
    [lo] and before [hi]. *)
Fixpoint rising (lo : Z) (l : list Z) (hi : Z) : Prop :=
  match l with
  | [] => lo <= hi
  | j :: l' => lo <= j /\ rising (j + 1) l' hi
  end.

(** The matcher returns for the lines of two sequences of rows.  It does
    not for all: there are sequences on which [patience_diff] raises. *)
Definition matcher_returns {K} `{EqDecision K} (alignmentHash : Line -> K)
    (a b : rows Line) : Prop :=
  is_ok (patience_diff (alignmentHash <$> real_lines a)
                       (alignmentHash <$> real_lines b)).

(** The matcher returns for every pane and its neighbour to the right. *)
Fixpoint neighbours_match {K} `{EqDecision K} (alignmentHash : Line -> K)
    (ps : list (rows Line)) : Prop :=
  match ps with
  | [] => True
  | a :: rest =>
      match rest with
      | [] => True
      | b :: _ => matcher_returns alignmentHash a b
      end /\ neighbours_match alignmentHash rest
  end.

(** *** Small sessions

    Two panes holding one line each.  In [two_edits] a first action aligns
    the two lines on rows of their own (as placing different lines does)
    and a second one types text on the spacer that the first pane got.
    [mode_changes] does the same with the changes of mode and selection of
    a user who enters alignment mode in between and types in character
    mode.  [merge_in_align_mode] ends with an action that, like
    [merge_lines], records the selection before it leaves alignment
    mode. *)
Definition two_pane_viewer : Viewer :=
  mkViewer [mkPane [Some (mkLine (Some 1) (Some "a") false None)] 0 1 0;
            mkPane [Some (mkLine (Some 1) (Some "b") false None)] 0 1 0]
           [1] [] [] None LINE_MODE 0 0 0 0 0 (-1).

Definition spread_rows : list Op :=
  [OpInsertNull 0 1 false; OpInsertNull 1 0 false; OpUpdateBlocks [1; 1]].

Definition two_edits : list (list Step) :=
  [Mutate <$> OpRecordEditMode :: spread_rows;
   Mutate <$> [OpInstanceLine 0 1 false; OpUpdateLineText 0 1 true (Some "new")]].

Definition mode_changes : list (list Step) :=
  [Mutate <$> OpRecordEditMode :: spread_rows;
   [EnterAlignMode];
   [SetLineMode; Mutate OpRecordEditMode; SetCurrentLine 0 1 None;
    Mutate (OpInstanceLine 0 1 false); SetCharMode;
    Mutate (OpUpdateLineText 0 1 true (Some "new"));
    SetCurrentChar 1 3; Mutate OpRecordEditMode]].

Definition merge_in_align_mode : list (list Step) :=
  [Mutate <$> OpRecordEditMode :: spread_rows;
   [EnterAlignMode];
   [Mutate OpRecordEditMode; SetLineMode;
    Mutate (OpUpdateLineText 0 0 true (Some "b")); Mutate OpRecordEditMode]].

Definition two_pane_viewer_typed : Viewer :=
  mkViewer [mkPane [Some (mkLine (Some 1) (Some "a") false None);
                    Some (mkLine None None true (Some "new"))] 0 1 1;
            mkPane [None; Some (mkLine (Some 1) (Some "b") false None)] 0 1 0]
           [1; 1]
           [[EditModeUndo LINE_MODE 0 0 0 0 0 (-1); InsertNullUndo 0 1 false;
             InsertNullUndo 1 0 false; UpdateBlocksUndo [1] [1; 1]];
            [EditModeUndo LINE_MODE 0 0 0 0 0 (-1); InstanceLineUndo 0 1 false;
             UpdateLineTextUndo 0 1 false None true (Some "new");
             EditModeUndo CHAR_MODE 0 1 3 1 3 (-1)]]
           [] None CHAR_MODE 0 1 3 1 3 (-1).

Definition two_pane_viewer_edited : Viewer :=
  mkViewer [mkPane [Some (mkLine (Some 1) (Some "a") false None);
                    Some (mkLine None None true (Some "new"))] 0 1 1;
            mkPane [None; Some (mkLine (Some 1) (Some "b") false None)] 0 1 0]
           [1; 1]
           [[EditModeUndo LINE_MODE 0 0 0 0 0 (-1); InsertNullUndo 0 1 false;
             InsertNullUndo 1 0 false; UpdateBlocksUndo [1] [1; 1]];
            [InstanceLineUndo 0 1 false;
             UpdateLineTextUndo 0 1 false None true (Some "new")]]
           [] None LINE_MODE 0 0 0 0 0 (-1).

(** The rows that [align] realigns: from the start of the first block
    of the span to the end of its last block. *)
Definition align_span (line1 line2 : Z) (blocks_ : list Z) : Z * Z :=
  let '(pre_blocks, mid, _, _) :=
    foldl (span_step (Z.min line1 line2) (Z.max line1 line2))
          ([], [], [], 0) blocks_ in
  (sumZ pre_blocks, sumZ pre_blocks + sumZ mid).

(** The three sections that [align] cuts out of the rows of the pane next
    to the cut: [s[start:m]], [[s[m]]] and [s[m + 1:end]], the last two
    empty when line [m] is after the rows. *)
Definition align_sections (start end_ m : Z) (s : rows Line) : list (rows Line) :=
  [py_slice s start m;
   if m <? len s then py_slice s m (m + 1) else [];
   if m <? len s then py_slice s (m + 1) end_ else []].

(** The matcher returns on each of the three pairs of sections that
    [align(f, line1, line2)] hands to [alignBlocks]. *)
Definition sections_match {K} `{EqDecision K} (alignmentHash : Line -> K)
    (f line1 line2 : Z) (v : Viewer) : Prop :=
  forall l r,
    (lines <$> panes v) !! Z.to_nat f = Some l ->
    (lines <$> panes v) !! Z.to_nat (f + 1) = Some r ->
    Forall2 (matcher_returns alignmentHash)
      (align_sections (align_span line1 line2 (blocks v)).1
                      (align_span line1 line2 (blocks v)).2 line1 l)
      (align_sections (align_span line1 line2 (blocks v)).1
                      (align_span line1 line2 (blocks v)).2 line2 r).

(** ** Lines of text and their endings

    The functions that cut the text of a file into lines and classify,
    strip and convert line endings.  A [str] is the list of its
    characters. *)

Abbreviation str := (list ascii).

Definition LF : ascii := "010"%char.
Definition CR : ascii := "013"%char.

(** [s.find(c, i)] for a character [c]: the first index from [i] on that
    holds [c], or [-1]. *)
Fixpoint find_at (c : ascii) (s : str) (pos start : Z) : Z :=
  match s with
  | [] => -1
  | x :: s' =>
      if (start <=? pos) && bool_decide (x = c) then pos
      else find_at c s' (pos + 1) start
  end.

Definition py_find (s : str) (c : ascii) (i : Z) : Z :=
  find_at c s 0 (if i <? 0 then Z.max (len s + i) 0 else i).

(** [s.endswith(suffix)] *)
Definition endswith (s suffix : str) : bool :=
  bool_decide (drop (length s - length suffix) s = suffix).

(** The first loop of [splitlines]: "split on new line characters". *)
Fixpoint split_on_lf (fuel : nat) (s : str) (i : Z) (temp : list str)
  : result (list str) :=
  if i <? len s then
    let j := py_find s LF i in
    if j <? 0 then Ok (temp ++ [py_slice_from s i])
    else
      let j := j + 1 in
      match fuel with
      | O => Raise OutOfFuel
      | S fuel => split_on_lf fuel s j (temp ++ [py_slice s i j])
      end
  else Ok temp.

(** The inner loop of the second part of [splitlines]: "split on carriage
    return characters". *)
Fixpoint split_on_cr (fuel : nat) (s : str) (i : Z) (ss : list str)
  : result (list str) :=
  if i <? len s then
    let j := py_find s CR i in
    if j <? 0 then Ok (ss ++ [py_slice_from s i])
    else
      let j := j + 1 in
      nl ← (if j <? len s then x ← py_get s j; Ok (bool_decide (x = LF))
            else Ok false);
      let j := if nl : bool then j + 1 else j in
      match fuel with
      | O => Raise OutOfFuel
      | S fuel => split_on_cr fuel s j (ss ++ [py_slice s i j])
      end
  else Ok ss.

(** [splitlines(s)]: "split string into lines based upon DOS, Mac, and Unix
    line endings".  Every turn of a loop moves [i] forward, so a loop over
    a string turns at most [len(s)] times. *)
Definition splitlines (s : str) : result (list str) :=
  temp ← split_on_lf (length s) s 0 [];
  for_each temp (fun ss piece => split_on_cr (length piece) piece 0 ss) [].

Definition DOS_FORMAT : Z := 1.
Definition MAC_FORMAT : Z := 2.
Definition UNIX_FORMAT : Z := 4.

Definition has_dos_line_ending (s : str) : bool := endswith s [CR; LF].

Definition has_mac_line_ending (s : str) : bool := endswith s [CR].

Definition has_unix_line_ending (s : str) : bool :=
  endswith s [LF] && negb (endswith s [CR; LF]).

(** [getFormat(ss)]: "returns the format mask for a list of strings". *)
Definition getFormat (ss : list (option str)) : Z :=
  foldl (fun flags s =>
           match s with
           | Some s =>
               if has_dos_line_ending s then Z.lor flags DOS_FORMAT
               else if has_mac_line_ending s then Z.lor flags MAC_FORMAT
               else if has_unix_line_ending s then Z.lor flags UNIX_FORMAT
               else flags
           | None => flags
           end) 0 ss.

(** [len_minus_line_ending(s)]: "returns the number of characters in the
    string excluding any line ending characters". *)
Definition len_minus_line_ending (s : option str) : Z :=
  match s with
  | None => 0
  | Some s =>
      let n := len s in
      if endswith s [CR; LF] then n - 2
      else if endswith s [CR] || endswith s [LF] then n - 1
      else n
  end.

(** [strip_eol(s)]: "returns the string without the line ending
    characters"; [None] for [None]. *)
Definition strip_eol (s : option str) : option str :=
  match s with
  | Some s' => Some (py_slice s' 0 (len_minus_line_ending s))
  | None => None
  end.

Definition strip_eols (ss : list (option str)) : list (option str) :=
  strip_eol <$> ss.

(** [readlines(fd)] on the text that [fd.read()] returns. *)
Definition readlines (text : str) : result (list (option str)) :=
  ss ← splitlines text;
  Ok (strip_eols (Some <$> ss)).

(** [convert_to_format(s, format)]: "convenience method to change the line
    ending of a string".  [linesep] is [os.linesep]. *)
Definition convert_to_format (linesep : str) (s : option str) (format_ : Z)
  : option str :=
  match s with
  | Some _ =>
      if negb (format_ =? 0) then
        let old_format := getFormat [s] in
        if negb (old_format =? 0) && (Z.land old_format format_ =? 0) then
          s ← strip_eol s;
          let has flag := negb (Z.land format_ flag =? 0) in
          Some (if has DOS_FORMAT && bool_decide (linesep = [CR; LF])
                then s ++ linesep
                else if has MAC_FORMAT && bool_decide (linesep = [CR])
                then s ++ linesep
                else if has UNIX_FORMAT && bool_decide (linesep = [LF])
                then s ++ linesep
                else if has UNIX_FORMAT then s ++ [LF]
                else if has DOS_FORMAT then s ++ [CR; LF]
                else if has MAC_FORMAT then s ++ [CR]
                else s)
        else s
      else s
  | None => None
  end.

(** A string without a line break, and the line endings. *)
Definition no_break (s : str) : Prop := (CR ∉ s) /\ (LF ∉ s).

Definition line_endings : list str := [[LF]; [CR]; [CR; LF]].

(** A piece of text that ends with a line ending and has no line break
    before it, and a non-empty piece without any line break. *)
Definition ended (p : str) : Prop :=
  exists body eol, p = body ++ eol /\ no_break body /\ eol ∈ line_endings.

Definition unended (p : str) : Prop := p <> [] /\ no_break p.

(** Pieces that all end with a line ending, except that the last one may
    lack it. *)
Definition all_but_last_ended (ss : list str) : Prop :=
  Forall ended ss \/
  exists init l, ss = init ++ [l] /\ Forall ended init /\ unended l.

(* ===================================================================== *)
(** * Theorems *)
(* ===================================================================== *)

(** ** Sums and partitions *)

Lemma sumZ_app l k : sumZ (l ++ k) = sumZ l + sumZ k.
Proof. induction l as [|x l IH]; simpl; lia. Qed.

Lemma sumZ_nonneg l : positive_blocks l -> 0 <= sumZ l.
Proof. induction 1; simpl; lia. Qed.

Lemma sumZ_pos l : positive_blocks l -> l <> [] -> 0 < sumZ l.
Proof.
  destruct 1 as [|x l Hx Hl]; [congruence|].
  intros _. simpl. pose proof (sumZ_nonneg l Hl). lia.
Qed.

Lemma positive_blocks_app l k :
  positive_blocks (l ++ k) <-> positive_blocks l /\ positive_blocks k.
Proof. apply Forall_app. Qed.

(** ** cutBlocks *)

Lemma cutBlocks_foldl i blocks pre0 post0 n0 :
  foldl (cutBlocks_step i) (pre0, post0, n0) blocks =
  (pre0 ++ (cut_rec (i - n0) blocks).1, post0 ++ (cut_rec (i - n0) blocks).2,
   n0 + sumZ blocks).
Proof.
  revert pre0 post0 n0.
  induction blocks as [|b rest IH]; intros pre0 post0 n0; cbn [foldl cut_rec sumZ foldr].
  - rewrite !app_nil_r. f_equal. lia.
  - replace (i - n0 - b) with (i - (n0 + b)) by lia.
    replace (n0 + (b + foldr Z.add 0 rest)) with (n0 + b + sumZ rest)
      by (unfold sumZ; lia).
    destruct (cut_rec (i - (n0 + b)) rest) as [p q] eqn:Hrec.
    unfold cutBlocks_step at 2.
    destruct (Z.leb_spec i n0) as [H1|H1].
    + destruct (Z.leb_spec (i - n0) 0); [|lia].
      rewrite IH, Hrec. simpl. by rewrite <- !app_assoc.
    + destruct (Z.leb_spec (i - n0) 0); [lia|].
      destruct (Z.leb_spec (n0 + b) i) as [H2|H2].
      * destruct (Z.leb_spec b (i - n0)); [|lia].
        rewrite IH, Hrec. simpl. by rewrite <- !app_assoc.
      * destruct (Z.leb_spec b (i - n0)); [lia|].
        rewrite IH, Hrec. simpl. by rewrite <- !app_assoc.
Qed.

Lemma cutBlocks_cut_rec i blocks : cutBlocks i blocks = cut_rec i blocks.
Proof.
  unfold cutBlocks. rewrite cutBlocks_foldl. simpl.
  rewrite Z.sub_0_r. by destruct (cut_rec i blocks).
Qed.

Lemma cut_rec_past j blocks :
  positive_blocks blocks -> j <= 0 -> cut_rec j blocks = ([], blocks).
Proof.
  intros Hpos. revert j. induction Hpos as [|b rest Hb Hrest IH]; intros j Hj.
  - done.
  - simpl. rewrite IH by lia. destruct (Z.leb_spec j 0); [done|lia].
Qed.

Lemma cut_rec_sum j blocks :
  positive_blocks blocks -> 0 <= j <= sumZ blocks ->
  sumZ (cut_rec j blocks).1 = j.
Proof.
  intros Hpos. revert j. induction Hpos as [|b rest Hb Hrest IH]; intros j Hj.
  - simpl in *. lia.
  - simpl in *. destruct (Z.leb_spec j 0) as [H0|H0].
    + rewrite cut_rec_past by (done || lia). simpl. lia.
    + destruct (Z.leb_spec b j) as [H1|H1].
      * specialize (IH (j - b) ltac:(lia)).
        destruct (cut_rec (j - b) rest). simpl in *. lia.
      * rewrite cut_rec_past by (done || lia). simpl. lia.
Qed.

Lemma cut_rec_positive j blocks :
  positive_blocks blocks ->
  positive_blocks (cut_rec j blocks).1 /\ positive_blocks (cut_rec j blocks).2.
Proof.
  intros Hpos. revert j. induction Hpos as [|b rest Hb Hrest IH]; intros j.
  - simpl. split; constructor.
  - simpl. specialize (IH (j - b)).
    destruct (cut_rec (j - b) rest) as [p q]. simpl in IH. destruct IH as [Hp Hq].
    destruct (Z.leb_spec j 0); [|destruct (Z.leb_spec b j)]; simpl;
      split; try done; constructor; try done; lia.
Qed.

Lemma cut_rec_boundary j l1 l2 :
  positive_blocks (l1 ++ l2) -> sumZ l1 = j -> cut_rec j (l1 ++ l2) = (l1, l2).
Proof.
  revert j. induction l1 as [|x l1 IH]; intros j Hpos Hj; simpl in *.
  - apply cut_rec_past; [done|lia].
  - inversion Hpos as [|? ? Hx Hrest]; subst.
    apply positive_blocks_app in Hrest as Hrest'. destruct Hrest' as [H1 H2].
    pose proof (sumZ_nonneg _ H1).
    rewrite (IH (x + sumZ l1 - x)) by (done || lia).
    destruct (Z.leb_spec (x + sumZ l1) 0); [lia|].
    destruct (Z.leb_spec x (x + sumZ l1)); [done|lia].
Qed.

Lemma cut_rec_straddle j l1 b l2 :
  positive_blocks (l1 ++ b :: l2) -> sumZ l1 < j < sumZ l1 + b ->
  cut_rec j (l1 ++ b :: l2) = (l1 ++ [j - sumZ l1], (sumZ l1 + b - j) :: l2).
Proof.
  revert j. induction l1 as [|x l1 IH]; intros j Hpos Hj; simpl in *.
  - inversion Hpos; subst.
    rewrite cut_rec_past by (done || lia).
    destruct (Z.leb_spec j 0); [lia|]. destruct (Z.leb_spec b j); [lia|].
    do 2 f_equal; lia.
  - inversion Hpos as [|? ? Hx Hrest]; subst.
    apply positive_blocks_app in Hrest as Hrest'. destruct Hrest' as [H1 H2].
    pose proof (sumZ_nonneg _ H1).
    rewrite (IH (j - x)) by (done || lia).
    destruct (Z.leb_spec j 0); [lia|]. destruct (Z.leb_spec x j); [|lia].
    replace (j - x - sumZ l1) with (j - (x + sumZ l1)) by lia.
    replace (sumZ l1 + b - (j - x)) with (x + sumZ l1 + b - j) by lia.
    done.
Qed.

(** Every position inside a partition is either a block boundary or lies
    strictly inside one block. *)
Lemma partition_position blocks i :
  positive_blocks blocks -> 0 <= i <= sumZ blocks ->
  (exists l1 l2, blocks = l1 ++ l2 /\ sumZ l1 = i) \/
  (exists l1 b l2, blocks = l1 ++ b :: l2 /\ sumZ l1 < i < sumZ l1 + b).
Proof.
  intros Hpos. revert i. induction Hpos as [|b rest Hb Hrest IH]; intros i Hi.
  - left. exists [], []. simpl in *. split; [done|lia].
  - simpl in Hi. destruct (Z.eq_dec i 0) as [->|Hne].
    + left. by exists [], (b :: rest).
    + destruct (Z_lt_le_dec i b) as [Hlt|Hge].
      * right. exists [], b, rest. simpl. split; [done|lia].
      * destruct (IH (i - b) ltac:(lia)) as [(l1 & l2 & -> & Hs)|(l1 & c & l2 & -> & Hs)].
        -- left. exists (b :: l1), l2. simpl. split; [done|lia].
        -- right. exists (b :: l1), c, l2. simpl. split; [done|lia].
Qed.

(** C7.  For a partition [blocks] with strictly positive entries and a
    position [0 <= i <= sum(blocks)], [cutBlocks(i, blocks)] returns
    [(pre, post)] with [sum(pre) = i] and no entry of [pre] or [post] zero
    (all are positive).  A block that straddles [i] is split into the part
    before [i], which ends [pre], and the part after, which starts [post];
    if [i] is a block boundary the blocks are distributed unchanged.
    Reassembly: either [pre ++ post] is [blocks], or summing the last entry
    of [pre] and the first of [post] back into one block gives [blocks]. *)
Theorem cutBlocks_spec (i : Z) (blocks : list Z) :
  positive_blocks blocks -> 0 <= i <= sumZ blocks ->
  exists pre post,
    cutBlocks i blocks = (pre, post) /\
    sumZ pre = i /\
    positive_blocks pre /\ positive_blocks post /\
    (forall l1 b l2, blocks = l1 ++ b :: l2 -> sumZ l1 < i < sumZ l1 + b ->
       pre = l1 ++ [i - sumZ l1] /\ post = (sumZ l1 + b - i) :: l2) /\
    (forall l1 l2, blocks = l1 ++ l2 -> sumZ l1 = i -> pre = l1 /\ post = l2) /\
    (pre ++ post = blocks \/
     exists l1 p q l2, pre = l1 ++ [p] /\ post = q :: l2 /\
                       blocks = l1 ++ (p + q) :: l2).
Proof.
  intros Hpos Hi. rewrite cutBlocks_cut_rec.
  destruct (cut_rec i blocks) as [pre post] eqn:Hcut.
  exists pre, post. split; [done|].
  pose proof (cut_rec_sum i blocks Hpos Hi) as Hsum.
  pose proof (cut_rec_positive i blocks Hpos) as [Hp Hq].
  rewrite Hcut in *. simpl in *.
  repeat split; try done.
  - subst blocks. rewrite cut_rec_straddle in Hcut by done. congruence.
  - subst blocks. rewrite cut_rec_straddle in Hcut by done. congruence.
  - subst blocks. rewrite (cut_rec_boundary i) in Hcut by done. congruence.
  - subst blocks. rewrite (cut_rec_boundary i) in Hcut by done. congruence.
  - destruct (partition_position blocks i Hpos Hi)
      as [(l1 & l2 & -> & Hs)|(l1 & b & l2 & -> & Hs)].
    + left. rewrite (cut_rec_boundary i) in Hcut by done. congruence.
    + right. rewrite cut_rec_straddle in Hcut by done.
      exists l1, (i - sumZ l1), (sumZ l1 + b - i), l2.
      inversion Hcut; subst. repeat split; try done.
      do 2 f_equal. lia.
Qed.

Lemma cutBlocks_spec_witness :
  exists pre post,
    cutBlocks 4 [3; 2; 5] = (pre, post) /\
    sumZ pre = 4 /\
    positive_blocks pre /\ positive_blocks post /\
    (forall l1 b l2, [3; 2; 5] = l1 ++ b :: l2 -> sumZ l1 < 4 < sumZ l1 + b ->
       pre = l1 ++ [4 - sumZ l1] /\ post = (sumZ l1 + b - 4) :: l2) /\
    (forall l1 l2, [3; 2; 5] = l1 ++ l2 -> sumZ l1 = 4 -> pre = l1 /\ post = l2) /\
    (pre ++ post = [3; 2; 5] \/
     exists l1 p q l2, pre = l1 ++ [p] /\ post = q :: l2 /\
                       [3; 2; 5] = l1 ++ (p + q) :: l2).
Proof.
  apply (cutBlocks_spec 4 [3; 2; 5]).
  - repeat constructor.
  - simpl. lia.
Defined.

(** ** mergeBlocks *)

Local Arguments cut_points_from : simpl never.

Lemma cut_points_from_cons n b rest c :
  rest <> [] ->
  c ∈ cut_points_from n (b :: rest) <->
  c = n + b \/ c ∈ cut_points_from (n + b) rest.
Proof.
  intros Hne. destruct rest as [|x rest]; [done|].
  unfold cut_points_from; fold cut_points_from. apply elem_of_cons.
Qed.

Lemma cut_points_from_shift n x y rest :
  cut_points_from n ((x + y) :: rest) = cut_points_from (n + x) (y :: rest).
Proof.
  destruct rest as [|z rest]; [done|].
  unfold cut_points_from; fold cut_points_from. by rewrite Z.add_assoc.
Qed.

Lemma cut_points_from_shift_sub n x y rest :
  cut_points_from n (y :: rest) = cut_points_from (n + x) ((y - x) :: rest).
Proof.
  rewrite <- cut_points_from_shift. do 2 f_equal. lia.
Qed.

Lemma positive_sum_nil l : positive_blocks l -> sumZ l = 0 -> l = [].
Proof.
  intros Hpos Hs. destruct l as [|x l]; [done|].
  pose proof (sumZ_pos _ Hpos ltac:(done)). lia.
Qed.

Lemma mergeBlocks_loop_spec (k : nat) :
  forall leftblocks rightblocks acc n,
    (length leftblocks + length rightblocks <= k)%nat ->
    positive_blocks leftblocks -> positive_blocks rightblocks ->
    sumZ leftblocks = sumZ rightblocks ->
    exists m,
      mergeBlocks_loop leftblocks rightblocks acc = Ok (acc ++ m) /\
      sumZ m = sumZ leftblocks /\ positive_blocks m /\
      forall c, c ∈ cut_points_from n m <->
                c ∈ cut_points_from n leftblocks \/
                c ∈ cut_points_from n rightblocks.
Proof.
  induction k as [|k IH]; intros l r acc n Hk Hl Hr Hsum.
  - destruct l; [|simpl in Hk; lia]. destruct r; [|simpl in Hk; lia].
    exists []. simp mergeBlocks_loop. rewrite app_nil_r.
    repeat split; try done; simpl;
      first [by intros ?%elem_of_nil|by intros [?%elem_of_nil|?%elem_of_nil]].
  - destruct l as [|nl l'].
    { apply positive_sum_nil in Hr; [|by rewrite <- Hsum]. subst r.
      exists []. simp mergeBlocks_loop. rewrite app_nil_r.
      repeat split; try done; simpl;
      first [by intros ?%elem_of_nil|by intros [?%elem_of_nil|?%elem_of_nil]]. }
    destruct r as [|nr r'].
    { apply positive_sum_nil in Hl; [done|by rewrite Hsum]. }
    inversion Hl as [|? ? Hnl Hl']; subst.
    inversion Hr as [|? ? Hnr Hr']; subst.
    simpl in Hsum, Hk. simp mergeBlocks_loop.
    pose proof (sumZ_nonneg _ Hl'). pose proof (sumZ_nonneg _ Hr').
    destruct (Z.lt_trichotomy nl nr) as [Hlt|[Heq|Hgt]].
    + (* the left block ends first *)
      rewrite Z.min_l by lia.
      destruct (Z.ltb_spec nl nl); [lia|]. destruct (Z.ltb_spec nl nr); [|lia].
      destruct (IH l' ((nr - nl) :: r') (acc ++ [nl]) (n + nl))
        as (m & Hm & Hms & Hmp & Hmc); simpl; try lia; try done.
      { constructor; [lia|done]. }
      exists (nl :: m). rewrite Hm, <- app_assoc. simpl.
      assert (l' <> []) by (intros ->; simpl in *; lia).
      assert (m <> []) by (intros ->; simpl in *; lia).
      repeat split; try lia; [by constructor| |].
      * intros Hc. apply cut_points_from_cons in Hc; [|done].
        rewrite (cut_points_from_cons n nl l') by done.
        rewrite (cut_points_from_shift_sub n nl nr).
        destruct Hc as [->|Hc]; [by left; left|].
        apply Hmc in Hc as [Hc|Hc]; [by left; right|by right].
      * intros Hc. apply cut_points_from_cons; [done|].
        rewrite (cut_points_from_cons n nl l') in Hc by done.
        rewrite (cut_points_from_shift_sub n nl nr) in Hc.
        destruct Hc as [[->|Hc]|Hc]; [by left|right; apply Hmc; by left|
                                      right; apply Hmc; by right].
    + (* both blocks end together *)
      subst nr. rewrite Z.min_l by lia.
      destruct (Z.ltb_spec nl nl); [lia|].
      destruct (IH l' r' (acc ++ [nl]) (n + nl))
        as (m & Hm & Hms & Hmp & Hmc); simpl; try lia; try done.
      exists (nl :: m). rewrite Hm, <- app_assoc. simpl.
      repeat split; try lia; [by constructor| |].
      * intros Hc. destruct m as [|x m]; [by apply elem_of_nil in Hc|].
        apply cut_points_from_cons in Hc; [|done].
        assert (l' <> []).
        { intros ->. simpl in *. inversion Hmp; subst.
          pose proof (sumZ_nonneg m ltac:(done)). lia. }
        assert (r' <> []) by (intros ->; destruct l'; simpl in *;
          [done|inversion Hl'; subst; pose proof (sumZ_nonneg l' ltac:(done)); lia]).
        rewrite !cut_points_from_cons by done.
        destruct Hc as [->|Hc]; [by left; left|].
        apply Hmc in Hc as [Hc|Hc]; [by left; right|by right; right].
      * intros Hc.
        assert (l' <> [] /\ r' <> []) as [Hl0 Hr0].
        { destruct l' as [|y l'], r' as [|z r'].
          - simpl in Hc. by destruct Hc as [?%elem_of_nil|?%elem_of_nil].
          - inversion Hr'; subst. pose proof (sumZ_nonneg r' ltac:(done)).
            simpl in *. lia.
          - inversion Hl'; subst. pose proof (sumZ_nonneg l' ltac:(done)).
            simpl in *. lia.
          - done. }
        assert (m <> []).
        { intros ->. simpl in Hms. apply Hl0, positive_sum_nil; [done|lia]. }
        rewrite !cut_points_from_cons in Hc by done.
        apply cut_points_from_cons; [done|].
        destruct Hc as [[->|Hc]|[->|Hc]];
          [by left|right; apply Hmc; by left|by left|right; apply Hmc; by right].
    + (* the right block ends first *)
      rewrite Z.min_r by lia.
      destruct (Z.ltb_spec nr nl); [|lia]. destruct (Z.ltb_spec nr nr); [lia|].
      destruct (IH ((nl - nr) :: l') r' (acc ++ [nr]) (n + nr))
        as (m & Hm & Hms & Hmp & Hmc); simpl; try lia; try done.
      { constructor; [lia|done]. }
      exists (nr :: m). rewrite Hm, <- app_assoc. simpl in *.
      assert (r' <> []) by (intros ->; simpl in *; lia).
      assert (m <> []) by (intros ->; simpl in *; lia).
      repeat split; try lia; [by constructor| |].
      * intros Hc. apply cut_points_from_cons in Hc; [|done].
        rewrite (cut_points_from_cons n nr r') by done.
        rewrite (cut_points_from_shift_sub n nr nl).
        destruct Hc as [->|Hc]; [by right; left|].
        apply Hmc in Hc as [Hc|Hc]; [by left|by right; right].
      * intros Hc. apply cut_points_from_cons; [done|].
        rewrite (cut_points_from_cons n nr r') in Hc by done.
        rewrite (cut_points_from_shift_sub n nr nl) in Hc.
        destruct Hc as [Hc|[->|Hc]]; [right; apply Hmc; by left|by left|
                                      right; apply Hmc; by right].
Qed.

(** C6.  For partitions [leftblocks] and [rightblocks] with strictly
    positive entries and equal sums, [mergeBlocks] returns a partition of
    the same total, without zero entries, whose cut points are exactly the
    cut points of [leftblocks] together with those of [rightblocks]. *)
Theorem mergeBlocks_spec (leftblocks rightblocks : list Z) :
  positive_blocks leftblocks -> positive_blocks rightblocks ->
  sumZ leftblocks = sumZ rightblocks ->
  exists b,
    mergeBlocks leftblocks rightblocks = Ok b /\
    sumZ b = sumZ leftblocks /\
    positive_blocks b /\
    forall c, c ∈ cut_points b <->
              c ∈ cut_points leftblocks \/ c ∈ cut_points rightblocks.
Proof.
  intros Hl Hr Hsum.
  destruct (mergeBlocks_loop_spec (length leftblocks + length rightblocks)
              leftblocks rightblocks [] 0 ltac:(lia) Hl Hr Hsum)
    as (m & Hm & Hms & Hmp & Hmc).
  exists m. unfold mergeBlocks, cut_points. by rewrite Hm.
Qed.

Lemma mergeBlocks_spec_witness :
  exists b,
    mergeBlocks [2; 3; 1] [4; 2] = Ok b /\
    sumZ b = sumZ [2; 3; 1] /\
    positive_blocks b /\
    forall c, c ∈ cut_points b <->
              c ∈ cut_points [2; 3; 1] \/ c ∈ cut_points [4; 2].
Proof.
  apply (mergeBlocks_spec [2; 3; 1] [4; 2]).
  - repeat constructor.
  - repeat constructor.
  - reflexivity.
Defined.

(** ** Python list operations at natural positions *)

Lemma py_get_nat {A} (l : list A) (k : nat) :
  py_get l (Z.of_nat k) =
  match l !! k with Some x => Ok x | None => Raise IndexError end.
Proof.
  unfold py_get, py_norm.
  destruct (Z.ltb_spec (Z.of_nat k) 0); [lia|].
  destruct (Z.ltb_spec (Z.of_nat k) 0); [lia|].
  by rewrite Nat2Z.id.
Qed.

Lemma py_get_app_middle {A} (l1 l2 : list A) (x : A) :
  py_get (l1 ++ x :: l2) (len l1) = Ok x.
Proof.
  unfold len. rewrite py_get_nat.
  by rewrite list_lookup_middle.
Qed.

Lemma py_del_nat {A} (l : list A) (k : nat) :
  (k < length l)%nat -> py_del l (Z.of_nat k) = Ok (delete k l).
Proof.
  intros Hk. unfold py_del, py_norm, len.
  destruct (Z.ltb_spec (Z.of_nat k) 0); [lia|].
  destruct (Z.ltb_spec (Z.of_nat k) 0); [lia|].
  destruct (Z.ltb_spec (Z.of_nat k) (Z.of_nat (length l))); [|lia].
  by rewrite Nat2Z.id.
Qed.

Lemma py_set_nat {A} (l : list A) (k : nat) (x : A) :
  (k < length l)%nat -> py_set l (Z.of_nat k) x = Ok (<[k := x]> l).
Proof.
  intros Hk. unfold py_set, py_norm, len.
  destruct (Z.ltb_spec (Z.of_nat k) 0); [lia|].
  destruct (Z.ltb_spec (Z.of_nat k) 0); [lia|].
  destruct (Z.ltb_spec (Z.of_nat k) (Z.of_nat (length l))); [|lia].
  by rewrite Nat2Z.id.
Qed.

Lemma py_del_app_middle {A} (l1 l2 : list A) (x : A) :
  py_del (l1 ++ x :: l2) (len l1) = Ok (l1 ++ l2).
Proof.
  unfold len. rewrite py_del_nat by (rewrite length_app; simpl; lia).
  f_equal. induction l1 as [|y l1 IH]; simpl; [done|]. by f_equal.
Qed.

Lemma py_set_app_middle {A} (l1 l2 : list A) (x y : A) :
  py_set (l1 ++ x :: l2) (len l1) y = Ok (l1 ++ y :: l2).
Proof.
  unfold len. rewrite py_set_nat by (rewrite length_app; simpl; lia).
  f_equal. induction l1 as [|z l1 IH]; simpl; [done|]. by f_equal.
Qed.

(** ** removeNullLines *)

Section RemoveNullLinesProofs.
Context {L : Type}.
Implicit Types (l : rows L) (mask m : list bool).

Lemma count_true_app m1 m2 :
  count_true (m1 ++ m2) = (count_true m1 + count_true m2)%nat.
Proof. unfold count_true. by rewrite filter_app, length_app. Qed.

Lemma count_true_cons (b : bool) m :
  count_true (b :: m) = ((if b then 1 else 0) + count_true m)%nat.
Proof. unfold count_true. by destruct b. Qed.

Lemma count_true_le m : (count_true m <= length m)%nat.
Proof. apply length_filter. Qed.

Lemma length_select {A} m (l : list A) :
  (length m <= length l)%nat -> length (select m l) = count_true m.
Proof.
  revert l. induction m as [|b m IH]; intros l Hl; [done|].
  destruct l as [|x l]; simpl in Hl; [lia|].
  destruct b; simpl.
  - unfold count_true. rewrite filter_cons_True by done. simpl.
    f_equal. apply IH. lia.
  - unfold count_true. rewrite filter_cons_False by done.
    apply IH. lia.
Qed.

Lemma select_app {A} m1 m2 (l : list A) :
  (length m1 <= length l)%nat ->
  select (m1 ++ m2) l = select m1 l ++ select m2 (drop (length m1) l).
Proof.
  revert l. induction m1 as [|b m1 IH]; intros l Hl; simpl.
  - by destruct m2, l.
  - destruct l as [|x l]; simpl in Hl; [lia|].
    destruct b; simpl; rewrite IH by lia; done.
Qed.

Lemma partly_compacted_lookup {A} m (l : list A) :
  (length m <= length l)%nat ->
  partly_compacted m l !! count_true m = l !! length m.
Proof.
  intros Hl. unfold partly_compacted.
  rewrite lookup_app_r by (rewrite length_select; lia).
  rewrite length_select by done.
  rewrite Nat.sub_diag, lookup_drop. f_equal. lia.
Qed.

Lemma length_partly_compacted {A} m (l : list A) :
  (length m <= length l)%nat ->
  length (partly_compacted m l) = (count_true m + (length l - length m))%nat.
Proof.
  intros Hl. unfold partly_compacted.
  by rewrite length_app, length_select, length_drop.
Qed.

Lemma partly_compacted_keep {A} m (l : list A) :
  (length m < length l)%nat ->
  partly_compacted (m ++ [true]) l = partly_compacted m l.
Proof.
  intros Hl. unfold partly_compacted.
  rewrite select_app by lia. rewrite length_app, <- app_assoc. simpl.
  f_equal.
  destruct (drop (length m) l) as [|x t] eqn:Hd.
  { apply (f_equal length) in Hd. rewrite length_drop in Hd. simpl in Hd. lia. }
  rewrite <- drop_drop, Hd. simpl. by destruct t.
Qed.

Lemma partly_compacted_drop {A} m (l : list A) :
  (length m < length l)%nat ->
  delete (count_true m) (partly_compacted m l) =
  partly_compacted (m ++ [false]) l.
Proof.
  intros Hl. unfold partly_compacted.
  rewrite select_app by lia. rewrite length_app, <- app_assoc. simpl.
  destruct (drop (length m) l) as [|x t] eqn:Hd.
  { apply (f_equal length) in Hd. rewrite length_drop in Hd. simpl in Hd. lia. }
  assert (Hlen : length (select m l) = count_true m) by (apply length_select; lia).
  rewrite <- Hlen.
  replace (delete (length (select m l)) (select m l ++ x :: t))
    with (select m l ++ t).
  2:{ clear. induction (select m l) as [|y s IH]; simpl; [done|]. by f_equal. }
  f_equal. rewrite <- drop_drop, Hd. simpl. by destruct t.
Qed.

Section Scan.
Variable lines_set0 : list (rows L).

Lemma any_not_none_scan m :
  Forall (fun l0 : rows L => (length m < length l0)%nat) lines_set0 ->
  any_not_none (fmap (partly_compacted m) lines_set0)
               (Z.of_nat (count_true m))
  = Ok (row_has_line lines_set0 (length m)).
Proof.
  unfold row_has_line.
  induction 1 as [|l0 ls Hl0 Hls IH]; csimpl; [done|].
  rewrite py_get_nat, partly_compacted_lookup by lia.
  destruct (lookup_lt_is_Some_2 l0 (length m) Hl0) as [x Hx].
  rewrite Hx. simpl. destruct x; simpl; [done|]. apply IH.
Qed.

Lemma del_row_scan m :
  Forall (fun l0 : rows L => (length m < length l0)%nat) lines_set0 ->
  del_row (fmap (partly_compacted m) lines_set0) (Z.of_nat (count_true m))
  = Ok (fmap (partly_compacted (m ++ [false])) lines_set0).
Proof.
  induction 1 as [|l0 ls Hl0 Hls IH]; csimpl; [done|].
  rewrite py_del_nat.
  2:{ rewrite length_partly_compacted by lia.
      pose proof (count_true_le m). lia. }
  simpl. rewrite IH. simpl. by rewrite partly_compacted_drop.
Qed.

Lemma keep_row_scan m :
  Forall (fun l0 : rows L => (length m < length l0)%nat) lines_set0 ->
  fmap (partly_compacted (m ++ [true])) lines_set0 =
  fmap (partly_compacted m) lines_set0.
Proof.
  induction 1 as [|l0 ls Hl0 Hls IH]; csimpl; [done|].
  by rewrite IH, partly_compacted_keep.
Qed.

Local Abbreviation scan_mask := (scan_mask lines_set0).

Lemma scan_mask_S m r :
  scan_mask m (S r) =
  row_has_line lines_set0 (length m)
  :: scan_mask (m ++ [row_has_line lines_set0 (length m)]) r.
Proof.
  unfold scan_mask. simpl. do 3 f_equal. rewrite length_app. simpl. lia.
Qed.

Lemma scan_mask_add m r1 r2 :
  scan_mask m (r1 + r2) = scan_mask m r1 ++ scan_mask (m ++ scan_mask m r1) r2.
Proof.
  unfold scan_mask. rewrite seq_app, fmap_app. do 3 f_equal.
  by rewrite length_app, length_fmap, length_seq.
Qed.

Lemma length_scan_mask m r : length (scan_mask m r) = r.
Proof. unfold scan_mask. by rewrite length_fmap, length_seq. Qed.

Lemma removeNullLines_inner_scan (r : nat) :
  forall m c done rest fuel,
    (r <= fuel)%nat ->
    Forall (fun l0 : rows L => (length m + r <= length l0)%nat) lines_set0 ->
    sumZ done + c - Z.of_nat (count_true m) = Z.of_nat r ->
    removeNullLines_inner fuel (done ++ c :: rest)
      (fmap (partly_compacted m) lines_set0)
      (len done) (sumZ done) (Z.of_nat (count_true m))
    = Ok (done ++ (c - (Z.of_nat r - Z.of_nat (count_true (scan_mask m r)))) :: rest,
          fmap (partly_compacted (m ++ scan_mask m r)) lines_set0,
          Z.of_nat (count_true (m ++ scan_mask m r))).
Proof.
  induction r as [|r IH]; intros m c done rest fuel Hfuel Hlen Hc.
  - destruct fuel; simpl; rewrite py_get_app_middle; simpl;
      (destruct (Z.ltb_spec (Z.of_nat (count_true m)) (sumZ done + c)); [lia|]);
      unfold scan_mask; simpl; rewrite app_nil_r;
      replace (c - (Z.of_nat 0 - Z.of_nat (count_true []))) with c
        by (unfold count_true; simpl; lia); done.
  - destruct fuel as [|fuel]; [lia|]. simpl.
    rewrite py_get_app_middle. simpl.
    destruct (Z.ltb_spec (Z.of_nat (count_true m)) (sumZ done + c)); [|lia].
    assert (Hlt : Forall (fun l0 : rows L => (length m < length l0)%nat) lines_set0).
    { eapply Forall_impl; [exact Hlen|]. simpl. intros; lia. }
    rewrite any_not_none_scan by done. simpl.
    rewrite scan_mask_S.
    destruct (row_has_line lines_set0 (length m)) eqn:Hrow.
    + rewrite <- keep_row_scan by done.
      replace (Z.of_nat (count_true m) + 1)
        with (Z.of_nat (count_true (m ++ [true])))
        by (rewrite count_true_app; unfold count_true; simpl; lia).
      rewrite (IH (m ++ [true]) c done rest fuel); [|lia| |].
      * rewrite <- !app_assoc. simpl. rewrite (count_true_cons true).
        match goal with |- Ok (_ ++ ?x :: _, _, _) = Ok (_ ++ ?y :: _, _, _) =>
          replace x with y by lia end.
        done.
      * eapply Forall_impl; [exact Hlen|]. simpl. intros.
        rewrite length_app. simpl. lia.
      * rewrite count_true_app. unfold count_true at 2. simpl. lia.
    + rewrite del_row_scan by done. simpl.
      rewrite py_set_app_middle. simpl.
      replace (Z.of_nat (count_true m))
        with (Z.of_nat (count_true (m ++ [false])))
        by (rewrite count_true_app; unfold count_true; simpl; lia).
      rewrite (IH (m ++ [false]) (c - 1) done rest fuel); [|lia| |].
      * rewrite <- !app_assoc. simpl. rewrite (count_true_cons false).
        match goal with |- Ok (_ ++ ?x :: _, _, _) = Ok (_ ++ ?y :: _, _, _) =>
          replace x with y by lia end.
        done.
      * eapply Forall_impl; [exact Hlen|]. simpl. intros.
        rewrite length_app. simpl. lia.
      * rewrite count_true_app. unfold count_true at 2. simpl. lia.
Qed.

Lemma compacted_blocks_cons mr mrest b rest :
  length mr = Z.to_nat b ->
  compacted_blocks (mr ++ mrest) (b :: rest) =
  (if Z.of_nat (count_true mr) =? 0 then [] else [Z.of_nat (count_true mr)])
  ++ compacted_blocks mrest rest.
Proof.
  intros Hlen. unfold compacted_blocks. simpl.
  rewrite <- Hlen, take_app_length, drop_app_length.
  destruct (Z.eqb_spec (Z.of_nat (count_true mr)) 0) as [Heq|Hne].
  - by rewrite filter_cons_False by (intros ?; lia).
  - by rewrite filter_cons_True by done.
Qed.

Lemma removeNullLines_outer_scan rest :
  forall m done fuel,
    Forall (fun b => 0 <= b) rest ->
    (length rest <= fuel)%nat ->
    sumZ done = Z.of_nat (count_true m) ->
    Forall (fun l0 : rows L =>
              length l0 = (length m + Z.to_nat (sumZ rest))%nat) lines_set0 ->
    removeNullLines_outer fuel (done ++ rest)
      (fmap (partly_compacted m) lines_set0)
      (len done) (sumZ done) (Z.of_nat (count_true m))
    = Ok (done ++ compacted_blocks (scan_mask m (Z.to_nat (sumZ rest))) rest,
          fmap (partly_compacted (m ++ scan_mask m (Z.to_nat (sumZ rest))))
              lines_set0).
Proof.
  induction rest as [|b rest IH]; intros m done fuel Hpos Hfuel Hdone Hlen.
  - assert (Hc : (len done <? len (done ++ [])) = false)
      by (rewrite app_nil_r; apply Z.ltb_irrefl).
    destruct fuel; simpl; rewrite Hc; unfold scan_mask, compacted_blocks;
      simpl; by rewrite (app_nil_r m).
  - destruct fuel as [|fuel]; [simpl in Hfuel; lia|].
    inversion Hpos as [|? ? Hb Hrest]; subst.
    assert (Hsr : 0 <= sumZ rest).
    { clear -Hrest. induction Hrest; simpl; lia. }
    cbn [removeNullLines_outer].
    assert (Hin : (len done <? len (done ++ b :: rest)) = true).
    { apply Z.ltb_lt. unfold len. rewrite length_app. simpl. lia. }
    rewrite Hin.
    rewrite py_get_app_middle. cbn [mbind result_bind].
    set (r := Z.to_nat b).
    replace (Z.to_nat (sumZ done + b - Z.of_nat (count_true m))) with r
      by (subst r; lia).
    simpl in Hlen.
    rewrite (removeNullLines_inner_scan r m b done rest r); [|lia| |subst r; lia].
    2:{ eapply Forall_impl; [exact Hlen|]. simpl. intros l0 ->. subst r. lia. }
    cbn [mbind result_bind].
    set (mr := scan_mask m r).
    replace (b - (Z.of_nat r - Z.of_nat (count_true mr)))
      with (Z.of_nat (count_true mr)) by (subst r; lia).
    rewrite py_get_app_middle. cbn [mbind result_bind].
    replace (Z.to_nat (sumZ (b :: rest))) with (r + Z.to_nat (sumZ rest))%nat
      by (simpl; subst r; lia).
    rewrite scan_mask_add. fold mr.
    rewrite compacted_blocks_cons by (subst mr r; apply length_scan_mask).
    assert (Hlen' : Forall (fun l0 : rows L =>
              length l0 = (length (m ++ mr) + Z.to_nat (sumZ rest))%nat)
              lines_set0).
    { eapply Forall_impl; [exact Hlen|]. simpl. intros l0 ->.
      rewrite length_app. subst mr. rewrite length_scan_mask. subst r. lia. }
    destruct (Z.eqb_spec (Z.of_nat (count_true mr)) 0) as [Hz|Hnz].
    + rewrite py_del_app_middle. cbn [mbind result_bind].
      rewrite (IH (m ++ mr) done fuel); try done.
      * by rewrite <- app_assoc.
      * simpl in Hfuel. lia.
      * rewrite count_true_app. lia.
    + replace (len done + 1) with (len (done ++ [Z.of_nat (count_true mr)]))
        by (unfold len; rewrite length_app; simpl; lia).
      replace (sumZ done + Z.of_nat (count_true mr))
        with (sumZ (done ++ [Z.of_nat (count_true mr)]))
        by (rewrite sumZ_app; simpl; lia).
      replace (done ++ Z.of_nat (count_true mr) :: rest)
        with ((done ++ [Z.of_nat (count_true mr)]) ++ rest)
        by (by rewrite <- app_assoc).
      rewrite (IH (m ++ mr) (done ++ [Z.of_nat (count_true mr)]) fuel);
        try done.
      * by rewrite <- !app_assoc.
      * simpl in Hfuel. lia.
      * rewrite sumZ_app, count_true_app. simpl. lia.
Qed.
End Scan.

Lemma partly_compacted_all {A} m (l : list A) :
  length l = length m -> partly_compacted m l = select m l.
Proof.
  intros Hl. unfold partly_compacted.
  by rewrite <- Hl, drop_all, app_nil_r.
Qed.

Lemma sumZ_block_counts mask blocks :
  Forall (fun b => 0 <= b) blocks ->
  length mask = Z.to_nat (sumZ blocks) ->
  sumZ (block_counts mask blocks) = Z.of_nat (count_true mask).
Proof.
  intros Hpos. revert mask.
  induction Hpos as [|b rest Hb Hrest IH]; intros mask Hlen; simpl in *.
  - by destruct mask.
  - assert (0 <= sumZ rest) by (clear -Hrest; induction Hrest; simpl; lia).
    rewrite IH by (rewrite length_drop; lia).
    rewrite <- (take_drop (Z.to_nat b) mask) at 3.
    rewrite count_true_app. lia.
Qed.

Lemma sumZ_filter_nonzero (l : list Z) :
  sumZ (filter (fun c => c <> 0) l) = sumZ l.
Proof.
  induction l as [|x l IH]; [done|].
  destruct (decide (x <> 0)) as [Hx|Hx].
  - rewrite filter_cons_True by done. simpl. lia.
  - rewrite filter_cons_False by done. simpl. lia.
Qed.

Lemma block_counts_nonneg mask blocks :
  Forall (fun c => 0 <= c) (block_counts mask blocks).
Proof.
  revert mask. induction blocks as [|b rest IH]; intros mask; simpl;
    constructor; [lia|apply IH].
Qed.

Lemma compacted_blocks_positive mask blocks :
  positive_blocks (compacted_blocks mask blocks).
Proof.
  unfold compacted_blocks, positive_blocks.
  apply Forall_forall. intros c Hc.
  apply list_elem_of_filter in Hc as [Hne Hin].
  pose proof (block_counts_nonneg mask blocks) as Hnn.
  rewrite Forall_forall in Hnn. specialize (Hnn c Hin). lia.
Qed.
End RemoveNullLinesProofs.

(** C8.  For blocks with non-negative entries (in particular for every
    partition) and sequences that all have [n = sum(blocks)] rows,
    [removeNullLines] returns normally.  A row is kept exactly when at least
    one sequence holds a line there ([keep_mask]); every sequence loses
    exactly the other rows, i.e. those where all sequences hold [None]
    ([select]); every block shrinks by the number of its deleted rows and a
    block left with no row is removed ([compacted_blocks]).  Afterwards no
    block is zero and [sum(blocks)] is the length of every sequence. *)
Theorem removeNullLines_spec {L : Type} (blocks : list Z)
    (lines_set : list (rows L)) (n : nat) :
  Forall (fun b => 0 <= b) blocks ->
  sumZ blocks = Z.of_nat n ->
  Forall (fun lines => length lines = n) lines_set ->
  let mask := keep_mask lines_set n in
  removeNullLines blocks lines_set
    = Ok (compacted_blocks mask blocks, fmap (select mask) lines_set) /\
  (forall k, (k < n)%nat ->
     mask !! k = Some true <->
     exists lines x, lines ∈ lines_set /\ lines !! k = Some (Some x)) /\
  (forall k, (k < n)%nat -> exists keep, mask !! k = Some keep) /\
  positive_blocks (compacted_blocks mask blocks) /\
  Forall (fun lines' => len lines' = sumZ (compacted_blocks mask blocks))
         (fmap (select mask) lines_set).
Proof.
  intros Hpos Hsum Hlen mask.
  assert (Hmask : length mask = n)
    by (unfold mask, keep_mask; by rewrite length_fmap, length_seq).
  split; [|split; [|split; [|split]]].
  - unfold removeNullLines.
    assert (Hid : fmap (partly_compacted []) lines_set = lines_set).
    { clear. induction lines_set as [|l ls IH]; csimpl; [done|]. by rewrite IH. }
    transitivity (removeNullLines_outer (length blocks) ([] ++ blocks)
                    (fmap (partly_compacted []) lines_set)
                    (len (@nil Z)) (sumZ []) (Z.of_nat (count_true []))).
    { by rewrite Hid. }
    rewrite removeNullLines_outer_scan; [|done|lia|done|].
    2:{ rewrite Hsum, Nat2Z.id. done. }
    rewrite Hsum, Nat2Z.id. simpl.
    change (scan_mask lines_set [] n) with mask.
    f_equal. f_equal.
    apply Forall_fmap_ext. eapply Forall_impl; [exact Hlen|].
    simpl. intros l Hl. apply partly_compacted_all. lia.
  - intros k Hk. unfold mask, keep_mask.
    rewrite list_lookup_fmap, lookup_seq_lt by done. simpl.
    unfold row_has_line. split.
    + intros [= Hex]. apply existsb_exists in Hex as (lines & Hin & Hrow).
      destruct (lines !! k) as [[x|]|] eqn:Hx; try done.
      exists lines, x. split; [by apply list_elem_of_In|done].
    + intros (lines & x & Hin & Hx). f_equal.
      apply existsb_exists. exists lines. split; [by apply list_elem_of_In|].
      by rewrite Hx.
  - intros k Hk. apply lookup_lt_is_Some_2. lia.
  - apply compacted_blocks_positive.
  - apply Forall_forall. intros l' Hl'.
    apply list_elem_of_fmap in Hl' as (l & -> & Hl).
    rewrite Forall_forall in Hlen. specialize (Hlen l Hl).
    unfold len. rewrite length_select by lia.
    unfold compacted_blocks.
    rewrite sumZ_filter_nonzero, sumZ_block_counts; [done|done|lia].
Qed.

Lemma removeNullLines_spec_witness :
  let blocks := [2; 1] in
  let lines_set := [[Some 1%nat; None; None]; [None; None; Some 2%nat]] in
  let mask := keep_mask lines_set 3 in
  removeNullLines blocks lines_set
    = Ok (compacted_blocks mask blocks, fmap (select mask) lines_set) /\
  (forall k, (k < 3)%nat ->
     mask !! k = Some true <->
     exists lines x, lines ∈ lines_set /\ lines !! k = Some (Some x)) /\
  (forall k, (k < 3)%nat -> exists keep, mask !! k = Some keep) /\
  positive_blocks (compacted_blocks mask blocks) /\
  Forall (fun lines' => len lines' = sumZ (compacted_blocks mask blocks))
         (fmap (select mask) lines_set).
Proof.
  apply (removeNullLines_spec [2; 1]
           [[Some 1%nat; None; None]; [None; None; Some 2%nat]] 3).
  - repeat constructor; lia.
  - reflexivity.
  - repeat constructor.
Defined.

(** ** The matcher on popular keys *)

(** C1 (failing input).  On [popular_a] and [popular_b] no key is unique to
    both files, so the difflib-style fallback runs with [q] popular.  Its
    popular branch tests [b[bi + 1]] but records the extended run under
    [bi]; the run that started at [(0, 0)] is extended three times without
    moving in [b], and [patience_diff] returns the block [(0, -3, 4)]:
    [a[0:4]] is the whole of [a] while [b[-3:1]] is empty. *)
Theorem patience_diff_popular_defect :
  patience_diff popular_a popular_b = Ok [(0, -3, 4); (4, 201, 0)] /\
  lcs_approx popular_a popular_b = Ok (Some (0, -3, 4)) /\
  py_slice popular_a 0 (0 + 4) = popular_a /\
  py_slice popular_b (-3) (-3 + 4) = [] /\
  ~ block_slices_equal popular_a popular_b (0, -3, 4) /\
  ~ valid_matching popular_a popular_b [(0, -3, 4); (4, 201, 0)].
Proof.
  assert (Hne : ~ block_slices_equal popular_a popular_b (0, -3, 4))
    by (vm_compute; discriminate).
  do 4 (split; [vm_compute; reflexivity|]).
  split; [exact Hne|].
  intros (_ & _ & Hall). inversion Hall; subst. done.
Qed.

(** C4 (failing input).  Aligning the two files above: the matcher reports
    the block [(0, -3, 4)], whose last pair is line 3 of [a] and line 0 of
    [b]; after [alignBlocks] the former sits at row 3 and the latter at
    row 0.  Both sides do end with the same length, 201 rows. *)
Theorem alignBlocks_popular_defect :
  let s1 := file_lines 0 popular_a in
  let s2 := file_lines 1000 popular_b in
  alignBlocks snd [4] [Some <$> s1] [201] [Some <$> s2]
    = Ok ([201], [popular_left], [201], [popular_right]) /\
  length popular_left = 201%nat /\ length popular_right = 201%nat /\
  patience_diff (snd <$> s1) (snd <$> s2) = Ok [(0, -3, 4); (4, 201, 0)] /\
  py_get s1 (0 + 3) = Ok (3%nat, "q"%string) /\
  py_get s2 (-3 + 3) = Ok (1000%nat, "p"%string) /\
  row_of (3%nat, "q"%string) popular_left = Some 3%nat /\
  row_of (1000%nat, "p"%string) popular_right = Some 0%nat /\
  ~ matched_lines_share_rows [(0, -3, 4); (4, 201, 0)] s1 s2
      popular_left popular_right.
Proof.
  intros s1 s2.
  assert (Hl : row_of (3%nat, "q"%string) popular_left = Some 3%nat)
    by (vm_compute; reflexivity).
  assert (Hr : row_of (1000%nat, "p"%string) popular_right = Some 0%nat)
    by (vm_compute; reflexivity).
  do 8 (split; [vm_compute; reflexivity|]).
  intros Hshare.
  specialize (Hshare 0 (-3) 4 3 (3%nat, "q"%string) (1000%nat, "p"%string)).
  rewrite Hl, Hr in Hshare.
  discriminate Hshare; [apply list_elem_of_here|lia| |]; vm_compute; reflexivity.
Qed.

(** ** The undo log: transactions *)

Lemma bind_Ok {A B} (m : result A) (k : A -> result B) (b : B) :
  m ≫= k = Ok b -> exists a, m = Ok a /\ k a = Ok b.
Proof. destruct m as [a|e]; [by exists a|discriminate]. Qed.

(** Splits a hypothesis [x ← m; k = Ok _] into its two halves. *)
Ltac bind_inv H :=
  let a := fresh "a" in
  let Ha := fresh "Ha" in
  apply bind_Ok in H as (a & Ha & H).

Lemma py_pop_snoc {A} (l : list A) (x : A) : py_pop (l ++ [x]) = Ok (l, x).
Proof. unfold py_pop. by rewrite reverse_snoc, reverse_involutive. Qed.

Lemma py_pop_Ok {A} (l l' : list A) (x : A) :
  py_pop l = Ok (l', x) -> l = l' ++ [x].
Proof.
  unfold py_pop. destruct (reverse l) as [|y rest] eqn:Hr; [discriminate|].
  intros [= <- <-]. apply (f_equal reverse) in Hr.
  by rewrite reverse_involutive, reverse_cons in Hr.
Qed.

(** C9.  Closing a transaction: whatever records [block] the open
    transaction holds, [closeUndoBlock] returns normally and leaves no
    transaction open.  An empty transaction is discarded: the undo stack
    (and the redo stack) are unchanged.  A transaction with at least one
    record is pushed onto the undo stack and the redo stack is cleared.
    Panes and partition are not touched. *)
Theorem closeUndoBlock_spec (v : Viewer) (block : list Undo) :
  undoblock v = Some block ->
  exists v',
    closeUndoBlock v = Ok v' /\
    undoblock v' = None /\
    (block = [] -> undos v' = undos v /\ redos v' = redos v) /\
    (block <> [] -> undos v' = undos v ++ [block] /\ redos v' = []) /\
    panes v' = panes v /\ blocks v' = blocks v.
Proof.
  intros Hopen. unfold closeUndoBlock. rewrite Hopen.
  eexists. split; [reflexivity|].
  destruct block as [|u block]; simpl; repeat split; try done.
  all: unfold len; simpl length;
    destruct (Z.ltb_spec 0 (Z.of_nat (S (length block)))); [done|lia].
Qed.

Lemma closeUndoBlock_spec_witness :
  let v := mkViewer [mkPane [] 0 0 0; mkPane [] 0 0 0] [] [] [[AlignmentChangeUndo true]]
                    (Some [UpdateBlocksUndo [] [1]]) LINE_MODE 1 0 0 0 0 (-1) in
  exists v',
    closeUndoBlock v = Ok v' /\
    undoblock v' = None /\
    ([UpdateBlocksUndo [] [1]] = [] -> undos v' = undos v /\ redos v' = redos v) /\
    ([UpdateBlocksUndo [] [1]] <> [] ->
       undos v' = undos v ++ [[UpdateBlocksUndo [] [1]]] /\ redos v' = []) /\
    panes v' = panes v /\ blocks v' = blocks v.
Proof.
  intros v. apply (closeUndoBlock_spec v [UpdateBlocksUndo [] [1]]). reflexivity.
Defined.

(** ** The undo log: what applying a record leaves alone *)

Lemma same_log_refl v : same_log v v.
Proof. done. Qed.

Lemma same_log_trans v1 v2 v3 : same_log v1 v2 -> same_log v2 v3 -> same_log v1 v3.
Proof. intros (? & ? & ?) (? & ? & ?). repeat split; congruence. Qed.

Lemma record_undo_closed u v : undoblock v = None -> record_undo u v = Ok v.
Proof. unfold record_undo. by intros ->. Qed.

Lemma with_pane_same_log f upd v v' :
  with_pane f upd v = Ok v' -> same_log v v'.
Proof.
  unfold with_pane. intros H.
  bind_inv H. bind_inv H. bind_inv H. by injection H as <-.
Qed.

Lemma setEditMode_same_log m cp cl cc sl sc col v v' :
  setEditMode m cp cl cc sl sc col v = Ok v' -> same_log v v'.
Proof.
  unfold setEditMode, setCurrentChar, setCurrentLine. intros H.
  destruct (decide (m = CHAR_MODE)).
  - bind_inv H. by injection H as <-.
  - bind_inv H. by injection H as <-.
Qed.

Lemma swapPanes_same_log f_dst f_src v v' :
  undoblock v = None -> swapPanes f_dst f_src v = Ok v' -> same_log v v'.
Proof.
  intros Hc. unfold swapPanes. rewrite record_undo_closed by done.
  intros H. simpl in H. do 4 bind_inv H. by injection H as <-.
Qed.

Lemma undo_record_same_log u v v' :
  undoblock v = None -> undo_record v u = Ok v' -> same_log v v'.
Proof.
  intros Hc H. destruct u; simpl in H;
    unfold setFormat, instanceLine, updateLineText, insertNull,
      invalidateLineMatching, alignmentChange, updateBlocks, replaceLines in H;
    rewrite ?record_undo_closed in H by done; simpl in H.
  - bind_inv H. rewrite record_undo_closed in H by done.
    by apply with_pane_same_log in H.
  - by apply with_pane_same_log in H.
  - do 2 bind_inv H. destruct a0; [|discriminate].
    rewrite record_undo_closed in H by done. by apply with_pane_same_log in H.
  - by apply with_pane_same_log in H.
  - by injection H as <-.
  - by injection H as <-.
  - by injection H as <-.
  - by apply with_pane_same_log in H.
  - by apply setEditMode_same_log in H.
  - by apply swapPanes_same_log in H.
Qed.

Lemma redo_record_same_log u v v' :
  undoblock v = None -> redo_record v u = Ok v' -> same_log v v'.
Proof.
  intros Hc H. destruct u; simpl in H;
    unfold setFormat, instanceLine, updateLineText, insertNull,
      invalidateLineMatching, alignmentChange, updateBlocks, replaceLines in H;
    rewrite ?record_undo_closed in H by done; simpl in H.
  - bind_inv H. rewrite record_undo_closed in H by done.
    by apply with_pane_same_log in H.
  - by apply with_pane_same_log in H.
  - do 2 bind_inv H. destruct a0; [|discriminate].
    rewrite record_undo_closed in H by done. by apply with_pane_same_log in H.
  - by apply with_pane_same_log in H.
  - by injection H as <-.
  - by injection H as <-.
  - by injection H as <-.
  - by apply with_pane_same_log in H.
  - by apply setEditMode_same_log in H.
  - by apply swapPanes_same_log in H.
Qed.

Lemma for_each_same_log (step : Viewer -> Undo -> result Viewer) block :
  (forall u v v', undoblock v = None -> step v u = Ok v' -> same_log v v') ->
  forall v v', undoblock v = None -> for_each block step v = Ok v' -> same_log v v'.
Proof.
  intros Hstep. induction block as [|u block IH]; intros v v' Hc H; simpl in H.
  - by injection H as <-.
  - bind_inv H. pose proof (Hstep _ _ _ Hc Ha) as Hl.
    eapply same_log_trans; [exact Hl|].
    apply IH; [|done]. destruct Hl as (-> & _). done.
Qed.

Lemma edit_mode_dec m :
  m <> ALIGN_MODE -> exists H, decide (m = LINE_MODE \/ m = CHAR_MODE) = left H.
Proof.
  intros Hm. destruct (decide (m = LINE_MODE \/ m = CHAR_MODE)) as [H|H].
  - by exists H.
  - destruct m; [destruct H; by left|destruct H; by right|done].
Qed.

Lemma len_snoc_pos {A} (l : list A) (x : A) : (0 <? len (l ++ [x])) = true.
Proof. apply Z.ltb_lt. unfold len. rewrite length_app. cbn [length]. lia. Qed.

(** The states of a loop whose turns leave the log alone when no
    transaction is open: none of them has an open transaction. *)
Lemma loop_states_closed (step : Viewer -> Undo -> result Viewer) block :
  (forall u v v', undoblock v = None -> step v u = Ok v' -> same_log v v') ->
  forall v w, undoblock v = None -> for_each block step v = Ok w ->
  exists sts, loop_states block step v = Ok sts /\ last sts = Some w /\
              Forall (fun s => undoblock s = None) sts.
Proof.
  intros Hstep. induction block as [|u block IH]; intros v w Hc H;
    cbn [for_each loop_states] in *.
  - injection H as <-. exists [v]. split; [done|]. split; [done|].
    by apply Forall_singleton.
  - bind_inv H. rewrite Ha. cbn [mbind result_bind].
    destruct (Hstep _ _ _ Hc Ha) as (Hb & _).
    destruct (IH a w) as (sts & -> & Hlast & Hall); [congruence|done|].
    cbn [mbind result_bind]. eexists. split; [reflexivity|]. split.
    + destruct sts as [|s sts]; [discriminate|]. done.
    + by constructor.
Qed.

Lemma set_undoblock_inj w1 w2 x :
  set_undoblock w1 x = set_undoblock w2 x -> undoblock w1 = undoblock w2 ->
  w1 = w2.
Proof. destruct w1, w2. cbn. intros [= -> -> -> -> -> -> -> -> -> -> ->] ->. done. Qed.

(** What [undo()] does between its two assignments to [self.undoblock]. *)
Lemma undo_eq v :
  undo v = (w ← undo_loop (set_undoblock v None); Ok (set_undoblock w (undoblock v))).
Proof. reflexivity. Qed.

Lemma redo_eq v :
  redo v = (w ← redo_loop (set_undoblock v None); Ok (set_undoblock w (undoblock v))).
Proof. reflexivity. Qed.

Lemma undo_loop_closed v v' :
  undo v = Ok v' ->
  exists w,
    undo_loop (take_undoblock v).1 = Ok w /\
    undoblock w = None /\
    v' = set_undoblock w (undoblock v) /\
    undos w ++ reverse (redos w) = undos v ++ reverse (redos v) /\
    forall us block,
      mode v <> ALIGN_MODE -> undos v = us ++ [block] ->
      exists sts,
        loop_states (reverse block) undo_record
          (set_stacks (take_undoblock v).1 us (redos v ++ [block])) = Ok sts /\
        last sts = Some w /\
        Forall (fun s => undoblock s = None) sts.
Proof.
  change (take_undoblock v).1 with (set_undoblock v None).
  intros H. rewrite undo_eq in H. bind_inv H. injection H as <-.
  exists a. split; [done|].
  assert (Hrun : forall us block,
            for_each (reverse block) undo_record
              (set_stacks (set_undoblock v None) us (redos v ++ [block])) = Ok a ->
            undoblock a = None /\ undos a = us /\ redos a = redos v ++ [block]).
  { intros us block Hf.
    apply for_each_same_log in Hf; [|apply undo_record_same_log|done].
    destruct Hf as (-> & -> & ->). done. }
  split; [|split; [done|split]].
  - unfold undo_loop in Ha.
    destruct (decide _) as [Hm|Hm]; [|by injection Ha as <-].
    destruct (0 <? len _); [|by injection Ha as <-].
    bind_inv Ha. destruct a0 as [us block]. by apply Hrun in Ha as (Hc & _).
  - unfold undo_loop in Ha.
    destruct (decide _) as [Hm|Hm]; [|by injection Ha as <-].
    destruct (0 <? len _); [|by injection Ha as <-].
    bind_inv Ha. destruct a0 as [us block].
    apply py_pop_Ok in Ha0. cbn in Ha0.
    apply Hrun in Ha as (_ & -> & ->).
    rewrite Ha0, reverse_app, <- app_assoc. done.
  - intros us block Hm Hu. unfold undo_loop in Ha.
    change (mode (set_undoblock v None)) with (mode v) in Ha.
    change (undos (set_undoblock v None)) with (undos v) in Ha.
    change (redos (set_undoblock v None)) with (redos v) in Ha.
    destruct (edit_mode_dec _ Hm) as [Hd Hdec]. rewrite Hdec in Ha.
    rewrite Hu, len_snoc_pos, py_pop_snoc in Ha. cbn [mbind result_bind] in Ha.
    eapply loop_states_closed; [apply undo_record_same_log|done|exact Ha].
Qed.

(** What [redo()] does between its two assignments to [self.undoblock]. *)
Lemma redo_loop_closed v v' :
  redo v = Ok v' ->
  exists w,
    redo_loop (take_undoblock v).1 = Ok w /\
    undoblock w = None /\
    v' = set_undoblock w (undoblock v) /\
    undos w ++ reverse (redos w) = undos v ++ reverse (redos v) /\
    forall rs block,
      mode v <> ALIGN_MODE -> redos v = rs ++ [block] ->
      exists sts,
        loop_states block redo_record
          (set_stacks (take_undoblock v).1 (undos v ++ [block]) rs) = Ok sts /\
        last sts = Some w /\
        Forall (fun s => undoblock s = None) sts.
Proof.
  change (take_undoblock v).1 with (set_undoblock v None).
  intros H. rewrite redo_eq in H. bind_inv H. injection H as <-.
  exists a. split; [done|].
  assert (Hrun : forall rs block,
            for_each block redo_record
              (set_stacks (set_undoblock v None) (undos v ++ [block]) rs) = Ok a ->
            undoblock a = None /\ undos a = undos v ++ [block] /\ redos a = rs).
  { intros rs block Hf.
    apply for_each_same_log in Hf; [|apply redo_record_same_log|done].
    destruct Hf as (-> & -> & ->). done. }
  split; [|split; [done|split]].
  - unfold redo_loop in Ha.
    destruct (decide _) as [Hm|Hm]; [|by injection Ha as <-].
    destruct (0 <? len _); [|by injection Ha as <-].
    bind_inv Ha. destruct a0 as [rs block]. by apply Hrun in Ha as (Hc & _).
  - unfold redo_loop in Ha.
    destruct (decide _) as [Hm|Hm]; [|by injection Ha as <-].
    destruct (0 <? len _); [|by injection Ha as <-].
    bind_inv Ha. destruct a0 as [rs block].
    apply py_pop_Ok in Ha0. cbn in Ha0.
    apply Hrun in Ha as (_ & -> & ->).
    rewrite Ha0, reverse_app, <- app_assoc. done.
  - intros rs block Hm Hr. unfold redo_loop in Ha.
    change (mode (set_undoblock v None)) with (mode v) in Ha.
    change (undos (set_undoblock v None)) with (undos v) in Ha.
    change (redos (set_undoblock v None)) with (redos v) in Ha.
    destruct (edit_mode_dec _ Hm) as [Hd Hdec]. rewrite Hdec in Ha.
    rewrite Hr, len_snoc_pos, py_pop_snoc in Ha. cbn [mbind result_bind] in Ha.
    eapply loop_states_closed; [apply redo_record_same_log|done|exact Ha].
Qed.

(** C10.  Whenever [undo()] or [redo()] returns, the statements between
    its two assignments to [self.undoblock] ([undo_loop], [redo_loop]),
    started in the state that the first assignment leaves
    ([take_undoblock]), end in a state [w] in which no transaction is
    open, and the call returns [w] with the transaction that was open on
    entry (or the absence of one) put back: the open transaction on exit
    is the one of entry with exactly the records it had.  Nothing that the
    call did was recorded, into it or anywhere else, because no state of
    the loop has an open transaction to record into: when there is a
    transaction to pop, [sts] are the states before the first record is
    applied and after each record is applied, the last of them is [w],
    and [self.undoblock] is [None] in every one of them, which is when
    the primitives leave [addUndo] out.  The two stacks hold the same
    transactions as before, the popped one having moved from one stack to
    the other. *)
Theorem undo_redo_keep_open_block (v v' : Viewer) :
  undo v = Ok v' \/ redo v = Ok v' ->
  exists w,
    undoblock w = None /\
    v' = set_undoblock w (undoblock v) /\
    undoblock v' = undoblock v /\
    undos v' ++ reverse (redos v') = undos v ++ reverse (redos v) /\
    (undo v = Ok v' ->
       undo_loop (take_undoblock v).1 = Ok w /\
       forall us block,
         mode v <> ALIGN_MODE -> undos v = us ++ [block] ->
         exists sts,
           loop_states (reverse block) undo_record
             (set_stacks (take_undoblock v).1 us (redos v ++ [block])) = Ok sts /\
           last sts = Some w /\
           Forall (fun s => undoblock s = None) sts) /\
    (redo v = Ok v' ->
       redo_loop (take_undoblock v).1 = Ok w /\
       forall rs block,
         mode v <> ALIGN_MODE -> redos v = rs ++ [block] ->
         exists sts,
           loop_states block redo_record
             (set_stacks (take_undoblock v).1 (undos v ++ [block]) rs) = Ok sts /\
           last sts = Some w /\
           Forall (fun s => undoblock s = None) sts).
Proof.
  intros H.
  assert (Hw : exists w, undoblock w = None /\ v' = set_undoblock w (undoblock v) /\
                         undos w ++ reverse (redos w) = undos v ++ reverse (redos v)).
  { destruct H as [H|H].
    - destruct (undo_loop_closed _ _ H) as (w & _ & Hc & Hv & Hs & _). by exists w.
    - destruct (redo_loop_closed _ _ H) as (w & _ & Hc & Hv & Hs & _). by exists w. }
  destruct Hw as (w & Hc & Hv & Hs). exists w.
  split; [done|]. split; [done|]. split; [by rewrite Hv|].
  split; [by rewrite Hv|]. split.
  - intros Hu. destruct (undo_loop_closed _ _ Hu) as (w' & Hl & Hc' & Hv' & _ & Ht).
    assert (w' = w) as ->; [|done].
    apply (set_undoblock_inj _ _ (undoblock v)); congruence.
  - intros Hr. destruct (redo_loop_closed _ _ Hr) as (w' & Hl & Hc' & Hv' & _ & Ht).
    assert (w' = w) as ->; [|done].
    apply (set_undoblock_inj _ _ (undoblock v)); congruence.
Qed.

Lemma undo_redo_keep_open_block_witness :
  let v := mkViewer [mkPane [None] 0 0 0; mkPane [None] 0 0 0] [1]
                    [[InsertNullUndo 0 0 false; UpdateBlocksUndo [] [1]]] []
                    (Some [AlignmentChangeUndo false]) LINE_MODE 1 0 0 0 0 (-1) in
  let v' := mkViewer [mkPane [] 0 0 0; mkPane [None] 0 0 0] []
                    [] [[InsertNullUndo 0 0 false; UpdateBlocksUndo [] [1]]]
                    (Some [AlignmentChangeUndo false]) LINE_MODE 1 0 0 0 0 (-1) in
  (undo v = Ok v' \/ redo v = Ok v') /\
  exists w,
    undoblock w = None /\
    v' = set_undoblock w (undoblock v) /\
    undoblock v' = undoblock v /\
    undos v' ++ reverse (redos v') = undos v ++ reverse (redos v) /\
    (undo v = Ok v' ->
       undo_loop (take_undoblock v).1 = Ok w /\
       forall us block,
         mode v <> ALIGN_MODE -> undos v = us ++ [block] ->
         exists sts,
           loop_states (reverse block) undo_record
             (set_stacks (take_undoblock v).1 us (redos v ++ [block])) = Ok sts /\
           last sts = Some w /\
           Forall (fun s => undoblock s = None) sts) /\
    (redo v = Ok v' ->
       redo_loop (take_undoblock v).1 = Ok w /\
       forall rs block,
         mode v <> ALIGN_MODE -> redos v = rs ++ [block] ->
         exists sts,
           loop_states block redo_record
             (set_stacks (take_undoblock v).1 (undos v ++ [block]) rs) = Ok sts /\
           last sts = Some w /\
           Forall (fun s => undoblock s = None) sts).
Proof.
  intros v v'.
  assert (H : undo v = Ok v' \/ redo v = Ok v') by (left; reflexivity).
  split; [exact H|].
  exact (undo_redo_keep_open_block v v' H).
Defined.

(** ** The matcher on sequences without a common key *)

Section MatcherDisjoint.
Context {K : Type} `{EqDecision K}.
Implicit Types (a b : list K).

Lemma dict_get_set_ne {V} (d : dict K V) (k k' : K) (v : V) :
  k <> k' -> dict_get (dict_set d k' v) k = dict_get d k.
Proof.
  intros Hne. induction d as [|[k0 v0] d IH]; simpl.
  - by destruct (decide (k = k')).
  - destruct (decide (k' = k0)) as [->|Hk0]; simpl.
    + by destruct (decide (k = k0)).
    + destruct (decide (k = k0)); [done|apply IH].
Qed.

Lemma dict_keys_get {V} (d : dict K V) (k : K) :
  k ∈ dict_keys d -> dict_get d k <> None.
Proof.
  unfold dict_keys. induction d as [|[k0 v0] d IH]; csimpl.
  - by intros ?%elem_of_nil.
  - intros [->|Hin]%elem_of_cons.
    + by destruct (decide (k0 = k0)).
    + destruct (decide (k = k0)); [done|by apply IH].
Qed.

Lemma unique_values_absent a s :
  s ∉ a -> dict_get (unique_values a) s = None.
Proof.
  unfold unique_values, enumerate.
  assert (Hgen : forall (d : dict K Z) i, dict_get d s = None -> s ∉ a ->
    dict_get (foldl (fun value '(i, s) =>
                       if dict_mem value s then dict_set value s (-1)
                       else dict_set value s i) d (enumerate_from i a)) s = None).
  { induction a as [|x a IH]; intros d i Hd Hs; simpl; [done|].
    apply not_elem_of_cons in Hs as [Hne Hs].
    apply IH; [|done].
    destruct (dict_mem d x); by rewrite dict_get_set_ne. }
  by apply Hgen.
Qed.

Lemma count_elements_absent a s :
  s ∉ a -> dict_get (count_elements a) s = None.
Proof.
  unfold count_elements.
  assert (Hgen : forall (d : dict K Z), dict_get d s = None -> s ∉ a ->
    dict_get (foldl (fun count1 s =>
                       dict_set count1 s (default 0 (dict_get count1 s) + 1))
                    d a) s = None).
  { induction a as [|x a IH]; intros d Hd Hs; simpl; [done|].
    apply not_elem_of_cons in Hs as [Hne Hs].
    apply IH; [|done]. by rewrite dict_get_set_ne. }
  by apply Hgen.
Qed.

Lemma build_lookup_absent b s :
  s ∉ b -> dict_get (build_lookup b) s = None.
Proof.
  unfold build_lookup, enumerate.
  assert (Hgen : forall (d : dict K (list Z)) i, dict_get d s = None -> s ∉ b ->
    dict_get (foldl (fun lookup '(i, s) =>
                       match dict_get lookup s with
                       | Some at_ => dict_set lookup s (at_ ++ [i])
                       | None => dict_set lookup s [i]
                       end) d (enumerate_from i b)) s = None).
  { induction b as [|x b IH]; intros d i Hd Hs; simpl; [done|].
    apply not_elem_of_cons in Hs as [Hne Hs].
    apply IH; [|done].
    destruct (dict_get d x); by rewrite dict_get_set_ne. }
  by apply Hgen.
Qed.

Lemma patience_steps_skip a (value_b : dict K Z) b st :
  (forall s, s ∈ b -> s ∉ a) ->
  for_each b (patience_step (unique_values a) value_b) st = Ok st.
Proof.
  induction b as [|s b IH]; intros Hdis; [done|]. cbn [for_each].
  assert (Hstep : patience_step (unique_values a) value_b st s = Ok st).
  { unfold patience_step. destruct st as [[pile pointers] atob].
    by rewrite unique_values_absent by (apply Hdis; left). }
  rewrite Hstep. cbn [mbind result_bind].
  apply IH. intros s' Hs'. apply Hdis. by right.
Qed.

Lemma patience_subsequence_disjoint a b :
  (forall s, s ∈ b -> s ∉ a) -> patience_subsequence a b = Ok [].
Proof.
  intros Hdis. unfold patience_subsequence.
  by rewrite patience_steps_skip.
Qed.

Lemma lcs_approx_disjoint a b :
  (forall s, s ∈ b -> s ∉ a) -> lcs_approx a b = Ok None.
Proof.
  intros Hdis. unfold lcs_approx.
  destruct (existsb _ _) eqn:Hex; [|done].
  apply existsb_exists in Hex as (k & Hk & Hmem).
  apply list_elem_of_In in Hk. apply dict_keys_get in Hk.
  destruct (decide (k ∈ b)) as [Hb|Hb].
  - unfold dict_mem in Hmem. by rewrite count_elements_absent in Hmem by auto.
  - by rewrite build_lookup_absent in Hk.
Qed.

Lemma py_slice_all {A} (l : list A) : py_slice l 0 (len l) = l.
Proof.
  unfold py_slice, py_clamp, py_norm, len. simpl.
  destruct (Z.ltb_spec (Z.of_nat (length l)) 0); [lia|].
  replace (Z.to_nat (Z.min (Z.max (Z.of_nat (length l)) 0) (Z.of_nat (length l))))
    with (length l) by lia.
  replace (Z.to_nat (Z.min (Z.max 0 0) (Z.of_nat (length l)))) with 0%nat by lia.
  rewrite Nat.sub_0_r. simpl. apply firstn_all.
Qed.

Lemma py_get_last {A} (l : list A) (x : A) :
  py_get (l ++ [x]) (len (l ++ [x]) - 1) = Ok x.
Proof.
  unfold len. rewrite length_app. simpl.
  replace (Z.of_nat (length l + 1) - 1) with (Z.of_nat (length l)) by lia.
  apply (py_get_app_middle l [] x).
Qed.

Lemma snoc_cases {A} (l : list A) : l = [] \/ exists l' x, l = l' ++ [x].
Proof.
  destruct l as [|y l] using rev_ind; [by left|right]. by exists l, y.
Qed.

(** Two sequences that share no key: only the sentinel comes back. *)
Lemma patience_diff_disjoint a b :
  (forall s, s ∈ b -> s ∉ a) ->
  patience_diff a b = Ok [(len a, len b, 0)].
Proof.
  intros Hdis. unfold patience_diff.
  match goal with |- ?m ≫= _ = _ => assert (Hseg : m = Ok []) end.
  { destruct (_ || _); [done|].
    replace (2 * length a + 2)%nat with (S (2 * length a + 1)) by lia.
    cbn [diff_segments]. unfold diff_segment.
    rewrite !py_slice_all, patience_subsequence_disjoint by done.
    cbn [mbind result_bind].
    rewrite lcs_approx_disjoint by done. cbn [mbind result_bind].
    by destruct (2 * length a + 1)%nat. }
  rewrite Hseg. cbn [mbind result_bind last].
  destruct a as [|a0 a']; [done|].
  destruct b as [|b0 b']; [simpl; by rewrite Z.ltb_irrefl|].
  assert (Hne0 : a0 <> b0).
  { intros ->. eapply Hdis; by left. }
  assert (Hpre : forall fuel,
    common_prefix fuel (a0 :: a') (b0 :: b') 0 (len (a0 :: a')) (len (b0 :: b'))
    = Ok 0).
  { intros fuel. unfold len. simpl length.
    destruct fuel; simpl;
      (destruct (Z.ltb_spec 0 (Z.of_nat (S (length a')))); [|lia]);
      (destruct (Z.ltb_spec 0 (Z.of_nat (S (length b')))); [|lia]);
      simpl; by rewrite bool_decide_eq_false_2. }
  rewrite Hpre. cbn [mbind result_bind]. change (0 =? 0) with true.
  cbv beta iota zeta. cbn [last]. cbv beta iota zeta.
  assert (Hsuf : forall fuel,
    common_suffix fuel (a0 :: a') (b0 :: b') 0 0 (len (a0 :: a')) (len (b0 :: b'))
    = Ok (len (a0 :: a'), len (b0 :: b'))).
  { intros fuel.
    destruct (snoc_cases (a0 :: a')) as [?|(al & ax & Hal)]; [done|].
    destruct (snoc_cases (b0 :: b')) as [?|(bl & bx & Hbl)]; [done|].
    assert (Hnex : ax <> bx).
    { intros ->. apply (Hdis bx); rewrite ?Hal, ?Hbl; apply elem_of_app; right;
        by left. }
    rewrite Hal, Hbl.
    assert (Ha : (0 <? len (al ++ [ax])) = true)
      by (apply Z.ltb_lt; unfold len; rewrite length_app; simpl; lia).
    assert (Hb : (0 <? len (bl ++ [bx])) = true)
      by (apply Z.ltb_lt; unfold len; rewrite length_app; simpl; lia).
    destruct fuel; simpl; rewrite Ha, Hb, !py_get_last; simpl;
      by rewrite bool_decide_eq_false_2. }
  rewrite Hsuf. cbn [mbind result_bind].
  by rewrite Z.ltb_irrefl.
Qed.
End MatcherDisjoint.

(** ** Aligning two panes without a common key *)

Section AlignDisjoint.
Context {L K : Type} `{EqDecision L} `{EqDecision K}.
Variable alignmentHash : L -> K.
Implicit Types (a b : list L) (l : rows L).

Lemma length_padded l n : length (padded l n) = (length l `max` n)%nat.
Proof. unfold padded. rewrite length_app, length_replicate. lia. Qed.

Lemma padded_small l n : (n <= length l)%nat -> padded l n = l.
Proof.
  intros Hn. unfold padded.
  replace (n - length l)%nat with 0%nat by lia. apply app_nil_r.
Qed.

Lemma padded_S l n :
  (length l <= n)%nat -> padded l (S n) = padded l n ++ [None].
Proof.
  intros Hn. unfold padded.
  replace (S n - length l)%nat with (S (n - length l)) by lia.
  by rewrite replicate_S_end, app_assoc.
Qed.

Lemma py_insert_end {A} (l : list A) (x : A) : py_insert l (len l) x = l ++ [x].
Proof.
  unfold py_insert, py_clamp, py_norm, len.
  destruct (Z.ltb_spec (Z.of_nat (length l)) 0); [lia|].
  replace (Z.to_nat (Z.min (Z.max (Z.of_nat (length l)) 0) (Z.of_nat (length l))))
    with (length l) by lia.
  by rewrite firstn_all, drop_all.
Qed.

Lemma py_splice_end {A} (l xs : list A) : py_splice l (len l) xs = l ++ xs.
Proof.
  unfold py_splice, py_clamp, py_norm, len.
  destruct (Z.ltb_spec (Z.of_nat (length l)) 0); [lia|].
  replace (Z.to_nat (Z.min (Z.max (Z.of_nat (length l)) 0) (Z.of_nat (length l))))
    with (length l) by lia.
  by rewrite firstn_all, drop_all, app_nil_r.
Qed.

Lemma real_lines_Some a : real_lines (Some <$> a) = a.
Proof.
  unfold real_lines. induction a as [|x a IH]; csimpl; [done|]. by rewrite IH.
Qed.

Lemma py_get_padded a n (i : nat) x :
  a !! i = Some x -> py_get (padded (Some <$> a) n) (Z.of_nat i) = Ok (Some x).
Proof.
  intros Hx. rewrite py_get_nat. unfold padded.
  rewrite lookup_app_l by (rewrite length_fmap; by eapply lookup_lt_Some).
  by rewrite list_lookup_fmap, Hx.
Qed.

Lemma grow_block_single (i : nat) :
  grow_block (createBlock (Z.of_nat i)) (Z.of_nat i)
  = Ok (createBlock (Z.of_nat (S i))).
Proof.
  unfold grow_block, createBlock.
  destruct (Z.ltb_spec 0 (Z.of_nat (S i))); [|lia].
  destruct (Z.ltb_spec 0 (Z.of_nat i)) as [Hi|Hi].
  - simpl. destruct (Z.ltb_spec (0 + Z.of_nat i) (Z.of_nat i)); [lia|].
    simpl. rewrite (py_set_nat [Z.of_nat i] 0) by (simpl; lia).
    simpl. do 2 f_equal. lia.
  - replace i with 0%nat by lia. reflexivity.
Qed.

Lemma insert_spacer_padded l (i : nat) :
  (length l <= i)%nat ->
  insert_spacer (grown_block (length l) i) [padded l i] (Z.of_nat i)
  = Ok (grown_block (length l) (S i), [padded l (S i)]).
Proof.
  intros Hi. unfold insert_spacer, grown_block. csimpl.
  replace (length l `max` i)%nat with i by lia.
  replace (length l `max` S i)%nat with (S i) by lia.
  rewrite grow_block_single. cbn [mbind result_bind].
  replace (Z.of_nat i) with (len (padded l i))
    by (unfold len; rewrite length_padded; lia).
  by rewrite py_insert_end, padded_S.
Qed.

Lemma py_get_single_last {A} (x : A) : py_get [x] (-1) = Ok x.
Proof. reflexivity. Qed.

Lemma py_get_single_first {A} (x : A) : py_get [x] 0 = Ok x.
Proof. reflexivity. Qed.

(** One iteration at a row where both inner sequences hold the expected
    lines: the pair is accepted and nothing is inserted. *)
Lemma align_rows_step_pair fuel (m0 m1 left right : rows L) nmatch
    leftblocks rightblocks (i : nat) x y :
  left !! i = Some (Some x) -> right !! i = Some (Some y) ->
  m0 !! i = Some (Some x) -> m1 !! i = Some (Some y) ->
  Z.of_nat i < nmatch ->
  align_rows (S fuel) m0 m1 nmatch leftblocks [left] rightblocks [right]
             (Z.of_nat i) (Z.of_nat i)
  = align_rows fuel m0 m1 nmatch leftblocks [left] rightblocks [right]
               (Z.of_nat (S i)) (Z.of_nat (S i)).
Proof.
  intros Hl Hr Hm0 Hm1 Hn. cbn [align_rows].
  rewrite py_get_single_last, py_get_single_first. cbn [mbind result_bind].
  pose proof (lookup_lt_Some _ _ _ Hl). pose proof (lookup_lt_Some _ _ _ Hr).
  unfold len.
  unfold choose_inserts, len.
  destruct (Z.leb_spec (Z.of_nat (length left)) (Z.of_nat i)); [lia|].
  destruct (Z.leb_spec (Z.of_nat (length right)) (Z.of_nat i)); [lia|].
  destruct (Z.ltb_spec (Z.of_nat i) nmatch); [|lia].
  cbn [andb negb].
  rewrite !py_get_nat, Hl, Hr, Hm0, Hm1. cbn [mbind result_bind].
  unfold expect_entry, same_entry. rewrite !bool_decide_eq_true_2 by done.
  cbn [mbind result_bind].
  by replace (Z.of_nat i + 1) with (Z.of_nat (S i)) by lia.
Qed.

(** One iteration at a row below the end of the left inner sequence while
    the right one still has rows: a spacer goes in on the left. *)
Lemma align_rows_step_left fuel (m0 m1 l right : rows L) nmatch
    rightblocks (i : nat) k :
  (length l <= i < length right)%nat ->
  align_rows (S fuel) m0 m1 nmatch (grown_block (length l) i) [padded l i]
             rightblocks [right] (Z.of_nat i) k
  = align_rows fuel m0 m1 nmatch (grown_block (length l) (S i)) [padded l (S i)]
               rightblocks [right] (Z.of_nat (S i)) k.
Proof.
  intros Hi. cbn [align_rows].
  rewrite py_get_single_last, py_get_single_first. cbn [mbind result_bind].
  unfold choose_inserts, len. rewrite length_padded.
  destruct (Z.leb_spec (Z.of_nat (length l `max` i)) (Z.of_nat i)); [|lia].
  destruct (Z.leb_spec (Z.of_nat (length right)) (Z.of_nat i)); [lia|].
  cbn [andb negb mbind result_bind].
  rewrite insert_spacer_padded by lia. cbn [mbind result_bind].
  by replace (Z.of_nat i + 1) with (Z.of_nat (S i)) by lia.
Qed.

Lemma align_rows_step_right fuel (m0 m1 left l : rows L) nmatch
    leftblocks (i : nat) k :
  (length l <= i < length left)%nat ->
  align_rows (S fuel) m0 m1 nmatch leftblocks [left]
             (grown_block (length l) i) [padded l i] (Z.of_nat i) k
  = align_rows fuel m0 m1 nmatch leftblocks [left]
               (grown_block (length l) (S i)) [padded l (S i)] (Z.of_nat (S i)) k.
Proof.
  intros Hi. cbn [align_rows].
  rewrite py_get_single_last, py_get_single_first. cbn [mbind result_bind].
  unfold choose_inserts, len. rewrite length_padded.
  destruct (Z.leb_spec (Z.of_nat (length left)) (Z.of_nat i)); [lia|].
  destruct (Z.leb_spec (Z.of_nat (length l `max` i)) (Z.of_nat i)); [|lia].
  cbn [andb negb mbind result_bind].
  rewrite insert_spacer_padded by lia. cbn [mbind result_bind].
  by replace (Z.of_nat i + 1) with (Z.of_nat (S i)) by lia.
Qed.

(** The last test of the loop: both inner sequences end at row [i]. *)
Lemma align_rows_done fuel (m0 m1 left right : rows L) nmatch
    leftblocks rightblocks (i : nat) k :
  length left = i -> length right = i ->
  align_rows fuel m0 m1 nmatch leftblocks [left] rightblocks [right]
             (Z.of_nat i) k
  = Ok (leftblocks, [left], rightblocks, [right]).
Proof.
  intros Hl Hr.
  destruct fuel; cbn [align_rows];
    rewrite py_get_single_last, py_get_single_first; cbn [mbind result_bind];
    unfold len; rewrite Hl, Hr, Z.leb_refl; done.
Qed.

(** When the expected pairs are the two sequences laid side by side from
    the top, the loop pads the shorter pane and nothing else. *)
Lemma align_rows_side_by_side a b (r : nat) :
  forall (i fuel : nat),
    let n := (length a `max` length b)%nat in
    (i + r = n)%nat -> (r <= fuel)%nat ->
    align_rows fuel (padded (Some <$> a) n) (padded (Some <$> b) n) (Z.of_nat n)
      (grown_block (length a) i) [padded (Some <$> a) i]
      (grown_block (length b) i) [padded (Some <$> b) i]
      (Z.of_nat i) (Z.of_nat (i `min` (length a `min` length b)))
    = Ok (grown_block (length a) n, [padded (Some <$> a) n],
          grown_block (length b) n, [padded (Some <$> b) n]).
Proof.
  induction r as [|r IH]; intros i fuel n Hi Hfuel.
  - replace i with n by lia.
    apply align_rows_done; rewrite length_padded, length_fmap; lia.
  - destruct fuel as [|fuel]; [lia|].
    destruct (le_lt_dec (length a) i) as [Ha|Ha];
      destruct (le_lt_dec (length b) i) as [Hb|Hb]; [lia| | |].
    + (* the left pane has ended *)
      pose proof (align_rows_step_left fuel
        (padded (Some <$> a) n) (padded (Some <$> b) n)
        (Some <$> a) (padded (Some <$> b) i) (Z.of_nat n)
        (grown_block (length b) i) i
        (Z.of_nat (i `min` (length a `min` length b)))) as Hstep.
      rewrite length_fmap, length_padded, length_fmap in Hstep.
      rewrite Hstep by lia. clear Hstep.
      replace (i `min` (length a `min` length b))%nat
        with (S i `min` (length a `min` length b))%nat by lia.
      rewrite (padded_small (Some <$> b) i) by (rewrite length_fmap; lia).
      rewrite <- (padded_small (Some <$> b) (S i)) at 2
        by (rewrite length_fmap; lia).
      unfold grown_block at 2.
      replace (length b `max` i)%nat with (length b `max` S i)%nat by lia.
      apply (IH (S i) fuel); lia.
    + (* the right pane has ended *)
      pose proof (align_rows_step_right fuel
        (padded (Some <$> a) n) (padded (Some <$> b) n)
        (padded (Some <$> a) i) (Some <$> b) (Z.of_nat n)
        (grown_block (length a) i) i
        (Z.of_nat (i `min` (length a `min` length b)))) as Hstep.
      rewrite length_fmap, length_padded, length_fmap in Hstep.
      rewrite Hstep by lia. clear Hstep.
      replace (i `min` (length a `min` length b))%nat
        with (S i `min` (length a `min` length b))%nat by lia.
      rewrite (padded_small (Some <$> a) i) by (rewrite length_fmap; lia).
      rewrite <- (padded_small (Some <$> a) (S i)) at 2
        by (rewrite length_fmap; lia).
      unfold grown_block at 1.
      replace (length a `max` i)%nat with (length a `max` S i)%nat by lia.
      apply (IH (S i) fuel); lia.
    + (* both panes hold a line *)
      destruct (lookup_lt_is_Some_2 a i Ha) as [x Hx].
      destruct (lookup_lt_is_Some_2 b i Hb) as [y Hy].
      replace (i `min` (length a `min` length b))%nat with i by lia.
      rewrite (padded_small (Some <$> a) i), (padded_small (Some <$> b) i)
        by (rewrite length_fmap; lia).
      rewrite (align_rows_step_pair fuel _ _ _ _ _ _ _ i x y).
      * rewrite <- (padded_small (Some <$> a) (S i)) at 2
          by (rewrite length_fmap; lia).
        rewrite <- (padded_small (Some <$> b) (S i)) at 2
          by (rewrite length_fmap; lia).
        unfold grown_block at 1 2.
        replace (length a `max` i)%nat with (length a `max` S i)%nat by lia.
        replace (length b `max` i)%nat with (length b `max` S i)%nat by lia.
        replace (Z.of_nat (S i))
          with (Z.of_nat (S i `min` (length a `min` length b))) at 2 by lia.
        apply (IH (S i) fuel); lia.
      * by rewrite list_lookup_fmap, Hx.
      * by rewrite list_lookup_fmap, Hy.
      * unfold padded. rewrite lookup_app_l by (rewrite length_fmap; lia).
        by rewrite list_lookup_fmap, Hx.
      * unfold padded. rewrite lookup_app_l by (rewrite length_fmap; lia).
        by rewrite list_lookup_fmap, Hy.
      * lia.
Qed.

Lemma place_sentinel a b :
  foldl place_block (Some <$> a, Some <$> b, 0, 0) [(len a, len b, 0)]
  = (padded (Some <$> a) (length a `max` length b),
     padded (Some <$> b) (length a `max` length b),
     Z.of_nat (length b - length a), Z.of_nat (length a - length b)).
Proof.
  cbn [foldl]. unfold place_block, len.
  rewrite !Z.add_0_l.
  destruct (Z.ltb_spec (Z.of_nat (length a) - Z.of_nat (length b)) 0) as [Hlt|Hge].
  - replace (Z.of_nat (length a)) with (len (Some <$> a))
      by (unfold len; by rewrite length_fmap).
    rewrite py_splice_end. unfold padded, py_repeat, len.
    rewrite !length_fmap.
    replace (length a `max` length b - length b)%nat with 0%nat by lia.
    rewrite app_nil_r. repeat f_equal; lia.
  - destruct (Z.ltb_spec 0 (Z.of_nat (length a) - Z.of_nat (length b))) as [Hgt|Heq].
    + replace (Z.of_nat (length b)) with (len (Some <$> b))
        by (unfold len; by rewrite length_fmap).
      rewrite py_splice_end. unfold padded, py_repeat, len.
      rewrite !length_fmap.
      replace (length a `max` length b - length a)%nat with 0%nat by lia.
      rewrite app_nil_r. repeat f_equal; lia.
    + unfold padded. rewrite !length_fmap.
      replace (length a `max` length b - length a)%nat with 0%nat by lia.
      replace (length a `max` length b - length b)%nat with 0%nat by lia.
      rewrite !app_nil_r. repeat f_equal; lia.
Qed.

(** C5 (amended).  For two panes without spacers whose lines share no
    comparison key, the matcher returns only the sentinel and the aligner
    lays the two panes side by side from the first row: the aligned length
    is [max(len(a), len(b))], the only spacers are the [|len(a) - len(b)|]
    rows appended to the shorter pane, the partition of each pane is one
    block of that length, the first [min(len(a), len(b))] rows hold a line
    in both panes and the rows after them a line in exactly one pane. *)
Theorem alignBlocks_disjoint (a b : list L) :
  (forall x y, x ∈ a -> y ∈ b -> alignmentHash x <> alignmentHash y) ->
  let n := (length a `max` length b)%nat in
  let left := (Some <$> a) ++ replicate (n - length a) None in
  let right := (Some <$> b) ++ replicate (n - length b) None in
  patience_diff (alignmentHash <$> a) (alignmentHash <$> b)
    = Ok [(len a, len b, 0)] /\
  alignBlocks alignmentHash (createBlock (len a)) [Some <$> a]
                            (createBlock (len b)) [Some <$> b]
    = Ok (createBlock (Z.of_nat n), [left], createBlock (Z.of_nat n), [right]) /\
  length left = n /\ length right = n /\
  (forall i, (i < length a `min` length b)%nat ->
     exists x y, left !! i = Some (Some x) /\ right !! i = Some (Some y)) /\
  (forall i x y, (length a `min` length b <= i)%nat ->
     left !! i = Some x -> right !! i = Some y -> one_sided x y).
Proof.
  intros Hdis n left right.
  assert (Hdiff : patience_diff (alignmentHash <$> a) (alignmentHash <$> b)
                  = Ok [(len a, len b, 0)]).
  { rewrite patience_diff_disjoint.
    - unfold len. by rewrite !length_fmap.
    - intros s (y & -> & Hy)%list_elem_of_fmap (x & Hxy & Hx)%list_elem_of_fmap.
      by apply (Hdis x y). }
  assert (Hll : length left = n)
    by (unfold left; rewrite length_app, length_fmap, length_replicate; lia).
  assert (Hlr : length right = n)
    by (unfold right; rewrite length_app, length_fmap, length_replicate; lia).
  split; [exact Hdiff|]. split; [|split; [done|split; [done|split]]].
  - unfold alignBlocks.
    rewrite py_get_single_last, py_get_single_first. cbn [mbind result_bind].
    unfold expected_pairs. rewrite !real_lines_Some, Hdiff.
    cbn [mbind result_bind]. rewrite place_sentinel. cbn [mbind result_bind].
    unfold len. rewrite !length_padded, !length_fmap. fold n.
    replace (length a `max` n)%nat with n by lia.
    pose proof (align_rows_side_by_side a b n 0
                  (length a + length b + n + 1)) as Hloop.
    cbn zeta in Hloop. fold n in Hloop.
    unfold grown_block in Hloop.
    rewrite !Nat.max_0_r, Nat.min_0_l in Hloop.
    rewrite !(padded_small _ 0) in Hloop by lia.
    replace (length a `max` n)%nat with n in Hloop by lia.
    replace (length b `max` n)%nat with n in Hloop by lia.
    unfold left, right. change 0 with (Z.of_nat 0).
    replace ((Some <$> a) ++ replicate (n - length a) None)
      with (padded (Some <$> a) n) by (unfold padded; by rewrite length_fmap).
    replace ((Some <$> b) ++ replicate (n - length b) None)
      with (padded (Some <$> b) n) by (unfold padded; by rewrite length_fmap).
    apply Hloop; lia.
  - intros i Hi.
    destruct (lookup_lt_is_Some_2 a i ltac:(lia)) as [x Hx].
    destruct (lookup_lt_is_Some_2 b i ltac:(lia)) as [y Hy].
    exists x, y. unfold left, right.
    rewrite !lookup_app_l by (rewrite length_fmap; lia).
    by rewrite !list_lookup_fmap, Hx, Hy.
  - intros i x y Hi Hx Hy.
    pose proof (lookup_lt_Some _ _ _ Hx) as Hix. rewrite Hll in Hix.
    unfold left, right in *.
    destruct (le_lt_dec (length a) i) as [Ha|Ha].
    + rewrite lookup_app_r in Hx by (rewrite length_fmap; lia).
      apply lookup_replicate in Hx as [-> _].
      rewrite lookup_app_l in Hy by (rewrite length_fmap; lia).
      rewrite list_lookup_fmap in Hy.
      destruct (b !! i); [|done]. injection Hy as <-. by left.
    + rewrite lookup_app_r in Hy by (rewrite length_fmap; lia).
      apply lookup_replicate in Hy as [-> _].
      rewrite lookup_app_l in Hx by (rewrite length_fmap; lia).
      rewrite list_lookup_fmap in Hx.
      destruct (a !! i); [|done]. injection Hx as <-. by right.
Qed.
End AlignDisjoint.

Lemma alignBlocks_disjoint_witness :
  let a := file_lines 0 ["x"; "y"]%string in
  let b := file_lines 10 ["u"; "v"; "w"]%string in
  let n := (length a `max` length b)%nat in
  let left := (Some <$> a) ++ replicate (n - length a) None in
  let right := (Some <$> b) ++ replicate (n - length b) None in
  (forall x y, x ∈ a -> y ∈ b -> snd x <> snd y) /\
  patience_diff (snd <$> a) (snd <$> b) = Ok [(len a, len b, 0)] /\
  alignBlocks snd (createBlock (len a)) [Some <$> a]
                  (createBlock (len b)) [Some <$> b]
    = Ok (createBlock (Z.of_nat n), [left], createBlock (Z.of_nat n), [right]) /\
  length left = n /\ length right = n /\
  (forall i, (i < length a `min` length b)%nat ->
     exists x y, left !! i = Some (Some x) /\ right !! i = Some (Some y)) /\
  (forall i x y, (length a `min` length b <= i)%nat ->
     left !! i = Some x -> right !! i = Some y -> one_sided x y).
Proof.
  intros a b.
  assert (Hdis : forall x y, x ∈ a -> y ∈ b -> snd x <> snd y).
  { intros x y Hx Hy.
    repeat (apply elem_of_cons in Hx as [->|Hx]);
      try (by apply elem_of_nil in Hx);
      repeat (apply elem_of_cons in Hy as [->|Hy]);
      try (by apply elem_of_nil in Hy); discriminate. }
  split; [exact Hdis|].
  exact (alignBlocks_disjoint snd a b Hdis).
Defined.

(** C5 (as stated) fails already for two panes of one line each with
    different keys: the aligned panes have one row, not two, and that row
    holds a line in both panes. *)
Lemma alignBlocks_disjoint_counterexample :
  let a := file_lines 0 ["x"]%string in
  let b := file_lines 10 ["u"]%string in
  (forall x y, x ∈ a -> y ∈ b -> snd x <> snd y) /\
  alignBlocks snd (createBlock (len a)) [Some <$> a]
                  (createBlock (len b)) [Some <$> b]
    = Ok ([1], [[Some (0%nat, "x"%string)]], [1], [[Some (10%nat, "u"%string)]]) /\
  len [Some (0%nat, "x"%string)] <> len a + len b /\
  ~ one_sided (Some (0%nat, "x"%string)) (Some (10%nat, "u"%string)).
Proof.
  intros a b. split; [|split; [reflexivity|split]].
  - intros x y Hx Hy.
    apply list_elem_of_singleton in Hx as ->.
    apply list_elem_of_singleton in Hy as ->. discriminate.
  - discriminate.
  - intros [[? _]|[_ ?]]; discriminate.
Qed.

(** ** The undo log: records as document transformers *)

Lemma py_index_length {A B} (l : list A) (l' : list B) i :
  length l = length l' -> py_index l i = py_index l' i.
Proof. unfold py_index, py_norm, len. by intros ->. Qed.

Lemma py_index_lt {A} (l : list A) i k : py_index l i = Some k -> (k < length l)%nat.
Proof.
  unfold py_index, len. destruct (_ <? 0) eqn:H0; [done|].
  destruct (_ <? Z.of_nat _) eqn:H1; [|done].
  intros [= <-]. apply Z.ltb_lt in H1. apply Z.ltb_ge in H0. lia.
Qed.

Lemma py_get_index {A} (l : list A) i :
  py_get l i = match py_index l i with
               | Some k => match l !! k with Some x => Ok x | None => Raise IndexError end
               | None => Raise IndexError
               end.
Proof.
  unfold py_get, py_index, len. destruct (_ <? 0) eqn:H0; [done|].
  destruct (_ <? Z.of_nat _) eqn:H1; [done|].
  apply Z.ltb_ge in H1. apply Z.ltb_ge in H0.
  by rewrite lookup_ge_None_2 by lia.
Qed.

Lemma py_set_index {A} (l : list A) i x :
  py_set l i x = match py_index l i with
                 | Some k => Ok (<[k := x]> l)
                 | None => Raise IndexError
                 end.
Proof.
  unfold py_set, py_index. destruct (_ <? 0); [done|]. by destruct (_ <? len l).
Qed.

Lemma py_del_index {A} (l : list A) i :
  py_del l i = match py_index l i with
               | Some k => Ok (delete k l)
               | None => Raise IndexError
               end.
Proof.
  unfold py_del, py_index. destruct (_ <? 0); [done|]. by destruct (_ <? len l).
Qed.

Lemma py_index_nonneg {A} (l : list A) i k :
  0 <= i -> py_index l i = Some k -> k = Z.to_nat i.
Proof.
  unfold py_index, py_norm. intros Hi.
  destruct (Z.ltb_spec i 0); [lia|].
  destruct (_ <? 0); [done|]. destruct (_ <? len l); [|done]. by intros [= <-].
Qed.

Lemma py_get_fmap {A B} (g : A -> B) (l : list A) i :
  py_get (g <$> l) i = g <$> py_get l i.
Proof.
  rewrite !py_get_index, (py_index_length (g <$> l) l) by apply length_fmap.
  destruct (py_index l i) as [k|]; [|done].
  rewrite list_lookup_fmap. by destruct (l !! k).
Qed.

Lemma py_set_fmap {A B} (g : A -> B) (l : list A) i x :
  py_set (g <$> l) i (g x) = fmap (M:=list) g <$> py_set l i x.
Proof.
  rewrite !py_set_index, (py_index_length (g <$> l) l) by apply length_fmap.
  destruct (py_index l i) as [k|]; [|done].
  cbn. by rewrite list_fmap_insert.
Qed.

Lemma set_undoblock_same v : set_undoblock v (undoblock v) = v.
Proof. by destruct v. Qed.

Lemma record_undo_eq u v :
  record_undo u v = Ok (set_undoblock v ((fun b => b ++ [u]) <$> undoblock v)).
Proof.
  unfold record_undo, addUndo. destruct (undoblock v) eqn:Hb; cbn; [done|].
  by rewrite <- Hb, set_undoblock_same.
Qed.

Lemma with_pane_contents f upd upd_doc v :
  (forall pane, lines <$> upd pane = upd_doc (lines pane)) ->
  contents <$> with_pane f upd v = doc_with_pane f upd_doc (contents v).
Proof.
  intros Hupd. unfold with_pane, doc_with_pane, contents. cbn [fst snd].
  rewrite py_get_fmap. destruct (py_get (panes v) f) as [pane|e]; [|done].
  cbn. rewrite <- Hupd. destruct (upd pane) as [pane'|e]; [|done].
  cbn. rewrite py_set_fmap. by destruct (py_set (panes v) f pane').
Qed.

Lemma setEditMode_contents m cp cl cc sl sc col v :
  contents <$> setEditMode m cp cl cc sl sc col v
  = (doc_selection_ok m cp cl cc (contents v) ≫= fun _ => Ok (contents v)).
Proof.
  unfold setEditMode, doc_selection_ok, contents. cbn [fst snd].
  destruct (decide (m = CHAR_MODE)) as [->|Hm].
  - unfold setCurrentChar, cursor_x_offset, getLineText, getLine. cbn.
    destruct (0 <? cc); [|done].
    rewrite py_get_fmap. destruct (py_get (panes v) cp) as [pane|e]; [|done].
    cbn. destruct (cl <? len (lines pane)); cbn; [|done].
    destruct (py_get (lines pane) cl) as [[line|]|e]; cbn; try done.
    by destruct (getText line).
  - unfold setCurrentLine. cbn. unfold len. rewrite length_fmap, py_get_fmap.
    by destruct (py_get (panes v) _).
Qed.

Lemma swapPanes_contents x y v :
  contents <$> swapPanes x y v
  = (f0 ← py_get (contents v).1 x; f1 ← py_get (contents v).1 y;
     ps ← py_set (contents v).1 x f1; ps ← py_set ps y f0;
     Ok (ps, (contents v).2)).
Proof.
  unfold swapPanes, contents. rewrite record_undo_eq. cbn.
  rewrite !py_get_fmap.
  destruct (py_get (panes v) x) as [f0|e]; [|done]. cbn.
  destruct (py_get (panes v) y) as [f1|e]; [|done]. cbn.
  rewrite py_set_fmap. destruct (py_set (panes v) x f1) as [ps|e]; [|done]. cbn.
  rewrite py_set_fmap. by destruct (py_set ps y f0).
Qed.

Lemma setFormat_contents f fmt v :
  contents <$> setFormat f fmt v = doc_with_pane f Ok (contents v).
Proof.
  unfold setFormat.
  destruct (py_get (panes v) f) as [pane|e] eqn:Hp.
  - cbn. rewrite record_undo_eq. cbn.
    by rewrite (with_pane_contents f _ Ok).
  - unfold doc_with_pane, contents. cbn. by rewrite py_get_fmap, Hp.
Qed.

Lemma instanceLine_contents f i r v :
  contents <$> instanceLine f i r v
  = doc_with_pane f (fun ls => py_set ls i (if r then None else Some new_Line))
                  (contents v).
Proof.
  unfold instanceLine. rewrite record_undo_eq. cbn.
  rewrite (with_pane_contents f _
             (fun ls => py_set ls i (if r then None else Some new_Line))); [done|].
  intros pane. cbn. by destruct (py_set (lines pane) i _).
Qed.

Lemma insertNull_contents f i r v :
  contents <$> insertNull f i r v
  = doc_with_pane f (fun ls => if r then py_del ls i else Ok (py_insert ls i None))
                  (contents v).
Proof.
  unfold insertNull. rewrite record_undo_eq. cbn.
  rewrite (with_pane_contents f _
    (fun ls => if r then py_del ls i else Ok (py_insert ls i None))); [done|].
  intros pane. destruct r; cbn; [|done]. by destruct (py_del (lines pane) i).
Qed.

Lemma replaceLines_contents f ls nl mx nmx v :
  contents <$> replaceLines f ls nl mx nmx v
  = doc_with_pane f (fun _ => Ok nl) (contents v).
Proof.
  unfold replaceLines. rewrite record_undo_eq. cbn.
  by rewrite (with_pane_contents f _ (fun _ => Ok nl)).
Qed.

Lemma updateLineText_contents f i m t v :
  contents <$> updateLineText f i m t v
  = doc_with_pane f (fun ls =>
      entry ← py_get ls i;
      match entry with
      | None => Raise AttributeError
      | Some line => py_set ls i (Some (mkLine (line_number line) (text line) m t))
      end) (contents v).
Proof.
  unfold updateLineText.
  destruct (py_get (panes v) f) as [pane|e] eqn:Hp.
  2:{ unfold doc_with_pane, contents. cbn. by rewrite py_get_fmap, Hp. }
  cbn. destruct (py_get (lines pane) i) as [[line|]|e] eqn:Hl; cbn.
  - rewrite record_undo_eq. cbn.
    unfold with_pane, doc_with_pane, contents. cbn.
    rewrite py_get_fmap, Hp. cbn. rewrite Hl. cbn.
    destruct (py_set (lines pane) i _) as [ls'|e]; [|done]. cbn.
    change ls' with (lines (mkPane ls' (format pane) (max_line_number pane)
      (if m && negb (is_modified line) then num_edits pane + 1
       else if negb m && is_modified line then num_edits pane - 1
       else num_edits pane))) at 2.
    rewrite py_set_fmap. by destruct (py_set (panes v) f _).
  - unfold doc_with_pane, contents. cbn. rewrite py_get_fmap, Hp. cbn.
    by rewrite Hl.
  - unfold doc_with_pane, contents. cbn. rewrite py_get_fmap, Hp. cbn.
    by rewrite Hl.
Qed.

Lemma redo_record_contents u v :
  contents <$> redo_record v u = doc_apply true (contents v) u.
Proof.
  destruct u; cbn [redo_record doc_apply].
  - apply setFormat_contents.
  - apply instanceLine_contents.
  - apply updateLineText_contents.
  - apply insertNull_contents.
  - unfold invalidateLineMatching. by rewrite record_undo_eq.
  - unfold alignmentChange. by rewrite record_undo_eq.
  - unfold updateBlocks. by rewrite record_undo_eq.
  - apply replaceLines_contents.
  - apply setEditMode_contents.
  - apply swapPanes_contents.
Qed.

Lemma undo_record_contents u v :
  contents <$> undo_record v u = doc_apply false (contents v) u.
Proof.
  destruct u; cbn [undo_record doc_apply].
  - apply setFormat_contents.
  - apply instanceLine_contents.
  - apply updateLineText_contents.
  - apply insertNull_contents.
  - unfold invalidateLineMatching. by rewrite record_undo_eq.
  - unfold alignmentChange. by rewrite record_undo_eq.
  - unfold updateBlocks. by rewrite record_undo_eq.
  - apply replaceLines_contents.
  - apply setEditMode_contents.
  - apply swapPanes_contents.
Qed.

Lemma for_each_contents (step : Viewer -> Undo -> result Viewer)
    (dstep : document -> Undo -> result document) block :
  (forall u v, contents <$> step v u = dstep (contents v) u) ->
  forall v, contents <$> for_each block step v = for_each block dstep (contents v).
Proof.
  intros Hstep. induction block as [|u block IH]; intros v; [done|].
  cbn [for_each]. rewrite <- Hstep.
  destruct (step v u) as [v1|e]; [|done]. cbn. apply IH.
Qed.

(** ** The undo log: every recorded mutation can be reverted *)

Lemma doc_with_pane_Ok f upd d d' :
  doc_with_pane f upd d = Ok d' ->
  exists k ls ls', py_index d.1 f = Some k /\ d.1 !! k = Some ls /\
                   upd ls = Ok ls' /\ d' = (<[k := ls']> d.1, d.2).
Proof.
  unfold doc_with_pane. rewrite py_get_index.
  destruct (py_index d.1 f) as [k|] eqn:Hk; [|done].
  destruct (d.1 !! k) as [ls|] eqn:Hls; [|done]. cbn.
  destruct (upd ls) as [ls'|e] eqn:Hupd; [|done]. cbn.
  rewrite py_set_index, Hk. cbn. intros [= <-]. by exists k, ls, ls'.
Qed.

Lemma doc_with_pane_intro f upd d k ls ls' :
  py_index d.1 f = Some k -> d.1 !! k = Some ls -> upd ls = Ok ls' ->
  doc_with_pane f upd d = Ok (<[k := ls']> d.1, d.2).
Proof.
  intros Hk Hls Hupd. unfold doc_with_pane.
  rewrite py_get_index, Hk, Hls. cbn. rewrite Hupd. cbn.
  by rewrite py_set_index, Hk.
Qed.

(** If [upd'] reverts what [upd] did to the pane, the document comes back. *)
Lemma doc_with_pane_inverse f upd upd' d d' :
  doc_with_pane f upd d = Ok d' ->
  (forall k ls ls', py_index d.1 f = Some k -> d.1 !! k = Some ls ->
                    upd ls = Ok ls' -> upd' ls' = Ok ls) ->
  doc_with_pane f upd' d' = Ok d.
Proof.
  intros (k & ls & ls' & Hk & Hls & Hupd & ->)%doc_with_pane_Ok Hinv.
  pose proof (py_index_lt _ _ _ Hk) as Hlt.
  rewrite (doc_with_pane_intro f upd' _ k ls' ls); cbn [fst snd].
  - rewrite list_insert_insert_eq, list_insert_id by done. by destruct d.
  - rewrite <- Hk. apply py_index_length. by rewrite length_insert.
  - by apply list_lookup_insert_eq.
  - by eapply Hinv.
Qed.

Lemma py_get_Ok_index {A} (l : list A) i x :
  py_get l i = Ok x -> exists k, py_index l i = Some k /\ l !! k = Some x.
Proof.
  rewrite py_get_index. destruct (py_index l i) as [k|]; [|done].
  destruct (l !! k) eqn:Hl; [|done]. intros [= <-]. by exists k.
Qed.

Lemma py_set_revert {A} (l l' : list A) i x y :
  py_get l i = Ok x -> py_set l i y = Ok l' -> py_set l' i x = Ok l.
Proof.
  intros (k & Hk & Hx)%py_get_Ok_index. rewrite !py_set_index, Hk.
  intros [= <-].
  rewrite (py_index_length (<[k:=y]> l) l), Hk by apply length_insert.
  by rewrite list_insert_insert_eq, list_insert_id.
Qed.

Lemma py_get_after_set {A} (l l' : list A) i y :
  py_set l i y = Ok l' -> py_get l' i = Ok y.
Proof.
  rewrite py_set_index, py_get_index.
  destruct (py_index l i) as [k|] eqn:Hk; [|done]. intros [= <-].
  rewrite (py_index_length (<[k:=y]> l) l), Hk by apply length_insert.
  by rewrite list_lookup_insert_eq by by eapply py_index_lt.
Qed.

Lemma py_del_insert {A} (l : list A) i x :
  0 <= i <= len l -> py_del (py_insert l i x) i = Ok l.
Proof.
  intros Hi. unfold py_del, py_insert, py_clamp, py_norm, len in *.
  destruct (Z.ltb_spec i 0); [lia|].
  replace (Z.to_nat (Z.min (Z.max i 0) (Z.of_nat (length l)))) with (Z.to_nat i)
    by lia.
  rewrite length_app, length_take. cbn [length]. rewrite length_drop.
  destruct (Z.ltb_spec i 0); [lia|].
  destruct (Z.ltb_spec i (Z.of_nat (Z.to_nat i `min` length l
                                    + S (length l - Z.to_nat i)))); [|lia].
  f_equal.
  rewrite <- (take_drop (Z.to_nat i) l) at 3.
  assert (Hlen : length (take (Z.to_nat i) l) = Z.to_nat i)
    by (rewrite length_take; lia).
  rewrite <- Hlen at 1.
  generalize (take (Z.to_nat i) l). intros t.
  induction t as [|y t IH]; cbn; [done|]. by f_equal.
Qed.

Lemma py_insert_del {A} (l l' : list A) i x :
  0 <= i -> py_get l i = Ok x -> py_del l i = Ok l' -> py_insert l' i x = l.
Proof.
  intros Hi (k & Hk & Hx)%py_get_Ok_index. rewrite py_del_index, Hk.
  intros [= <-]. pose proof (py_index_nonneg _ _ _ Hi Hk) as ->.
  pose proof (lookup_lt_Some _ _ _ Hx) as Hlt.
  unfold py_insert, py_clamp, py_norm, len.
  destruct (Z.ltb_spec i 0); [lia|].
  rewrite length_delete by done.
  replace (Z.to_nat (Z.min (Z.max i 0) (Z.of_nat (length l - 1))))
    with (Z.to_nat i) by lia.
  rewrite delete_take_drop.
  assert (Hlen : length (take (Z.to_nat i) l) = Z.to_nat i)
    by (rewrite length_take; lia).
  rewrite take_app_length', drop_app_length' by done.
  by apply take_drop_middle.
Qed.

Lemma Line_eta line :
  mkLine (line_number line) (text line) (is_modified line) (modified_text line)
  = line.
Proof. by destruct line. Qed.

Lemma swap_back {A} (ps ps' : list A) x y :
  (f0 ← py_get ps x; f1 ← py_get ps y;
   ps1 ← py_set ps x f1; py_set ps1 y f0) = Ok ps' ->
  (f0 ← py_get ps' y; f1 ← py_get ps' x;
   ps1 ← py_set ps' y f1; py_set ps1 x f0) = Ok ps.
Proof.
  intros H. bind_inv H. bind_inv H. bind_inv H.
  rename a into px, a0 into py, a1 into ps1.
  apply py_get_Ok_index in Ha as (kx & Hx & Hpx).
  apply py_get_Ok_index in Ha0 as (ky & Hy & Hpy).
  rewrite py_set_index, Hx in Ha1. injection Ha1 as <-.
  rewrite py_set_index, (py_index_length (<[kx:=py]> ps) ps), Hy in H
    by apply length_insert.
  injection H as <-.
  pose proof (lookup_lt_Some _ _ _ Hpx) as Hkx.
  pose proof (lookup_lt_Some _ _ _ Hpy) as Hky.
  assert (Hlen : length (<[ky:=px]> (<[kx:=py]> ps)) = length ps)
    by by rewrite !length_insert.
  rewrite (py_get_index _ y), (py_index_length _ ps y Hlen), Hy.
  rewrite list_lookup_insert_eq by (rewrite length_insert; lia).
  cbn [mbind result_bind].
  rewrite (py_get_index _ x), (py_index_length _ ps x Hlen), Hx.
  destruct (decide (kx = ky)) as [->|Hne].
  - rewrite list_lookup_insert_eq by (rewrite length_insert; lia).
    cbn [mbind result_bind].
    rewrite (py_set_index _ y), (py_index_length _ ps y Hlen), Hy.
    cbn [mbind result_bind].
    rewrite (py_set_index _ x).
    rewrite (py_index_length _ ps x) by by rewrite !length_insert.
    rewrite Hx. f_equal.
    rewrite !list_insert_insert_eq. apply list_insert_id. congruence.
  - rewrite list_lookup_insert_ne, list_lookup_insert_eq by done.
    cbn [mbind result_bind].
    rewrite (py_set_index _ y), (py_index_length _ ps y Hlen), Hy.
    cbn [mbind result_bind].
    rewrite (py_set_index _ x).
    rewrite (py_index_length _ ps x) by by rewrite !length_insert.
    rewrite Hx. f_equal.
    rewrite list_insert_insert_eq.
    rewrite (list_insert_insert_ne _ kx ky) by done.
    rewrite list_insert_insert_eq.
    rewrite (list_insert_id _ kx px) by done.
    by apply list_insert_id.
Qed.

Lemma with_pane_keeps f upd v v' :
  with_pane f upd v = Ok v' ->
  undoblock v' = undoblock v /\ undos v' = undos v /\ redos v' = redos v /\
  mode v' = mode v.
Proof.
  unfold with_pane. intros H.
  bind_inv H. bind_inv H. bind_inv H. by injection H as <-.
Qed.

Lemma redo_record_doc u v v' :
  redo_record v u = Ok v' -> doc_apply true (contents v) u = Ok (contents v').
Proof. intros H. by rewrite <- redo_record_contents, H. Qed.

Lemma pane_at_doc v f k ls :
  py_index (contents v).1 f = Some k -> (contents v).1 !! k = Some ls ->
  exists pane, py_get (panes v) f = Ok pane /\ lines pane = ls.
Proof.
  unfold contents. cbn [fst]. intros Hk Hls.
  rewrite list_lookup_fmap in Hls.
  destruct (panes v !! k) as [pane|] eqn:Hp; [|done]. injection Hls as <-.
  exists pane. split; [|done].
  rewrite py_get_index, <- (py_index_length (lines <$> panes v)), Hk, Hp;
    [done|apply length_fmap].
Qed.

Lemma entry_at_doc v f i e k ls :
  entry_at v f i = Ok e ->
  py_index (contents v).1 f = Some k -> (contents v).1 !! k = Some ls ->
  py_get ls i = Ok e.
Proof.
  intros He Hk Hls.
  destruct (pane_at_doc v f k ls Hk Hls) as (pane & Hp & <-).
  unfold entry_at in He. by rewrite Hp in He.
Qed.

Lemma swapPanes_keeps x y v v' :
  swapPanes x y v = Ok v' ->
  undoblock v' = (fun b => b ++ [SwapPanesUndo x y]) <$> undoblock v /\
  undos v' = undos v /\ redos v' = redos v /\ mode v' = mode v.
Proof.
  unfold swapPanes. rewrite record_undo_eq. cbn [mbind result_bind].
  intros H. do 4 bind_inv H. by injection H as <-.
Qed.

Lemma doc_swap_back (d d' : document) x y :
  (f0 ← py_get d.1 x; f1 ← py_get d.1 y;
   ps ← py_set d.1 x f1; ps ← py_set ps y f0; Ok (ps, d.2)) = Ok d' ->
  (f0 ← py_get d'.1 y; f1 ← py_get d'.1 x;
   ps ← py_set d'.1 y f1; ps ← py_set ps x f0; Ok (ps, d'.2)) = Ok d.
Proof.
  destruct d as [ps bs]. cbn [fst snd]. intros H.
  do 4 bind_inv H. injection H as <-. cbn [fst snd].
  assert (Hs : (f0 ← py_get ps x; f1 ← py_get ps y;
                ps1 ← py_set ps x f1; py_set ps1 y f0) = Ok a2).
  { rewrite Ha. cbn [mbind result_bind]. rewrite Ha0. cbn [mbind result_bind].
    rewrite Ha1. by cbn [mbind result_bind]. }
  apply swap_back in Hs. do 3 bind_inv Hs.
  rewrite Ha3. cbn [mbind result_bind]. rewrite Ha4. cbn [mbind result_bind].
  rewrite Ha5. cbn [mbind result_bind]. rewrite Hs. done.
Qed.

(** A recorded mutation appends exactly one record to the open
    transaction, and that record takes the document there and back. *)
Lemma run_op_recorded op v v' block :
  undoblock v = Some block -> invertible_in v op ->
  (op = OpRecordEditMode -> mode v <> ALIGN_MODE) -> run_op op v = Ok v' ->
  exists u,
    undoblock v' = Some (block ++ [u]) /\
    undos v' = undos v /\ redos v' = redos v /\ mode v' = mode v /\
    restores_edit_mode u /\
    doc_apply true (contents v) u = Ok (contents v') /\
    doc_apply false (contents v') u = Ok (contents v).
Proof.
  intros Hb Hinv Hedit H. destruct op; cbn [run_op] in H.
  - (* setFormat *)
    pose proof H as H0. unfold setFormat in H. bind_inv H.
    rewrite record_undo_eq in H. cbn [mbind result_bind] in H.
    apply with_pane_keeps in H as (Hu & -> & -> & ->). cbn in Hu.
    rewrite Hb in Hu. eexists. split; [exact Hu|].
    pose proof (redo_record_doc (SetFormatUndo f format_ (format a)) v v' H0)
      as Hfw.
    repeat split; try done.
    cbn [doc_apply] in *. eapply doc_with_pane_inverse; [exact Hfw|]. auto.
  - (* instanceLine *)
    pose proof H as H0. unfold instanceLine in H.
    rewrite record_undo_eq in H. cbn [mbind result_bind] in H.
    apply with_pane_keeps in H as (Hu & -> & -> & ->). cbn in Hu.
    rewrite Hb in Hu. eexists. split; [exact Hu|].
    pose proof (redo_record_doc (InstanceLineUndo f i reverse_) v v' H0) as Hfw.
    repeat split; try done.
    cbn [doc_apply] in *. eapply doc_with_pane_inverse; [exact Hfw|].
    intros k ls ls' Hk Hls Hset.
    destruct reverse_; cbn [invertible_in negb] in *.
    + eapply py_set_revert; [|exact Hset]. by eapply entry_at_doc.
    + eapply py_set_revert; [|exact Hset]. by eapply entry_at_doc.
  - (* updateLineText *)
    pose proof H as H0. unfold updateLineText in H. bind_inv H. bind_inv H.
    destruct a0 as [line|]; [|done].
    rewrite record_undo_eq in H. cbn [mbind result_bind] in H.
    apply with_pane_keeps in H as (Hu & -> & -> & ->). cbn in Hu.
    rewrite Hb in Hu. eexists. split; [exact Hu|].
    pose proof (redo_record_doc
      (UpdateLineTextUndo f i (is_modified line) (modified_text line)
         is_modified_ text_) v v' H0) as Hfw.
    repeat split; try done.
    cbn [doc_apply] in *. eapply doc_with_pane_inverse; [exact Hfw|].
    intros k ls ls' Hk Hls Hset. cbn beta in *.
    assert (Hline : py_get ls i = Ok (Some line)).
    { eapply (entry_at_doc v f i); [|done|done].
      unfold entry_at. by rewrite Ha. }
    rewrite Hline in Hset. cbn [mbind result_bind] in Hset.
    rewrite (py_get_after_set _ _ _ _ Hset). cbn [mbind result_bind].
    cbn [line_number text]. rewrite Line_eta.
    eapply py_set_revert; [exact Hline|exact Hset].
  - (* insertNull *)
    pose proof H as H0. unfold insertNull in H.
    rewrite record_undo_eq in H. cbn [mbind result_bind] in H.
    apply with_pane_keeps in H as (Hu & -> & -> & ->). cbn in Hu.
    rewrite Hb in Hu. eexists. split; [exact Hu|].
    pose proof (redo_record_doc (InsertNullUndo f i reverse_) v v' H0) as Hfw.
    repeat split; try done.
    cbn [doc_apply] in *. eapply doc_with_pane_inverse; [exact Hfw|].
    intros k ls ls' Hk Hls Hupd.
    destruct reverse_; cbn [invertible_in negb] in *.
    + destruct Hinv as [Hi He]. f_equal.
      eapply py_insert_del; [done| |exact Hupd]. by eapply entry_at_doc.
    + injection Hupd as <-. apply py_del_insert.
      destruct Hinv as (pane & Hp & Hi).
      destruct (pane_at_doc v f k ls Hk Hls) as (pane' & Hp' & <-).
      congruence.
  - (* invalidateLineMatching *)
    unfold invalidateLineMatching in H. rewrite record_undo_eq in H.
    injection H as <-. cbn. rewrite Hb. eexists. split; [done|]. by cbn.
  - (* alignmentChange *)
    unfold alignmentChange in H. rewrite record_undo_eq in H.
    injection H as <-. cbn. rewrite Hb. eexists. split; [done|]. by cbn.
  - (* updateBlocks *)
    unfold updateBlocks in H. rewrite record_undo_eq in H.
    injection H as <-. cbn. rewrite Hb. eexists. split; [done|]. by cbn.
  - (* replaceLines *)
    bind_inv H. pose proof H as H0. unfold replaceLines in H.
    rewrite record_undo_eq in H. cbn [mbind result_bind] in H.
    apply with_pane_keeps in H as (Hu & -> & -> & ->). cbn in Hu.
    rewrite Hb in Hu. eexists. split; [exact Hu|].
    pose proof (redo_record_doc
      (ReplaceLinesUndo f (lines a) new_lines (max_line_number a) new_max_num)
      v v' H0) as Hfw.
    repeat split; try done.
    cbn [doc_apply] in *. eapply doc_with_pane_inverse; [exact Hfw|].
    intros k ls ls' Hk Hls _. f_equal.
    destruct (pane_at_doc v f k ls Hk Hls) as (pane' & Hp' & <-). congruence.
  - (* recordEditMode *)
    unfold recordEditMode in H. rewrite record_undo_eq in H.
    injection H as <-. cbn. rewrite Hb. eexists. split; [done|].
    cbn [invertible_in] in Hinv.
    pose proof (setEditMode_contents (mode v) (current_pane v) (current_line v)
      (current_char v) (selection_line v) (selection_char v) (cursor_column v) v)
      as Hsel.
    destruct (setEditMode _ _ _ _ _ _ _ v) as [v1|e]; [|done].
    destruct (doc_selection_ok _ _ _ _ (contents v)) as [[]|e] eqn:Hok; [|done].
    pose proof (Hedit eq_refl) as Hm.
    cbn [doc_apply restores_edit_mode]. unfold contents at 2 5.
    cbn -[doc_selection_ok].
    fold (contents v). rewrite Hok. by cbn.
  - (* swapPanes *)
    pose proof (redo_record_doc (SwapPanesUndo f_dst f_src) v _ H) as Hfw.
    apply swapPanes_keeps in H as (Hu & -> & -> & ->).
    rewrite Hb in Hu. eexists. split; [exact Hu|].
    repeat split; try done.
    cbn [doc_apply] in *. by apply doc_swap_back.
Qed.

(** ** The undo log: transactions and sessions *)

Lemma for_each_app {A S} (l1 l2 : list A) (f : S -> A -> result S) (st : S) :
  for_each (l1 ++ l2) f st = (st' ← for_each l1 f st; for_each l2 f st').
Proof.
  revert st. induction l1 as [|x l1 IH]; intros st; cbn [for_each app].
  - done.
  - destruct (f st x) as [st1|e]; [|done]. cbn [mbind result_bind]. apply IH.
Qed.

Lemma reversible_nil d : reversible [] d d.
Proof. by split. Qed.

Lemma reversible_cons u us d d1 d' :
  doc_apply true d u = Ok d1 -> doc_apply false d1 u = Ok d ->
  reversible us d1 d' -> reversible (u :: us) d d'.
Proof.
  intros Hfw Hbw [Hundo Hredo]. split.
  - rewrite reverse_cons, for_each_app, Hundo. cbn. by rewrite Hbw.
  - cbn [for_each]. rewrite Hfw. by cbn.
Qed.

(** The changes of mode and selection record nothing and leave the
    document alone. *)
Lemma run_step_silent s v v' :
  (forall op, s <> Mutate op) -> run_step s v = Ok v' ->
  undoblock v' = undoblock v /\ undos v' = undos v /\ redos v' = redos v /\
  contents v' = contents v.
Proof.
  intros Hs H. destruct s; cbn [run_step] in H.
  - by destruct (Hs op).
  - injection H as <-. unfold setLineMode. by destruct (mode v).
  - unfold setCharMode, setCurrentChar in H.
    destruct (mode v); [|by injection H as <-|].
    + bind_inv H. bind_inv Ha. injection Ha as <-. by injection H as <-.
    + bind_inv H. bind_inv Ha. injection Ha as <-. by injection H as <-.
  - by injection H as <-.
  - unfold setCurrentLine in H. bind_inv H. by injection H as <-.
  - unfold setCurrentChar in H. bind_inv H. by injection H as <-.
  - by injection H as <-.
Qed.

Lemma performs_recorded v steps v' :
  performs undoable_in v steps v' ->
  forall block, undoblock v = Some block ->
  exists us,
    undoblock v' = Some (block ++ us) /\
    undos v' = undos v /\ redos v' = redos v /\
    Forall restores_edit_mode us /\
    reversible us (contents v) (contents v').
Proof.
  induction 1 as [v|v s v1 steps v' Hok Hrun Hrest IH]; intros block Hb.
  - exists []. rewrite app_nil_r. by repeat split.
  - destruct s as [op| | | | | |].
    + destruct Hok as [Hinv Hedit]. cbn [run_step invertible_step] in *.
      assert (Hedit' : op = OpRecordEditMode -> mode v <> ALIGN_MODE)
        by (intros ->; by apply Hedit).
      destruct (run_op_recorded op v v1 block Hb Hinv Hedit' Hrun)
        as (u & Hu & Hundos & Hredos & _ & Hkeep & Hfw & Hbw).
      destruct (IH _ Hu) as (us & Hus & Hundos' & Hredos' & Hkeeps & Hrev).
      exists (u :: us). rewrite <- app_assoc in Hus.
      split; [done|]. split; [congruence|]. split; [congruence|].
      split; [by constructor|]. by eapply reversible_cons.
    + apply run_step_silent in Hrun as (Hu & Hundos & Hredos & Hc); [|done].
      destruct (IH block) as (us & ? & ? & ? & ? & ?); [congruence|].
      exists us. rewrite <- Hc.
      split; [done|]. split; [congruence|]. split; [congruence|]. by split.
    + apply run_step_silent in Hrun as (Hu & Hundos & Hredos & Hc); [|done].
      destruct (IH block) as (us & ? & ? & ? & ? & ?); [congruence|].
      exists us. rewrite <- Hc.
      split; [done|]. split; [congruence|]. split; [congruence|]. by split.
    + apply run_step_silent in Hrun as (Hu & Hundos & Hredos & Hc); [|done].
      destruct (IH block) as (us & ? & ? & ? & ? & ?); [congruence|].
      exists us. rewrite <- Hc.
      split; [done|]. split; [congruence|]. split; [congruence|]. by split.
    + apply run_step_silent in Hrun as (Hu & Hundos & Hredos & Hc); [|done].
      destruct (IH block) as (us & ? & ? & ? & ? & ?); [congruence|].
      exists us. rewrite <- Hc.
      split; [done|]. split; [congruence|]. split; [congruence|]. by split.
    + apply run_step_silent in Hrun as (Hu & Hundos & Hredos & Hc); [|done].
      destruct (IH block) as (us & ? & ? & ? & ? & ?); [congruence|].
      exists us. rewrite <- Hc.
      split; [done|]. split; [congruence|]. split; [congruence|]. by split.
    + apply run_step_silent in Hrun as (Hu & Hundos & Hredos & Hc); [|done].
      destruct (IH block) as (us & ? & ? & ? & ? & ?); [congruence|].
      exists us. rewrite <- Hc.
      split; [done|]. split; [congruence|]. split; [congruence|]. by split.
Qed.

Lemma user_action_recorded v steps v' :
  user_action undoable_in v steps v' ->
  exists us,
    reversible us (contents v) (contents v') /\
    Forall restores_edit_mode us /\
    undoblock v' = None /\
    ((us = [] /\ undos v' = undos v /\ redos v' = redos v) \/
     (us <> [] /\ undos v' = undos v ++ [us] /\ redos v' = [])).
Proof.
  intros (v1 & Hperf & Hclose).
  destruct (performs_recorded _ _ _ Hperf [] eq_refl)
    as (us & Hus & Hundos & Hredos & Hkeeps & Hrev).
  cbn [app] in Hus.
  unfold closeUndoBlock in Hclose. rewrite Hus in Hclose.
  injection Hclose as <-.
  exists us. destruct us as [|u us].
  - repeat split; try done; try apply Hrev. left. by repeat split.
  - assert (Hpos : (0 <? len (u :: us)) = true).
    { apply Z.ltb_lt. unfold len. cbn [length]. lia. }
    rewrite Hpos.
    repeat split; try done; try apply Hrev. right.
    repeat split; [done|]. cbn. by rewrite Hundos.
Qed.

Lemma history_app d d1 d' bs1 bs2 :
  history d bs1 d1 -> history d1 bs2 d' -> history d (bs1 ++ bs2) d'.
Proof.
  induction 1 as [|? ? ? ? ? Hrev Hrest IH]; intros H2; [done|].
  cbn [app]. econstructor; [exact Hrev|]. by apply IH.
Qed.

Lemma history_snoc_inv d bs b d' :
  history d (bs ++ [b]) d' -> exists d1, history d bs d1 /\ reversible b d1 d'.
Proof.
  revert d. induction bs as [|b0 bs IH]; intros d H; cbn [app] in H.
  - inversion H as [|? d1 ? ? ? Hrev Hrest]; subst.
    inversion Hrest; subst. exists d. split; [constructor|done].
  - inversion H as [|? d1 ? ? ? Hrev Hrest]; subst.
    destruct (IH _ Hrest) as (d2 & Hh & Hr).
    exists d2. split; [|done]. by econstructor.
Qed.

Lemma session_history v actions v' :
  session undoable_in v actions v' ->
  exists new,
    undos v' = undos v ++ new /\
    history (contents v) new (contents v') /\
    Forall (Forall restores_edit_mode) new.
Proof.
  induction 1 as [v|v steps v1 actions v' Hact Hrest IH].
  - exists []. rewrite app_nil_r. repeat split; try done; constructor.
  - destruct (user_action_recorded _ _ _ Hact)
      as (us & Hrev & Hkeeps & _ & Hstack).
    destruct IH as (new & Hundos & Hhist & Hkeeps').
    destruct Hstack as [(-> & Hu & _)|(Hne & Hu & _)].
    + exists new. destruct Hrev as [Hd _].
      assert (Hc : contents v1 = contents v)
        by (change (Ok (contents v1) = Ok (contents v)) in Hd; congruence).
      rewrite <- Hc. split; [congruence|]. by split.
    + exists (us :: new). rewrite Hundos, Hu, <- app_assoc.
      split; [done|]. split; [by econstructor|]. by constructor.
Qed.

(** ** The undo log: replaying transactions *)

Lemma setEditMode_mode m cp cl cc sl sc col v v' :
  setEditMode m cp cl cc sl sc col v = Ok v' -> mode v' = m.
Proof.
  unfold setEditMode, setCurrentChar, setCurrentLine. intros H.
  destruct (decide (m = CHAR_MODE)).
  - bind_inv H. by injection H as <-.
  - bind_inv H. by injection H as <-.
Qed.

Lemma undo_record_mode u v v' :
  undoblock v = None -> restores_edit_mode u -> mode v <> ALIGN_MODE ->
  undo_record v u = Ok v' -> mode v' <> ALIGN_MODE.
Proof.
  intros Hc Hk Hm H. destruct u; simpl in H;
    unfold setFormat, instanceLine, updateLineText, insertNull,
      invalidateLineMatching, alignmentChange, updateBlocks, replaceLines in H;
    rewrite ?record_undo_closed in H by done; simpl in H.
  - bind_inv H. rewrite record_undo_closed in H by done.
    by apply with_pane_keeps in H as (_ & _ & _ & ->).
  - by apply with_pane_keeps in H as (_ & _ & _ & ->).
  - do 2 bind_inv H. destruct a0; [|discriminate].
    rewrite record_undo_closed in H by done.
    by apply with_pane_keeps in H as (_ & _ & _ & ->).
  - by apply with_pane_keeps in H as (_ & _ & _ & ->).
  - by injection H as <-.
  - by injection H as <-.
  - by injection H as <-.
  - by apply with_pane_keeps in H as (_ & _ & _ & ->).
  - apply setEditMode_mode in H. by rewrite H.
  - by apply swapPanes_keeps in H as (_ & _ & _ & ->).
Qed.

Lemma redo_record_mode u v v' :
  undoblock v = None -> restores_edit_mode u -> mode v <> ALIGN_MODE ->
  redo_record v u = Ok v' -> mode v' <> ALIGN_MODE.
Proof.
  intros Hc Hk Hm H. destruct u; simpl in H;
    unfold setFormat, instanceLine, updateLineText, insertNull,
      invalidateLineMatching, alignmentChange, updateBlocks, replaceLines in H;
    rewrite ?record_undo_closed in H by done; simpl in H.
  - bind_inv H. rewrite record_undo_closed in H by done.
    by apply with_pane_keeps in H as (_ & _ & _ & ->).
  - by apply with_pane_keeps in H as (_ & _ & _ & ->).
  - do 2 bind_inv H. destruct a0; [|discriminate].
    rewrite record_undo_closed in H by done.
    by apply with_pane_keeps in H as (_ & _ & _ & ->).
  - by apply with_pane_keeps in H as (_ & _ & _ & ->).
  - by injection H as <-.
  - by injection H as <-.
  - by injection H as <-.
  - by apply with_pane_keeps in H as (_ & _ & _ & ->).
  - apply setEditMode_mode in H. by rewrite H.
  - by apply swapPanes_keeps in H as (_ & _ & _ & ->).
Qed.

(** Replaying a list of records on a viewer with no open transaction does
    to the document what [dstep] says, leaves the log as it was and the
    viewer out of alignment mode. *)
Lemma replay_records (step : Viewer -> Undo -> result Viewer)
    (dstep : document -> Undo -> result document) :
  (forall u v, contents <$> step v u = dstep (contents v) u) ->
  (forall u v v', undoblock v = None -> step v u = Ok v' -> same_log v v') ->
  (forall u v v', undoblock v = None -> restores_edit_mode u ->
                  mode v <> ALIGN_MODE ->
                  step v u = Ok v' -> mode v' <> ALIGN_MODE) ->
  forall block v d,
    undoblock v = None -> Forall restores_edit_mode block ->
    mode v <> ALIGN_MODE ->
    for_each block dstep (contents v) = Ok d ->
    exists v', for_each block step v = Ok v' /\ contents v' = d /\
               same_log v v' /\ mode v' <> ALIGN_MODE.
Proof.
  intros Hdoc Hlog Hmode. induction block as [|u block IH];
    intros v d Hc Hk Hm Hd; cbn [for_each] in *.
  - injection Hd as <-. by exists v.
  - apply Forall_cons in Hk as [Hu Hk].
    rewrite <- Hdoc in Hd.
    destruct (step v u) as [v1|e] eqn:Hstep; [|discriminate].
    cbn in Hd.
    pose proof (Hlog _ _ _ Hc Hstep) as Hl1.
    pose proof (Hmode _ _ _ Hc Hu Hm Hstep) as Hm1.
    destruct (IH v1 d) as (v' & Hrun & Hcont & Hl & Hm').
    + destruct Hl1 as (-> & _). done.
    + done.
    + done.
    + done.
    + exists v'. cbn. split; [done|]. split; [done|].
      split; [by eapply same_log_trans|done].
Qed.

(** One [undo()] reverts the transaction on top of the undo stack and moves
    it to the redo stack. *)
Lemma undo_block v U block d :
  mode v <> ALIGN_MODE -> undos v = U ++ [block] ->
  Forall restores_edit_mode block -> reversible block d (contents v) ->
  exists v', undo v = Ok v' /\ contents v' = d /\
             undos v' = U /\ redos v' = redos v ++ [block] /\
             mode v' <> ALIGN_MODE /\ undoblock v' = undoblock v.
Proof.
  intros Hm Hu Hk [Hrev _]. rewrite undo_eq. unfold undo_loop.
  change (mode (set_undoblock v None)) with (mode v).
  change (undos (set_undoblock v None)) with (undos v).
  change (redos (set_undoblock v None)) with (redos v).
  destruct (edit_mode_dec _ Hm) as [H ->].
  rewrite Hu, len_snoc_pos, py_pop_snoc. cbn [mbind result_bind].
  set (v1 := set_stacks (set_undoblock v None) U (redos v ++ [block])).
  destruct (replay_records undo_record (doc_apply false)
              undo_record_contents undo_record_same_log undo_record_mode
              (reverse block) v1 d) as (v2 & Hrun & Hc & Hl & Hm2).
  - done.
  - by apply Forall_reverse.
  - done.
  - done.
  - rewrite Hrun. eexists. split; [reflexivity|].
    destruct Hl as (_ & Hus & Hrs). by repeat split.
Qed.

(** One [redo()] re-applies the transaction on top of the redo stack and
    moves it back to the undo stack. *)
Lemma redo_block v R block d :
  mode v <> ALIGN_MODE -> redos v = R ++ [block] ->
  Forall restores_edit_mode block -> reversible block (contents v) d ->
  exists v', redo v = Ok v' /\ contents v' = d /\
             redos v' = R /\ undos v' = undos v ++ [block] /\
             mode v' <> ALIGN_MODE /\ undoblock v' = undoblock v.
Proof.
  intros Hm Hu Hk [_ Hfw]. rewrite redo_eq. unfold redo_loop.
  change (mode (set_undoblock v None)) with (mode v).
  change (undos (set_undoblock v None)) with (undos v).
  change (redos (set_undoblock v None)) with (redos v).
  destruct (edit_mode_dec _ Hm) as [H ->].
  rewrite Hu, len_snoc_pos, py_pop_snoc. cbn [mbind result_bind].
  set (v1 := set_stacks (set_undoblock v None) (undos v ++ [block]) R).
  destruct (replay_records redo_record (doc_apply true)
              redo_record_contents redo_record_same_log redo_record_mode
              block v1 d) as (v2 & Hrun & Hc & Hl & Hm2); [done..|].
  rewrite Hrun. eexists. split; [reflexivity|].
  destruct Hl as (_ & Hus & Hrs). by repeat split.
Qed.

(** As many [undo()]s as there are transactions revert them all, last one
    first. *)
Lemma undo_history bs : forall d0 v U,
  history d0 bs (contents v) -> mode v <> ALIGN_MODE ->
  Forall (Forall restores_edit_mode) bs -> undos v = U ++ bs ->
  exists v', repeat_action (length bs) undo v = Ok v' /\ contents v' = d0 /\
             undos v' = U /\ redos v' = redos v ++ reverse bs /\
             mode v' <> ALIGN_MODE /\ undoblock v' = undoblock v.
Proof.
  induction bs as [|b bs IH] using rev_ind; intros d0 v U Hh Hm Hk Hu.
  - inversion Hh; subst. exists v. rewrite !app_nil_r in *. by repeat split.
  - apply history_snoc_inv in Hh as (d1 & Hh & Hrev).
    apply Forall_app in Hk as [Hk Hb]. rewrite Forall_singleton in Hb.
    rewrite app_assoc in Hu.
    destruct (undo_block v (U ++ bs) b d1 Hm Hu Hb Hrev)
      as (v1 & Hundo & Hc & Hu1 & Hr1 & Hm1 & Hb1).
    destruct (IH d0 v1 U) as (v' & Hrun & Hc' & Hu' & Hr' & Hm' & Hb').
    + by rewrite Hc.
    + done.
    + done.
    + done.
    + exists v'. rewrite length_app, Nat.add_comm. cbn [length Nat.add repeat_action].
      rewrite Hundo. cbn [mbind result_bind].
      split; [done|]. split; [done|]. split; [done|].
      split; [|split; [done|congruence]].
      rewrite Hr', Hr1, reverse_app, <- app_assoc. done.
Qed.

(** As many [redo()]s as transactions were undone re-apply them all, first
    one first. *)
Lemma redo_history d0 bs d1 :
  history d0 bs d1 -> forall v R,
  contents v = d0 -> mode v <> ALIGN_MODE ->
  Forall (Forall restores_edit_mode) bs -> redos v = R ++ reverse bs ->
  exists v', repeat_action (length bs) redo v = Ok v' /\ contents v' = d1 /\
             redos v' = R /\ undos v' = undos v ++ bs /\
             mode v' <> ALIGN_MODE /\ undoblock v' = undoblock v.
Proof.
  induction 1 as [d|d d1 d' b bs Hrev Hrest IH]; intros v R Hc Hm Hk Hr.
  - exists v. cbn in Hr. rewrite !app_nil_r in *. by repeat split.
  - apply Forall_cons in Hk as [Hb Hk].
    rewrite reverse_cons, app_assoc in Hr. subst d.
    destruct (redo_block v (R ++ reverse bs) b d1 Hm Hr Hb Hrev)
      as (v1 & Hredo & Hc1 & Hr1 & Hu1 & Hm1 & Hb1).
    destruct (IH v1 R) as (v' & Hrun & Hc' & Hr' & Hu' & Hm' & Hb').
    + done.
    + done.
    + done.
    + done.
    + exists v'. cbn [length repeat_action]. rewrite Hredo.
      cbn [mbind result_bind].
      split; [done|]. split; [done|]. split; [done|].
      split; [|split; [done|congruence]].
      rewrite Hu', Hu1, <- app_assoc. done.
Qed.

Lemma performs_run ok v steps v' :
  performs ok v steps v' -> for_each steps (fun v s => run_step s v) v = Ok v'.
Proof.
  induction 1 as [v|v s v1 steps v' _ Hrun _ IH]; cbn [for_each]; [done|].
  by rewrite Hrun.
Qed.

Lemma session_run ok v actions v' :
  session ok v actions v' -> run_session actions v = Ok v'.
Proof.
  unfold run_session.
  induction 1 as [v|v ops v1 actions v' (v2 & Hperf & Hclose) _ IH];
    cbn [for_each]; [done|].
  assert (Hrun : run_action ops v = Ok v1).
  { unfold run_action. by rewrite (performs_run _ _ _ _ Hperf). }
  by rewrite Hrun.
Qed.

(** [undo()] in line or character mode with a transaction on the stack:
    the records are undone from the last one recorded to the first. *)
Lemma undo_order v us block :
  mode v <> ALIGN_MODE -> undos v = us ++ [block] ->
  undo v =
    (v' ← for_each (reverse block) undo_record
            (set_stacks (set_undoblock v None) us (redos v ++ [block]));
     Ok (set_undoblock v' (undoblock v))).
Proof.
  intros Hm Hu. rewrite undo_eq. unfold undo_loop.
  change (mode (set_undoblock v None)) with (mode v).
  change (undos (set_undoblock v None)) with (undos v).
  change (redos (set_undoblock v None)) with (redos v).
  destruct (edit_mode_dec _ Hm) as [H ->].
  by rewrite Hu, len_snoc_pos, py_pop_snoc.
Qed.

(** [redo()] likewise: the records are re-applied from the first one
    recorded to the last. *)
Lemma redo_order v rs block :
  mode v <> ALIGN_MODE -> redos v = rs ++ [block] ->
  redo v =
    (v' ← for_each block redo_record
            (set_stacks (set_undoblock v None) (undos v ++ [block]) rs);
     Ok (set_undoblock v' (undoblock v))).
Proof.
  intros Hm Hr. rewrite redo_eq. unfold redo_loop.
  change (mode (set_undoblock v None)) with (mode v).
  change (undos (set_undoblock v None)) with (undos v).
  change (redos (set_undoblock v None)) with (redos v).
  destruct (edit_mode_dec _ Hm) as [H ->].
  by rewrite Hr, len_snoc_pos, py_pop_snoc.
Qed.

(** C2 (amended).  Take a sequence of user actions, each one
    [openUndoBlock()], some steps and [closeUndoBlock()], where a step is a
    primitive mutation or a change of mode or selection that is not
    recorded, and where every step is made in a state in which
    [undoable_in] holds of it: a [Line] object is dropped only when blank
    and created only on a spacer, a spacer row is deleted only where there
    is one and inserted inside the pane, and the selection is recorded
    only outside alignment mode and only when it can be set again.  If
    the viewer is not in alignment mode after the actions, then the
    actions pushed some transactions [new] on the undo stack (the actions
    that recorded nothing pushed none), and as many [undo()]s as [new] has
    transactions all return and leave the panes' rows (each [Line] with
    its number, text, modified flag and modified text, each spacer) and the
    block partition exactly as they were before the actions, and the undo
    stack as it was; after that the same number of [redo()]s all return
    and leave rows, partition and undo stack exactly as they were after
    the actions.  Moreover [undo()] applies the [undo] of the records of
    the popped transaction in the reverse order of recording and [redo()]
    applies their [redo] in the order of recording. *)
Theorem undo_redo_roundtrip v0 actions v1 :
  session undoable_in v0 actions v1 ->
  mode v1 <> ALIGN_MODE ->
  exists new v2 v3,
    run_session actions v0 = Ok v1 /\
    undos v1 = undos v0 ++ new /\
    repeat_action (length new) undo v1 = Ok v2 /\
    contents v2 = contents v0 /\ undos v2 = undos v0 /\
    repeat_action (length new) redo v2 = Ok v3 /\
    contents v3 = contents v1 /\ undos v3 = undos v1 /\
    (forall v us block,
       mode v <> ALIGN_MODE -> undos v = us ++ [block] ->
       undo v =
         (v' ← for_each (reverse block) undo_record
                 (set_stacks (set_undoblock v None) us (redos v ++ [block]));
          Ok (set_undoblock v' (undoblock v)))) /\
    (forall v rs block,
       mode v <> ALIGN_MODE -> redos v = rs ++ [block] ->
       redo v =
         (v' ← for_each block redo_record
                 (set_stacks (set_undoblock v None) (undos v ++ [block]) rs);
          Ok (set_undoblock v' (undoblock v)))).
Proof.
  intros Hs Hm.
  destruct (session_history _ _ _ Hs) as (new & Hundos & Hhist & Hkeeps).
  destruct (undo_history new (contents v0) v1 (undos v0))
    as (v2 & Hrun2 & Hc2 & Hu2 & Hr2 & Hm2 & _); try done.
  destruct (redo_history _ _ _ Hhist v2 (redos v1))
    as (v3 & Hrun3 & Hc3 & _ & Hu3 & _ & _); try done.
  exists new, v2, v3.
  split; [by eapply session_run|].
  do 6 (split; [done|]).
  split; [by rewrite Hu3, Hu2|].
  split; [apply undo_order|apply redo_order].
Qed.

Lemma undo_redo_roundtrip_witness :
  session undoable_in two_pane_viewer mode_changes two_pane_viewer_typed /\
  mode two_pane_viewer_typed <> ALIGN_MODE /\
  exists new v2 v3,
    undos two_pane_viewer_typed = undos two_pane_viewer ++ new /\
    repeat_action (length new) undo two_pane_viewer_typed = Ok v2 /\
    contents v2 = contents two_pane_viewer /\
    repeat_action (length new) redo v2 = Ok v3 /\
    contents v3 = contents two_pane_viewer_typed.
Proof.
  assert (Hm : mode two_pane_viewer_typed <> ALIGN_MODE) by done.
  assert (Hs : session undoable_in two_pane_viewer mode_changes
                 two_pane_viewer_typed).
  { eapply session_cons.
    { eexists. split.
      - eapply performs_cons;
          [split; [by eexists|done]|vm_compute; reflexivity|].
        eapply performs_cons;
          [split; [eexists; split; [reflexivity|by vm_compute]|done]
          |vm_compute; reflexivity|].
        eapply performs_cons;
          [split; [eexists; split; [reflexivity|by vm_compute]|done]
          |vm_compute; reflexivity|].
        eapply performs_cons; [done|vm_compute; reflexivity|].
        apply performs_nil.
      - vm_compute. reflexivity. }
    eapply session_cons.
    { eexists. split.
      - eapply performs_cons; [done|vm_compute; reflexivity|].
        apply performs_nil.
      - vm_compute. reflexivity. }
    eapply session_cons; [|apply session_nil].
    eexists. split.
    - eapply performs_cons; [done|vm_compute; reflexivity|].
      eapply performs_cons;
        [split; [by eexists|done]|vm_compute; reflexivity|].
      eapply performs_cons; [done|vm_compute; reflexivity|].
      eapply performs_cons;
        [split; [reflexivity|done]|vm_compute; reflexivity|].
      eapply performs_cons; [done|vm_compute; reflexivity|].
      eapply performs_cons; [done|vm_compute; reflexivity|].
      eapply performs_cons; [done|vm_compute; reflexivity|].
      eapply performs_cons;
        [split; [by eexists|done]|vm_compute; reflexivity|].
      apply performs_nil.
    - reflexivity. }
  split; [exact Hs|]. split; [exact Hm|].
  destruct (undo_redo_roundtrip _ _ _ Hs Hm)
    as (new & v2 & v3 & _ & H1 & H2 & H3 & _ & H4 & H5 & _).
  by exists new, v2, v3.
Defined.

(** The round trip fails outside each of the conditions of
    [undo_redo_roundtrip], on the two panes of [two_pane_viewer], which is
    in line mode.

    - A selection recorded in alignment mode: the mutations of
      [merge_in_align_mode] are all made where [invertible_in] holds and
      the viewer ends in line mode with two transactions pushed, but the
      first [undo()] sets the selection of alignment mode again and the
      second one does nothing: a transaction stays on the undo stack and
      the rows stay spread.
    - [undo()] called in alignment mode does nothing.
    - [instanceLine(f, i, True)] on a [Line] that holds a number and
      text is undone by a blank [Line()].
    - [instanceLine(f, i)] on a [Line] is undone by a spacer.
    - [insertNull(f, i, True)] on a [Line] is undone by a spacer.
    - [insertNull(f, i)] beyond the end of the pane appends a spacer, and
      undoing it deletes at [i], where there is nothing.
    - A selection that [setEditMode] does not accept, here a character
      position on a row that has no text, makes [undo()] raise. *)
Lemma undo_redo_roundtrip_counterexample :
  let v0 := two_pane_viewer in
  (exists v1 v2 first second,
     session invertible_step v0 merge_in_align_mode v1 /\
     mode v0 = LINE_MODE /\ mode v1 = LINE_MODE /\
     undos v1 = undos v0 ++ [first; second] /\
     repeat_action 2 undo v1 = Ok v2 /\
     mode v2 = ALIGN_MODE /\ undos v2 = undos v0 ++ [first] /\
     contents v2 <> contents v0) /\
  (exists v1 block,
     session undoable_in v0 [Mutate <$> spread_rows; [EnterAlignMode]] v1 /\
     mode v1 = ALIGN_MODE /\ undos v1 = undos v0 ++ [block] /\
     repeat_action 1 undo v1 = Ok v1 /\
     contents v1 <> contents v0) /\
  (~ invertible_in (openUndoBlock v0) (OpInstanceLine 0 0 true) /\
   exists v1 v2,
     run_session [[Mutate (OpInstanceLine 0 0 true)]] v0 = Ok v1 /\
     undos v1 = undos v0 ++ [[InstanceLineUndo 0 0 true]] /\
     repeat_action 1 undo v1 = Ok v2 /\
     entry_at v0 0 0 = Ok (Some (mkLine (Some 1) (Some "a") false None)) /\
     entry_at v2 0 0 = Ok (Some new_Line) /\
     contents v2 <> contents v0) /\
  (~ invertible_in (openUndoBlock v0) (OpInstanceLine 0 0 false) /\
   exists v1 v2,
     run_session [[Mutate (OpInstanceLine 0 0 false)]] v0 = Ok v1 /\
     undos v1 = undos v0 ++ [[InstanceLineUndo 0 0 false]] /\
     repeat_action 1 undo v1 = Ok v2 /\
     entry_at v2 0 0 = Ok None /\
     contents v2 <> contents v0) /\
  (~ invertible_in (openUndoBlock v0) (OpInsertNull 0 0 true) /\
   exists v1 v2,
     run_session [[Mutate (OpInsertNull 0 0 true)]] v0 = Ok v1 /\
     undos v1 = undos v0 ++ [[InsertNullUndo 0 0 true]] /\
     repeat_action 1 undo v1 = Ok v2 /\
     entry_at v2 0 0 = Ok None /\
     contents v2 <> contents v0) /\
  (~ invertible_in (openUndoBlock v0) (OpInsertNull 0 5 false) /\
   exists v1,
     run_session [[Mutate (OpInsertNull 0 5 false)]] v0 = Ok v1 /\
     undos v1 = undos v0 ++ [[InsertNullUndo 0 5 false]] /\
     repeat_action 1 undo v1 = Raise IndexError) /\
  (let v := set_selection (openUndoBlock v0) CHAR_MODE 0 1 1 1 1 (-1) in
   ~ invertible_in v OpRecordEditMode /\
   exists v1,
     run_session [[Assign CHAR_MODE 0 1 1 1 1 (-1); Mutate OpRecordEditMode]] v0
       = Ok v1 /\
     mode v1 = CHAR_MODE /\
     undos v1 = undos v0 ++ [[EditModeUndo CHAR_MODE 0 1 1 1 1 (-1)]] /\
     repeat_action 1 undo v1 = Raise TypeError).
Proof.
  intros v0. split; [|split; [|split; [|split; [|split; [|split]]]]].
  - eexists _, _, _, _. split.
    { eapply session_cons.
      { eexists. split.
        - eapply performs_cons; [by eexists|vm_compute; reflexivity|].
          eapply performs_cons;
            [eexists; split; [reflexivity|by vm_compute]|vm_compute; reflexivity|].
          eapply performs_cons;
            [eexists; split; [reflexivity|by vm_compute]|vm_compute; reflexivity|].
          eapply performs_cons; [done|vm_compute; reflexivity|].
          apply performs_nil.
        - vm_compute. reflexivity. }
      eapply session_cons.
      { eexists. split.
        - eapply performs_cons; [done|vm_compute; reflexivity|].
          apply performs_nil.
        - vm_compute. reflexivity. }
      eapply session_cons; [|apply session_nil].
      eexists. split.
      - eapply performs_cons; [by eexists|vm_compute; reflexivity|].
        eapply performs_cons; [done|vm_compute; reflexivity|].
        eapply performs_cons; [done|vm_compute; reflexivity|].
        eapply performs_cons; [by eexists|vm_compute; reflexivity|].
        apply performs_nil.
      - vm_compute. reflexivity. }
    split; [reflexivity|]. split; [reflexivity|]. split; [reflexivity|].
    split; [vm_compute; reflexivity|]. split; [reflexivity|].
    split; [reflexivity|]. by vm_compute.
  - eexists _, _. split.
    { eapply session_cons.
      { eexists. split.
        - eapply performs_cons;
            [split; [eexists; split; [reflexivity|by vm_compute]|done]
            |vm_compute; reflexivity|].
          eapply performs_cons;
            [split; [eexists; split; [reflexivity|by vm_compute]|done]
            |vm_compute; reflexivity|].
          eapply performs_cons; [done|vm_compute; reflexivity|].
          apply performs_nil.
        - vm_compute. reflexivity. }
      eapply session_cons; [|apply session_nil].
      eexists. split.
      - eapply performs_cons; [done|vm_compute; reflexivity|].
        apply performs_nil.
      - vm_compute. reflexivity. }
    split; [reflexivity|]. split; [reflexivity|].
    split; [vm_compute; reflexivity|]. by vm_compute.
  - split; [intros H; vm_compute in H; discriminate|].
    eexists _, _. split; [vm_compute; reflexivity|].
    split; [reflexivity|]. split; [vm_compute; reflexivity|].
    split; [reflexivity|]. split; [reflexivity|]. by vm_compute.
  - split; [intros H; vm_compute in H; discriminate|].
    eexists _, _. split; [vm_compute; reflexivity|].
    split; [reflexivity|]. split; [vm_compute; reflexivity|].
    split; [reflexivity|]. by vm_compute.
  - split; [intros [_ H]; vm_compute in H; discriminate|].
    eexists _, _. split; [vm_compute; reflexivity|].
    split; [reflexivity|]. split; [vm_compute; reflexivity|].
    split; [reflexivity|]. by vm_compute.
  - split.
    { intros (pane & Hp & _ & Hi). vm_compute in Hp. injection Hp as <-.
      unfold len in Hi. cbn in Hi. lia. }
    eexists. split; [vm_compute; reflexivity|].
    split; [reflexivity|]. vm_compute. reflexivity.
  - intros v. split; [intros H; vm_compute in H; exact H|].
    eexists. split; [vm_compute; reflexivity|].
    split; [reflexivity|]. split; [reflexivity|]. vm_compute. reflexivity.
Qed.

(** ** The aligner in general: the shape of its result *)

Section AlignShape.
Context {L K : Type} `{EqDecision L} `{EqDecision K}.
Variable alignmentHash : L -> K.
Implicit Types (l m : rows L).

Lemma real_lines_app l1 l2 :
  real_lines (l1 ++ l2) = real_lines l1 ++ real_lines l2.
Proof. unfold real_lines. apply omap_app. Qed.

Lemma real_lines_nones n : real_lines (replicate n (@None L)) = [].
Proof. induction n as [|n IH]; [done|]. exact IH. Qed.

Lemma real_lines_cons_None l : real_lines (None :: l) = real_lines l.
Proof. done. Qed.

Lemma real_lines_cons_Some x l : real_lines (Some x :: l) = x :: real_lines l.
Proof. done. Qed.

Lemma real_lines_splice l i xs :
  real_lines xs = [] -> real_lines (py_splice l i xs) = real_lines l.
Proof.
  intros Hxs. unfold py_splice. rewrite !real_lines_app, Hxs. cbn [app].
  by rewrite <- real_lines_app, take_drop.
Qed.

Lemma real_lines_insert l i : real_lines (py_insert l i None) = real_lines l.
Proof.
  unfold py_insert. rewrite real_lines_app, real_lines_cons_None.
  by rewrite <- real_lines_app, take_drop.
Qed.

Lemma len_py_splice {A} (l xs : list A) i : len (py_splice l i xs) = len l + len xs.
Proof.
  unfold py_splice, len. rewrite !length_app.
  pose proof (take_drop (py_clamp l i) l) as Hl.
  apply (f_equal length) in Hl. rewrite length_app in Hl. lia.
Qed.

Lemma len_py_insert {A} (l : list A) i x : len (py_insert l i x) = len l + 1.
Proof.
  unfold py_insert, len. rewrite length_app. cbn [length].
  pose proof (take_drop (py_clamp l i) l) as Hl.
  apply (f_equal length) in Hl. rewrite length_app in Hl. lia.
Qed.

Lemma len_py_repeat {A} n (x : A) : len (py_repeat n x) = Z.max n 0.
Proof. unfold len, py_repeat. rewrite length_replicate. lia. Qed.

(** The first loop of [alignBlocks] inserts spacers only, and [n1], [n2]
    count them. *)
Lemma place_block_shape (a b : list L) (s1 s2 : rows L) n1 n2 blk :
  real_lines s1 = a -> real_lines s2 = b ->
  len s1 = len a + n1 -> len s2 = len b + n2 ->
  exists s1' s2' n1' n2',
    place_block (s1, s2, n1, n2) blk = (s1', s2', n1', n2') /\
    real_lines s1' = a /\ real_lines s2' = b /\
    len s1' = len a + n1' /\ len s2' = len b + n2'.
Proof.
  intros H1 H2 Hl1 Hl2. destruct blk as [[b0 b1] bn]. unfold place_block.
  destruct (Z.ltb_spec (n1 + b0 - (n2 + b1)) 0) as [Hneg|Hnn].
  - eexists _, _, _, _. split; [reflexivity|].
    rewrite real_lines_splice by apply real_lines_nones.
    rewrite len_py_splice, len_py_repeat. repeat split; try done. lia.
  - destruct (Z.ltb_spec 0 (n1 + b0 - (n2 + b1))) as [Hpos|Hz].
    + eexists _, _, _, _. split; [reflexivity|].
      rewrite real_lines_splice by apply real_lines_nones.
      rewrite len_py_splice, len_py_repeat. repeat split; try done. lia.
    + by eexists _, _, _, _.
Qed.

Lemma place_blocks_shape (a b : list L) diff : forall (s1 s2 : rows L) n1 n2,
  real_lines s1 = a -> real_lines s2 = b ->
  len s1 = len a + n1 -> len s2 = len b + n2 ->
  exists s1' s2' n1' n2',
    foldl place_block (s1, s2, n1, n2) diff = (s1', s2', n1', n2') /\
    real_lines s1' = a /\ real_lines s2' = b /\
    len s1' = len a + n1' /\ len s2' = len b + n2'.
Proof.
  induction diff as [|blk diff IH]; intros s1 s2 n1 n2 H1 H2 Hl1 Hl2.
  - by eexists _, _, _, _.
  - destruct (place_block_shape a b s1 s2 n1 n2 blk H1 H2 Hl1 Hl2)
      as (s1' & s2' & n1' & n2' & Hstep & H1' & H2' & Hl1' & Hl2').
    cbn [foldl]. rewrite Hstep. by apply IH.
Qed.

(** The sentinel block levels the two sequences. *)
Lemma place_sentinel_levels (a b : list L) (s1 s2 : rows L) n1 n2 :
  len s1 = len a + n1 -> len s2 = len b + n2 ->
  exists s1' s2' n1' n2',
    place_block (s1, s2, n1, n2) (len a, len b, 0) = (s1', s2', n1', n2') /\
    len s1' = len s2'.
Proof.
  intros Hl1 Hl2. unfold place_block.
  destruct (Z.ltb_spec (n1 + len a - (n2 + len b)) 0) as [Hneg|Hnn].
  - eexists _, _, _, _. split; [reflexivity|].
    rewrite len_py_splice, len_py_repeat. lia.
  - destruct (Z.ltb_spec 0 (n1 + len a - (n2 + len b))) as [Hpos|Hz].
    + eexists _, _, _, _. split; [reflexivity|].
      rewrite len_py_splice, len_py_repeat. lia.
    + eexists _, _, _, _. split; [reflexivity|]. lia.
Qed.
(** Whatever blocks the matcher finds, the last one is the sentinel. *)
Lemma patience_diff_sentinel (a b : list K) diff :
  patience_diff a b = Ok diff ->
  exists diff', diff = diff' ++ [(len a, len b, 0)].
Proof.
  unfold patience_diff. intros H. bind_inv H.
  destruct (match a0 with (sa, sb, _) :: _ => (sa, sb) | [] => (len a, len b) end)
    as [end_a end_b].
  bind_inv H.
  match type of H with
  | context [last ?ms] =>
      destruct (match last ms with
                | Some (sa, sb, n) => (sa + n, sb + n)
                | None => (0, 0)
                end) as [start_a start_b]
  end.
  bind_inv H. destruct a2 as [ea eb]. injection H as <-. by eexists.
Qed.

Lemma expected_pairs_shape m0 m1 s1 s2 :
  expected_pairs alignmentHash m0 m1 = Ok (s1, s2) ->
  real_lines s1 = real_lines m0 /\ real_lines s2 = real_lines m1 /\
  len s1 = len s2.
Proof.
  unfold expected_pairs. intros H. bind_inv H.
  destruct (patience_diff_sentinel _ _ _ Ha) as [diff' ->].
  rewrite foldl_app in H. cbn [foldl] in H.
  destruct (place_blocks_shape (real_lines m0) (real_lines m1) diff'
              (Some <$> real_lines m0) (Some <$> real_lines m1) 0 0)
    as (t1 & t2 & n1 & n2 & Hfold & H1 & H2 & Hl1 & Hl2).
  { unfold real_lines. apply (real_lines_Some (real_lines m0)). }
  { apply (real_lines_Some (real_lines m1)). }
  { unfold len. rewrite length_fmap. lia. }
  { unfold len. rewrite length_fmap. lia. }
  rewrite Hfold in H.
  destruct (place_block_shape _ _ t1 t2 n1 n2
              (len (alignmentHash <$> real_lines m0),
               len (alignmentHash <$> real_lines m1), 0) H1 H2 Hl1 Hl2)
    as (u1 & u2 & k1 & k2 & Hstep & Hu1 & Hu2 & _ & _).
  destruct (place_sentinel_levels (real_lines m0) (real_lines m1) t1 t2 n1 n2 Hl1 Hl2)
    as (u1' & u2' & k1' & k2' & Hstep' & Hlen).
  replace (len (alignmentHash <$> real_lines m0)) with (len (real_lines m0)) in *
    by (unfold len; by rewrite length_fmap).
  replace (len (alignmentHash <$> real_lines m1)) with (len (real_lines m1)) in *
    by (unfold len; by rewrite length_fmap).
  rewrite Hstep in Hstep'. injection Hstep' as <- <- <- <-.
  rewrite Hstep in H. injection H as <- <-. done.
Qed.

(** [while bnj + blocksj[bij] < i]: the search stops inside the list when
    [i] is a row of the partition or the row after its last. *)
Lemma find_block_shape i rest : forall fuel pre,
  rest <> [] -> positive_blocks rest -> i <= sumZ pre + sumZ rest ->
  (length rest <= S fuel)%nat ->
  exists pre' b rest',
    pre ++ rest = pre' ++ b :: rest' /\
    find_block fuel (pre ++ rest) (len pre) (sumZ pre) i = Ok (len pre').
Proof.
  induction rest as [|b rest IH]; intros fuel pre Hne Hpos Hi Hfuel; [done|].
  destruct fuel as [|fuel]; cbn [find_block]; rewrite py_get_app_middle;
    cbn [mbind result_bind].
  - destruct rest; [|simpl in Hfuel; lia].
    simpl in Hi. destruct (Z.ltb_spec (sumZ pre + b) i); [lia|].
    by exists pre, b, [].
  - destruct (Z.ltb_spec (sumZ pre + b) i) as [Hlt|Hge].
    + apply Forall_cons in Hpos as [Hb Hpos].
      destruct rest as [|b' rest]; [simpl in Hi; lia|].
      destruct (IH fuel (pre ++ [b])) as (pre' & c & rest' & Heq & Hfind).
      * done.
      * done.
      * rewrite sumZ_app. simpl in *. lia.
      * simpl in *. lia.
      * rewrite <- app_assoc in Heq, Hfind. cbn [app] in Heq, Hfind.
        exists pre', c, rest'. split; [done|].
        rewrite sumZ_app in Hfind. simpl in Hfind.
        replace (len (pre ++ [b])) with (len pre + 1) in Hfind
          by (unfold len; rewrite length_app; simpl; lia).
        by replace (sumZ pre + (b + 0)) with (sumZ pre + b) in Hfind by lia.
    + by exists pre, b, rest.
Qed.

Lemma grow_block_shape blocks_ i :
  positive_blocks blocks_ -> 0 <= i <= sumZ blocks_ ->
  exists blocks',
    grow_block blocks_ i = Ok blocks' /\
    sumZ blocks' = sumZ blocks_ + 1 /\ positive_blocks blocks'.
Proof.
  intros Hpos Hi. destruct blocks_ as [|b0 rest0] eqn:Hb.
  - simpl in Hi. replace i with 0 by lia. exists [1].
    split; [reflexivity|]. split; [done|]. by repeat constructor.
  - rewrite <- Hb in *. unfold grow_block.
    assert (Hlen : (len blocks_ =? 0) = false).
    { apply Z.eqb_neq. subst. unfold len. simpl. lia. }
    rewrite Hlen.
    destruct (find_block_shape i blocks_ (length blocks_) [])
      as (pre' & b & rest' & Heq & Hfind); [by subst|done|simpl; lia|lia|].
    cbn [app] in Heq, Hfind. change (len []) with 0 in Hfind.
    change (sumZ []) with 0 in Hfind. rewrite Hfind. cbn [mbind result_bind].
    rewrite Heq, py_get_app_middle. cbn [mbind result_bind].
    rewrite py_set_app_middle. eexists. split; [reflexivity|].
    rewrite Heq in Hpos.
    apply Forall_app in Hpos as [Hp1 Hp2]. apply Forall_cons in Hp2 as [Hb1 Hp2].
    split.
    + rewrite !sumZ_app. simpl. lia.
    + apply Forall_app. split; [done|]. constructor; [lia|done].
Qed.

Lemma insert_spacer_shape blocks_ (lines_ : list (rows L)) i n :
  side_ok blocks_ lines_ n -> 0 <= i <= n ->
  exists blocks',
    insert_spacer blocks_ lines_ i
      = Ok (blocks', (fun l => py_insert l i None) <$> lines_) /\
    side_ok blocks' ((fun l => py_insert l i None) <$> lines_) (n + 1) /\
    same_real_lines lines_ ((fun l => py_insert l i None) <$> lines_).
Proof.
  intros (Hpos & Hsum & Hlen) Hi. unfold insert_spacer.
  destruct (grow_block_shape blocks_ i Hpos) as (blocks' & Hgrow & Hsum' & Hpos');
    [lia|].
  rewrite Hgrow. exists blocks'. split; [done|]. split.
  - split; [done|]. split; [lia|].
    apply Forall_fmap. eapply Forall_impl; [exact Hlen|].
    intros l Hl. unfold compose. cbv beta in *. rewrite len_py_insert. lia.
  - unfold same_real_lines. apply Forall2_fmap_r, Forall_Forall2_diag.
    apply Forall_forall. intros l _. apply real_lines_insert.
Qed.
Lemma py_insert_nat {A} (l : list A) (i : nat) (x : A) :
  (i <= length l)%nat -> py_insert l (Z.of_nat i) x = take i l ++ x :: drop i l.
Proof.
  intros Hi. unfold py_insert, py_clamp, py_norm, len.
  destruct (Z.ltb_spec (Z.of_nat i) 0); [lia|].
  by replace (Z.to_nat (Z.min (Z.max (Z.of_nat i) 0) (Z.of_nat (length l))))
    with i by lia.
Qed.

Lemma real_lines_drop_insert l (i : nat) :
  (i <= length l)%nat ->
  real_lines (drop (S i) (py_insert l (Z.of_nat i) None)) = real_lines (drop i l).
Proof.
  intros Hi. rewrite py_insert_nat by done.
  rewrite drop_app_ge by (rewrite length_take; lia).
  rewrite length_take. by replace (S i - i `min` length l)%nat with 1%nat by lia.
Qed.

Lemma real_lines_drop_None l (i : nat) :
  l !! i = Some None -> real_lines (drop i l) = real_lines (drop (S i) l).
Proof. intros Hi. by rewrite (drop_S _ _ _ Hi). Qed.

Lemma real_lines_drop_Some l (i : nat) x :
  l !! i = Some (Some x) -> real_lines (drop i l) = x :: real_lines (drop (S i) l).
Proof. intros Hi. by rewrite (drop_S _ _ _ Hi). Qed.

(** One side of the comparison with the expected pair.  When the lines
    that are still to come agree, a line is only ever compared with
    itself, and a side that spoils the pair holds a spacer. *)
Lemma expect_entry_shape (mlines middle : rows L) (i k : nat) cur e acc :
  middle !! i = Some cur -> mlines !! k = Some e ->
  real_lines (drop k mlines) = real_lines (drop i middle) ->
  exists ins acc',
    expect_entry cur e false acc = (ins, acc') /\
    (acc' = true ->
       acc = true /\
       real_lines (drop (S k) mlines)
       = real_lines (drop (S i) (if ins then py_insert middle (Z.of_nat i) None
                                 else middle))) /\
    (acc' = false -> acc = false \/ cur = None).
Proof.
  intros Hcur Hm Hrest. pose proof (lookup_lt_Some _ _ _ Hcur) as Hi.
  unfold expect_entry.
  destruct cur as [x|], e as [y|]; cbn [same_entry].
  - rewrite (real_lines_drop_Some _ _ _ Hcur), (real_lines_drop_Some _ _ _ Hm) in Hrest.
    injection Hrest as -> Hrest. rewrite bool_decide_eq_true_2 by done.
    eexists _, _. split; [done|]. split; [done|]. by left.
  - eexists _, _. split; [done|]. split; [|by left].
    intros ->. split; [done|].
    rewrite real_lines_drop_insert by lia.
    by rewrite <- (real_lines_drop_None _ _ Hm).
  - eexists _, _. split; [done|]. split; [done|]. by right.
  - rewrite (real_lines_drop_None _ _ Hcur), (real_lines_drop_None _ _ Hm) in Hrest.
    eexists _, _. split; [done|]. split; [done|]. by left.
Qed.

(** The side of a pair that is not accepted: a line gets a spacer put
    before it, a spacer is passed. *)
Lemma stay_agrees (mlines middle : rows L) (i k : nat) cur :
  middle !! i = Some cur ->
  real_lines (drop k mlines) = real_lines (drop i middle) ->
  real_lines (drop k mlines)
  = real_lines (drop (S i) (if bool_decide (cur <> None)
                            then py_insert middle (Z.of_nat i) None else middle)).
Proof.
  intros Hcur Hrest. pose proof (lookup_lt_Some _ _ _ Hcur) as Hi.
  destruct cur as [x|].
  - rewrite bool_decide_eq_true_2 by done. by rewrite real_lines_drop_insert by lia.
  - rewrite bool_decide_eq_false_2 by (by intros []).
    by rewrite <- (real_lines_drop_None _ _ Hcur).
Qed.
(** The choice made at row [i]: what it returns, that the row counter can
    advance, that an iteration which keeps [k] leaves a side alone, and
    that the lines still to come agree afterwards. *)
Lemma choose_inserts_shape (mlines0 mlines1 middle0 middle1 : rows L)
    (i k : nat) :
  length mlines0 = length mlines1 ->
  (k <= length mlines0)%nat ->
  (i <= length middle0)%nat -> (i <= length middle1)%nat ->
  (i < length middle0 \/ i < length middle1)%nat ->
  ((k < length mlines0)%nat -> (i < length middle0)%nat ->
   (i < length middle1)%nat ->
   real_lines (drop k mlines0) = real_lines (drop i middle0) /\
   real_lines (drop k mlines1) = real_lines (drop i middle1)) ->
  exists ins0 ins1 (k' : nat),
    choose_inserts mlines0 mlines1 middle0 middle1 (len mlines0)
                   (Z.of_nat i) (Z.of_nat k) = Ok (ins0, ins1, Z.of_nat k') /\
    (ins0 = false -> (i < length middle0)%nat) /\
    (ins1 = false -> (i < length middle1)%nat) /\
    (k' <= length mlines0)%nat /\
    (k' = S k \/ (k' = k /\ (ins0 = false \/ ins1 = false))) /\
    let middle0' := if ins0 then py_insert middle0 (Z.of_nat i) None else middle0 in
    let middle1' := if ins1 then py_insert middle1 (Z.of_nat i) None else middle1 in
    ((k' < length mlines0)%nat -> (S i < length middle0')%nat ->
     (S i < length middle1')%nat ->
     real_lines (drop k' mlines0) = real_lines (drop (S i) middle0') /\
     real_lines (drop k' mlines1) = real_lines (drop (S i) middle1')).
Proof.
  intros Hm Hk Hi0 Hi1 Hsome Hrest. unfold choose_inserts, len.
  destruct (Z.leb_spec (Z.of_nat (length middle0)) (Z.of_nat i)) as [He0|Hn0];
    [|destruct (Z.leb_spec (Z.of_nat (length middle1)) (Z.of_nat i)) as [He1|Hn1];
      [|destruct (Z.ltb_spec (Z.of_nat k) (Z.of_nat (length mlines0))) as [Hlt|Hge]]];
    cbn [negb andb].
  - (* the left side has no row [i] *)
    destruct (Z.leb_spec (Z.of_nat (length middle1)) (Z.of_nat i)) as [He1|Hn1];
      [lia|].
    exists true, false, k. split; [done|].
    split; [done|]. split; [lia|]. split; [done|]. split; [right; by auto|].
    cbn zeta. intros _ Hlen. unfold len in Hlen.
    pose proof (len_py_insert middle0 (Z.of_nat i) None) as Hins.
    unfold len in Hins. lia.
  - (* the right side has no row [i] *)
    exists false, true, k. split; [done|].
    split; [lia|]. split; [done|]. split; [done|]. split; [right; by auto|].
    cbn zeta. intros _ _ Hlen.
    pose proof (len_py_insert middle1 (Z.of_nat i) None) as Hins.
    unfold len in Hins. lia.
  - (* both sides have a row [i] and a pair is expected *)
    destruct (Hrest ltac:(lia) ltac:(lia) ltac:(lia)) as [Hr0 Hr1].
    destruct (lookup_lt_is_Some_2 mlines0 k ltac:(lia)) as [e0 He0].
    destruct (lookup_lt_is_Some_2 mlines1 k ltac:(lia)) as [e1 He1].
    destruct (lookup_lt_is_Some_2 middle0 i ltac:(lia)) as [cur0 Hcur0].
    destruct (lookup_lt_is_Some_2 middle1 i ltac:(lia)) as [cur1 Hcur1].
    rewrite !py_get_nat, He0, He1, Hcur0, Hcur1. cbn [mbind result_bind].
    destruct (expect_entry_shape mlines0 middle0 i k cur0 e0 true Hcur0 He0 Hr0)
      as (ins0 & acc0 & -> & Hacc0 & Hrej0).
    destruct (expect_entry_shape mlines1 middle1 i k cur1 e1 acc0 Hcur1 He1 Hr1)
      as (ins1 & acc1 & -> & Hacc1 & Hrej1).
    destruct acc1.
    + destruct (Hacc1 eq_refl) as [-> Hn1']. destruct (Hacc0 eq_refl) as [_ Hn0'].
      exists ins0, ins1, (S k). split; [do 2 f_equal; lia|].
      split; [lia|]. split; [lia|]. split; [lia|]. split; [by left|].
      by cbn zeta.
    + exists (bool_decide (cur0 <> None)), (bool_decide (cur1 <> None)), k.
      split; [done|]. split; [lia|]. split; [lia|]. split; [lia|].
      split.
      * right. split; [done|].
        destruct (Hrej1 eq_refl) as [->| ->].
        -- destruct (Hrej0 eq_refl) as [?| ->]; [done|].
           left. by apply bool_decide_eq_false_2; intros [].
        -- right. by apply bool_decide_eq_false_2; intros [].
      * cbn zeta. intros _ _ _. split; by apply stay_agrees.
  - (* both sides have a row [i] and no pair is left *)
    exists false, false, k. split; [done|].
    split; [lia|]. split; [lia|]. split; [lia|]. split; [right; by auto|].
    cbn zeta. lia.
Qed.
Lemma py_get_last_neg {A} (l : list A) (x : A) : py_get (l ++ [x]) (-1) = Ok x.
Proof.
  unfold py_get, py_norm, len. rewrite length_app. cbn [length Z.ltb Z.compare].
  destruct (Z.ltb_spec (Z.of_nat (length l + 1) + -1) 0); [lia|].
  replace (Z.to_nat (Z.of_nat (length l + 1) + -1)) with (length l) by lia.
  by rewrite list_lookup_middle.
Qed.

Lemma same_real_lines_refl (ls : list (rows L)) : same_real_lines ls ls.
Proof. apply Forall_Forall2_diag, Forall_forall. done. Qed.

Lemma same_real_lines_trans (ls1 ls2 ls3 : list (rows L)) :
  same_real_lines ls1 ls2 -> same_real_lines ls2 ls3 -> same_real_lines ls1 ls3.
Proof.
  intros H12. revert ls3.
  induction H12 as [|l1 l2 ls1 ls2 Hl _ IH]; intros ls3 H23;
    inversion H23 as [|? l3 ? ls3' Hl' H23']; subst; constructor.
  - by rewrite Hl'.
  - by apply IH.
Qed.

Lemma same_real_lines_app (ls1 ls1' ls2 ls2' : list (rows L)) :
  same_real_lines ls1 ls1' -> same_real_lines ls2 ls2' ->
  same_real_lines (ls1 ++ ls2) (ls1' ++ ls2').
Proof. apply Forall2_app. Qed.

Lemma side_ok_len blocks_ (ls1 ls2 : list (rows L)) l n :
  side_ok blocks_ (ls1 ++ l :: ls2) n -> len l = n.
Proof.
  intros (_ & _ & Hlen). apply Forall_app in Hlen as [_ Hlen].
  by apply Forall_cons in Hlen as [Hl _].
Qed.

(** "insert spacers lines for side 'j'" when [insert[j]] is set. *)
Lemma maybe_insert_shape (ins : bool) blocks_ (lines_ : list (rows L)) i n :
  side_ok blocks_ lines_ n -> 0 <= i <= n ->
  let put := fun l : rows L => if ins then py_insert l i None else l in
  exists blocks',
    (if ins then insert_spacer blocks_ lines_ i else Ok (blocks_, lines_))
      = Ok (blocks', put <$> lines_) /\
    side_ok blocks' (put <$> lines_) (n + (if ins then 1 else 0)) /\
    same_real_lines lines_ (put <$> lines_).
Proof.
  intros Hok Hi put. unfold put. destruct ins.
  - by apply insert_spacer_shape.
  - exists blocks_. rewrite list_fmap_id. rewrite Z.add_0_r.
    split; [done|]. split; [done|]. apply same_real_lines_refl.
Qed.

(** The [while True] loop returns, before the fuel given by the rows and
    pairs that are left is used up; it leaves both sides with the same
    number of rows and a partition that fits, and it only inserts
    spacers. *)
Lemma align_rows_shape (mlines0 mlines1 : rows L) :
  length mlines0 = length mlines1 ->
  forall fuel lb ll0 (middle0 : rows L) rb (middle1 : rows L) rl0 (i k : nat) nL nR,
    side_ok lb (ll0 ++ [middle0]) nL -> side_ok rb (middle1 :: rl0) nR ->
    Z.of_nat i <= nL -> Z.of_nat i <= nR -> (k <= length mlines0)%nat ->
    ((k < length mlines0)%nat -> (i < length middle0)%nat ->
     (i < length middle1)%nat ->
     real_lines (drop k mlines0) = real_lines (drop i middle0) /\
     real_lines (drop k mlines1) = real_lines (drop i middle1)) ->
    Z.of_nat (length mlines0 - k) + (nL - Z.of_nat i) + (nR - Z.of_nat i)
      <= Z.of_nat fuel ->
    exists lb' ll' rb' rl' n,
      align_rows fuel mlines0 mlines1 (len mlines0) lb (ll0 ++ [middle0])
                 rb (middle1 :: rl0) (Z.of_nat i) (Z.of_nat k)
        = Ok (lb', ll', rb', rl') /\
      side_ok lb' ll' n /\ side_ok rb' rl' n /\
      same_real_lines (ll0 ++ [middle0]) ll' /\
      same_real_lines (middle1 :: rl0) rl'.
Proof.
  intros Hm. induction fuel as [|fuel IH];
    intros lb ll0 middle0 rb middle1 rl0 i k nL nR HL HR HiL HiR Hk Hrest Hfuel;
    pose proof (side_ok_len _ _ [] _ _ HL) as HlenL;
    pose proof (side_ok_len _ [] _ _ _ HR) as HlenR;
    cbn [align_rows]; rewrite py_get_last_neg;
    change (py_get (middle1 :: rl0) 0) with (Ok middle1);
    cbn [mbind result_bind]; rewrite HlenL, HlenR;
    unfold len in HlenL, HlenR;
    destruct (Z.leb_spec nL (Z.of_nat i)) as [HeL|HnL];
    destruct (Z.leb_spec nR (Z.of_nat i)) as [HeR|HnR]; cbn [andb].
  1,5: exists lb, (ll0 ++ [middle0]), rb, (middle1 :: rl0), nL;
       split; [done|]; split; [done|]; replace nL with nR by lia;
       split; [done|]; split; apply same_real_lines_refl.
  1-3: lia.
  all: destruct (choose_inserts_shape mlines0 mlines1 middle0 middle1 i k)
         as (ins0 & ins1 & k' & -> & Hins0 & Hins1 & Hk' & Hprog & Hrest');
         [done|done|lia|lia|lia|done|].
  all: cbn [mbind result_bind].
  all: destruct (maybe_insert_shape ins0 lb (ll0 ++ [middle0]) (Z.of_nat i) nL HL
                   ltac:(lia)) as (lb1 & -> & HL1 & Hsame0).
  all: destruct (maybe_insert_shape ins1 rb (middle1 :: rl0) (Z.of_nat i) nR HR
                   ltac:(lia)) as (rb1 & -> & HR1 & Hsame1).
  all: cbn [mbind result_bind].
  all: rewrite fmap_app in *; rewrite fmap_cons in *; cbn [fmap list_fmap] in *.
  all: replace (Z.of_nat i + 1) with (Z.of_nat (S i)) by lia.
  all: edestruct (IH lb1 _ _ rb1 _ _ (S i) k' _ _ HL1 HR1)
         as (lb' & ll' & rb' & rl' & n & Hrun & HL' & HR' & Hs0 & Hs1).
  all: try (exists lb', ll', rb', rl', n; split; [exact Hrun|];
            split; [done|]; split; [done|];
            split; eapply same_real_lines_trans; eassumption).
  all: try done.
  all: try (destruct ins0; [lia|specialize (Hins0 eq_refl); lia]).
  all: try (destruct ins1; [lia|specialize (Hins1 eq_refl); lia]).
  all: destruct Hprog as [?|[? [?|?]]]; subst;
         repeat match goal with
                | |- context [if ?b then _ else _] => destruct b
                end; lia.
Qed.
(** [alignBlocks] on two well-formed sides: when the matcher returns for
    the two inner sequences, [alignBlocks] returns, both sides come out
    with the same number of rows and partitions that fit them, and every
    sequence holds the lines it held, in the same order. *)
Lemma alignBlocks_shape lb (ll : list (rows L)) rb (rl : list (rows L))
    nL nR (m0 m1 : rows L) diff :
  side_ok lb ll nL -> side_ok rb rl nR ->
  last ll = Some m0 -> head rl = Some m1 ->
  patience_diff (alignmentHash <$> real_lines m0) (alignmentHash <$> real_lines m1)
    = Ok diff ->
  exists lb' ll' rb' rl' n,
    alignBlocks alignmentHash lb ll rb rl = Ok (lb', ll', rb', rl') /\
    side_ok lb' ll' n /\ side_ok rb' rl' n /\
    same_real_lines ll ll' /\ same_real_lines rl rl'.
Proof.
  intros HL HR Hlast Hhead Hdiff.
  apply last_Some in Hlast as [ll0 ->].
  destruct rl as [|m1' rl0]; [done|]. injection Hhead as ->.
  pose proof (side_ok_len _ _ [] _ _ HL) as HlenL.
  pose proof (side_ok_len _ [] _ _ _ HR) as HlenR.
  unfold alignBlocks. rewrite py_get_last_neg.
  change (py_get (m1 :: rl0) 0) with (Ok m1). cbn [mbind result_bind].
  destruct (expected_pairs alignmentHash m0 m1) as [[s1 s2]|e] eqn:Hpairs.
  2:{ unfold expected_pairs in Hpairs. rewrite Hdiff in Hpairs.
      cbn [mbind result_bind] in Hpairs.
      by destruct (foldl place_block _ diff) as [[[? ?] ?] ?]. }
  cbn [mbind result_bind].
  destruct (expected_pairs_shape _ _ _ _ Hpairs) as (Hr1 & Hr2 & Hlen).
  unfold len in *.
  apply (align_rows_shape s1 s2 ltac:(lia) _ lb ll0 m0 rb m1 rl0 0 0 nL nR);
    try done; try lia.
Qed.
End AlignShape.

(** ** The compactor in general: the shape of its result *)

Section CompactorShape.
Context {L : Type}.

Lemma real_lines_select mask (l : rows L) :
  length mask = length l ->
  (forall k, mask !! k = Some false -> l !! k = Some None) ->
  real_lines (select mask l) = real_lines l.
Proof.
  revert l. induction mask as [|b mask IH]; intros [|x l] Hlen Hnone;
    simpl in Hlen; try done; try lia.
  assert (Hrest : real_lines (select mask l) = real_lines l).
  { apply IH; [lia|]. intros k Hk. apply (Hnone (S k) Hk). }
  destruct b; cbn [select].
  - destruct x; [by rewrite !real_lines_cons_Some, Hrest|].
    by rewrite !real_lines_cons_None.
  - specialize (Hnone 0%nat eq_refl). injection Hnone as ->.
    by rewrite real_lines_cons_None.
Qed.

Lemma keep_mask_false (lines_set : list (rows L)) n k l :
  keep_mask lines_set n !! k = Some false -> l ∈ lines_set ->
  length l = n -> l !! k = Some None.
Proof.
  unfold keep_mask. intros Hk Hl Hlen.
  pose proof (lookup_lt_Some _ _ _ Hk) as Hkn.
  rewrite length_fmap, length_seq in Hkn.
  rewrite list_lookup_fmap, lookup_seq_lt in Hk by done.
  injection Hk as Hk. unfold row_has_line in Hk.
  destruct (lookup_lt_is_Some_2 l k ltac:(lia)) as [[x|] Hx]; [|done].
  exfalso. apply not_true_iff_false in Hk. apply Hk.
  apply existsb_exists. exists l. split; [by apply list_elem_of_In|].
  by rewrite Hx.
Qed.

(** [removeNullLines] on a well-formed side returns a well-formed side
    that holds the same lines. *)
Lemma removeNullLines_shape blocks_ (lines_set : list (rows L)) n :
  side_ok blocks_ lines_set n ->
  exists blocks' lines' n',
    removeNullLines blocks_ lines_set = Ok (blocks', lines') /\
    side_ok blocks' lines' n' /\ same_real_lines lines_set lines'.
Proof.
  intros (Hpos & Hsum & Hlen).
  pose proof (sumZ_nonneg _ Hpos) as Hnn.
  set (k := Z.to_nat n).
  assert (Hlen' : Forall (fun l : rows L => length l = k) lines_set).
  { eapply Forall_impl; [exact Hlen|]. intros l Hl. unfold len in Hl. lia. }
  set (mask := keep_mask lines_set k).
  assert (Hmask : length mask = k)
    by (unfold mask, keep_mask; by rewrite length_fmap, length_seq).
  exists (compacted_blocks mask blocks_), (select mask <$> lines_set),
         (sumZ (compacted_blocks mask blocks_)).
  split; [|split].
  - unfold removeNullLines.
    assert (Hid : fmap (partly_compacted []) lines_set = lines_set).
    { clear. induction lines_set as [|l ls IH]; csimpl; [done|]. by rewrite IH. }
    transitivity (removeNullLines_outer (length blocks_) ([] ++ blocks_)
                    (fmap (partly_compacted []) lines_set)
                    (len (@nil Z)) (sumZ []) (Z.of_nat (count_true []))).
    { by rewrite Hid. }
    rewrite removeNullLines_outer_scan; [| |lia|done|].
    2:{ eapply Forall_impl; [exact Hpos|]. intros b Hb. cbv beta in *. lia. }
    2:{ rewrite Hsum. done. }
    rewrite Hsum. simpl.
    change (scan_mask lines_set [] k) with mask.
    f_equal. f_equal.
    apply Forall_fmap_ext. eapply Forall_impl; [exact Hlen'|].
    simpl. intros l Hl. apply partly_compacted_all. lia.
  - split; [apply compacted_blocks_positive|]. split; [done|].
    apply Forall_fmap. eapply Forall_impl; [exact Hlen'|].
    intros l Hl. unfold compose. cbv beta in *.
    unfold len. rewrite length_select by lia.
    unfold compacted_blocks.
    rewrite sumZ_filter_nonzero, sumZ_block_counts; [done| |lia].
    eapply Forall_impl; [exact Hpos|]. intros b Hb. cbv beta in *. lia.
  - unfold same_real_lines. apply Forall2_fmap_r, Forall_Forall2_diag.
    apply Forall_forall. intros l Hl.
    rewrite Forall_forall in Hlen'. specialize (Hlen' l Hl).
    apply real_lines_select; [lia|].
    intros j Hj. by eapply keep_mask_false.
Qed.
End CompactorShape.

(** ** Partitions: what the alignment operations need *)

Lemma cut_rec_total j blocks_ :
  sumZ (cut_rec j blocks_).1 + sumZ (cut_rec j blocks_).2 = sumZ blocks_.
Proof.
  revert j. induction blocks_ as [|b rest IH]; intros j; [done|].
  cbn [cut_rec]. specialize (IH (j - b)).
  destruct (cut_rec (j - b) rest) as [p q].
  destruct (j <=? 0); [simpl in *; lia|].
  destruct (b <=? j); simpl in *; lia.
Qed.

Lemma cutBlocks_shape i blocks_ :
  positive_blocks blocks_ ->
  exists pre post,
    cutBlocks i blocks_ = (pre, post) /\
    positive_blocks pre /\ positive_blocks post /\
    sumZ pre + sumZ post = sumZ blocks_ /\
    (0 <= i <= sumZ blocks_ -> sumZ pre = i).
Proof.
  intros Hpos. rewrite cutBlocks_cut_rec.
  pose proof (cut_rec_positive i blocks_ Hpos) as [Hp Hq].
  pose proof (cut_rec_total i blocks_) as Ht.
  pose proof (cut_rec_sum i blocks_ Hpos) as Hs.
  destruct (cut_rec i blocks_) as [pre post]. by exists pre, post.
Qed.

Lemma mergeBlocks_shape leftblocks rightblocks :
  positive_blocks leftblocks -> positive_blocks rightblocks ->
  sumZ leftblocks = sumZ rightblocks ->
  exists b, mergeBlocks leftblocks rightblocks = Ok b /\
            sumZ b = sumZ leftblocks /\ positive_blocks b.
Proof.
  intros Hl Hr Hsum.
  destruct (mergeBlocks_loop_spec (length leftblocks + length rightblocks)
              leftblocks rightblocks [] 0 ltac:(lia) Hl Hr Hsum)
    as (m & Hm & Hms & Hmp & _).
  by exists m.
Qed.

Lemma createBlock_shape n :
  0 <= n -> positive_blocks (createBlock n) /\ sumZ (createBlock n) = n.
Proof.
  intros Hn. unfold createBlock. destruct (Z.ltb_spec 0 n).
  - split; [by repeat constructor|simpl; lia].
  - split; [constructor|simpl; lia].
Qed.

(** ** The recording primitives as changes of the document *)

Lemma py_range_nat (lo n : nat) :
  py_range (Z.of_nat lo) (Z.of_nat (lo + n)) = Z.of_nat <$> seq lo n.
Proof.
  unfold py_range.
  replace (Z.to_nat (Z.of_nat (lo + n) - Z.of_nat lo)) with n by lia.
  replace (seq lo n) with (Nat.add lo <$> seq 0 n)
    by (rewrite fmap_add_seq; f_equal; lia).
  rewrite <- list_fmap_compose.
  apply list_fmap_ext. intros _ k _. cbn. lia.
Qed.

Lemma py_range_0_nat (n : nat) : py_range 0 (Z.of_nat n) = Z.of_nat <$> seq 0 n.
Proof. apply (py_range_nat 0 n). Qed.

Lemma py_range_empty lo hi : hi <= lo -> py_range lo hi = [].
Proof. intros H. unfold py_range. by replace (Z.to_nat (hi - lo)) with 0%nat by lia. Qed.

Lemma contents_Ok (m : result Viewer) (d : document) :
  contents <$> m = Ok d -> exists v', m = Ok v' /\ contents v' = d.
Proof. destruct m as [v'|e]; [|done]. intros [= <-]. by exists v'. Qed.

Lemma py_index_nat {A} (l : list A) (k : nat) :
  (k < length l)%nat -> py_index l (Z.of_nat k) = Some k.
Proof.
  intros Hk. unfold py_index, py_norm, len.
  assert (H0 : (Z.of_nat k <? 0) = false) by (apply Z.ltb_ge; lia).
  assert (H1 : (Z.of_nat k <? Z.of_nat (length l)) = true) by (apply Z.ltb_lt; lia).
  by rewrite !H0, H1, Nat2Z.id.
Qed.

(** A primitive that rewrites the rows of one pane. *)
Lemma pane_update_Ok (m : result Viewer) upd (v : Viewer) (k : nat) ls ls' :
  contents <$> m = doc_with_pane (Z.of_nat k) upd (contents v) ->
  (contents v).1 !! k = Some ls -> upd ls = Ok ls' ->
  exists v', m = Ok v' /\
             contents v' = (<[k := ls']> (contents v).1, (contents v).2).
Proof.
  intros Hm Hk Hupd. apply contents_Ok. rewrite Hm.
  apply (doc_with_pane_intro _ _ _ k ls); [|done|done].
  apply py_index_nat. by eapply lookup_lt_Some.
Qed.

Lemma insertNull_put (k : nat) j v ls :
  (contents v).1 !! k = Some ls ->
  exists v', insertNull (Z.of_nat k) j false v = Ok v' /\
             contents v' = (<[k := py_insert ls j None]> (contents v).1,
                            (contents v).2).
Proof.
  intros Hk. eapply pane_update_Ok; [apply insertNull_contents|done|done].
Qed.

Lemma insertNull_del (k j : nat) v ls :
  (contents v).1 !! k = Some ls -> (j < length ls)%nat ->
  exists v', insertNull (Z.of_nat k) (Z.of_nat j) true v = Ok v' /\
             contents v' = (<[k := delete j ls]> (contents v).1, (contents v).2).
Proof.
  intros Hk Hj. eapply pane_update_Ok; [apply insertNull_contents|done|].
  cbn. by rewrite py_del_nat.
Qed.

Lemma pane_of_rows v (k : nat) ls :
  (contents v).1 !! k = Some ls ->
  exists pane, panes v !! k = Some pane /\ lines pane = ls.
Proof.
  unfold contents. cbn [fst]. rewrite list_lookup_fmap.
  destruct (panes v !! k) as [pane|]; [|done]. intros [= <-]. by exists pane.
Qed.

Lemma getLine_rows (k : nat) j v ls :
  (contents v).1 !! k = Some ls ->
  getLine (Z.of_nat k) j v = if j <? len ls then py_get ls j else Ok None.
Proof.
  intros Hk. destruct (pane_of_rows _ _ _ Hk) as (pane & Hp & <-).
  unfold getLine. by rewrite py_get_nat, Hp.
Qed.

Lemma alignmentChange_keeps b v :
  exists v', alignmentChange b v = Ok v' /\ contents v' = contents v.
Proof. unfold alignmentChange. rewrite record_undo_eq. by eexists. Qed.

Lemma invalidateLineMatching_keeps i n new_n v :
  exists v', invalidateLineMatching i n new_n v = Ok v' /\ contents v' = contents v.
Proof. unfold invalidateLineMatching. rewrite record_undo_eq. by eexists. Qed.

Lemma recordEditMode_keeps v :
  exists v', recordEditMode v = Ok v' /\ contents v' = contents v /\
             current_pane v' = current_pane v /\
             current_line v' = current_line v /\
             selection_line v' = selection_line v.
Proof. unfold recordEditMode. rewrite record_undo_eq. by eexists. Qed.

Lemma updateBlocks_sets blocks_ v :
  exists v', updateBlocks blocks_ v = Ok v' /\
             contents v' = ((contents v).1, blocks_).
Proof. unfold updateBlocks. rewrite record_undo_eq. by eexists. Qed.

Lemma setLineMode_keeps v :
  contents (setLineMode v) = contents v /\
  current_pane (setLineMode v) = current_pane v /\
  current_line (setLineMode v) = current_line v /\
  selection_line (setLineMode v) = selection_line v.
Proof. unfold setLineMode. by destruct (mode v). Qed.

Lemma setCurrentLine_keeps f i sel v :
  panes v <> [] ->
  exists v', setCurrentLine f i sel v = Ok v' /\ contents v' = contents v.
Proof.
  intros Hne. unfold setCurrentLine.
  assert (Hlen : (0 < length (panes v))%nat) by (destruct (panes v); simpl; [done|lia]).
  set (g := Z.max (Z.min f (len (panes v) - 1)) 0).
  assert (Hg : 0 <= g < len (panes v)) by (unfold g, len; lia).
  destruct (lookup_lt_is_Some_2 (panes v) (Z.to_nat g)) as [pane Hp];
    [unfold len in Hg; lia|].
  replace g with (Z.of_nat (Z.to_nat g)) by lia.
  rewrite py_get_nat, Hp. by eexists.
Qed.

(** ** Moving the spacers of a pane *)

Lemma for_each_range_snoc {St} (n : nat) (f : St -> Z -> result St) (st : St) :
  for_each (py_range 0 (Z.of_nat (S n))) f st
  = (st' ← for_each (py_range 0 (Z.of_nat n)) f st; f st' (Z.of_nat n)).
Proof.
  rewrite !py_range_0_nat, seq_S, fmap_app, for_each_app. cbn [fmap list_fmap].
  destruct (for_each (Z.of_nat <$> seq 0 n) f st) as [st'|e]; [|done].
  cbn [mbind result_bind for_each Nat.add]. by destruct (f st' (Z.of_nat n)).
Qed.

(** The descending loop over the rows of a section deletes the spacers of
    the section and nothing else. *)
Lemma drop_spacers_shape (k : nat) (mid : rows Line) :
  forall (pre post : rows Line) v,
    (contents v).1 !! k = Some (pre ++ mid ++ post) ->
    exists v',
      drop_spacers (Z.of_nat k) (len pre) (len pre + len mid) v = Ok v' /\
      contents v'
      = (<[k := pre ++ (Some <$> real_lines mid) ++ post]> (contents v).1,
         (contents v).2).
Proof.
  induction mid as [|e mid IH] using rev_ind; intros pre post v Hk.
  - exists v. unfold drop_spacers. rewrite py_range_empty by (unfold len; simpl; lia).
    split; [done|]. cbn [fmap list_fmap real_lines omap app] in *.
    rewrite list_insert_id by done. by destruct (contents v).
  - unfold drop_spacers, len.
    replace (Z.of_nat (length pre) + Z.of_nat (length (mid ++ [e])))
      with (Z.of_nat (length pre + S (length mid)))
      by (rewrite length_app; simpl; lia).
    rewrite py_range_nat, seq_S, fmap_app, reverse_app.
    cbn [fmap list_fmap]. rewrite reverse_singleton. cbn [app for_each].
    assert (He : (pre ++ (mid ++ [e]) ++ post) !! (length pre + length mid)%nat
                 = Some e).
    { rewrite lookup_app_r by lia. rewrite <- app_assoc.
      rewrite lookup_app_r by lia.
      by replace (length pre + length mid - length pre - length mid)%nat
        with 0%nat by lia. }
    pose proof (lookup_lt_Some _ _ _ He) as Hlt.
    rewrite (getLine_rows _ _ _ _ Hk).
    assert (Hin : (Z.of_nat (length pre + length mid)
                   <? len (pre ++ (mid ++ [e]) ++ post)) = true)
      by (apply Z.ltb_lt; unfold len; lia).
    rewrite Hin, py_get_nat, He. cbn [mbind result_bind].
    assert (Hfold : forall w,
              for_each (reverse (Z.of_nat <$> seq (length pre) (length mid)))
                (fun v j => line ← getLine (Z.of_nat k) j v;
                            match line with
                            | Some _ => Ok v
                            | None => insertNull (Z.of_nat k) j true v
                            end) w
              = drop_spacers (Z.of_nat k) (len pre) (len pre + len mid) w).
    { intros w. unfold drop_spacers, len.
      by rewrite <- Nat2Z.inj_add, py_range_nat. }
    destruct e as [x|].
    + cbn [mbind result_bind]. rewrite Hfold.
      destruct (IH pre (Some x :: post) v) as (v' & Hrun & Hc).
      { by rewrite <- app_assoc in Hk. }
      exists v'. split; [done|]. rewrite Hc.
      rewrite real_lines_app, fmap_app. cbn [real_lines omap fmap list_fmap].
      by rewrite <- !app_assoc.
    + destruct (insertNull_del k (length pre + length mid) v _ Hk Hlt)
        as (v1 & -> & Hc1).
      cbn [mbind result_bind]. rewrite Hfold.
      assert (Hdel : delete (length pre + length mid)%nat
                            (pre ++ (mid ++ [None]) ++ post)
                     = pre ++ mid ++ post).
      { rewrite <- !app_assoc. cbn [app].
        rewrite (app_assoc pre mid).
        replace (length pre + length mid)%nat with (length (pre ++ mid))
          by (rewrite length_app; lia).
        by rewrite delete_middle, <- app_assoc. }
      rewrite Hdel in Hc1.
      destruct (IH pre post v1) as (v' & Hrun & Hc).
      { rewrite Hc1. cbn [fst]. apply list_lookup_insert_eq.
        by eapply lookup_lt_Some. }
      exists v'. split; [done|]. rewrite Hc, Hc1. cbn [fst snd].
      rewrite list_insert_insert_eq.
      rewrite real_lines_app. cbn [real_lines omap]. by rewrite app_nil_r.
Qed.

(** The ascending loop over the rows of [temp] inserts one spacer for
    every spacer of [temp]. *)
Lemma put_spacers_shape (k : nat) i (temp : rows Line) (n : nat) :
  (n <= length temp)%nat ->
  forall v ls,
    (contents v).1 !! k = Some ls ->
    exists v' ls',
      put_spacers (Z.of_nat k) i (Z.of_nat n) temp v = Ok v' /\
      contents v' = (<[k := ls']> (contents v).1, (contents v).2) /\
      len ls' + len (real_lines (take n temp)) = len ls + Z.of_nat n /\
      real_lines ls' = real_lines ls.
Proof.
  induction n as [|n IH]; intros Hn v ls Hk.
  - exists v, ls. unfold put_spacers. rewrite py_range_empty by lia.
    split; [done|]. rewrite list_insert_id by done.
    split; [by destruct (contents v)|]. split; [|done]. simpl. unfold len. simpl. lia.
  - destruct (IH ltac:(lia) v ls Hk) as (v1 & ls1 & Hrun & Hc1 & Hlen1 & Hreal1).
    unfold put_spacers in *. rewrite for_each_range_snoc, Hrun.
    cbn [mbind result_bind].
    destruct (lookup_lt_is_Some_2 temp n ltac:(lia)) as [e He].
    rewrite py_get_nat, He. cbn [mbind result_bind].
    rewrite (take_S_r _ _ _ He), real_lines_app.
    assert (Hk1 : (contents v1).1 !! k = Some ls1).
    { rewrite Hc1. cbn [fst]. apply list_lookup_insert_eq.
      by eapply lookup_lt_Some. }
    destruct e as [x|].
    + exists v1, ls1. split; [done|]. split; [done|]. split; [|done].
      cbn [real_lines omap]. unfold len in *. rewrite length_app. simpl. lia.
    + destruct (insertNull_put k (i + Z.of_nat n) v1 ls1 Hk1) as (v2 & -> & Hc2).
      exists v2, (py_insert ls1 (i + Z.of_nat n) None). split; [done|].
      split.
      { rewrite Hc2, Hc1. cbn [fst snd]. by rewrite list_insert_insert_eq. }
      split; [|by rewrite real_lines_insert].
      rewrite len_py_insert. cbn [real_lines omap]. rewrite app_nil_r. lia.
Qed.

(** ** [updateAlignment] *)

(** The body of the loop over the panes: the section of pane [k] gets the
    length of [temp]. *)
Lemma realign_pane_rows (k i n : nat) (temp ls : rows Line) v :
  (contents v).1 !! k = Some ls ->
  fits_section i n (length temp) ls temp ->
  exists v' ls',
    (v1 ← drop_spacers (Z.of_nat k) (Z.of_nat i) (Z.of_nat i + Z.of_nat n) v;
     put_spacers (Z.of_nat k) (Z.of_nat i) (len temp) temp v1) = Ok v' /\
    contents v' = (<[k := ls']> (contents v).1, (contents v).2) /\
    len ls' = len ls - Z.of_nat n + len temp /\
    real_lines ls' = real_lines ls.
Proof.
  intros Hk (Hin & _ & Hreal).
  set (pre := take i ls). set (mid := take n (drop i ls)).
  set (post := drop n (drop i ls)).
  assert (Hls : ls = pre ++ mid ++ post)
    by (unfold pre, mid, post; by rewrite !take_drop).
  assert (Hpre : length pre = i) by (unfold pre; rewrite length_take; lia).
  assert (Hmid : length mid = n)
    by (unfold mid; rewrite length_take, length_drop; lia).
  destruct (drop_spacers_shape k mid pre post v) as (v1 & Hrun1 & Hc1);
    [by rewrite <- Hls|].
  unfold len in Hrun1. rewrite Hpre, Hmid in Hrun1. rewrite Hrun1.
  cbn [mbind result_bind].
  destruct (put_spacers_shape k (Z.of_nat i) temp (length temp) ltac:(lia) v1
              (pre ++ (Some <$> real_lines mid) ++ post))
    as (v2 & ls2 & Hrun2 & Hc2 & Hlen2 & Hreal2).
  { rewrite Hc1. cbn [fst]. apply list_lookup_insert_eq. by eapply lookup_lt_Some. }
  exists v2, ls2. split; [exact Hrun2|]. split; [|split].
  - rewrite Hc2, Hc1. cbn [fst snd]. by rewrite list_insert_insert_eq.
  - rewrite firstn_all in Hlen2. rewrite Hls. unfold len in *.
    rewrite !length_app, length_fmap in *. fold mid in Hreal. lia.
  - rewrite Hreal2, Hls, !real_lines_app. by rewrite real_lines_Some.
Qed.

Lemma updateAlignment_loop (i n new_n : nat) (rest : list (rows Line)) :
  forall (done tdone trest : list (rows Line)) v,
    (contents v).1 = done ++ rest ->
    length tdone = length done ->
    Forall2 (fits_section i n new_n) rest trest ->
    exists v' rest',
      for_each (Z.of_nat <$> seq (length done) (length rest))
        (fun v f =>
           v ← drop_spacers f (Z.of_nat i) (Z.of_nat i + Z.of_nat n) v;
           temp ← py_get (tdone ++ trest) f;
           put_spacers f (Z.of_nat i) (Z.of_nat new_n) temp v) v = Ok v' /\
      contents v' = (done ++ rest', (contents v).2) /\
      Forall2 (fun ls ls' => len ls' = len ls - Z.of_nat n + Z.of_nat new_n /\
                             real_lines ls' = real_lines ls)
              rest rest'.
Proof.
  induction rest as [|ls rest IH]; intros done tdone trest v Hc Hlen Hfit.
  - exists v, []. split; [done|]. rewrite <- Hc. split; [by destruct (contents v)|done].
  - inversion Hfit as [|? temp ? trest' Hfit1 Hfit' ]; subst.
    cbn [length seq fmap list_fmap for_each].
    assert (Hk : (contents v).1 !! length done = Some ls)
      by (rewrite Hc; apply list_lookup_middle; done).
    pose proof Hfit1 as (_ & Htemp & _). subst new_n.
    destruct (realign_pane_rows (length done) i n temp ls v Hk Hfit1)
      as (v1 & ls1 & Hrun & Hc1 & Hlen1 & Hreal1).
    assert (Hget : py_get (tdone ++ temp :: trest') (Z.of_nat (length done)) = Ok temp).
    { rewrite py_get_nat, <- Hlen. by rewrite list_lookup_middle. }
    apply bind_Ok in Hrun as (w & Hdrop & Hput).
    rewrite Hdrop. cbn [mbind result_bind]. rewrite Hget.
    cbn [mbind result_bind]. unfold len in Hput. rewrite Hput.
    cbn [mbind result_bind].
    destruct (IH (done ++ [ls1]) (tdone ++ [temp]) trest' v1)
      as (v' & rest' & Hloop & Hc' & Hall).
    + rewrite Hc1, Hc. cbn [fst].
      replace (length done) with (length done + 0)%nat at 1 by lia.
      rewrite insert_app_r. cbn. by rewrite <- app_assoc.
    + rewrite !length_app. simpl. lia.
    + done.
    + rewrite length_app in Hloop. cbn [length] in Hloop.
      replace (length done + 1)%nat with (S (length done)) in Hloop by lia.
      rewrite <- app_assoc in Hloop. cbn [app] in Hloop.
      exists v', (ls1 :: rest'). split; [exact Hloop|]. split.
      * rewrite Hc', Hc1. cbn [snd]. by rewrite <- app_assoc.
      * constructor; [|done]. split; [|done]. unfold len in *. lia.
Qed.

(** [updateAlignment(i, n, lines)] when every pane has the section and
    [lines] fits it: the call returns, the partition is as before, and
    every pane has [new_n] rows where it had [n] and holds the lines it
    held. *)
Lemma updateAlignment_lines (i n new_n : nat) (lines_ : list (rows Line)) v :
  (contents v).1 <> [] ->
  Forall2 (fits_section i n new_n) (contents v).1 lines_ ->
  exists v',
    updateAlignment (Z.of_nat i) (Z.of_nat n) lines_ v = Ok v' /\
    (contents v').2 = (contents v).2 /\
    Forall2 (fun ls ls' => len ls' = len ls - Z.of_nat n + Z.of_nat new_n /\
                           real_lines ls' = real_lines ls)
            (contents v).1 (contents v').1.
Proof.
  intros Hne Hfit. unfold updateAlignment.
  destruct (alignmentChange_keeps false v) as (v1 & -> & Hc1).
  cbn [mbind result_bind].
  destruct lines_ as [|first lines_'] eqn:Hl.
  { by apply Forall2_nil_inv_r in Hfit. }
  rewrite <- Hl in *.
  assert (Hfirst : py_get lines_ 0 = Ok first) by (by subst).
  rewrite Hfirst. cbn [mbind result_bind].
  assert (Hnew : len first = Z.of_nat new_n).
  { rewrite Hl in Hfit. inversion Hfit as [|? ? ? ? (_ & Hlen & _)]; subst.
    unfold len. lia. }
  rewrite Hnew.
  assert (Hpanes : len (panes v1) = Z.of_nat (0 + length (contents v1).1)).
  { unfold contents, len. cbn [fst]. by rewrite length_fmap. }
  rewrite Hpanes, (py_range_nat 0).
  destruct (updateAlignment_loop i n new_n (contents v1).1 [] [] lines_ v1)
    as (v2 & rest' & Hloop & Hc2 & Hall); [done|done|by rewrite Hc1|].
  cbn [app length] in Hloop, Hc2. rewrite Hloop. cbn [mbind result_bind].
  destruct (invalidateLineMatching_keeps (Z.of_nat i) (Z.of_nat n)
              (Z.of_nat new_n) v2) as (v3 & -> & Hc3).
  cbn [mbind result_bind].
  destruct (alignmentChange_keeps true v3) as (v4 & -> & Hc4).
  exists v4. split; [done|]. rewrite Hc4, Hc3, Hc2, <- Hc1. by split.
Qed.

Lemma updateAlignment_shape (i n new_n : nat) (lines_ : list (rows Line)) v :
  (contents v).1 <> [] ->
  Forall2 (fits_section i n new_n) (contents v).1 lines_ ->
  exists v',
    updateAlignment (Z.of_nat i) (Z.of_nat n) lines_ v = Ok v' /\
    (contents v').2 = (contents v).2 /\
    Forall2 (fun ls ls' => len ls' = len ls - Z.of_nat n + Z.of_nat new_n)
            (contents v).1 (contents v').1.
Proof.
  intros Hne Hfit.
  destruct (updateAlignment_lines i n new_n lines_ v Hne Hfit)
    as (v' & Hrun & Hb & Hall).
  exists v'. split; [exact Hrun|]. split; [exact Hb|].
  eapply Forall2_impl; [exact Hall|]. by intros ls ls' [Hl _].
Qed.

(** ** Loops over the panes *)

Lemma partition_ok_contents v :
  partition_ok v <->
  Forall (fun ls => len ls = sumZ (contents v).2) (contents v).1 /\
  positive_blocks (contents v).2.
Proof. unfold partition_ok, contents. cbn [fst snd]. by rewrite Forall_fmap. Qed.

Lemma for_each_total {A St} (l : list A) (f : St -> A -> result St) :
  (forall st x, x ∈ l -> exists st', f st x = Ok st') ->
  forall st, exists st', for_each l f st = Ok st'.
Proof.
  induction l as [|x l IH]; intros Hf st; [by eexists|].
  cbn [for_each]. destruct (Hf st x) as [st1 ->]; [by left|].
  cbn [mbind result_bind]. apply IH. intros st' y Hy. apply Hf. by right.
Qed.

(** A loop [for f in range(npanes)] whose body rewrites the rows of pane
    [f] only. *)
Lemma for_each_pane (body : Viewer -> Z -> result Viewer)
    (Q : rows Line -> Prop) (P : rows Line -> rows Line -> Prop) :
  (forall v (k : nat) ls,
     (contents v).1 !! k = Some ls -> Q ls ->
     exists v' ls', body v (Z.of_nat k) = Ok v' /\
                    contents v' = (<[k := ls']> (contents v).1, (contents v).2) /\
                    P ls ls') ->
  forall v, Forall Q (contents v).1 ->
    exists v',
      for_each (py_range 0 (Z.of_nat (length (contents v).1))) body v = Ok v' /\
      (contents v').2 = (contents v).2 /\
      Forall2 P (contents v).1 (contents v').1.
Proof.
  intros Hbody v HQ. rewrite py_range_0_nat.
  assert (Hgen : forall rest done w,
            (contents w).1 = done ++ rest -> Forall Q rest ->
            exists w' rest',
              for_each (Z.of_nat <$> seq (length done) (length rest)) body w = Ok w' /\
              contents w' = (done ++ rest', (contents w).2) /\
              Forall2 P rest rest').
  { induction rest as [|ls rest IH]; intros done w Hc Hq.
    - exists w, []. split; [done|]. rewrite <- Hc. by destruct (contents w).
    - apply Forall_cons in Hq as [Hq1 Hq].
      cbn [length seq fmap list_fmap for_each].
      destruct (Hbody w (length done) ls) as (w1 & ls1 & -> & Hc1 & HP);
        [rewrite Hc; by apply list_lookup_middle|done|].
      cbn [mbind result_bind].
      destruct (IH (done ++ [ls1]) w1) as (w' & rest' & Hloop & Hc' & Hall).
      + rewrite Hc1, Hc. cbn [fst].
        replace (length done) with (length done + 0)%nat at 1 by lia.
        rewrite insert_app_r. cbn. by rewrite <- app_assoc.
      + done.
      + rewrite length_app in Hloop. cbn [length] in Hloop.
        replace (length done + 1)%nat with (S (length done)) in Hloop by lia.
        exists w', (ls1 :: rest'). split; [exact Hloop|]. split.
        * rewrite Hc', Hc1. cbn [snd]. by rewrite <- app_assoc.
        * by constructor. }
  destruct (Hgen (contents v).1 [] v eq_refl HQ) as (v' & rest' & Hrun & Hc & Hall).
  exists v'. split; [exact Hrun|]. rewrite Hc. by split.
Qed.

Lemma rising_le lo l hi : rising lo l hi -> lo <= hi.
Proof.
  revert lo. induction l as [|j l IH]; intros lo; cbn [rising]; [done|].
  intros [Hj Hr]. specialize (IH _ Hr). lia.
Qed.

Lemma rising_mono lo l hi hi' : rising lo l hi -> hi <= hi' -> rising lo l hi'.
Proof.
  revert lo. induction l as [|j l IH]; intros lo; cbn [rising]; [lia|].
  intros [Hj Hr] Hhi. split; [done|]. by apply IH.
Qed.

Lemma rising_mono_lo lo lo' l hi : rising lo l hi -> lo' <= lo -> rising lo' l hi.
Proof. destruct l as [|j l]; cbn [rising]; [lia|]. intros [Hj Hr] Hlo. split; [lia|done]. Qed.

Lemma rising_snoc lo l j : rising lo l j -> rising lo (l ++ [j]) (j + 1).
Proof.
  revert lo. induction l as [|x l IH]; intros lo; cbn [rising app].
  - intros Hlo. split; [done|]. cbn. lia.
  - intros [Hx Hr]. split; [done|]. by apply IH.
Qed.

Lemma rising_snoc_inv lo l j hi :
  rising lo (l ++ [j]) hi -> rising lo l j /\ j < hi.
Proof.
  revert lo. induction l as [|x l IH]; intros lo; cbn [rising app].
  - intros [Hlo Hhi]. lia.
  - intros [Hx Hr]. destruct (IH _ Hr) as [Hr' Hj]. by repeat split.
Qed.

(** ** [removeSpacerLines] *)

Lemma elem_of_py_range_0 (n : nat) x :
  x ∈ py_range 0 (Z.of_nat n) -> exists k : nat, x = Z.of_nat k /\ (k < n)%nat.
Proof.
  rewrite py_range_0_nat. intros (k & -> & Hk)%list_elem_of_fmap.
  apply elem_of_seq in Hk. exists k. split; [done|lia].
Qed.

Lemma len_panes v : len (panes v) = Z.of_nat (length (contents v).1).
Proof. unfold len, contents. cbn [fst]. by rewrite length_fmap. Qed.

Lemma getLine_entry (k j : nat) v ls :
  (contents v).1 !! k = Some ls ->
  getLine (Z.of_nat k) (Z.of_nat j) v = Ok (default None (ls !! j)).
Proof.
  intros Hk. rewrite (getLine_rows _ _ _ _ Hk). unfold len.
  destruct (Z.ltb_spec (Z.of_nat j) (Z.of_nat (length ls))) as [Hlt|Hge].
  - destruct (lookup_lt_is_Some_2 ls j ltac:(lia)) as [e He].
    by rewrite py_get_nat, He.
  - by rewrite lookup_ge_None_2 by lia.
Qed.

(** The test of a row never fails. *)
Lemma row_is_held_Ok (j : nat) skip v :
  exists held, row_is_held (Z.of_nat j) skip v = Ok held.
Proof.
  unfold row_is_held. apply for_each_total. intros held x Hx.
  destruct held; [by eexists|].
  rewrite len_panes in Hx. apply elem_of_py_range_0 in Hx as (k & -> & Hk).
  destruct (lookup_lt_is_Some_2 (contents v).1 k Hk) as [ls Hls].
  rewrite (getLine_entry _ _ _ _ Hls). by eexists.
Qed.

(** "remove line": the lines of row [j] become spacers; no pane changes
    its length. *)
Lemma clear_row_shape (j : nat) v :
  Forall (fun ls : rows Line => (j < length ls)%nat) (contents v).1 ->
  exists v',
    clear_row (Z.of_nat j) v = Ok v' /\
    (contents v').2 = (contents v).2 /\
    Forall2 (fun ls ls' : rows Line => length ls' = length ls)
            (contents v).1 (contents v').1.
Proof.
  intros Hj. unfold clear_row. rewrite len_panes.
  apply (for_each_pane _ (fun ls => (j < length ls)%nat)); [|done].
  clear v Hj. intros v k ls Hk Hj.
  rewrite (getLine_entry _ _ _ _ Hk).
  destruct (lookup_lt_is_Some_2 ls j Hj) as [e He]. rewrite He.
  cbn [default mbind result_bind]. destruct e as [line|].
  - set (ls1 := <[j := Some (mkLine (line_number line) (text line) false None)]> ls).
    destruct (pane_update_Ok (updateLineText (Z.of_nat k) (Z.of_nat j) false None v)
                _ v k ls ls1 (updateLineText_contents _ _ _ _ _) Hk)
      as (v1 & -> & Hc1).
    { rewrite py_get_nat, He. cbn [mbind result_bind]. by rewrite py_set_nat. }
    cbn [mbind result_bind].
    destruct (pane_update_Ok (instanceLine (Z.of_nat k) (Z.of_nat j) true v1)
                _ v1 k ls1 (<[j := None]> ls1) (instanceLine_contents _ _ _ _))
      as (v2 & -> & Hc2).
    { rewrite Hc1. cbn [fst]. apply list_lookup_insert_eq. by eapply lookup_lt_Some. }
    { cbn. rewrite py_set_nat; [done|]. unfold ls1. by rewrite length_insert. }
    eexists _, _. split; [done|]. split.
    + rewrite Hc2, Hc1. cbn [fst snd]. by rewrite list_insert_insert_eq.
    + unfold ls1. by rewrite !length_insert.
  - exists v, ls. split; [done|]. split; [|done].
    rewrite list_insert_id by done. by destruct (contents v).
Qed.

Lemma same_lengths {A} (l l' : list (list A)) :
  Forall2 (fun ls ls' => length ls' = length ls) l l' ->
  length <$> l' = length <$> l.
Proof.
  induction 1 as [|ls ls' l l' Hl _ IH]; [done|]. csimpl. by rewrite Hl, IH.
Qed.

Lemma Forall_lengths {A} (P : nat -> Prop) (l l' : list (list A)) :
  length <$> l' = length <$> l ->
  Forall (fun ls => P (length ls)) l -> Forall (fun ls => P (length ls)) l'.
Proof.
  intros Heq Hl.
  apply (Forall_fmap length P l'). rewrite Heq. by apply Forall_fmap.
Qed.

(** The first loop of [removeSpacerLines]: the rows it picks are listed
    in increasing order and lie in the range; panes keep their lengths. *)
Lemma pick_spacer_rows skip (i n : nat) v :
  Forall (fun ls : rows Line => (i + n <= length ls)%nat) (contents v).1 ->
  exists v' removed,
    for_each (py_range (Z.of_nat i) (Z.of_nat (i + n)))
      (fun '(v, removed) j =>
         held ← row_is_held j skip v;
         if held : bool then Ok (v, removed)
         else v ← clear_row j v; Ok (v, removed ++ [j])) (v, [])
      = Ok (v', removed) /\
    (contents v').2 = (contents v).2 /\
    length <$> (contents v').1 = length <$> (contents v).1 /\
    rising (Z.of_nat i) removed (Z.of_nat (i + n)).
Proof.
  induction n as [|n IH]; intros Hlen.
  - exists v, []. rewrite py_range_empty by lia. repeat split; try done. cbn. lia.
  - destruct IH as (v1 & removed & Hrun & Hb & Hl & Hr).
    { eapply Forall_impl; [exact Hlen|]. intros ls Hls. cbv beta in *. lia. }
    rewrite py_range_nat, seq_S, fmap_app, for_each_app.
    rewrite py_range_nat in Hrun. rewrite Hrun.
    cbn [mbind result_bind fmap list_fmap for_each].
    destruct (row_is_held_Ok (i + n) skip v1) as [held ->].
    cbn [mbind result_bind]. destruct held.
    + exists v1, removed. repeat split; try done.
      eapply rising_mono; [exact Hr|lia].
    + destruct (clear_row_shape (i + n) v1) as (v2 & -> & Hb2 & Hl2).
      { apply (Forall_lengths (fun m => (i + n < m)%nat) (contents v).1); [done|].
        eapply Forall_impl; [exact Hlen|]. intros ls Hls. cbv beta in *. lia. }
      apply same_lengths in Hl2.
      exists v2, (removed ++ [Z.of_nat (i + n)]). cbn [mbind result_bind].
      repeat split; try congruence.
      replace (Z.of_nat (i + S n)) with (Z.of_nat (i + n) + 1) by lia.
      by apply rising_snoc.
Qed.

(** [while bii + blocks[bi] < j]: the search stops at a block of the
    partition when row [j] lies before its end. *)
Lemma skip_blocks_shape j rest : forall fuel pre bii,
  rest <> [] -> j <= bii + sumZ rest -> (length rest <= S fuel)%nat ->
  positive_blocks rest ->
  exists pre' b rest' bii',
    pre ++ rest = pre' ++ b :: rest' /\
    skip_blocks fuel (pre ++ rest) (len pre) bii j = Ok (len pre', bii') /\
    bii' + sumZ (b :: rest') = bii + sumZ rest /\
    (bii <= j -> bii' <= j).
Proof.
  induction rest as [|b rest IH]; intros fuel pre bii Hne Hj Hfuel Hpos; [done|].
  apply Forall_cons in Hpos as [Hb Hpos].
  destruct fuel as [|fuel]; cbn [skip_blocks]; rewrite py_get_app_middle;
    cbn [mbind result_bind].
  - destruct rest; [|simpl in Hfuel; lia].
    simpl in Hj. destruct (Z.ltb_spec (bii + b) j); [lia|].
    by exists pre, b, [], bii.
  - destruct (Z.ltb_spec (bii + b) j) as [Hlt|Hge].
    + destruct rest as [|b' rest]; [simpl in Hj; lia|].
      destruct (IH fuel (pre ++ [b]) (bii + b))
        as (pre' & c & rest' & bii' & Heq & Hskip & Hsum & Hle).
      * done.
      * simpl in *. lia.
      * simpl in *. lia.
      * done.
      * rewrite <- app_assoc in Heq, Hskip. cbn [app] in Heq, Hskip.
        exists pre', c, rest', bii'. split; [done|].
        replace (len (pre ++ [b])) with (len pre + 1) in Hskip
          by (unfold len; rewrite length_app; simpl; lia).
        split; [done|]. split; [simpl in *; lia|]. lia.
    + by exists pre, b, rest, bii.
Qed.

(** The "update blocks" loop of [removeSpacerLines]: each removed row
    takes one row off a block, and a block that had one row goes. *)
Lemma shrink_blocks_shape removed : forall pre rest bii N,
  positive_blocks (pre ++ rest) -> bii + sumZ rest = N ->
  rising bii removed N ->
  exists bi' bii' blocks',
    for_each removed shrink_block (len pre, bii, pre ++ rest)
      = Ok (bi', bii', blocks') /\
    positive_blocks blocks' /\
    sumZ blocks' = sumZ (pre ++ rest) - len removed.
Proof.
  induction removed as [|j removed IH]; intros pre rest bii N Hpos Hsum Hr.
  - eexists _, _, _. split; [done|]. split; [done|]. unfold len. simpl. lia.
  - destruct Hr as [Hj Hr]. pose proof (rising_le _ _ _ Hr) as HjN.
    cbn [for_each].
    pose proof Hpos as Hpos'. apply Forall_app in Hpos' as [_ Hrest].
    assert (Hne : rest <> []) by (intros ->; simpl in Hsum; lia).
    destruct (skip_blocks_shape j rest (length (pre ++ rest)) pre bii)
      as (pre' & b & rest' & bii' & Heq & Hskip & Hsum' & Hle);
      [done|lia|rewrite length_app; lia|done|].
    assert (Hstep : shrink_block (len pre, bii, pre ++ rest) j
                    = Ok (len pre', bii' + 1,
                          pre' ++ (if b =? 1 then [] else [b - 1]) ++ rest')).
    { unfold shrink_block. rewrite Hskip. cbn [mbind result_bind].
      rewrite Heq, py_get_app_middle. cbn [mbind result_bind].
      destruct (b =? 1).
      - by rewrite py_del_app_middle.
      - by rewrite py_set_app_middle. }
    rewrite Hstep. cbn [mbind result_bind].
    rewrite Heq in Hpos. pose proof Hpos as Hpos2.
    apply Forall_app in Hpos2 as [Hp1 Hp2]. apply Forall_cons in Hp2 as [Hb Hp2].
    destruct (IH pre' ((if b =? 1 then [] else [b - 1]) ++ rest') (bii' + 1) N)
      as (bi2 & bii2 & blocks2 & Hrun & Hp & Hs).
    + apply Forall_app. split; [done|]. apply Forall_app. split; [|done].
      destruct (Z.eqb_spec b 1); [constructor|]. repeat constructor. lia.
    + rewrite sumZ_app. destruct (Z.eqb_spec b 1); simpl in *; lia.
    + eapply rising_mono_lo; [exact Hr|]. specialize (Hle Hj). lia.
    + exists bi2, bii2, blocks2. split; [exact Hrun|]. split; [done|].
      rewrite Hs, Heq, !sumZ_app. unfold len.
      destruct (Z.eqb_spec b 1); simpl; lia.
Qed.

(** [for f in range(npanes): self.insertNull(f, j, True)] *)
Lemma delete_row_shape (j : nat) v :
  Forall (fun ls : rows Line => (j < length ls)%nat) (contents v).1 ->
  exists v',
    for_each (py_range 0 (Z.of_nat (length (contents v).1)))
      (fun v f => insertNull f (Z.of_nat j) true v) v = Ok v' /\
    (contents v').2 = (contents v).2 /\
    Forall2 (fun ls ls' : rows Line => S (length ls') = length ls)
            (contents v).1 (contents v').1.
Proof.
  apply (for_each_pane _ (fun ls => (j < length ls)%nat)).
  clear v. intros v k ls Hk Hj.
  destruct (insertNull_del k j v ls Hk Hj) as (v' & Hrun & Hc).
  exists v', (delete j ls). split; [done|]. split; [done|].
  rewrite length_delete by (by apply lookup_lt_is_Some_2). lia.
Qed.

(** The last loop of [removeSpacerLines] deletes the picked rows, last
    one first, from every pane. *)
Lemma delete_rows_shape removed : forall v (M : nat) lo npanes,
  0 <= lo -> rising lo removed (Z.of_nat M) ->
  npanes = length (contents v).1 ->
  Forall (fun ls : rows Line => length ls = M) (contents v).1 ->
  exists v',
    for_each (reverse removed)
      (fun v j => for_each (py_range 0 (Z.of_nat npanes))
                    (fun v f => insertNull f j true v) v) v = Ok v' /\
    (contents v').2 = (contents v).2 /\
    length (contents v').1 = npanes /\
    Forall (fun ls : rows Line => length ls = (M - length removed)%nat)
           (contents v').1.
Proof.
  induction removed as [|j removed IH] using rev_ind;
    intros v M lo npanes Hlo Hr Hnp Hlen.
  - exists v. cbn. split; [done|]. split; [done|]. split; [done|].
    eapply Forall_impl; [exact Hlen|]. intros ls Hls. cbv beta in *. lia.
  - apply rising_snoc_inv in Hr as [Hr Hj].
    pose proof (rising_le _ _ _ Hr) as Hloj.
    rewrite reverse_snoc. cbn [for_each].
    replace j with (Z.of_nat (Z.to_nat j)) in * by lia.
    set (jn := Z.to_nat j) in *.
    subst npanes.
    destruct (delete_row_shape jn v) as (v1 & -> & Hb1 & Hl1).
    { eapply Forall_impl; [exact Hlen|]. intros ls Hls. cbv beta in *. lia. }
    cbn [mbind result_bind].
    assert (Hlen1 : Forall (fun ls : rows Line => length ls = (M - 1)%nat)
                           (contents v1).1).
    { clear -Hlen Hl1. induction Hl1 as [|ls ls' l l' Hs _ IH']; [done|].
      apply Forall_cons in Hlen as [Hh Hlen]. constructor; [lia|by apply IH']. }
    apply Forall2_length in Hl1.
    destruct (IH v1 (M - 1)%nat lo (length (contents v).1))
      as (v' & Hrun & Hb & Hn & Hall); [done| |done|done|].
    { eapply rising_mono; [exact Hr|]. lia. }
    exists v'. split; [exact Hrun|]. split; [congruence|]. split; [done|].
    eapply Forall_impl; [exact Hall|]. intros ls Hls. cbv beta in *.
    rewrite length_app. simpl. lia.
Qed.

Lemma rising_length lo l hi : rising lo l hi -> lo + len l <= hi.
Proof.
  revert lo. induction l as [|j l IH]; intros lo; cbn [rising].
  - unfold len. simpl. lia.
  - intros [Hj Hr]. specialize (IH _ Hr). unfold len in *. simpl length. lia.
Qed.

(** [removeSpacerLines(i, n, skip)] on rows of the document: the call
    returns, it removed [k <= n] rows from every pane, and it took as many
    rows off the partition, which still has no zero entry. *)
Lemma removeSpacerLines_shape skip (i n N : nat) v :
  Forall (fun ls : rows Line => length ls = N) (contents v).1 ->
  positive_blocks (contents v).2 -> sumZ (contents v).2 = Z.of_nat N ->
  (i + n <= N)%nat ->
  exists v' (k : nat),
    removeSpacerLines (Z.of_nat i) (Z.of_nat n) skip v = Ok (v', Z.of_nat k) /\
    (k <= n)%nat /\
    length (contents v').1 = length (contents v).1 /\
    Forall (fun ls : rows Line => length ls = (N - k)%nat) (contents v').1 /\
    positive_blocks (contents v').2 /\
    sumZ (contents v').2 = Z.of_nat (N - k).
Proof.
  intros Hlen Hpos Hsum Hin. unfold removeSpacerLines.
  rewrite <- Nat2Z.inj_add.
  destruct (pick_spacer_rows skip i n v) as (v1 & removed & -> & Hb1 & Hl1 & Hr).
  { eapply Forall_impl; [exact Hlen|]. intros ls Hls. cbv beta in *. lia. }
  cbn [mbind result_bind].
  pose proof (rising_length _ _ _ Hr) as Hk. unfold len in Hk.
  assert (Hlen1 : Forall (fun ls : rows Line => length ls = N) (contents v1).1).
  { by apply (Forall_lengths (fun m => m = N) (contents v).1). }
  assert (Hn1 : length (contents v1).1 = length (contents v).1).
  { apply (f_equal length) in Hl1. by rewrite !length_fmap in Hl1. }
  destruct (Z.ltb_spec 0 (len removed)) as [Hsome|Hnone].
  - change (blocks v1) with (contents v1).2.
    destruct (shrink_blocks_shape removed [] (contents v1).2 0 (Z.of_nat N))
      as (bi' & bii' & blocks' & Hshrink & Hpos' & Hsum').
    { by rewrite Hb1. }
    { rewrite Hb1. lia. }
    { eapply rising_mono_lo; [eapply rising_mono; [exact Hr|lia]|lia]. }
    cbn [app] in Hshrink, Hsum'. change (len []) with 0 in Hshrink.
    rewrite Hshrink. cbn [mbind result_bind].
    destruct (updateBlocks_sets blocks' v1) as (v2 & -> & Hc2).
    cbn [mbind result_bind].
    destruct (alignmentChange_keeps false v2) as (v3 & -> & Hc3).
    cbn [mbind result_bind].
    rewrite len_panes.
    destruct (delete_rows_shape removed v3 N (Z.of_nat i) (length (contents v).1))
      as (v4 & -> & Hb4 & Hn4 & Hlen4).
    { lia. }
    { eapply rising_mono; [exact Hr|lia]. }
    { rewrite Hc3, Hc2. cbn [fst]. done. }
    { rewrite Hc3, Hc2. cbn [fst]. done. }
    cbn [mbind result_bind].
    destruct (invalidateLineMatching_keeps (Z.of_nat i) (Z.of_nat n)
                (Z.of_nat n - len removed) v4) as (v5 & -> & Hc5).
    cbn [mbind result_bind].
    destruct (alignmentChange_keeps true v5) as (v6 & -> & Hc6).
    cbn [mbind result_bind].
    exists v6, (length removed). split; [done|]. split; [lia|].
    rewrite Hc6, Hc5. split; [done|]. split; [done|].
    rewrite Hb4, Hc3, Hc2. cbn [snd]. split; [done|].
    rewrite Hsum', Hb1, Hsum. unfold len. lia.
  - cbn [mbind result_bind]. exists v1, 0%nat.
    assert (Hnil : removed = []) by (destruct removed; [done|unfold len in Hnone; simpl in Hnone; lia]).
    subst removed. split; [done|]. split; [lia|]. split; [done|].
    rewrite Nat.sub_0_r, Hb1. by repeat split.
Qed.

(** ** The alignment operations keep the partition *)

Lemma partition_ok_intro v (N : Z) :
  Forall (fun ls : rows Line => len ls = N) (contents v).1 ->
  positive_blocks (contents v).2 -> sumZ (contents v).2 = N ->
  partition_ok v.
Proof.
  intros Hlen Hpos Hsum. apply partition_ok_contents. split; [|done].
  by rewrite Hsum.
Qed.

Lemma panes_nonempty v : panes v <> [] <-> (contents v).1 <> [].
Proof.
  unfold contents. cbn [fst]. split; intros H Hnil; apply H.
  - by apply fmap_nil_inv in Hnil.
  - by rewrite Hnil.
Qed.

(** [insertLines(i, n)] with [n > 0] at a row of the document or right
    after its last row. *)
Lemma insertLines_ok (i : nat) (n : Z) v :
  partition_ok v -> panes v <> [] ->
  Z.of_nat i <= sumZ (blocks v) -> 0 < n ->
  exists v',
    insertLines (Z.of_nat i) n v = Ok v' /\ partition_ok v' /\
    sumZ (blocks v') = sumZ (blocks v) + n.
Proof.
  intros Hok Hne Hi Hn. pose proof Hok as [Hpanes _].
  apply partition_ok_contents in Hok as [Hlen Hpos].
  change (contents v).2 with (blocks v) in *.
  unfold insertLines.
  destruct (updateAlignment_shape i 0 (Z.to_nat n)
              ((fun _ => py_repeat n None) <$> panes v) v)
    as (v1 & Hrun & Hb1 & Hl1).
  { by apply panes_nonempty. }
  { unfold contents. cbn [fst]. apply Forall2_fmap, Forall_Forall2_diag.
    eapply Forall_impl; [exact Hpanes|]. intros pane Hp.
    cbv beta in Hp. unfold len in Hp.
    split; [lia|]. split.
    - unfold py_repeat. by rewrite length_replicate.
    - unfold py_repeat. by rewrite real_lines_nones. }
  change (Z.of_nat 0) with 0 in Hrun. rewrite Hrun. cbn [mbind result_bind].
  change (contents v1).2 with (blocks v1) in Hb1.
  change (contents v).2 with (blocks v) in Hb1. rewrite Hb1.
  destruct (cutBlocks_shape (Z.of_nat i) (blocks v) Hpos)
    as (pre & post & -> & Hp1 & Hp2 & Hsum & _).
  destruct (updateBlocks_sets (pre ++ [n] ++ post) v1) as (v2 & -> & Hc2).
  cbn [mbind result_bind].
  eexists. split; [reflexivity|].
  match goal with
  | |- partition_ok ?w /\ _ =>
      assert (Hc : contents w = contents v2) by reflexivity
  end.
  assert (Hsum2 : sumZ (pre ++ [n] ++ post) = sumZ (blocks v) + n).
  { rewrite !sumZ_app. simpl. lia. }
  split.
  - apply (partition_ok_intro _ (sumZ (blocks v) + n)); rewrite Hc, Hc2; cbn [fst snd].
    + clear -Hl1 Hlen Hn. induction Hl1 as [|ls ls' l l' Hs _ IH']; [done|].
      apply Forall_cons in Hlen as [Hh Hlen]. constructor; [|by apply IH'].
      rewrite Hs, Hh. lia.
    + apply Forall_app. split; [done|]. apply Forall_app. split; [|done].
      by repeat constructor.
    + done.
  - change (sumZ (contents v2).2 = sumZ (blocks v) + n). by rewrite Hc2.
Qed.

Lemma resized_rows (N d : Z) (l l' : list (rows Line)) :
  Forall (fun ls => len ls = N) l ->
  Forall2 (fun ls ls' => len ls' = len ls + d) l l' ->
  Forall (fun ls' => len ls' = N + d) l'.
Proof.
  intros Hl Hll. induction Hll as [|ls ls' l l' Hs _ IH]; [done|].
  apply Forall_cons in Hl as [Hh Hl]. constructor; [lia|by apply IH].
Qed.

Lemma is_ok_Ok {A} (r : result A) : is_ok r -> exists a, r = Ok a.
Proof. destruct r; [by eexists|done]. Qed.

Section RealignAll.
Context {K : Type} `{EqDecision K}.
Variable alignmentHash : Line -> K.
Variable getFormat : list (option string) -> Z.

(** The loop of [realign_all] after its first pane: [lines_] holds the
    rows of the panes done so far, aligned. *)
Lemma realign_panes_shape (ps : list Pane) :
  forall (done : list (rows Line)) prev blocks_ lines_ n,
    side_ok blocks_ lines_ n -> same_real_lines done lines_ ->
    last done = Some prev ->
    neighbours_match alignmentHash (prev :: (lines <$> ps)) ->
    exists blocks' lines' n',
      for_each ps (realign_pane alignmentHash) (blocks_, lines_)
        = Ok (blocks', lines') /\
      side_ok blocks' lines' n' /\
      same_real_lines (done ++ (lines <$> ps)) lines'.
Proof.
  induction ps as [|p ps IH]; intros done prev blocks_ lines_ n Hok Hsame Hlast Hm.
  - exists blocks_, lines_, n. cbn [fmap list_fmap]. rewrite app_nil_r.
    split; [done|]. by split.
  - cbn [fmap list_fmap neighbours_match] in Hm. destruct Hm as [Hm1 Hm].
    cbn [for_each].
    pose proof (Forall2_last _ _ _ Hsame) as Hl. rewrite Hlast in Hl.
    inversion Hl as [prev' m0 Hreal Hp Hm0|]; subst prev'.
    symmetry in Hm0.
    assert (Hne : (0 <? len lines_) = true).
    { apply Z.ltb_lt. apply last_Some in Hm0 as [l' ->].
      unfold len. rewrite length_app. simpl. lia. }
    set (m1 := Some <$> real_lines (lines p)).
    apply is_ok_Ok in Hm1 as [diff Hdiff].
    pose proof (createBlock_shape (len (real_lines (lines p)))
                  ltac:(unfold len; lia)) as [Hcp Hcs].
    destruct (alignBlocks_shape alignmentHash blocks_ lines_
                (createBlock (len (real_lines (lines p)))) [m1]
                n (len (real_lines (lines p))) m0 m1 diff)
      as (lb & ll & rb & rl & n' & Halign & HL & HR & HsL & HsR).
    { done. }
    { split; [done|]. split; [done|]. constructor; [|done].
      unfold m1, len. by rewrite length_fmap. }
    { done. }
    { done. }
    { unfold m1. by rewrite Hreal, real_lines_Some. }
    destruct HL as (HLp & HLs & HLl). destruct HR as (HRp & HRs & HRl).
    destruct (mergeBlocks_shape lb rb HLp HRp ltac:(lia)) as (b & Hmerge & Hbs & Hbp).
    assert (Hstep : realign_pane alignmentHash (blocks_, lines_) p
                    = Ok (b, ll ++ rl)).
    { unfold realign_pane. rewrite Hne. fold m1. rewrite Halign.
      cbn [mbind result_bind]. by rewrite Hmerge. }
    rewrite Hstep. cbn [mbind result_bind].
    destruct (IH (done ++ [lines p]) (lines p) b (ll ++ rl) n')
      as (blocks' & lines' & n'' & Hrun & Hok' & Hsame').
    + split; [done|]. split; [lia|]. apply Forall_app. by split.
    + apply same_real_lines_app.
      * by eapply same_real_lines_trans.
      * inversion HsR as [|? r ? ? Hr Hnil]; subst. inversion Hnil; subst.
        constructor; [|done]. rewrite Hr. unfold m1. apply real_lines_Some.
    + apply last_snoc.
    + done.
    + exists blocks', lines', n''. split; [exact Hrun|]. split; [done|].
      by rewrite <- app_assoc in Hsame'.
Qed.
Lemma py_get_pane v (f : Z) :
  0 <= f < len (panes v) ->
  exists pane ls, py_get (panes v) f = Ok pane /\ lines pane = ls /\
                  (contents v).1 !! Z.to_nat f = Some ls.
Proof.
  intros Hf. unfold len in Hf.
  destruct (lookup_lt_is_Some_2 (panes v) (Z.to_nat f) ltac:(lia)) as [pane Hp].
  exists pane, (lines pane).
  replace f with (Z.of_nat (Z.to_nat f)) at 1 by lia.
  rewrite py_get_nat, Hp. split; [done|]. split; [done|].
  unfold contents. cbn [fst]. by rewrite list_lookup_fmap, Hp.
Qed.

(** Rows that hold the lines of the panes, all of them [n'] long, can
    take the place of the panes. *)
Lemma fits_whole_panes (N n' : nat) (l l' : list (rows Line)) :
  Forall (fun ls => length ls = N) l ->
  Forall (fun ls' => length ls' = n') l' ->
  same_real_lines l l' ->
  Forall2 (fits_section 0 N n') l l'.
Proof.
  intros Hl Hl' Hsame. induction Hsame as [|ls ls' l l' Hr _ IH]; [done|].
  apply Forall_cons in Hl as [Hh Hl]. apply Forall_cons in Hl' as [Hh' Hl'].
  constructor; [|by apply IH].
  split; [lia|]. split; [done|].
  rewrite drop_0, <- Hh, firstn_all. by rewrite Hr.
Qed.

(** [realign_all()] *)
Lemma realign_all_ok v :
  partition_ok v -> 0 <= current_pane v < len (panes v) ->
  neighbours_match alignmentHash (lines <$> panes v) ->
  exists v', realign_all alignmentHash v = Ok v' /\ partition_ok v' /\
             same_real_lines (contents v).1 (contents v').1.
Proof.
  intros Hok Hf Hm. apply partition_ok_contents in Hok as [Hlen Hpos].
  unfold realign_all.
  destruct (setLineMode_keeps v) as (Hc0 & Hf0 & _).
  set (v0 := setLineMode v) in *.
  destruct (recordEditMode_keeps v0) as (v1 & -> & Hc1 & _).
  cbn [mbind result_bind].
  assert (Hc : contents v1 = contents v) by congruence.
  assert (Hrows : lines <$> panes v1 = lines <$> panes v)
    by (apply (f_equal fst) in Hc; exact Hc).
  assert (Hnp : len (panes v1) = len (panes v)) by (by rewrite !len_panes, Hc).
  rewrite <- Hrows in Hm.
  destruct (panes v1) as [|p ps] eqn:Hps.
  { unfold len in Hnp, Hf. simpl in Hnp. lia. }
  cbn [for_each fmap list_fmap] in *.
  assert (Hfirst : realign_pane alignmentHash ([], []) p
                   = Ok (createBlock (len (real_lines (lines p))),
                         [Some <$> real_lines (lines p)])) by reflexivity.
  rewrite Hfirst. cbn [mbind result_bind].
  pose proof (createBlock_shape (len (real_lines (lines p)))
                ltac:(unfold len; lia)) as [Hcp Hcs].
  destruct (realign_panes_shape ps [lines p] (lines p)
              (createBlock (len (real_lines (lines p))))
              [Some <$> real_lines (lines p)] (len (real_lines (lines p))))
    as (blocks' & lines' & n' & -> & (Hp' & Hs' & Hl') & Hsame).
  { split; [done|]. split; [done|]. constructor; [|done].
    unfold len. by rewrite length_fmap. }
  { constructor; [|done]. apply real_lines_Some. }
  { done. }
  { done. }
  cbn [mbind result_bind app] in *.
  rewrite <- Hps in *. clear Hfirst.
  rewrite Hf0 in *.
  destruct (py_get_pane v1 (current_pane v) ltac:(lia)) as (pane & ls & -> & Hpl & Hls).
  cbn [mbind result_bind].
  pose proof (sumZ_nonneg _ Hpos) as HN. pose proof (sumZ_nonneg _ Hp') as Hn'.
  set (N := Z.to_nat (sumZ (contents v).2)).
  assert (HlenN : Forall (fun ls : rows Line => length ls = N) (contents v1).1).
  { rewrite Hc. eapply Forall_impl; [exact Hlen|]. intros l Hl.
    cbv beta in *. unfold len in Hl. lia. }
  assert (HlsN : len (lines pane) = Z.of_nat N).
  { rewrite Hpl. rewrite Forall_forall in HlenN.
    unfold len. rewrite (HlenN ls); [done|]. by eapply list_elem_of_lookup_2. }
  rewrite HlsN.
  destruct (updateAlignment_lines 0 N (Z.to_nat n') lines' v1)
    as (v2 & Hrun & Hb2 & Hl2).
  { rewrite Hc. apply panes_nonempty. intros Hnil. rewrite Hnil in Hf.
    unfold len in Hf. simpl in Hf. lia. }
  { apply fits_whole_panes; [done| |].
    - eapply Forall_impl; [exact Hl'|]. intros l Hl. cbv beta in *.
      unfold len in Hl. lia.
    - unfold contents. cbn [fst]. by rewrite Hps. }
  change (Z.of_nat 0) with 0 in Hrun. rewrite Hrun. cbn [mbind result_bind].
  destruct (updateBlocks_sets blocks' v2) as (v3 & -> & Hc3).
  cbn [mbind result_bind].
  assert (Hn3 : len (panes v3) = len (panes v)).
  { rewrite !len_panes, Hc3. cbn [fst].
    apply Forall2_length in Hl2. rewrite <- Hl2. by rewrite Hc. }
  destruct (py_get_pane v3 (current_pane v) ltac:(lia)) as (pane3 & ls3 & -> & _ & _).
  cbn [mbind result_bind].
  destruct (setCurrentLine_keeps (current_pane v)
              (Z.min (current_line v3) (len (lines pane3))) None v3)
    as (v4 & -> & Hc4).
  { intros Hnil. rewrite Hnil in Hn3. unfold len in Hn3, Hf. simpl in Hn3. lia. }
  cbn [mbind result_bind].
  destruct (recordEditMode_keeps v4) as (v5 & -> & Hc5 & _).
  exists v5. split; [done|]. split.
  2:{ rewrite Hc5, Hc4, Hc3, <- Hc. cbn [fst].
      eapply Forall2_impl; [exact Hl2|]. by intros l l' [_ Hll]. }
  apply (partition_ok_intro _ n'); rewrite Hc5, Hc4, Hc3; cbn [fst snd]; try done.
  assert (HlenZ : Forall (fun ls : rows Line => len ls = Z.of_nat N) (contents v1).1).
  { eapply Forall_impl; [exact HlenN|]. intros l Hl. cbv beta in *. unfold len. lia. }
  pose proof (resized_rows (Z.of_nat N) (Z.of_nat (Z.to_nat n') - Z.of_nat N)
                (contents v1).1 (contents v2).1 HlenZ) as Hres.
  eapply Forall_impl; [apply Hres|].
  - eapply Forall2_impl; [exact Hl2|]. intros l l' [Hll _]. cbv beta in *. lia.
  - intros l Hl. cbv beta in *. lia.
Qed.
(** Two well-formed groups of sequences are aligned and their partitions
    merged: one well-formed group that holds the same lines. *)
Lemma align_groups_shape lb (ll : list (rows Line)) rb (rl : list (rows Line))
    nL nR (m0 m1 a b : rows Line) :
  side_ok lb ll nL -> side_ok rb rl nR ->
  last ll = Some m0 -> head rl = Some m1 ->
  real_lines m0 = real_lines a -> real_lines m1 = real_lines b ->
  matcher_returns alignmentHash a b ->
  exists lb' ll' rb' rl' merged n,
    alignBlocks alignmentHash lb ll rb rl = Ok (lb', ll', rb', rl') /\
    mergeBlocks lb' rb' = Ok merged /\
    side_ok merged (ll' ++ rl') n /\
    same_real_lines ll ll' /\ same_real_lines rl rl'.
Proof.
  intros HL HR Hlast Hhead Ha Hb Hm.
  apply is_ok_Ok in Hm as [diff Hdiff]. rewrite <- Ha, <- Hb in Hdiff.
  destruct (alignBlocks_shape alignmentHash lb ll rb rl nL nR m0 m1 diff
              HL HR Hlast Hhead Hdiff)
    as (lb' & ll' & rb' & rl' & n & Halign & (HLp & HLs & HLl) & (HRp & HRs & HRl)
        & HsL & HsR).
  destruct (mergeBlocks_shape lb' rb' HLp HRp ltac:(lia)) as (merged & Hmerge & Hbs & Hbp).
  exists lb', ll', rb', rl', merged, n. split; [done|]. split; [done|].
  split; [|done]. split; [done|]. split; [lia|]. apply Forall_app. by split.
Qed.

Lemma same_real_lines_last (l l' : list (rows Line)) x :
  same_real_lines l l' -> last l = Some x ->
  exists y, last l' = Some y /\ real_lines y = real_lines x.
Proof.
  intros Hs Hl. pose proof (Forall2_last _ _ _ Hs) as H. rewrite Hl in H.
  inversion H as [x' y Hr Hx Hy|]; subst x'. by exists y.
Qed.

Lemma same_real_lines_head (l l' : list (rows Line)) x :
  same_real_lines l l' -> head l = Some x ->
  exists y, head l' = Some y /\ real_lines y = real_lines x.
Proof.
  intros Hs Hl. destruct Hs as [|a b l l' Hr _]; [done|].
  injection Hl as ->. by exists b.
Qed.

(** One section of [align], or one side of [replaceContents]: both groups
    are compacted, aligned, and their partitions merged. *)
Lemma align_section_shape lb (ll : list (rows Line)) rb (rl : list (rows Line))
    nL nR (a b : rows Line) :
  side_ok lb ll nL -> side_ok rb rl nR ->
  last ll = Some a -> head rl = Some b ->
  matcher_returns alignmentHash a b ->
  exists merged lines' n,
    align_section alignmentHash (ll, lb) (rl, rb) = Ok (merged, lines') /\
    side_ok merged lines' n /\
    same_real_lines (ll ++ rl) lines'.
Proof.
  intros HL HR Hlast Hhead Hm. unfold align_section.
  destruct (removeNullLines_shape lb ll nL HL) as (lb1 & ll1 & n1 & -> & HL1 & Hs1).
  cbn [mbind result_bind].
  destruct (removeNullLines_shape rb rl nR HR) as (rb1 & rl1 & n2 & -> & HR1 & Hs2).
  cbn [mbind result_bind].
  destruct (same_real_lines_last _ _ _ Hs1 Hlast) as (m0 & Hm0 & Hr0).
  destruct (same_real_lines_head _ _ _ Hs2 Hhead) as (m1 & Hm1 & Hr1).
  destruct (align_groups_shape lb1 ll1 rb1 rl1 n1 n2 m0 m1 a b HL1 HR1 Hm0 Hm1 Hr0 Hr1 Hm)
    as (lb' & ll' & rb' & rl' & merged & n & -> & Hmerge & Hok & HsL & HsR).
  cbn [mbind result_bind]. rewrite Hmerge. cbn [mbind result_bind].
  exists merged, (ll' ++ rl'), n. split; [done|]. split; [done|].
  apply same_real_lines_app; by eapply same_real_lines_trans.
Qed.
Lemma py_clamp_nat {A} (l : list A) (k : nat) :
  (k <= length l)%nat -> py_clamp l (Z.of_nat k) = k.
Proof.
  intros Hk. unfold py_clamp, py_norm, len.
  destruct (Z.ltb_spec (Z.of_nat k) 0); lia.
Qed.

Lemma py_slice_nat {A} (l : list A) (a b : nat) :
  (a <= b <= length l)%nat ->
  py_slice l (Z.of_nat a) (Z.of_nat b) = take (b - a) (drop a l).
Proof. intros H. unfold py_slice. by rewrite !py_clamp_nat by lia. Qed.

Lemma py_slice_take {A} (l : list A) (k : nat) :
  (k <= length l)%nat -> py_slice l 0 (Z.of_nat k) = take k l.
Proof.
  intros Hk. change 0 with (Z.of_nat 0).
  rewrite (py_slice_nat l 0 k) by lia. by rewrite Nat.sub_0_r, drop_0.
Qed.

Lemma py_slice_from_drop {A} (l : list A) (k : nat) :
  (k <= length l)%nat -> py_slice_from l (Z.of_nat k) = drop k l.
Proof. intros Hk. unfold py_slice_from. by rewrite py_clamp_nat. Qed.

Lemma last_take {A} (l : list A) (k : nat) :
  (0 < k <= length l)%nat -> last (take k l) = l !! (k - 1)%nat.
Proof.
  intros Hk. rewrite last_lookup, length_take.
  replace (Init.Nat.pred (k `min` length l)) with (k - 1)%nat by lia.
  apply lookup_take_lt. lia.
Qed.

Lemma head_drop {A} (l : list A) (k : nat) : head (drop k l) = l !! k.
Proof. rewrite head_lookup, lookup_drop. f_equal. lia. Qed.

Lemma side_ok_sub blocks_ (l l' : list (rows Line)) n :
  side_ok blocks_ l n -> l' ⊆ l -> side_ok blocks_ l' n.
Proof.
  intros (Hp & Hs & Hl) Hsub. split; [done|]. split; [done|].
  apply Forall_forall. intros x Hx. rewrite Forall_forall in Hl. apply Hl.
  by apply Hsub.
Qed.

(** "align with panes to the left" *)
Lemma align_with_left_shape (f : nat) v blocks_ (mid : list (rows Line))
    n nM (m1 new prev : rows Line) :
  side_ok (blocks v) (lines <$> panes v) n ->
  (0 < f <= length (panes v))%nat ->
  side_ok blocks_ mid nM -> head mid = Some m1 ->
  real_lines m1 = real_lines new ->
  (lines <$> panes v) !! (f - 1)%nat = Some prev ->
  matcher_returns alignmentHash prev new ->
  exists blocks' mid' n',
    align_with_left alignmentHash (Z.of_nat f) v blocks_ mid = Ok (blocks', mid') /\
    side_ok blocks' mid' n' /\
    same_real_lines (take f (lines <$> panes v) ++ mid) mid'.
Proof.
  intros Hok Hf HM Hhead Hr1 Hprev Hm. unfold align_with_left.
  rewrite py_slice_take by lia. rewrite fmap_take.
  destruct (removeNullLines_shape (blocks v) (take f (lines <$> panes v)) n)
    as (lb1 & ll1 & n1 & -> & HL1 & Hs1).
  { eapply side_ok_sub; [exact Hok|]. apply subseteq_take. }
  cbn [mbind result_bind].
  assert (Hlast : last (take f (lines <$> panes v)) = Some prev).
  { rewrite last_take; [done|]. rewrite length_fmap. lia. }
  destruct (same_real_lines_last _ _ _ Hs1 Hlast) as (m0 & Hm0 & Hr0).
  destruct (align_groups_shape lb1 ll1 blocks_ mid n1 nM m0 m1 prev new
              HL1 HM Hm0 Hhead Hr0 Hr1 Hm)
    as (lb' & ll' & rb' & rl' & merged & n' & -> & Hmerge & Hok' & HsL & HsR).
  cbn [mbind result_bind]. rewrite Hmerge. cbn [mbind result_bind].
  exists merged, (ll' ++ rl'), n'. split; [done|]. split; [done|].
  apply same_real_lines_app; [by eapply same_real_lines_trans|done].
Qed.

(** "align with panes to the right" *)
Lemma align_with_right_shape (f : nat) v blocks_ (mid : list (rows Line))
    n nM (m0 new next : rows Line) :
  side_ok (blocks v) (lines <$> panes v) n ->
  (f + 1 < length (panes v))%nat ->
  side_ok blocks_ mid nM -> last mid = Some m0 ->
  real_lines m0 = real_lines new ->
  (lines <$> panes v) !! (f + 1)%nat = Some next ->
  matcher_returns alignmentHash new next ->
  exists blocks' mid' n',
    align_with_right alignmentHash (Z.of_nat f) v blocks_ mid = Ok (blocks', mid') /\
    side_ok blocks' mid' n' /\
    same_real_lines (mid ++ drop (f + 1) (lines <$> panes v)) mid'.
Proof.
  intros Hok Hf HM Hlast Hr0 Hnext Hm. unfold align_with_right.
  replace (Z.of_nat f + 1) with (Z.of_nat (f + 1)) by lia.
  rewrite py_slice_from_drop by lia. rewrite fmap_drop.
  destruct (removeNullLines_shape (blocks v) (drop (f + 1) (lines <$> panes v)) n)
    as (rb1 & rl1 & n1 & -> & HR1 & Hs1).
  { eapply side_ok_sub; [exact Hok|]. apply subseteq_drop. }
  cbn [mbind result_bind].
  assert (Hhead : head (drop (f + 1) (lines <$> panes v)) = Some next)
    by (by rewrite head_drop).
  destruct (same_real_lines_head _ _ _ Hs1 Hhead) as (m1 & Hm1 & Hr1).
  destruct (align_groups_shape blocks_ mid rb1 rl1 nM n1 m0 m1 new next
              HM HR1 Hlast Hm1 Hr0 Hr1 Hm)
    as (lb' & ll' & rb' & rl' & merged & n' & -> & Hmerge & Hok' & HsL & HsR).
  cbn [mbind result_bind]. rewrite Hmerge. cbn [mbind result_bind].
  exists merged, (ll' ++ rl'), n'. split; [done|]. split; [done|].
  apply same_real_lines_app; [done|by eapply same_real_lines_trans].
Qed.
(** A loop [for f in range(npanes)] whose body rewrites the rows of pane
    [f] only, in a way that depends on [f]. *)
Lemma for_each_pane_at (body : Viewer -> Z -> result Viewer)
    (Q : nat -> rows Line -> Prop) (P : nat -> rows Line -> rows Line -> Prop) :
  (forall v (k : nat) ls,
     (contents v).1 !! k = Some ls -> Q k ls ->
     exists v' ls', body v (Z.of_nat k) = Ok v' /\
                    contents v' = (<[k := ls']> (contents v).1, (contents v).2) /\
                    P k ls ls') ->
  forall v,
    (forall k ls, (contents v).1 !! k = Some ls -> Q k ls) ->
    exists v',
      for_each (py_range 0 (Z.of_nat (length (contents v).1))) body v = Ok v' /\
      (contents v').2 = (contents v).2 /\
      length (contents v').1 = length (contents v).1 /\
      forall k ls ls', (contents v).1 !! k = Some ls ->
                       (contents v').1 !! k = Some ls' -> P k ls ls'.
Proof.
  intros Hbody v HQ. rewrite py_range_0_nat.
  assert (Hgen : forall rest done w,
            (contents w).1 = done ++ rest ->
            (forall j ls, rest !! j = Some ls -> Q (length done + j)%nat ls) ->
            exists w' rest',
              for_each (Z.of_nat <$> seq (length done) (length rest)) body w = Ok w' /\
              contents w' = (done ++ rest', (contents w).2) /\
              length rest' = length rest /\
              forall j ls ls', rest !! j = Some ls -> rest' !! j = Some ls' ->
                               P (length done + j)%nat ls ls').
  { induction rest as [|ls rest IH]; intros done w Hc Hq.
    - exists w, []. split; [done|]. rewrite <- Hc.
      split; [by destruct (contents w)|]. split; [done|]. by intros [] ? ? ?.
    - cbn [length seq fmap list_fmap for_each].
      destruct (Hbody w (length done) ls) as (w1 & ls1 & -> & Hc1 & HP).
      { rewrite Hc. by apply list_lookup_middle. }
      { specialize (Hq 0%nat ls eq_refl). by rewrite Nat.add_0_r in Hq. }
      cbn [mbind result_bind].
      destruct (IH (done ++ [ls1]) w1) as (w' & rest' & Hloop & Hc' & Hlen' & Hall).
      + rewrite Hc1, Hc. cbn [fst].
        replace (length done) with (length done + 0)%nat at 1 by lia.
        rewrite insert_app_r. cbn. by rewrite <- app_assoc.
      + intros j l Hj. rewrite length_app. cbn [length].
        replace (length done + 1 + j)%nat with (length done + S j)%nat by lia.
        by apply Hq.
      + rewrite length_app in Hloop, Hall. cbn [length] in Hloop, Hall.
        replace (length done + 1)%nat with (S (length done)) in Hloop by lia.
        exists w', (ls1 :: rest'). split; [exact Hloop|]. split.
        * rewrite Hc', Hc1. cbn [snd]. by rewrite <- app_assoc.
        * split; [simpl; lia|]. intros [|j] l l' Hl Hl'.
          -- injection Hl as <-. injection Hl' as <-. by rewrite Nat.add_0_r.
          -- replace (length done + S j)%nat with (length done + 1 + j)%nat by lia.
             by apply Hall. }
  destruct (Hgen (contents v).1 [] v eq_refl HQ)
    as (v' & rest' & Hrun & Hc & Hlen & Hall).
  exists v'. split; [exact Hrun|]. rewrite Hc. by repeat split.
Qed.

Lemma setFormat_keeps (k : nat) fmt v :
  (k < length (panes v))%nat ->
  exists v', setFormat (Z.of_nat k) fmt v = Ok v' /\ contents v' = contents v.
Proof.
  intros Hk.
  destruct (lookup_lt_is_Some_2 (contents v).1 k) as [ls Hls].
  { unfold contents. cbn [fst]. by rewrite length_fmap. }
  destruct (pane_update_Ok (setFormat (Z.of_nat k) fmt v) Ok v k ls ls
              (setFormat_contents _ _ _) Hls eq_refl) as (v' & Hrun & Hc).
  exists v'. split; [done|]. rewrite Hc, list_insert_id by done.
  by destruct (contents v).
Qed.

Lemma replaceLines_sets (k : nat) ls nl mx nmx v old :
  (contents v).1 !! k = Some old ->
  exists v', replaceLines (Z.of_nat k) ls nl mx nmx v = Ok v' /\
             contents v' = (<[k := nl]> (contents v).1, (contents v).2).
Proof.
  intros Hk.
  by apply (pane_update_Ok _ (fun _ => Ok nl) v k old nl
              (replaceLines_contents _ _ _ _ _ _) Hk).
Qed.

Lemma length_enumerate_from {A} (l : list A) i : length (enumerate_from i l) = length l.
Proof. revert i. induction l as [|x l IH]; intros i; simpl; [done|]. by rewrite IH. Qed.

Lemma len_new_lines_of ss : len (new_lines_of ss) = len ss.
Proof.
  unfold new_lines_of, len, enumerate.
  by rewrite length_fmap, length_enumerate_from.
Qed.
Lemma same_real_lines_lookup (l l' : list (rows Line)) k ls :
  same_real_lines l l' -> l !! k = Some ls ->
  exists ls', l' !! k = Some ls' /\ real_lines ls' = real_lines ls.
Proof.
  intros Hs Hk. destruct (Forall2_lookup_l _ _ _ _ _ Hs Hk) as (ls' & Hk' & Hr).
  by exists ls'.
Qed.

(** [replaceContents(f, ss)] *)
Lemma replaceContents_ok (f : nat) ss v :
  partition_ok v -> (f < length (panes v))%nat ->
  (forall prev, (0 < f)%nat -> (lines <$> panes v) !! (f - 1)%nat = Some prev ->
                matcher_returns alignmentHash prev (new_lines_of ss)) ->
  (forall next, (lines <$> panes v) !! (f + 1)%nat = Some next ->
                matcher_returns alignmentHash (new_lines_of ss) next) ->
  exists v',
    replaceContents alignmentHash getFormat (Z.of_nat f) ss v = Ok v' /\
    partition_ok v' /\
    same_real_lines (<[f := new_lines_of ss]> (contents v).1) (contents v').1.
Proof.
  intros Hok Hf Hleft Hright. apply partition_ok_contents in Hok as [Hlen Hpos].
  unfold replaceContents.
  destruct (alignmentChange_keeps false v) as (v1 & -> & Hc1).
  cbn [mbind result_bind].
  assert (Hn1 : length (panes v1) = length (panes v)).
  { pose proof (len_panes v1) as H1. pose proof (len_panes v) as H2.
    rewrite Hc1 in H1. unfold len in *. lia. }
  destruct (setFormat_keeps f (getFormat ss) v1 ltac:(lia)) as (v2 & -> & Hc2).
  cbn [mbind result_bind].
  assert (Hc : contents v2 = contents v) by congruence.
  assert (Hrows : lines <$> panes v2 = lines <$> panes v)
    by (apply (f_equal fst) in Hc; exact Hc).
  assert (Hblocks : blocks v2 = blocks v)
    by (apply (f_equal snd) in Hc; exact Hc).
  assert (Hn2 : length (panes v2) = length (panes v)).
  { apply (f_equal length) in Hrows. by rewrite !length_fmap in Hrows. }
  set (rws := lines <$> panes v) in *.
  set (new := new_lines_of ss).
  set (N := sumZ (blocks v)).
  assert (HlenN : Forall (fun ls : rows Line => len ls = N) rws) by exact Hlen.
  assert (Hside : side_ok (blocks v2) (lines <$> panes v2) N).
  { rewrite Hblocks, Hrows. split; [done|]. by split. }
  assert (Hnew : side_ok (createBlock (len ss)) [new] (len ss)).
  { destruct (createBlock_shape (len ss) ltac:(unfold len; lia)) as [Hp Hs].
    split; [done|]. split; [done|]. constructor; [|done]. apply len_new_lines_of. }
  (* the panes to the left *)
  assert (HL : exists b1 mid1 n1,
             (if 0 <? Z.of_nat f
              then align_with_left alignmentHash (Z.of_nat f) v2
                     (createBlock (len ss)) [new]
              else Ok (createBlock (len ss), [new])) = Ok (b1, mid1) /\
             side_ok b1 mid1 n1 /\
             same_real_lines (take f rws ++ [new]) mid1).
  { destruct (Z.ltb_spec 0 (Z.of_nat f)) as [Hpos0|Hz].
    - destruct (lookup_lt_is_Some_2 rws (f - 1)) as [prev Hprev].
      { unfold rws. rewrite length_fmap. lia. }
      destruct (align_with_left_shape f v2 (createBlock (len ss)) [new]
                  N (len ss) new new prev Hside ltac:(lia) Hnew eq_refl eq_refl)
        as (b1 & mid1 & n1 & Hrun & Hok1 & Hs1).
      { by rewrite Hrows. }
      { apply Hleft; [lia|done]. }
      exists b1, mid1, n1. rewrite Hrows in Hs1. done.
    - exists (createBlock (len ss)), [new], (len ss).
      replace f with 0%nat by lia. split; [done|]. split; [done|].
      apply same_real_lines_refl. }
  destruct HL as (b1 & mid1 & n1 & -> & Hok1 & Hs1).
  cbn [mbind result_bind].
  (* the panes to the right *)
  assert (HR : exists b2 mid2 n2,
             (if Z.of_nat f + 1 <? len (panes v2)
              then align_with_right alignmentHash (Z.of_nat f) v2 b1 mid1
              else Ok (b1, mid1)) = Ok (b2, mid2) /\
             side_ok b2 mid2 n2 /\
             same_real_lines (take f rws ++ [new] ++ drop (f + 1) rws) mid2).
  { unfold len. rewrite Hn2.
    destruct (Z.ltb_spec (Z.of_nat f + 1) (Z.of_nat (length (panes v)))) as [Hlt|Hge].
    - destruct (lookup_lt_is_Some_2 rws (f + 1)) as [next Hnext].
      { unfold rws. rewrite length_fmap. lia. }
      destruct (same_real_lines_last _ _ new Hs1) as (m0 & Hm0 & Hr0).
      { by rewrite last_snoc. }
      destruct (align_with_right_shape f v2 b1 mid1 N n1 m0 new next
                  Hside ltac:(lia) Hok1 Hm0 Hr0)
        as (b2 & mid2 & n2 & Hrun & Hok2 & Hs2).
      { by rewrite Hrows. }
      { by apply Hright. }
      exists b2, mid2, n2. split; [done|]. split; [done|].
      rewrite Hrows in Hs2. rewrite app_assoc.
      eapply same_real_lines_trans; [|exact Hs2].
      apply same_real_lines_app; [done|apply same_real_lines_refl].
    - exists b1, mid1, n1. split; [done|]. split; [done|].
      rewrite drop_ge by (unfold rws; rewrite length_fmap; lia).
      by rewrite app_nil_r. }
  destruct HR as (b2 & mid2 & n2 & -> & (Hp2 & Hsum2 & Hl2) & Hs2).
  cbn [mbind result_bind].
  assert (Hins : take f rws ++ [new] ++ drop (f + 1) rws = <[f := new]> rws).
  { rewrite insert_take_drop by (unfold rws; rewrite length_fmap; lia).
    by replace (f + 1)%nat with (S f) by lia. }
  rewrite Hins in Hs2.
  destruct (py_get_pane v2 (Z.of_nat f) ltac:(unfold len; lia))
    as (pane & old & -> & Hold & Hlk).
  cbn [mbind result_bind]. rewrite Nat2Z.id in Hlk.
  assert (HoldN : len old = N).
  { apply (Forall_lookup_1 _ _ f _ HlenN). rewrite Hc in Hlk. exact Hlk. }
  destruct (same_real_lines_lookup _ _ f new Hs2) as (new' & Hnew' & Hrn).
  { apply list_lookup_insert_eq. unfold rws. rewrite length_fmap. lia. }
  rewrite py_get_nat, Hnew'. cbn [mbind result_bind].
  assert (Hlnew : len new' = n2) by apply (Forall_lookup_1 _ _ f _ Hl2 Hnew').
  destruct (replaceLines_sets f (lines pane) new' (max_line_number pane) (len ss)
              v2 old Hlk) as (v3 & -> & Hc3).
  cbn [mbind result_bind].
  assert (HN0 : 0 <= N) by apply (sumZ_nonneg _ Hpos).
  assert (Hn20 : 0 <= n2) by (rewrite <- Hsum2; apply (sumZ_nonneg _ Hp2)).
  clearbody N.
  rewrite len_panes.
  destruct (for_each_pane_at
              (fun v f_idx =>
                 if bool_decide (f_idx <> Z.of_nat f)
                 then v ← drop_spacers f_idx 0 (len (lines pane)) v;
                      temp ← py_get mid2 f_idx;
                      put_spacers f_idx 0 (len new') temp v
                 else Ok v)
              (fun k ls => k <> f ->
                 exists temp, mid2 !! k = Some temp /\
                   fits_section 0 (Z.to_nat N) (Z.to_nat n2) ls temp)
              (fun k ls ls' => if decide (k = f) then ls' = ls
                               else len ls' = len ls - N + n2 /\
                                    real_lines ls' = real_lines ls))
    with (v := v3) as (v4 & -> & Hb4 & Hn4 & Hall4).
  { clear v3 Hc3. intros w k ls Hk HQ.
    destruct (decide (k = f)) as [->|Hkf].
    - rewrite bool_decide_eq_false_2 by (intros H; by apply H).
      exists w, ls. split; [done|]. split; [|done].
      rewrite list_insert_id by done. by destruct (contents w).
    - rewrite bool_decide_eq_true_2 by lia.
      destruct (HQ Hkf) as (temp & Htemp & Hfit).
      pose proof Hfit as (_ & Hlt & _).
      destruct (realign_pane_rows k 0 (Z.to_nat N) temp ls w Hk)
        as (w' & ls' & Hrun & Hcw & Hlen' & Hreal').
      { by rewrite Hlt. }
      exists w', ls'.
      rewrite Hold, HoldN, Hlnew, py_get_nat, Htemp.
      change (Z.of_nat 0 + Z.of_nat (Z.to_nat N)) with (Z.of_nat (Z.to_nat N)) in Hrun.
      change (Z.of_nat 0) with 0 in Hrun.
      replace (Z.of_nat (Z.to_nat N)) with N in Hrun by lia.
      replace (len temp) with n2 in Hrun by (unfold len; lia).
      apply bind_Ok in Hrun as (w1 & Hdrop & Hput). rewrite Hdrop.
      cbn [mbind result_bind]. split; [exact Hput|]. split; [done|].
      split; [unfold len in *; lia|exact Hreal']. }
  { intros k ls Hk Hkf. rewrite Hc3 in Hk. cbn [fst] in Hk.
    rewrite list_lookup_insert_ne in Hk by done.
    rewrite Hc in Hk. change (contents v).1 with rws in Hk.
    destruct (same_real_lines_lookup _ _ k ls Hs2) as (temp & Htemp & Hrt).
    { by rewrite list_lookup_insert_ne. }
    exists temp. split; [done|].
    assert (Hlt : len temp = n2) by apply (Forall_lookup_1 _ _ k _ Hl2 Htemp).
    assert (Hlls : len ls = N) by apply (Forall_lookup_1 _ _ k _ HlenN Hk).
    unfold len in Hlt, Hlls.
    split; [lia|]. split; [lia|].
    rewrite drop_0, firstn_all2 by lia. by rewrite Hrt. }
  cbn [mbind result_bind].
  destruct (invalidateLineMatching_keeps 0 (len (lines pane)) (len new') v4)
    as (v5 & -> & Hc5).
  cbn [mbind result_bind].
  destruct (updateBlocks_sets b2 v5) as (v6 & -> & Hc6).
  cbn [mbind result_bind].
  destruct (alignmentChange_keeps true v6) as (v7 & -> & Hc7).
  cbn [mbind result_bind].
  destruct (setLineMode_keeps v7) as (Hc8 & _).
  set (v8 := setLineMode v7) in *.
  assert (Hn8 : length (contents v8).1 = length (panes v)).
  { rewrite Hc8, Hc7, Hc6. cbn [fst]. rewrite Hc5, Hn4, Hc3. cbn [fst].
    rewrite length_insert, Hc. unfold contents. cbn [fst]. by rewrite length_fmap. }
  destruct (py_get_pane v8 (Z.of_nat f)) as (pane8 & ls8 & -> & _ & _).
  { rewrite len_panes. lia. }
  cbn [mbind result_bind].
  destruct (setCurrentLine_keeps (current_pane v8)
              (Z.min (current_line v8) (len (lines pane8) + 1)) None v8)
    as (v9 & -> & Hc9).
  { intros Hnil. pose proof (len_panes v8) as Hl8. rewrite Hnil in Hl8.
    unfold len in Hl8. cbn [length] in Hl8. lia. }
  exists v9. split; [done|]. split.
  2:{ rewrite Hc9, Hc8, Hc7, Hc6. cbn [fst]. rewrite Hc5.
      change (contents v).1 with rws. fold new.
      apply Forall2_same_length_lookup. split.
      { rewrite Hn4, Hc3. cbn [fst]. rewrite !length_insert, Hc. done. }
      intros k x ls' Hx Hk'.
      destruct (lookup_lt_is_Some_2 (contents v3).1 k) as [ls Hk].
      { rewrite <- Hn4. by eapply lookup_lt_Some. }
      specialize (Hall4 k ls ls' Hk Hk'). cbv beta in Hall4.
      rewrite Hc3 in Hk. cbn [fst] in Hk.
      destruct (decide (k = f)) as [->|Hkf].
      - subst ls'. rewrite list_lookup_insert_eq in Hk by (by eapply lookup_lt_Some).
        rewrite list_lookup_insert_eq in Hx
          by (rewrite <- (length_insert rws f new); by eapply lookup_lt_Some).
        injection Hk as <-. injection Hx as <-. exact Hrn.
      - rewrite list_lookup_insert_ne in Hk by done.
        rewrite list_lookup_insert_ne in Hx by done.
        rewrite Hc in Hk. change (contents v).1 with rws in Hk.
        destruct Hall4 as [_ Hreal]. congruence. }
  apply (partition_ok_intro _ n2); rewrite Hc9, Hc8, Hc7, Hc6; cbn [fst snd];
    try done.
  rewrite Hc5. apply Forall_lookup. intros k ls' Hk'.
  destruct (lookup_lt_is_Some_2 (contents v3).1 k) as [ls Hk].
  { rewrite <- Hn4. by eapply lookup_lt_Some. }
  specialize (Hall4 k ls ls' Hk Hk'). cbv beta in Hall4.
  rewrite Hc3 in Hk. cbn [fst] in Hk.
  destruct (decide (k = f)) as [->|Hkf].
  - subst ls'. rewrite list_lookup_insert_eq in Hk; [by injection Hk as <-|].
    by eapply lookup_lt_Some.
  - rewrite list_lookup_insert_ne in Hk by done.
    assert (Hlls : len ls = N).
    { apply (Forall_lookup_1 _ _ k _ HlenN). rewrite Hc in Hk. exact Hk. }
    destruct Hall4 as [Hall4 _]. lia.
Qed.
End RealignAll.

(** ** The exact rows that [updateAlignment] leaves *)

(** When the section of pane [k] holds exactly the lines of [temp] and no
    spacer, the loop that inserts spacers turns it into [temp], row by
    row. *)
Lemma put_spacers_exact (k : nat) (temp pre post : rows Line) (n : nat) :
  (n <= length temp)%nat ->
  forall v,
    (contents v).1 !! k = Some (pre ++ (Some <$> real_lines temp) ++ post) ->
    exists v',
      put_spacers (Z.of_nat k) (len pre) (Z.of_nat n) temp v = Ok v' /\
      contents v'
      = (<[k := pre ++ take n temp ++ (Some <$> real_lines (drop n temp)) ++ post]>
           (contents v).1, (contents v).2).
Proof.
  induction n as [|n IH]; intros Hn v Hk.
  - exists v. unfold put_spacers. rewrite py_range_empty by lia.
    split; [done|]. cbn [take drop app]. rewrite list_insert_id by done.
    by destruct (contents v).
  - destruct (IH ltac:(lia) v Hk) as (v1 & Hrun & Hc1).
    unfold put_spacers in *. rewrite for_each_range_snoc, Hrun.
    cbn [mbind result_bind].
    destruct (lookup_lt_is_Some_2 temp n ltac:(lia)) as [e He].
    rewrite py_get_nat, He. cbn [mbind result_bind].
    rewrite (take_S_r _ _ _ He).
    rewrite (drop_S _ _ _ He) in Hc1.
    assert (Hlt : (k < length (contents v).1)%nat) by (by eapply lookup_lt_Some).
    destruct e as [x|].
    + exists v1. split; [done|]. rewrite Hc1. cbn [real_lines omap fmap list_fmap].
      by rewrite <- !app_assoc.
    + rewrite real_lines_cons_None in Hc1.
      set (ls1 := pre ++ take n temp ++ (Some <$> real_lines (drop (S n) temp)) ++ post)
        in *.
      assert (Hk1 : (contents v1).1 !! k = Some ls1).
      { rewrite Hc1. cbn [fst]. by apply list_lookup_insert_eq. }
      destruct (insertNull_put k (len pre + Z.of_nat n) v1 ls1 Hk1) as (v2 & -> & Hc2).
      exists v2. split; [done|]. rewrite Hc2, Hc1. cbn [fst snd].
      rewrite list_insert_insert_eq. f_equal. f_equal.
      assert (Hpos : len pre + Z.of_nat n = Z.of_nat (length (pre ++ take n temp))).
      { unfold len. rewrite length_app, length_take. lia. }
      rewrite Hpos. unfold ls1. rewrite app_assoc.
      rewrite py_insert_nat
        by (rewrite (length_app (pre ++ take n temp)); lia).
      rewrite take_app_length, drop_app_length. by rewrite <- !app_assoc.
Qed.

(** The body of the loop of [updateAlignment] for pane [k], when [temp]
    holds the lines of the section: the section becomes [temp]. *)
Lemma realign_pane_exact (k i n : nat) (temp ls : rows Line) v :
  (contents v).1 !! k = Some ls ->
  (i + n <= length ls)%nat ->
  real_lines temp = real_lines (take n (drop i ls)) ->
  exists v',
    (v1 ← drop_spacers (Z.of_nat k) (Z.of_nat i) (Z.of_nat i + Z.of_nat n) v;
     put_spacers (Z.of_nat k) (Z.of_nat i) (len temp) temp v1) = Ok v' /\
    contents v' = (<[k := take i ls ++ temp ++ drop (i + n) ls]> (contents v).1,
                   (contents v).2).
Proof.
  intros Hk Hin Hreal.
  set (pre := take i ls). set (mid := take n (drop i ls)).
  set (post := drop n (drop i ls)).
  assert (Hls : ls = pre ++ mid ++ post)
    by (unfold pre, mid, post; by rewrite !take_drop).
  assert (Hpre : length pre = i) by (unfold pre; rewrite length_take; lia).
  assert (Hmid : length mid = n)
    by (unfold mid; rewrite length_take, length_drop; lia).
  destruct (drop_spacers_shape k mid pre post v) as (v1 & Hrun1 & Hc1);
    [by rewrite <- Hls|].
  unfold len in Hrun1. rewrite Hpre, Hmid in Hrun1. rewrite Hrun1.
  cbn [mbind result_bind].
  fold mid in Hreal. rewrite <- Hreal in Hc1.
  destruct (put_spacers_exact k temp pre post (length temp) ltac:(lia) v1)
    as (v2 & Hrun2 & Hc2).
  { rewrite Hc1. cbn [fst]. apply list_lookup_insert_eq. by eapply lookup_lt_Some. }
  unfold len in *. rewrite Hpre in Hrun2.
  exists v2. split; [exact Hrun2|].
  rewrite Hc2, Hc1. cbn [fst snd]. rewrite list_insert_insert_eq.
  rewrite firstn_all, drop_all. cbn [real_lines omap fmap list_fmap app].
  unfold post. by rewrite drop_drop.
Qed.

(** [updateAlignment(i, n, lines)] when [lines[f]] holds, for every pane
    [f], the lines of rows [i .. i + n - 1] of the pane: the call installs
    [lines[f]] in place of these rows. *)
Lemma updateAlignment_exact (i n : nat) (lines_ : list (rows Line)) v :
  (contents v).1 <> [] ->
  Forall2 (fun ls temp =>
             (i + n <= length ls)%nat /\
             real_lines temp = real_lines (take n (drop i ls)))
          (contents v).1 lines_ ->
  (forall first temp, head lines_ = Some first -> temp ∈ lines_ ->
                      length temp = length first) ->
  exists v',
    updateAlignment (Z.of_nat i) (Z.of_nat n) lines_ v = Ok v' /\
    (contents v').2 = (contents v).2 /\
    (contents v').1
    = zip_with (fun ls temp => take i ls ++ temp ++ drop (i + n) ls)
               (contents v).1 lines_.
Proof.
  intros Hne Hfit Hsame. unfold updateAlignment.
  destruct (alignmentChange_keeps false v) as (v1 & -> & Hc1).
  cbn [mbind result_bind].
  destruct lines_ as [|first lines_'] eqn:Hl.
  { by apply Forall2_nil_inv_r in Hfit. }
  rewrite <- Hl in *.
  assert (Hfirst : py_get lines_ 0 = Ok first) by (by subst).
  rewrite Hfirst. cbn [mbind result_bind].
  assert (Hhead : head lines_ = Some first) by (by subst).
  specialize (Hsame first). clear Hl lines_' Hfirst.
  rewrite len_panes.
  destruct (for_each_pane_at
              (fun v f =>
                 v ← drop_spacers f (Z.of_nat i) (Z.of_nat i + Z.of_nat n) v;
                 temp ← py_get lines_ f;
                 put_spacers f (Z.of_nat i) (len first) temp v)
              (fun k ls => exists temp, lines_ !! k = Some temp /\
                             (i + n <= length ls)%nat /\
                             real_lines temp = real_lines (take n (drop i ls)))
              (fun k ls ls' => exists temp, lines_ !! k = Some temp /\
                                 ls' = take i ls ++ temp ++ drop (i + n) ls))
    with (v := v1) as (v2 & Hloop & Hb2 & Hn2 & Hall2).
  { intros w k ls Hk (temp & Htemp & Hin & Hreal).
    destruct (realign_pane_exact k i n temp ls w Hk Hin Hreal)
      as (w' & Hrun & Hcw).
    apply bind_Ok in Hrun as (w1 & Hdrop & Hput).
    exists w', (take i ls ++ temp ++ drop (i + n) ls).
    rewrite Hdrop. cbn [mbind result_bind]. rewrite py_get_nat, Htemp.
    cbn [mbind result_bind].
    assert (Hlen : len temp = len first).
    { unfold len. f_equal. apply Hsame; [done|]. by eapply list_elem_of_lookup_2. }
    rewrite <- Hlen. split; [exact Hput|]. split; [exact Hcw|]. by exists temp. }
  { intros k ls Hk. rewrite Hc1 in Hk.
    destruct (Forall2_lookup_l _ _ _ _ _ Hfit Hk) as (temp & Htemp & Hin & Hreal).
    by exists temp. }
  rewrite Hloop. cbn [mbind result_bind].
  destruct (invalidateLineMatching_keeps (Z.of_nat i) (Z.of_nat n)
              (len first) v2) as (v3 & -> & Hc3).
  cbn [mbind result_bind].
  destruct (alignmentChange_keeps true v3) as (v4 & -> & Hc4).
  exists v4. split; [done|]. rewrite Hc4, Hc3. split; [by rewrite Hb2, Hc1|].
  rewrite Hc1 in Hn2, Hall2.
  apply list_eq. intros k. rewrite lookup_zip_with.
  destruct ((contents v).1 !! k) as [ls|] eqn:Hk; cbn [mbind option_bind].
  - destruct (lookup_lt_is_Some_2 (contents v2).1 k) as [ls' Hk'].
    { rewrite Hn2. by eapply lookup_lt_Some. }
    destruct (Hall2 k ls ls' Hk Hk') as (temp & Htemp & ->).
    rewrite Hk', Htemp. done.
  - apply lookup_ge_None. rewrite Hn2. by apply lookup_ge_None.
Qed.

(** ** Properties of the alignment engine beyond the partition helpers *)

(** X1.  [alignBlocks] on two sides whose sequences all have as many rows
    as the side's partition sums to (partitions without zero entries):
    whenever the matcher returns for the lines of the two inner sequences,
    [alignBlocks] returns as well (the [while True] loop ends, no index is
    out of range); afterwards the sequences of both sides all have one and
    the same number of rows, each side's partition sums to that number and
    still has no zero entry, and every sequence holds exactly the lines it
    held before, in the same order: only spacers were inserted. *)
Theorem alignBlocks_levels_sides {L K : Type} `{EqDecision L} `{EqDecision K}
    (alignmentHash : L -> K) (leftblocks rightblocks : list Z)
    (leftlines rightlines : list (rows L)) (nL nR : Z) :
  side_ok leftblocks leftlines nL -> side_ok rightblocks rightlines nR ->
  leftlines <> [] -> rightlines <> [] ->
  (forall m0 m1, last leftlines = Some m0 -> head rightlines = Some m1 ->
     is_ok (patience_diff (alignmentHash <$> real_lines m0)
                          (alignmentHash <$> real_lines m1))) ->
  exists leftblocks' leftlines' rightblocks' rightlines' n,
    alignBlocks alignmentHash leftblocks leftlines rightblocks rightlines
      = Ok (leftblocks', leftlines', rightblocks', rightlines') /\
    side_ok leftblocks' leftlines' n /\ side_ok rightblocks' rightlines' n /\
    same_real_lines leftlines leftlines' /\
    same_real_lines rightlines rightlines'.
Proof.
  intros HL HR HneL HneR Hmatch.
  destruct (last leftlines) as [m0|] eqn:Hlast.
  2:{ apply last_None in Hlast. done. }
  destruct rightlines as [|m1 rl0] eqn:Hrl; [done|]. rewrite <- Hrl in *.
  assert (Hhead : head rightlines = Some m1) by (by subst).
  specialize (Hmatch m0 m1 eq_refl Hhead).
  destruct (patience_diff (alignmentHash <$> real_lines m0)
                          (alignmentHash <$> real_lines m1)) as [diff|e] eqn:Hdiff;
    [|done].
  by apply (alignBlocks_shape alignmentHash _ _ _ _ nL nR m0 m1 diff).
Qed.

Lemma alignBlocks_levels_sides_witness :
  let left := [[Some (0%nat, "x"%string); Some (1%nat, "y"%string)]] in
  let right := [[Some (10%nat, "y"%string)]] in
  exists leftblocks' leftlines' rightblocks' rightlines' n,
    alignBlocks snd [2] left [1] right
      = Ok (leftblocks', leftlines', rightblocks', rightlines') /\
    side_ok leftblocks' leftlines' n /\ side_ok rightblocks' rightlines' n /\
    same_real_lines left leftlines' /\ same_real_lines right rightlines'.
Proof.
  intros left right.
  apply (alignBlocks_levels_sides snd [2] [1] left right 2 1).
  - split; [by repeat constructor|]. split; [reflexivity|]. by repeat constructor.
  - split; [by repeat constructor|]. split; [reflexivity|]. by repeat constructor.
  - discriminate.
  - discriminate.
  - intros m0 m1 [= <-] [= <-]. vm_compute. exact I.
Defined.

(** X2.  [removeNullLines] never removes or reorders a line.  On blocks
    without zero entries and sequences that all have [sum(blocks)] rows it
    returns, and every sequence holds afterwards exactly the lines it held
    before, in the same order; the sequences still have one common length,
    to which the blocks sum. *)
Theorem removeNullLines_keeps_lines {L : Type} (blocks_ : list Z)
    (lines_set : list (rows L)) :
  positive_blocks blocks_ ->
  Forall (fun l => len l = sumZ blocks_) lines_set ->
  exists blocks' lines',
    removeNullLines blocks_ lines_set = Ok (blocks', lines') /\
    same_real_lines lines_set lines' /\
    length lines' = length lines_set /\
    Forall (fun l => len l = sumZ blocks') lines'.
Proof.
  intros Hpos Hlen.
  destruct (removeNullLines_shape blocks_ lines_set (sumZ blocks_))
    as (blocks' & lines' & n' & Hrun & (_ & Hsum & Hlen') & Hsame).
  { by split. }
  exists blocks', lines'. split; [exact Hrun|]. split; [exact Hsame|].
  split; [symmetry; by eapply Forall2_length|]. by rewrite Hsum.
Qed.

Lemma removeNullLines_keeps_lines_witness :
  let lines_set := [[Some 1%nat; None; None]; [None; None; Some 2%nat]] in
  exists blocks' lines',
    removeNullLines [2; 1] lines_set = Ok (blocks', lines') /\
    same_real_lines lines_set lines' /\
    length lines' = length lines_set /\
    Forall (fun l => len l = sumZ blocks') lines'.
Proof.
  intros lines_set. apply (removeNullLines_keeps_lines [2; 1] lines_set).
  - by repeat constructor.
  - by repeat constructor.
Defined.

(** ** Properties of the alignment operations of the viewer *)

(** The rows [insertLines] leaves in the panes. *)
Lemma insertLines_rows (i : nat) (n : Z) v :
  panes v <> [] ->
  Forall (fun ls : rows Line => (i <= length ls)%nat) (contents v).1 -> 0 <= n ->
  exists v',
    insertLines (Z.of_nat i) n v = Ok v' /\
    (contents v').1
    = (fun ls => take i ls ++ py_repeat n None ++ drop i ls) <$> (contents v).1.
Proof.
  intros Hne Hlen Hn. unfold insertLines.
  destruct (updateAlignment_exact i 0 ((fun _ => py_repeat n None) <$> panes v) v)
    as (v1 & Hrun & Hb1 & Hl1).
  { by apply panes_nonempty. }
  { unfold contents in *. cbn [fst] in *. apply Forall2_fmap.
    apply Forall_Forall2_diag. rewrite Forall_forall in Hlen.
    apply Forall_forall. intros pane Hp.
    split; [|unfold py_repeat; by rewrite real_lines_nones].
    rewrite Nat.add_0_r. by apply Hlen, list_elem_of_fmap_2. }
  { intros first temp Hfirst Htemp.
    apply head_Some_elem_of in Hfirst.
    apply list_elem_of_fmap in Hfirst as (p1 & -> & _).
    by apply list_elem_of_fmap in Htemp as (p2 & -> & _). }
  change (Z.of_nat 0) with 0 in Hrun. rewrite Hrun. cbn [mbind result_bind].
  destruct (cutBlocks (Z.of_nat i) (blocks v1)) as [pre post].
  destruct (updateBlocks_sets (pre ++ [n] ++ post) v1) as (v2 & -> & Hc2).
  cbn [mbind result_bind]. eexists. split; [reflexivity|].
  match goal with
  | |- (contents ?w).1 = _ =>
      assert (Hc : contents w = contents v2) by reflexivity
  end.
  rewrite Hc, Hc2. cbn [fst]. rewrite Hl1.
  unfold contents. cbn [fst]. clear. rewrite Nat.add_0_r.
  induction (panes v) as [|p ps IH]; [done|].
  cbn [fmap list_fmap zip_with]. f_equal. exact IH.
Qed.

(** X3.  [updateAlignment(i, n, lines)] installs the given rows.  When,
    for every pane [f], rows [i .. i + n - 1] exist and [lines[f]] holds
    exactly their lines in their order (with spacers anywhere), and all
    the [lines[f]] have one length, the call returns; afterwards pane [f]
    consists of its rows before [i], then [lines[f]], then its rows from
    [i + n] on, and the block partition is untouched. *)
Theorem updateAlignment_installs_rows (i n : Z) (lines_ : list (rows Line)) v :
  0 <= i -> 0 <= n -> panes v <> [] ->
  Forall2 (fun pane temp =>
             i + n <= len (lines pane) /\
             real_lines temp = real_lines (py_slice (lines pane) i (i + n)))
          (panes v) lines_ ->
  (forall t1 t2, t1 ∈ lines_ -> t2 ∈ lines_ -> len t1 = len t2) ->
  exists v',
    updateAlignment i n lines_ v = Ok v' /\
    blocks v' = blocks v /\
    lines <$> panes v'
    = zip_with (fun pane temp => py_slice (lines pane) 0 i ++ temp ++
                                 py_slice_from (lines pane) (i + n))
               (panes v) lines_.
Proof.
  intros Hi Hn Hne Hfit Hsame.
  set (i' := Z.to_nat i). set (n' := Z.to_nat n).
  assert (Hii : i = Z.of_nat i') by (unfold i'; lia).
  assert (Hnn : n = Z.of_nat n') by (unfold n'; lia).
  rewrite Hii, Hnn in *. clearbody i' n'. clear Hi Hn Hii Hnn.
  destruct (updateAlignment_exact i' n' lines_ v) as (v' & Hrun & Hb & Hrows).
  - by apply panes_nonempty.
  - unfold contents. cbn [fst]. apply Forall2_fmap_l.
    eapply Forall2_impl; [exact Hfit|]. intros pane temp [Hlen Hreal].
    cbv beta. unfold len in Hlen. split; [lia|].
    rewrite Hreal. f_equal. rewrite <- Nat2Z.inj_add.
    rewrite py_slice_nat by lia. f_equal. lia.
  - intros first temp Hfirst Htemp. apply head_Some_elem_of in Hfirst.
    pose proof (Hsame temp first Htemp Hfirst) as Hlen. unfold len in Hlen. lia.
  - exists v'. split; [exact Hrun|]. split; [exact Hb|].
    change (lines <$> panes v') with (contents v').1. rewrite Hrows.
    unfold contents. cbn [fst]. clear -Hfit.
    induction Hfit as [|pane temp ps ts [Hlen _] _ IH]; [done|].
    cbn [fmap list_fmap zip_with]. f_equal; [|exact IH].
    unfold len in Hlen. rewrite <- Nat2Z.inj_add.
    change 0 with (Z.of_nat 0). rewrite py_slice_nat by lia.
    rewrite py_slice_from_drop by lia. by rewrite drop_0, Nat.sub_0_r.
Qed.

Lemma updateAlignment_installs_rows_witness :
  let a := mkLine (Some 1) (Some "a"%string) false None in
  let b := mkLine (Some 1) (Some "b"%string) false None in
  let new := mkLine None None true (Some "new"%string) in
  exists v',
    updateAlignment 0 2 [[Some a; None; Some new]; [None; None; Some b]]
                    two_pane_viewer_edited = Ok v' /\
    blocks v' = [1; 1] /\
    lines <$> panes v' = [[Some a; None; Some new]; [None; None; Some b]].
Proof.
  intros a b new.
  apply (updateAlignment_installs_rows 0 2
           [[Some a; None; Some new]; [None; None; Some b]]
           two_pane_viewer_edited).
  - lia.
  - lia.
  - discriminate.
  - repeat (constructor; [split; [unfold len; simpl; lia|reflexivity]|]).
    constructor.
  - intros t1 t2 H1 H2.
    repeat (apply elem_of_cons in H1 as [->|H1]);
      repeat (apply elem_of_cons in H2 as [->|H2]);
      try reflexivity; by (apply elem_of_nil in H1 || apply elem_of_nil in H2).
Defined.

(** X4.  [insertLines(i, n)] with [n > 0] and [0 <= i <= ] the number of
    rows, on a viewer that satisfies the partition invariant (every pane
    has [sum(blocks)] rows, no block is empty): the call returns; every
    pane got [n] spacers at rows [i .. i + n - 1] and is otherwise
    unchanged, and the partition invariant holds again, with [n] more rows
    in total. *)
Theorem insertLines_inserts_spacers (i n : Z) v :
  partition_ok v -> panes v <> [] -> 0 <= i <= sumZ (blocks v) -> 0 < n ->
  exists v',
    insertLines i n v = Ok v' /\
    lines <$> panes v'
    = (fun pane => py_slice (lines pane) 0 i ++ py_repeat n None ++
                   py_slice_from (lines pane) i) <$> panes v /\
    partition_ok v' /\ sumZ (blocks v') = sumZ (blocks v) + n.
Proof.
  intros Hok Hne [Hi0 Hi] Hn.
  set (i' := Z.to_nat i). assert (Hii : i = Z.of_nat i') by (unfold i'; lia).
  rewrite Hii in *. clearbody i'. clear Hii Hi0.
  destruct (insertLines_ok i' n v Hok Hne Hi Hn) as (v' & Hrun & Hok' & Hsum).
  destruct Hok as [Hlen _].
  assert (Hlen' : Forall (fun pane => (i' <= length (lines pane))%nat) (panes v)).
  { eapply Forall_impl; [exact Hlen|]. intros pane Hp. cbv beta in Hp.
    unfold len in Hp. lia. }
  destruct (insertLines_rows i' n v Hne) as (v'' & Hrun' & Hrows).
  { unfold contents. cbn [fst]. by apply Forall_fmap. }
  { lia. }
  rewrite Hrun in Hrun'. injection Hrun' as <-.
  exists v'. split; [exact Hrun|]. split; [|by split].
  change (lines <$> panes v') with (contents v').1. rewrite Hrows.
  unfold contents. cbn [fst]. rewrite <- list_fmap_compose.
  apply Forall_fmap_ext_1. eapply Forall_impl; [exact Hlen'|].
  intros pane Hp. cbv beta in Hp. cbn [compose].
  change 0 with (Z.of_nat 0). rewrite py_slice_nat by lia.
  rewrite py_slice_from_drop by lia. by rewrite drop_0, Nat.sub_0_r.
Qed.

Lemma insertLines_inserts_spacers_witness :
  exists v',
    insertLines 1 2 two_pane_viewer = Ok v' /\
    lines <$> panes v'
    = (fun pane => py_slice (lines pane) 0 1 ++ py_repeat 2 None ++
                   py_slice_from (lines pane) 1) <$> panes two_pane_viewer /\
    partition_ok v' /\ sumZ (blocks v') = sumZ (blocks two_pane_viewer) + 2.
Proof.
  apply (insertLines_inserts_spacers 1 2 two_pane_viewer).
  - split; by repeat constructor.
  - discriminate.
  - cbn. lia.
  - lia.
Defined.



(** X6.  [realign_all()] on a viewer that satisfies the partition
    invariant and whose current pane exists, when the matcher returns for
    the lines of every two neighbouring panes: the call returns, the
    partition invariant holds again, and every pane holds exactly the
    lines it held before, in the same order (only spacers moved). *)
Theorem realign_all_keeps_lines {K : Type} `{EqDecision K}
    (alignmentHash : Line -> K) v :
  partition_ok v -> 0 <= current_pane v < len (panes v) ->
  neighbours_match alignmentHash (lines <$> panes v) ->
  exists v',
    realign_all alignmentHash v = Ok v' /\
    partition_ok v' /\
    Forall2 (fun pane pane' => real_lines (lines pane') = real_lines (lines pane))
            (panes v) (panes v').
Proof.
  intros Hok Hf Hm.
  destruct (realign_all_ok alignmentHash v Hok Hf Hm) as (v' & Hrun & Hok' & Hsame).
  exists v'. split; [exact Hrun|]. split; [exact Hok'|].
  unfold same_real_lines, contents in Hsame. cbn [fst] in Hsame.
  by apply Forall2_fmap in Hsame.
Qed.

Lemma realign_all_keeps_lines_witness :
  exists v',
    realign_all getText two_pane_viewer_edited = Ok v' /\
    partition_ok v' /\
    Forall2 (fun pane pane' => real_lines (lines pane') = real_lines (lines pane))
            (panes two_pane_viewer_edited) (panes v').
Proof.
  apply (realign_all_keeps_lines getText two_pane_viewer_edited).
  - split; by repeat constructor.
  - unfold len. simpl. lia.
  - vm_compute. repeat split.
Defined.

(** X7.  [replaceContents(f, ss)] on an existing pane [f] of a viewer that
    satisfies the partition invariant, when the matcher returns for the
    new lines against the neighbouring panes: the call returns, the
    partition invariant holds again, pane [f] holds exactly the lines
    [Line(j + 1, ss[j])] in order, and every other pane holds exactly the
    lines it held before. *)
Theorem replaceContents_replaces_pane {K : Type} `{EqDecision K}
    (alignmentHash : Line -> K) (getFormat : list (option string) -> Z)
    (f : Z) (ss : list (option string)) v :
  partition_ok v -> 0 <= f < len (panes v) ->
  (forall prev, 0 < f -> panes v !! Z.to_nat (f - 1) = Some prev ->
                matcher_returns alignmentHash (lines prev) (new_lines_of ss)) ->
  (forall next, panes v !! Z.to_nat (f + 1) = Some next ->
                matcher_returns alignmentHash (new_lines_of ss) (lines next)) ->
  exists v',
    replaceContents alignmentHash getFormat f ss v = Ok v' /\
    partition_ok v' /\
    len (panes v') = len (panes v) /\
    forall (k : nat) pane pane',
      panes v !! k = Some pane -> panes v' !! k = Some pane' ->
      real_lines (lines pane')
      = if decide (Z.of_nat k = f) then real_lines (new_lines_of ss)
        else real_lines (lines pane).
Proof.
  intros Hok Hf Hleft Hright.
  set (f' := Z.to_nat f). assert (Hff : f = Z.of_nat f') by (unfold f'; lia).
  rewrite Hff in *. clearbody f'. clear Hff. unfold len in Hf.
  destruct (replaceContents_ok alignmentHash getFormat f' ss v Hok)
    as (v' & Hrun & Hok' & Hsame).
  - lia.
  - intros prev Hpos Hprev. rewrite list_lookup_fmap in Hprev.
    destruct (panes v !! (f' - 1)%nat) as [p|] eqn:Hp; [|done].
    injection Hprev as <-. apply Hleft; [lia|].
    by replace (Z.to_nat (Z.of_nat f' - 1)) with (f' - 1)%nat by lia.
  - intros next Hnext. rewrite list_lookup_fmap in Hnext.
    destruct (panes v !! (f' + 1)%nat) as [p|] eqn:Hp; [|done].
    injection Hnext as <-. apply Hright.
    by replace (Z.to_nat (Z.of_nat f' + 1)) with (f' + 1)%nat by lia.
  - exists v'. split; [exact Hrun|]. split; [exact Hok'|].
    pose proof (Forall2_length _ _ _ Hsame) as Hlen.
    unfold contents in Hsame, Hlen. cbn [fst] in Hsame, Hlen.
    rewrite length_insert, !length_fmap in Hlen.
    split; [unfold len; lia|].
    intros k pane pane' Hk Hk'.
    assert (Hk2 : (lines <$> panes v') !! k = Some (lines pane'))
      by (by rewrite list_lookup_fmap, Hk').
    destruct (decide (Z.of_nat k = Z.of_nat f')) as [Heq|Hne].
    + assert (k = f') as -> by lia.
      assert (Hk1 : <[f' := new_lines_of ss]> (lines <$> panes v) !! f'
                    = Some (new_lines_of ss)).
      { apply list_lookup_insert_eq. rewrite length_fmap. lia. }
      exact (Forall2_lookup_lr _ _ _ _ _ _ Hsame Hk1 Hk2).
    + assert (Hk1 : <[f' := new_lines_of ss]> (lines <$> panes v) !! k
                    = Some (lines pane)).
      { rewrite list_lookup_insert_ne by lia. by rewrite list_lookup_fmap, Hk. }
      exact (Forall2_lookup_lr _ _ _ _ _ _ Hsame Hk1 Hk2).
Qed.

Lemma replaceContents_replaces_pane_witness :
  let ss := [Some "a"%string; Some "c"%string] in
  exists v',
    replaceContents getText (fun _ => 0) 1 ss two_pane_viewer = Ok v' /\
    partition_ok v' /\
    len (panes v') = len (panes two_pane_viewer) /\
    forall (k : nat) pane pane',
      panes two_pane_viewer !! k = Some pane -> panes v' !! k = Some pane' ->
      real_lines (lines pane')
      = if decide (Z.of_nat k = 1) then real_lines (new_lines_of ss)
        else real_lines (lines pane).
Proof.
  intros ss.
  apply (replaceContents_replaces_pane getText (fun _ => 0) 1 ss two_pane_viewer).
  - split; by repeat constructor.
  - unfold len. simpl. lia.
  - intros prev _ Hprev. vm_compute in Hprev. injection Hprev as <-.
    vm_compute. exact I.
  - intros next Hnext. vm_compute in Hnext. discriminate.
Defined.

(** ** Lines of text and their endings *)

Lemma find_at_started c (s : str) : forall pos start pre post,
  start <= pos -> s = pre ++ c :: post -> c ∉ pre ->
  find_at c s pos start = pos + len pre.
Proof.
  induction s as [|x s IH]; intros pos start pre post Hle Hs Hpre.
  - by destruct pre.
  - cbn [find_at]. rewrite (proj2 (Z.leb_le start pos) Hle). cbn [andb].
    destruct pre as [|y pre]; cbn [app] in Hs; injection Hs as -> ->.
    + rewrite bool_decide_eq_true_2 by done. unfold len. simpl. lia.
    + apply not_elem_of_cons in Hpre as [Hne Hpre].
      rewrite bool_decide_eq_false_2 by done.
      rewrite (IH (pos + 1) start pre post) by (done || lia).
      unfold len. cbn [length]. lia.
Qed.

Lemma find_at_none c (s : str) : forall pos start,
  c ∉ s -> find_at c s pos start = -1.
Proof.
  induction s as [|x s IH]; intros pos start Hs; [done|].
  apply not_elem_of_cons in Hs as [Hne Hs]. cbn [find_at].
  rewrite bool_decide_eq_false_2 by done. rewrite andb_false_r. by apply IH.
Qed.

Lemma find_at_skip c (s : str) : forall pos (i : nat),
  (i <= length s)%nat ->
  find_at c s pos (pos + Z.of_nat i)
  = find_at c (drop i s) (pos + Z.of_nat i) (pos + Z.of_nat i).
Proof.
  induction s as [|x s IH]; intros pos i Hi.
  - by rewrite drop_nil.
  - destruct i as [|i].
    + rewrite drop_0. change (Z.of_nat 0) with 0. by rewrite Z.add_0_r.
    + cbn [find_at drop]. cbn [length] in Hi.
      rewrite (proj2 (Z.leb_gt _ _)) by lia. cbn [andb].
      replace (pos + Z.of_nat (S i)) with (pos + 1 + Z.of_nat i) by lia.
      apply IH. lia.
Qed.

(** [s.find(c, i)] returns the index of the first [c] from [i] on. *)
Lemma py_find_found (s : str) c (i : nat) pre post :
  drop i s = pre ++ c :: post -> c ∉ pre ->
  py_find s c (Z.of_nat i) = Z.of_nat (i + length pre).
Proof.
  intros Hd Hpre. unfold py_find.
  rewrite (proj2 (Z.ltb_ge _ _)) by lia.
  assert (Hi : (i <= length s)%nat).
  { destruct (decide (i <= length s)%nat) as [|Hn]; [done|].
    rewrite drop_ge in Hd by lia. by destruct pre. }
  change (Z.of_nat i) with (0 + Z.of_nat i). rewrite find_at_skip by done.
  rewrite (find_at_started c _ _ _ pre post) by (done || lia).
  unfold len. lia.
Qed.

Lemma py_find_missing (s : str) c (i : nat) :
  (i <= length s)%nat -> c ∉ drop i s -> py_find s c (Z.of_nat i) = -1.
Proof.
  intros Hi Hd. unfold py_find. rewrite (proj2 (Z.ltb_ge _ _)) by lia.
  change (Z.of_nat i) with (0 + Z.of_nat i). rewrite find_at_skip by done.
  by apply find_at_none.
Qed.

(** From [i] on, either there is no [c], or there is a first one. *)
Lemma first_from (s : str) c (i : nat) :
  c ∉ drop i s \/ exists pre post, drop i s = pre ++ c :: post /\ c ∉ pre.
Proof.
  destruct (decide (c ∈ drop i s)) as [Hin|Hn]; [right|by left].
  by apply list_elem_of_split_l in Hin.
Qed.

(** The first loop of [splitlines] cuts the text after every line feed. *)
Lemma split_on_lf_pieces (s : str) : forall fuel (i : nat) temp,
  (i <= length s)%nat -> (length s - i <= fuel)%nat ->
  exists temp',
    split_on_lf fuel s (Z.of_nat i) temp = Ok (temp ++ temp') /\
    concat temp' = drop i s /\
    (Forall (fun p => exists q, p = q ++ [LF] /\ LF ∉ q) temp' \/
     exists init l, temp' = init ++ [l] /\
       Forall (fun p => exists q, p = q ++ [LF] /\ LF ∉ q) init /\
       l <> [] /\ LF ∉ l).
Proof.
  induction fuel as [|fuel IH]; intros i temp Hi Hfuel.
  - exists []. cbn [split_on_lf].
    rewrite (proj2 (Z.ltb_ge _ _)) by (unfold len; lia).
    rewrite app_nil_r, drop_ge by lia. split; [done|]. split; [done|]. by left.
  - cbn [split_on_lf]. destruct (Z.ltb_spec (Z.of_nat i) (len s)) as [Hlt|Hge].
    2:{ exists []. rewrite app_nil_r, drop_ge by (unfold len in Hge; lia).
        split; [done|]. split; [done|]. by left. }
    unfold len in Hlt.
    destruct (first_from s LF i) as [Hnone|(pre & post & Hd & Hpre)].
    + rewrite py_find_missing by (done || lia). cbn.
      rewrite py_slice_from_drop by lia.
      exists [drop i s]. split; [done|]. split; [cbn [concat]; by rewrite app_nil_r|].
      right. exists [], (drop i s). split; [done|]. split; [done|].
      split; [|done]. intros Hnil. apply (f_equal length) in Hnil.
      rewrite length_drop in Hnil. cbn in Hnil. lia.
    + rewrite (py_find_found s LF i pre post Hd Hpre).
      rewrite (proj2 (Z.ltb_ge _ _)) by lia.
      assert (Hlen : (length s - i = length pre + S (length post))%nat).
      { rewrite <- length_drop, Hd, length_app. done. }
      replace (Z.of_nat (i + length pre) + 1)
        with (Z.of_nat (i + length pre + 1)) by lia.
      rewrite py_slice_nat by lia.
      replace (i + length pre + 1 - i)%nat with (length pre + 1)%nat by lia.
      rewrite Hd.
      replace (pre ++ LF :: post) with ((pre ++ [LF]) ++ post)
        by (by rewrite <- app_assoc).
      rewrite take_app_length' by (rewrite length_app; cbn; lia).
      destruct (IH (i + length pre + 1)%nat (temp ++ [pre ++ [LF]]))
        as (temp' & Hrun & Hcat & Hshape); [lia|lia|].
      exists ((pre ++ [LF]) :: temp'). rewrite Hrun, <- app_assoc.
      split; [done|]. split.
      * cbn [concat]. rewrite Hcat.
        replace (i + length pre + 1)%nat with (i + (length pre + 1))%nat by lia.
        rewrite <- drop_drop, Hd.
        replace (pre ++ LF :: post) with ((pre ++ [LF]) ++ post)
          by (by rewrite <- app_assoc).
        by rewrite drop_app_length' by (rewrite length_app; cbn; lia).
      * destruct Hshape as [Hall|(init & l & -> & Hall & Hl)].
        -- left. constructor; [by exists pre|done].
        -- right. exists ((pre ++ [LF]) :: init), l. split; [done|].
           split; [|done]. constructor; [by exists pre|done].
Qed.

Lemma cut_piece {A} (p : list A) (i : nat) (piece rest : list A) :
  (i <= length p)%nat -> drop i p = piece ++ rest ->
  (i + length piece <= length p)%nat /\
  py_slice p (Z.of_nat i) (Z.of_nat (i + length piece)) = piece /\
  drop (i + length piece) p = rest.
Proof.
  intros Hi Hd.
  assert (Hlen : (length p - i = length piece + length rest)%nat)
    by (by rewrite <- length_drop, Hd, length_app).
  split; [lia|]. split.
  - rewrite py_slice_nat by lia.
    replace (i + length piece - i)%nat with (length piece) by lia.
    by rewrite Hd, take_app_length.
  - by rewrite <- drop_drop, Hd, drop_app_length.
Qed.

(** A line feed in a piece that the first loop made is its last character. *)
Lemma lf_is_last (p : str) (k : nat) :
  (exists q, p = q ++ [LF] /\ LF ∉ q) \/ LF ∉ p ->
  p !! k = Some LF -> S k = length p.
Proof.
  intros [(q & -> & Hq)|Hp] Hk.
  - rewrite length_app. cbn [length].
    destruct (decide (k < length q)%nat) as [Hlt|Hge].
    + rewrite lookup_app_l in Hk by done. by apply list_elem_of_lookup_2 in Hk.
    + rewrite lookup_app_r in Hk by lia.
      destruct (k - length q)%nat as [|m] eqn:Hm; [lia|done].
  - by apply list_elem_of_lookup_2 in Hk.
Qed.

(** The second loop of [splitlines] on a piece of the first loop: it cuts
    after every carriage return, or after the line feed that follows it. *)
Lemma split_on_cr_pieces (p : str) :
  (exists q, p = q ++ [LF] /\ LF ∉ q) \/ LF ∉ p ->
  forall fuel (i : nat) ss,
    (i <= length p)%nat -> (length p - i <= fuel)%nat ->
    exists ss',
      split_on_cr fuel p (Z.of_nat i) ss = Ok (ss ++ ss') /\
      concat ss' = drop i p /\
      (Forall ended ss' \/
       exists init l, ss' = init ++ [l] /\ Forall ended init /\ unended l /\
                      LF ∉ p).
Proof.
  intros Hshape.
  induction fuel as [|fuel IH]; intros i ss Hi Hfuel.
  - exists []. cbn [split_on_cr].
    rewrite (proj2 (Z.ltb_ge _ _)) by (unfold len; lia).
    rewrite app_nil_r, drop_ge by lia. split; [done|]. split; [done|]. by left.
  - cbn [split_on_cr]. destruct (Z.ltb_spec (Z.of_nat i) (len p)) as [Hlt|Hge].
    2:{ exists []. rewrite app_nil_r, drop_ge by (unfold len in Hge; lia).
        split; [done|]. split; [done|]. by left. }
    unfold len in Hlt.
    destruct (first_from p CR i) as [Hnone|(pre & post & Hd & Hpre)].
    + rewrite py_find_missing by (done || lia). cbn.
      rewrite py_slice_from_drop by lia.
      exists [drop i p]. split; [done|].
      split; [cbn [concat]; by rewrite app_nil_r|].
      destruct Hshape as [(q & -> & Hq)|Hp].
      * left. constructor; [|done].
        rewrite length_app in Hlt. cbn [length] in Hlt.
        rewrite drop_app_le in Hnone |- * by lia.
        exists (drop i q), [LF]. split; [done|]. split.
        -- split.
           ++ intros Hin. apply Hnone, elem_of_app. by left.
           ++ intros Hin. by apply Hq, (subseteq_drop i q).
        -- unfold line_endings. by left.
      * right. exists [], (drop i p). split; [done|]. split; [done|].
        split; [|done]. split.
        -- intros Hnil. apply (f_equal length) in Hnil.
           rewrite length_drop in Hnil. cbn in Hnil. lia.
        -- split; [done|]. intros Hin. by apply Hp, (subseteq_drop i p).
    + rewrite (py_find_found p CR i pre post Hd Hpre).
      rewrite (proj2 (Z.ltb_ge _ _)) by lia.
      assert (Hlen : (length p - i = length pre + S (length post))%nat).
      { rewrite <- length_drop, Hd, length_app. done. }
      assert (HpreLF : LF ∉ pre).
      { intros Hin. apply list_elem_of_lookup_1 in Hin as [k Hk].
        pose proof (lookup_lt_Some _ _ _ Hk) as Hklt.
        assert (Hpk : p !! (i + k)%nat = Some LF).
        { rewrite <- lookup_drop, Hd, lookup_app_l by done. exact Hk. }
        apply (lf_is_last p _ Hshape) in Hpk. lia. }
      set (nl := match post with x :: _ => bool_decide (x = LF) | [] => false end).
      assert (Hnl : (if Z.of_nat (i + length pre) + 1 <? len p
                     then x ← py_get p (Z.of_nat (i + length pre) + 1);
                          Ok (bool_decide (x = LF))
                     else Ok false) = Ok nl).
      { unfold len. destruct post as [|x post'].
        - cbn [length] in Hlen. by rewrite (proj2 (Z.ltb_ge _ _)) by lia.
        - cbn [length] in Hlen. rewrite (proj2 (Z.ltb_lt _ _)) by lia.
          replace (Z.of_nat (i + length pre) + 1)
            with (Z.of_nat (i + (length pre + 1))) by lia.
          rewrite py_get_nat, <- lookup_drop, Hd.
          rewrite lookup_app_r by lia.
          by replace (length pre + 1 - length pre)%nat with 1%nat by lia. }
      rewrite Hnl. cbn [mbind result_bind].
      set (eol := if nl then [CR; LF] else [CR]).
      assert (Hcut : exists rest, drop i p = (pre ++ eol) ++ rest).
      { unfold eol, nl. destruct post as [|x post'].
        - exists []. by rewrite Hd, app_nil_r.
        - destruct (bool_decide_reflect (x = LF)) as [->|_].
          + exists post'. by rewrite Hd, <- app_assoc.
          + exists (x :: post'). by rewrite Hd, <- app_assoc. }
      destruct Hcut as [rest Hcut].
      destruct (cut_piece p i (pre ++ eol) rest Hi Hcut) as (Hle & Hslice & Hrest).
      assert (Hj : (if nl then Z.of_nat (i + length pre) + 1 + 1
                    else Z.of_nat (i + length pre) + 1)
                   = Z.of_nat (i + length (pre ++ eol))).
      { rewrite length_app. unfold eol. destruct nl; cbn [length]; lia. }
      rewrite Hj, Hslice.
      destruct (IH (i + length (pre ++ eol))%nat (ss ++ [pre ++ eol]))
        as (ss' & Hrun & Hcat & Hpieces).
      { lia. }
      { rewrite length_app in *. unfold eol in *. destruct nl; cbn [length] in *; lia. }
      exists ((pre ++ eol) :: ss'). rewrite Hrun, <- app_assoc.
      split; [done|]. split; [cbn [concat]; by rewrite Hcat, Hrest|].
      assert (Hended : ended (pre ++ eol)).
      { exists pre, eol. split; [done|]. split; [by split|].
        unfold eol, line_endings. destruct nl.
        - right. right. by left.
        - right. by left. }
      destruct Hpieces as [Hall|(init & l & -> & Hall & Hl)].
      * left. by constructor.
      * right. exists ((pre ++ eol) :: init), l. split; [done|].
        split; [by constructor|done].
Qed.

(** The second part of [splitlines] on pieces that all end with a line
    feed. *)
Lemma split_lf_ended_pieces (temp : list str) :
  Forall (fun p => exists q, p = q ++ [LF] /\ LF ∉ q) temp ->
  forall acc, exists out,
    for_each temp (fun ss piece => split_on_cr (length piece) piece 0 ss) acc
      = Ok (acc ++ out) /\
    concat out = concat temp /\ Forall ended out.
Proof.
  induction 1 as [|p temp Hp _ IH]; intros acc.
  - exists []. by rewrite app_nil_r.
  - cbn [for_each].
    destruct (split_on_cr_pieces p (or_introl Hp) (length p) 0 acc)
      as (out1 & Hrun & Hcat & Hshape); [lia|lia|].
    change (Z.of_nat 0) with 0 in Hrun. rewrite Hrun. cbn [mbind result_bind].
    destruct Hshape as [Hall|(init & l & _ & _ & _ & Hno)].
    2:{ destruct Hp as (q & -> & _). exfalso. apply Hno, elem_of_app.
        right. by left. }
    destruct (IH (acc ++ out1)) as (out2 & Hrun2 & Hcat2 & Hall2).
    exists (out1 ++ out2). rewrite Hrun2, <- app_assoc. split; [done|].
    split; [|by apply Forall_app].
    rewrite concat_app, Hcat, Hcat2. cbn [concat]. by rewrite drop_0.
Qed.

(** The two parts of [splitlines] together. *)
Lemma splitlines_cut (s : str) :
  exists ss,
    splitlines s = Ok ss /\ concat ss = s /\ all_but_last_ended ss.
Proof.
  unfold splitlines.
  destruct (split_on_lf_pieces s (length s) 0 []) as (temp & Hrun & Hcat & Hshape);
    [lia|lia|].
  change (Z.of_nat 0) with 0 in Hrun. rewrite Hrun. cbn [mbind result_bind app].
  rewrite drop_0 in Hcat.
  destruct Hshape as [Hall|(init & l & -> & Hall & Hl & Hno)].
  - destruct (split_lf_ended_pieces temp Hall []) as (out & Hrun2 & Hcat2 & Hall2).
    exists out. split; [exact Hrun2|]. split; [congruence|]. by left.
  - rewrite for_each_app.
    destruct (split_lf_ended_pieces init Hall []) as (out & -> & Hcat2 & Hall2).
    cbn [mbind result_bind app for_each].
    destruct (split_on_cr_pieces l (or_intror Hno) (length l) 0 out)
      as (out1 & Hrun1 & Hcat1 & Hshape); [lia|lia|].
    change (Z.of_nat 0) with 0 in Hrun1. rewrite Hrun1. cbn [mbind result_bind].
    rewrite drop_0 in Hcat1.
    exists (out ++ out1). split; [done|]. split.
    + rewrite <- Hcat, !concat_app, Hcat2, Hcat1. cbn [concat].
      by rewrite app_nil_r.
    + destruct Hshape as [Hall1|(init1 & l1 & -> & Hall1 & Hl1 & _)].
      * left. by apply Forall_app.
      * right. exists (out ++ init1), l1. rewrite app_assoc.
        split; [done|]. split; [by apply Forall_app|done].
Qed.

(** X8.  [splitlines(s)] returns for every string [s]; the pieces it
    returns, put together again, are [s] (no character is lost, added or
    moved); no piece is empty; every piece except possibly the last
    consists of characters that are neither carriage return nor line feed,
    followed by one of the line endings LF, CR, CR LF; the last piece may
    instead be a run of characters without any line ending. *)
Theorem splitlines_pieces (s : str) :
  exists ss,
    splitlines s = Ok ss /\ concat ss = s /\
    Forall (fun p => p <> []) ss /\ all_but_last_ended ss.
Proof.
  destruct (splitlines_cut s) as (ss & Hrun & Hcat & Hshape).
  exists ss. split; [exact Hrun|]. split; [exact Hcat|]. split; [|exact Hshape].
  assert (He : forall p, ended p -> p <> []).
  { intros p (body & eol & -> & _ & Heol) Hnil.
    apply app_eq_nil in Hnil as [_ ->]. unfold line_endings in Heol.
    repeat (apply elem_of_cons in Heol as [[=]|Heol]). by apply elem_of_nil in Heol. }
  destruct Hshape as [Hall|(init & l & -> & Hall & Hl & _)].
  - eapply Forall_impl; [exact Hall|exact He].
  - apply Forall_app. split; [eapply Forall_impl; [exact Hall|exact He]|].
    by constructor.
Qed.

(** ** Line endings *)

Lemma endswith_app (b e e' : str) :
  length e = length e' -> endswith (b ++ e) e' = bool_decide (e = e').
Proof.
  intros Hlen. unfold endswith. rewrite length_app, <- Hlen.
  replace (length b + length e - length e)%nat with (length b) by lia.
  by rewrite drop_app_length.
Qed.

Lemma endswith_short (s e : str) :
  (length s < length e)%nat -> endswith s e = false.
Proof.
  intros Hlt. unfold endswith.
  replace (length s - length e)%nat with 0%nat by lia. rewrite drop_0.
  apply bool_decide_eq_false_2. intros ->. lia.
Qed.

Lemma endswith_inv (s e : str) : endswith s e = true -> exists b, s = b ++ e.
Proof.
  unfold endswith. intros H. apply bool_decide_eq_true_1 in H.
  exists (take (length s - length e) s).
  by rewrite <- H at 2; rewrite take_drop.
Qed.

Lemma endswith_snoc (s : str) (x c : ascii) :
  endswith (s ++ [x]) [c] = bool_decide (x = c).
Proof.
  rewrite endswith_app by done. apply bool_decide_ext. split; congruence.
Qed.

Lemma endswith_snoc2 (s : str) (y x c d : ascii) :
  endswith ((s ++ [y]) ++ [x]) [c; d] = bool_decide (y = c /\ x = d).
Proof.
  rewrite <- app_assoc. cbn [app]. rewrite endswith_app by done.
  apply bool_decide_ext. split; [by intros [= -> ->]|by intros [-> ->]].
Qed.

Lemma LF_not_CR : LF <> CR.
Proof. discriminate. Qed.

(** The functions that look at the end of one string, on a string that
    ends with [x]. *)
Lemma ending_snoc (s : str) (x : ascii) :
  let dos := bool_decide (last s = Some CR /\ x = LF) in
  has_dos_line_ending (s ++ [x]) = dos /\
  has_mac_line_ending (s ++ [x]) = bool_decide (x = CR) /\
  has_unix_line_ending (s ++ [x]) = bool_decide (x = LF) && negb dos /\
  len_minus_line_ending (Some (s ++ [x]))
  = (if dos then len s - 1
     else if bool_decide (x = CR) || bool_decide (x = LF) then len s
     else len s + 1).
Proof.
  intros dos.
  assert (Hdos : endswith (s ++ [x]) [CR; LF] = dos).
  { unfold dos. destruct s as [|y s] using rev_ind.
    - rewrite endswith_short by (cbn; lia). symmetry.
      apply bool_decide_eq_false_2. by intros [[=] _].
    - rewrite endswith_snoc2, last_snoc. apply bool_decide_ext.
      split; [by intros [-> ->]|by intros [[= ->] ->]]. }
  unfold has_dos_line_ending, has_mac_line_ending, has_unix_line_ending,
    len_minus_line_ending.
  rewrite Hdos, !endswith_snoc. split; [done|]. split; [done|]. split; [done|].
  unfold len. rewrite length_app. cbn [length].
  destruct dos; [lia|].
  destruct (bool_decide (x = CR) || bool_decide (x = LF)); lia.
Qed.

Lemma strip_eol_take (s : str) (k : nat) :
  len_minus_line_ending (Some s) = Z.of_nat k -> (k <= length s)%nat ->
  strip_eol (Some s) = Some (take k s).
Proof.
  intros Hk Hle. unfold strip_eol. rewrite Hk. f_equal.
  by apply py_slice_take.
Qed.

Lemma getFormat_one (s : str) :
  getFormat [Some s]
  = if has_dos_line_ending s then DOS_FORMAT
    else if has_mac_line_ending s then MAC_FORMAT
    else if has_unix_line_ending s then UNIX_FORMAT
    else 0.
Proof.
  unfold getFormat. cbn [foldl].
  by destruct (has_dos_line_ending s), (has_mac_line_ending s),
    (has_unix_line_ending s).
Qed.

(** X9.  [strip_eol(s)] cuts exactly the line ending off a string, and
    [getFormat([s])] names the ending that is cut: every string [s] is
    [strip_eol(s)] followed by CR LF (format DOS), by CR (format MAC), by
    LF not preceded by CR (format UNIX), or by nothing (format 0, and then
    [s] does not end with CR or LF); [len_minus_line_ending(s)] is the
    length of [strip_eol(s)]. *)
Theorem strip_eol_removes_ending (s : str) :
  exists body eol,
    s = body ++ eol /\ strip_eol (Some s) = Some body /\
    len_minus_line_ending (Some s) = len body /\
    ((eol = [CR; LF] /\ getFormat [Some s] = DOS_FORMAT) \/
     (eol = [CR] /\ getFormat [Some s] = MAC_FORMAT) \/
     (eol = [LF] /\ getFormat [Some s] = UNIX_FORMAT /\ last body <> Some CR) \/
     (eol = [] /\ getFormat [Some s] = 0 /\
      last s <> Some CR /\ last s <> Some LF)).
Proof.
  destruct s as [|x s _] using rev_ind.
  { exists [], []. split; [done|]. split; [done|]. split; [done|].
    right. right. right. by repeat split. }
  destruct (ending_snoc s x) as (Hdos & Hmac & Hunix & Hlen).
  rewrite getFormat_one, Hdos, Hmac, Hunix.
  destruct (bool_decide_reflect (last s = Some CR /\ x = LF)) as [[Hlast ->]|Hnd].
  - apply last_Some in Hlast as [body ->].
    assert (Hlen' : len_minus_line_ending (Some ((body ++ [CR]) ++ [LF]))
                    = Z.of_nat (length body)).
    { rewrite Hlen. unfold len. rewrite length_app. cbn [length]. lia. }
    exists body, [CR; LF]. split; [by rewrite <- app_assoc|]. split.
    + rewrite (strip_eol_take _ (length body) Hlen')
        by (rewrite !length_app; lia).
      by rewrite <- app_assoc, take_app_length.
    + split; [exact Hlen'|]. by left.
  - destruct (bool_decide_reflect (x = CR)) as [->|Hcr].
    + cbn [orb] in Hlen. exists s, [CR]. split; [done|]. split.
      * rewrite (strip_eol_take _ (length s) Hlen) by (rewrite length_app; lia).
        by rewrite take_app_length.
      * split; [exact Hlen|]. right. by left.
    + destruct (bool_decide_reflect (x = LF)) as [->|Hlf].
      * cbn [orb] in Hlen. exists s, [LF]. split; [done|]. split.
        -- rewrite (strip_eol_take _ (length s) Hlen) by (rewrite length_app; lia).
           by rewrite take_app_length.
        -- split; [exact Hlen|]. right. right. left. split; [done|].
           split; [done|]. intros Hlast. by apply Hnd.
      * cbn [orb andb] in Hlen |- *. exists (s ++ [x]), [].
        assert (Hlen' : len_minus_line_ending (Some (s ++ [x]))
                        = Z.of_nat (length (s ++ [x]))).
        { rewrite Hlen. unfold len. rewrite length_app. cbn [length]. lia. }
        split; [by rewrite app_nil_r|]. split.
        -- rewrite (strip_eol_take _ _ Hlen') by lia. by rewrite firstn_all.
        -- split; [exact Hlen'|]. right. right. right. split; [done|].
           split; [done|]. rewrite last_snoc. split; congruence.
Qed.

(** On a piece made of characters other than CR and LF and one line ending
    (or none), [strip_eol] returns these characters. *)
Lemma strip_eol_piece (body eol : str) :
  no_break body -> eol ∈ [] :: line_endings ->
  strip_eol (Some (body ++ eol)) = Some body.
Proof.
  intros [Hcr Hlf] Heol.
  assert (Hlast : forall c, c = CR \/ c = LF -> last body <> Some c).
  { intros c Hc Hl. apply last_Some in Hl as [b ->].
    destruct Hc as [->| ->]; [apply Hcr|apply Hlf]; apply elem_of_app; right;
      by left. }
  assert (Hgoal : forall s, s = body ++ eol ->
            len_minus_line_ending (Some s) = Z.of_nat (length body)).
  { intros s ->. unfold line_endings in Heol.
    repeat (apply elem_of_cons in Heol as [->|Heol]).
    - rewrite app_nil_r. destruct body as [|x b _] using rev_ind; [done|].
      destruct (ending_snoc b x) as (_ & _ & _ & ->).
      rewrite last_snoc in Hlast.
      rewrite (bool_decide_eq_false_2 (_ /\ _))
        by (intros [_ ->]; by apply (Hlast LF); [right|]).
      rewrite (bool_decide_eq_false_2 (x = CR))
        by (intros ->; by apply (Hlast CR); [left|]).
      rewrite (bool_decide_eq_false_2 (x = LF))
        by (intros ->; by apply (Hlast LF); [right|]).
      cbn [orb]. unfold len. rewrite length_app. cbn [length]. lia.
    - destruct (ending_snoc body LF) as (_ & _ & _ & ->).
      rewrite (bool_decide_eq_false_2 (_ /\ _))
        by (intros [Hl _]; by apply (Hlast CR); [left|]).
      by rewrite (bool_decide_eq_false_2 (LF = CR)) by discriminate.
    - destruct (ending_snoc body CR) as (_ & _ & _ & ->).
      by rewrite (bool_decide_eq_false_2 (_ /\ _)) by (by intros [_ [=]]).
    - replace (body ++ [CR; LF]) with ((body ++ [CR]) ++ [LF])
        by (by rewrite <- app_assoc).
      destruct (ending_snoc (body ++ [CR]) LF) as (_ & _ & _ & ->).
      rewrite bool_decide_eq_true_2 by (by rewrite last_snoc).
      unfold len. rewrite length_app. cbn [length]. lia.
    - by apply elem_of_nil in Heol. }
  rewrite (strip_eol_take _ (length body) (Hgoal _ eq_refl))
    by (rewrite length_app; lia).
  by rewrite take_app_length.
Qed.

(** X10.  [readlines] returns for every text: it returns one line for each
    piece that [splitlines] cuts the text into, namely the piece without
    its line ending, and no line it returns contains a carriage return or
    a line feed. *)
Theorem readlines_strips_every_ending (text : str) :
  exists ss ls,
    splitlines text = Ok ss /\ readlines text = Ok ls /\
    Forall2 (fun piece line =>
               exists body eol,
                 piece = body ++ eol /\ line = Some body /\
                 no_break body /\ eol ∈ [] :: line_endings) ss ls.
Proof.
  destruct (splitlines_cut text) as (ss & Hrun & _ & Hshape).
  exists ss, (strip_eols (Some <$> ss)). unfold readlines. rewrite Hrun.
  split; [done|]. split; [done|].
  assert (Hpiece : Forall (fun p => exists body eol,
                     p = body ++ eol /\ no_break body /\
                     eol ∈ [] :: line_endings) ss).
  { assert (He : forall p, ended p -> exists body eol,
                   p = body ++ eol /\ no_break body /\ eol ∈ [] :: line_endings).
    { intros p (body & eol & -> & Hb & Heol). exists body, eol.
      split; [done|]. split; [done|]. by right. }
    destruct Hshape as [Hall|(init & l & -> & Hall & _ & Hl)].
    - eapply Forall_impl; [exact Hall|exact He].
    - apply Forall_app. split; [eapply Forall_impl; [exact Hall|exact He]|].
      constructor; [|done]. exists l, []. rewrite app_nil_r.
      split; [done|]. split; [done|]. by left. }
  unfold strip_eols. rewrite <- list_fmap_compose.
  apply Forall2_fmap_r, Forall_Forall2_diag.
  eapply Forall_impl; [exact Hpiece|].
  intros p (body & eol & -> & Hb & Heol). exists body, eol.
  split; [done|]. split; [|done]. cbn [compose]. by apply strip_eol_piece.
Qed.

(** A line ending put after a text is what [strip_eol] cuts off again and
    what [getFormat] reports, unless a line feed is put after a carriage
    return. *)
Lemma ending_appended (body eol : str) :
  eol ∈ line_endings -> (eol = [LF] -> last body <> Some CR) ->
  strip_eol (Some (body ++ eol)) = Some body /\
  getFormat [Some (body ++ eol)]
  = (if bool_decide (eol = [CR; LF]) then DOS_FORMAT
     else if bool_decide (eol = [CR]) then MAC_FORMAT else UNIX_FORMAT).
Proof.
  intros Heol Hlast. rewrite getFormat_one. unfold line_endings in Heol.
  assert (Hstrip : forall k, len_minus_line_ending (Some (body ++ eol)) = len body ->
                             k = length body ->
                             strip_eol (Some (body ++ eol)) = Some body).
  { intros k Hlen ->. rewrite (strip_eol_take _ (length body) Hlen)
      by (rewrite length_app; lia). by rewrite take_app_length. }
  repeat (apply elem_of_cons in Heol as [->|Heol]).
  - destruct (ending_snoc body LF) as (-> & -> & -> & Hlen).
    rewrite (bool_decide_eq_false_2 (_ /\ _)) in Hlen |- *
      by (intros [Hl _]; by apply Hlast).
    rewrite (bool_decide_eq_false_2 (LF = CR)) in Hlen |- * by discriminate.
    split; [by eapply Hstrip|done].
  - destruct (ending_snoc body CR) as (-> & -> & -> & Hlen).
    rewrite (bool_decide_eq_false_2 (_ /\ _)) in Hlen |- * by (by intros [_ [=]]).
    split; [by eapply Hstrip|done].
  - assert (Heq : body ++ [CR; LF] = (body ++ [CR]) ++ [LF])
      by (by rewrite <- app_assoc).
    destruct (ending_snoc (body ++ [CR]) LF) as (Hdos & _ & _ & Hlen).
    rewrite bool_decide_eq_true_2 in Hdos, Hlen by (by rewrite last_snoc).
    rewrite <- Heq in Hdos, Hlen. rewrite Hdos. split; [|done].
    eapply Hstrip; [|done]. rewrite Hlen. unfold len. rewrite length_app.
    cbn [length]. lia.
  - by apply elem_of_nil in Heol.
Qed.

(** X11.  [convert_to_format(s, format)] on a string whose line ending is
    of none of the formats in the mask [format], when [format] contains
    DOS, MAC or UNIX and the text of [s] (what [strip_eol] returns) does not
    end with a carriage return: whatever [os.linesep] is, the result is the
    text of [s] followed by a line ending of a format contained in
    [format]; [strip_eol] of the result is again the text of [s]. *)
Theorem convert_to_format_changes_ending (linesep s body : str) (format_ : Z) :
  strip_eol (Some s) = Some body -> last body <> Some CR ->
  getFormat [Some s] <> 0 -> Z.land (getFormat [Some s]) format_ = 0 ->
  Z.land format_ DOS_FORMAT <> 0 \/ Z.land format_ MAC_FORMAT <> 0 \/
  Z.land format_ UNIX_FORMAT <> 0 ->
  exists eol,
    convert_to_format linesep (Some s) format_ = Some (body ++ eol) /\
    eol ∈ line_endings /\
    Z.land format_ (getFormat [Some (body ++ eol)]) <> 0 /\
    strip_eol (Some (body ++ eol)) = Some body.
Proof.
  intros Hstrip Hlast Hold Hdisj Hbits.
  assert (Hnz : format_ <> 0).
  { intros ->. destruct Hbits as [H|[H|H]]; by apply H. }
  unfold convert_to_format.
  rewrite (proj2 (Z.eqb_neq _ _) Hnz), (proj2 (Z.eqb_neq _ _) Hold),
    (proj2 (Z.eqb_eq _ _) Hdisj), Hstrip.
  cbn [negb andb mbind option_bind].
  assert (Hpick : forall eol,
            eol ∈ line_endings ->
            Z.land format_
              (if bool_decide (eol = [CR; LF]) then DOS_FORMAT
               else if bool_decide (eol = [CR]) then MAC_FORMAT
               else UNIX_FORMAT) <> 0 ->
            eol ∈ line_endings /\
            Z.land format_ (getFormat [Some (body ++ eol)]) <> 0 /\
            strip_eol (Some (body ++ eol)) = Some body).
  { intros eol Heol Hbit.
    destruct (ending_appended body eol Heol (fun _ => Hlast)) as [Hs Hf].
    split; [done|]. by rewrite Hf. }
  unfold line_endings in Hpick.
  destruct (Z.eqb_spec (Z.land format_ DOS_FORMAT) 0) as [Hd|Hd];
    destruct (Z.eqb_spec (Z.land format_ MAC_FORMAT) 0) as [Hm|Hm];
    destruct (Z.eqb_spec (Z.land format_ UNIX_FORMAT) 0) as [Hu|Hu];
    cbn [negb andb];
    repeat match goal with
      | |- context [bool_decide (linesep = ?e)] =>
          destruct (bool_decide_reflect (linesep = e)) as [->|?]
      end;
    try discriminate;
    try (exfalso; destruct Hbits as [H|[H|H]]; by apply H);
    first [ exists [CR; LF]; split; [done|]; apply Hpick;
            [by repeat constructor|assumption]
          | exists [CR]; split; [done|]; apply Hpick; [by repeat constructor|assumption]
          | exists [LF]; split; [done|]; apply Hpick; [by repeat constructor|assumption] ].
Qed.

Lemma convert_to_format_changes_ending_witness :
  let a := "a"%char in
  exists eol,
    convert_to_format [LF] (Some [a; CR]) UNIX_FORMAT = Some ([a] ++ eol) /\
    eol ∈ line_endings /\
    Z.land UNIX_FORMAT (getFormat [Some ([a] ++ eol)]) <> 0 /\
    strip_eol (Some ([a] ++ eol)) = Some [a].
Proof.
  intros a.
  apply (convert_to_format_changes_ending [LF] [a; CR] [a] UNIX_FORMAT).
  - reflexivity.
  - discriminate.
  - vm_compute. discriminate.
  - reflexivity.
  - right. right. vm_compute. discriminate.
Defined.

(** ** What the primitive mutations record *)

(** X12.  Every primitive mutation of the viewer ([setFormat],
    [instanceLine], [updateLineText], [insertNull],
    [invalidateLineMatching], [alignmentChange], [updateBlocks],
    [replaceLines], [recordEditMode], [swapPanes]) that returns has
    appended exactly one record to the open transaction, or recorded
    nothing when no transaction is open; it has touched neither the undo
    stack nor the redo stack, and has not changed the edit mode. *)
Theorem primitive_appends_one_record (op : Op) (v v' : Viewer) :
  run_op op v = Ok v' ->
  undos v' = undos v /\ redos v' = redos v /\ mode v' = mode v /\
  exists u, undoblock v' = (fun block => block ++ [u]) <$> undoblock v.
Proof.
  intros H.
  assert (Hpane : forall u f upd,
            (w ← record_undo u v; with_pane f upd w) = Ok v' ->
            undos v' = undos v /\ redos v' = redos v /\ mode v' = mode v /\
            exists u, undoblock v' = (fun block => block ++ [u]) <$> undoblock v).
  { intros u f upd Hrun. rewrite record_undo_eq in Hrun.
    cbn [mbind result_bind] in Hrun.
    apply with_pane_keeps in Hrun as (Hu & -> & -> & ->).
    split; [done|]. split; [done|]. split; [done|]. by exists u. }
  assert (Hrec : forall u,
            record_undo u v = Ok v' ->
            undos v' = undos v /\ redos v' = redos v /\ mode v' = mode v /\
            exists u, undoblock v' = (fun block => block ++ [u]) <$> undoblock v).
  { intros u Hrun. rewrite record_undo_eq in Hrun. injection Hrun as <-.
    split; [done|]. split; [done|]. split; [done|]. by exists u. }
  destruct op; cbn [run_op] in H.
  - unfold setFormat in H. bind_inv H. by eapply Hpane.
  - by eapply Hpane.
  - unfold updateLineText in H. do 2 bind_inv H.
    destruct a0 as [line|]; [|done]. by eapply Hpane.
  - by eapply Hpane.
  - by eapply Hrec.
  - by eapply Hrec.
  - unfold updateBlocks in H. rewrite record_undo_eq in H.
    injection H as <-.
    split; [done|]. split; [done|]. split; [done|]. by eexists.
  - bind_inv H. by eapply Hpane.
  - by eapply Hrec.
  - apply swapPanes_keeps in H as (Hu & -> & -> & ->).
    split; [done|]. split; [done|]. split; [done|]. by eexists.
Qed.

Lemma primitive_appends_one_record_witness :
  exists v',
    run_op (OpInsertNull 0 1 false) (openUndoBlock two_pane_viewer) = Ok v' /\
    undos v' = undos (openUndoBlock two_pane_viewer) /\
    redos v' = redos (openUndoBlock two_pane_viewer) /\
    mode v' = mode (openUndoBlock two_pane_viewer) /\
    exists u, undoblock v'
              = (fun block => block ++ [u]) <$> undoblock (openUndoBlock two_pane_viewer).
Proof.
  eexists. split; [reflexivity|].
  apply (primitive_appends_one_record (OpInsertNull 0 1 false)
           (openUndoBlock two_pane_viewer)).
  reflexivity.
Defined.

(** ** The matcher on an empty sequence *)

(** X13.  When one of the two sequences is empty, [patience_diff] returns
    only the sentinel block [(len(a), len(b), 0)]: the matching loop is
    skipped and neither the scan for a common beginning nor the scan for a
    common end reads an element. *)
Theorem patience_diff_empty {K : Type} `{EqDecision K} (a b : list K) :
  patience_diff [] b = Ok [(0, len b, 0)] /\
  patience_diff a [] = Ok [(len a, 0, 0)].
Proof.
  split.
  - unfold patience_diff. cbn [length len Z.of_nat Z.eqb orb mbind result_bind].
    cbn [common_prefix Z.ltb Z.compare mbind result_bind].
    cbn [Z.eqb last common_suffix Z.ltb Z.compare mbind result_bind app].
    done.
  - unfold patience_diff. replace (len (@nil K) =? 0) with true by done.
    rewrite orb_true_r. cbn [mbind result_bind].
    assert (Hpre : common_prefix (length a) a [] 0 (len a) (len (@nil K)) = Ok 0).
    { destruct a as [|x a]; [done|]. cbn [common_prefix length].
      rewrite (proj2 (Z.ltb_lt 0 (len (x :: a)))) by (unfold len; cbn; lia).
      done. }
    rewrite Hpre. cbn [mbind result_bind Z.eqb last].
    assert (Hsuf : common_suffix (length a) a [] 0 0 (len a) (len (@nil K))
                   = Ok (len a, 0)).
    { destruct a as [|x a]; [done|]. cbn [common_suffix length].
      rewrite (proj2 (Z.ltb_lt 0 (len (x :: a)))) by (unfold len; cbn; lia).
      done. }
    rewrite Hsuf. cbn [mbind result_bind]. by rewrite Z.ltb_irrefl.
Qed.

(** ** The [align] action *)

(** The loop of [align] that looks for the span of blocks around the two
    lines cuts the partition in three consecutive parts. *)
Lemma span_fold (start end_ : Z) (rest : list Z) :
  positive_blocks rest -> start <= end_ ->
  forall pre mid post,
    sumZ pre <= start -> 0 <= sumZ post ->
    (mid ++ post <> [] -> start < sumZ pre + sumZ mid + sumZ post) ->
    (post <> [] -> end_ < sumZ pre + sumZ mid) ->
    exists pre' mid' post' n',
      foldl (span_step start end_)
            (pre, mid, post, sumZ pre + sumZ mid + sumZ post) rest
        = (pre', mid', post', n') /\
      pre' ++ mid' ++ post' = (pre ++ mid ++ post) ++ rest /\
      sumZ pre' <= start /\
      (post' = [] \/ end_ < sumZ pre' + sumZ mid').
Proof.
  intros Hpos Hse. induction Hpos as [|b rest Hb _ IH]; intros pre mid post Hpre Hpost0 Hmid Hpost.
  - exists pre, mid, post, (sumZ pre + sumZ mid + sumZ post). cbn [foldl].
    rewrite app_nil_r. split; [done|]. split; [done|]. split; [done|].
    destruct post as [|x post]; [by left|right]. by apply Hpost.
  - cbn [foldl span_step].
    pose proof (sumZ_app pre [b]) as Hs1. pose proof (sumZ_app mid [b]) as Hs2.
    pose proof (sumZ_app post [b]) as Hs3. cbn [sumZ foldr] in Hs1, Hs2, Hs3.
    destruct (Z.leb_spec (sumZ pre + sumZ mid + sumZ post + b) start) as [Hle|Hgt].
    + assert (Hnil : mid ++ post = []).
      { destruct (mid ++ post) as [|x l] eqn:E; [done|].
        assert (start < sumZ pre + sumZ mid + sumZ post) by (by apply Hmid). lia. }
      apply app_eq_nil in Hnil as [-> ->]. cbn [sumZ foldr] in *.
      destruct (IH (pre ++ [b]) [] []) as (pre' & mid' & post' & n' & Hrun & Happ & Hp' & Hq');
        [lia|done|done|done|].
      cbn [sumZ foldr] in Hrun.
      replace (sumZ pre + 0 + 0 + b) with (sumZ (pre ++ [b]) + 0 + 0) by lia.
      exists pre', mid', post', n'. split; [exact Hrun|]. split; [|done].
      rewrite Happ. cbn [app]. by rewrite !app_nil_r, <- app_assoc.
    + destruct (Z.leb_spec (sumZ pre + sumZ mid + sumZ post) end_) as [Hin|Hout].
      * assert (Hnil : post = []).
        { destruct post as [|x l]; [done|].
          assert (end_ < sumZ pre + sumZ mid) by (by apply Hpost). lia. }
        subst post. cbn [sumZ foldr] in *.
        destruct (IH pre (mid ++ [b]) []) as (pre' & mid' & post' & n' & Hrun & Happ & Hp' & Hq');
          [lia|done|intros _; cbn [sumZ foldr]; lia|done|].
        cbn [sumZ foldr] in Hrun.
        replace (sumZ pre + sumZ mid + 0 + b) with (sumZ pre + sumZ (mid ++ [b]) + 0) by lia.
        exists pre', mid', post', n'. split; [exact Hrun|]. split; [|done].
        rewrite Happ. by rewrite !app_nil_r, <- !app_assoc.
      * destruct (IH pre mid (post ++ [b])) as (pre' & mid' & post' & n' & Hrun & Happ & Hp' & Hq').
        { lia. }
        { lia. }
        { intros _. lia. }
        { intros _. destruct post as [|x l]; [cbn [sumZ foldr] in *; lia|by apply Hpost]. }
        replace (sumZ pre + sumZ mid + sumZ post + b)
          with (sumZ pre + sumZ mid + sumZ (post ++ [b])) by lia.
        exists pre', mid', post', n'. split; [exact Hrun|]. split; [|done].
        rewrite Happ. by rewrite <- !app_assoc.
Qed.

Lemma py_clamp_min {A} (l : list A) (k : nat) :
  py_clamp l (Z.of_nat k) = Nat.min k (length l).
Proof.
  unfold py_clamp, py_norm, len. destruct (Z.ltb_spec (Z.of_nat k) 0); lia.
Qed.

(** [s[a:b]] when [b] may be past the end. *)
Lemma py_slice_min {A} (l : list A) (a b : nat) :
  (a <= b)%nat -> (a <= length l)%nat ->
  py_slice l (Z.of_nat a) (Z.of_nat b) = take (Nat.min b (length l) - a) (drop a l).
Proof.
  intros Hab Ha. unfold py_slice. rewrite !py_clamp_min.
  by replace (Nat.min a (length l)) with a by lia.
Qed.

Lemma cut_rec_beyond j blocks_ :
  positive_blocks blocks_ -> sumZ blocks_ <= j -> cut_rec j blocks_ = (blocks_, []).
Proof.
  intros Hpos. revert j. induction Hpos as [|b rest Hb Hrest IH]; intros j Hj; [done|].
  cbn [cut_rec]. change (sumZ (b :: rest)) with (b + sumZ rest) in Hj.
  pose proof (sumZ_nonneg _ Hrest).
  rewrite (IH (j - b)) by lia.
  rewrite (proj2 (Z.leb_gt _ _)) by lia. by rewrite (proj2 (Z.leb_le _ _)) by lia.
Qed.

(** The blocks of the part of a span before row [m]. *)
Lemma cut_span_blocks (m start E : nat) (mid : list Z) :
  positive_blocks mid -> sumZ mid = Z.of_nat E - Z.of_nat start ->
  (start <= m)%nat -> (start <= E)%nat ->
  exists pre post,
    cutBlocks (Z.of_nat m - Z.of_nat start) mid = (pre, post) /\
    positive_blocks pre /\ positive_blocks post /\
    sumZ pre = Z.of_nat (Nat.min m E - start) /\
    sumZ post = Z.of_nat (E - Nat.min m E).
Proof.
  intros Hpos Hsum Hm HE.
  destruct (decide (m <= E)%nat) as [Hle|Hgt].
  - destruct (cutBlocks_shape (Z.of_nat m - Z.of_nat start) mid Hpos)
      as (pre & post & Hcut & Hp & Hq & Hs & Hi).
    exists pre, post. split; [done|]. split; [done|]. split; [done|].
    rewrite Hi in * by lia. lia.
  - exists mid, []. rewrite cutBlocks_cut_rec, cut_rec_beyond by (done || lia).
    split; [done|]. split; [done|]. split; [by constructor|].
    cbn [sumZ foldr]. lia.
Qed.

(** [[ [ s[m] ] for s in temp ]] *)
Lemma single_rows (temp : list (rows Line)) (m : nat) :
  Forall (fun s => (m < length s)%nat) temp ->
  forall acc,
    for_each temp (fun acc s => x ← py_get s (Z.of_nat m); Ok (acc ++ [[x]])) acc
    = Ok (acc ++ ((fun s => take 1 (drop m s)) <$> temp)).
Proof.
  induction 1 as [|s temp Hs _ IH]; intros acc; cbn [for_each fmap list_fmap].
  - by rewrite app_nil_r.
  - destruct (lookup_lt_is_Some_2 s m Hs) as [x Hx].
    rewrite py_get_nat, Hx. cbn [mbind result_bind]. rewrite IH, <- app_assoc.
    do 3 f_equal. cbn [app]. f_equal.
    rewrite <- (take_drop_middle s m x Hx) at 1.
    rewrite drop_app_length' by (rewrite length_take; apply lookup_lt_Some in Hx; lia).
    done.
Qed.

(** One side of the cut that [align] makes: the three sections of every
    sequence of the side, with blocks that sum to their lengths. *)
Lemma cut_side_shape (temp : list (rows Line)) (m start E N : nat) (mid : list Z) :
  Forall (fun s => length s = N) temp ->
  positive_blocks mid -> sumZ mid = Z.of_nat E - Z.of_nat start ->
  (start <= m)%nat -> (start <= E <= N)%nat ->
  (m < N -> m < E)%nat -> (N <= m -> E = N)%nat ->
  exists pre b1 b2,
    cut_side temp (Z.of_nat m) (Z.of_nat start) (Z.of_nat E) (Z.of_nat N) mid
    = Ok (((fun s => take (Nat.min m N - start) (drop start s)) <$> temp, pre),
          ((fun s => take (Nat.min 1 (N - m)) (drop (Nat.min m N) s)) <$> temp, b1),
          ((fun s => take (E - Nat.min m N - Nat.min 1 (N - m))
                          (drop (Nat.min m N + Nat.min 1 (N - m)) s)) <$> temp, b2)) /\
    positive_blocks pre /\ sumZ pre = Z.of_nat (Nat.min m N - start) /\
    positive_blocks b1 /\ sumZ b1 = Z.of_nat (Nat.min 1 (N - m)) /\
    positive_blocks b2 /\
    sumZ b2 = Z.of_nat (E - Nat.min m N - Nat.min 1 (N - m)).
Proof.
  intros Hlen Hpos Hsum Hm HE Hlt Hge. unfold cut_side.
  destruct (cut_span_blocks m start E mid Hpos Hsum Hm ltac:(lia))
    as (pre0 & post & -> & Hp0 & Hq0 & Hs0 & Hspost).
  assert (HmE : Nat.min m E = Nat.min m N) by lia. rewrite HmE in *.
  set (pre := if len temp =? 1 then createBlock (sumZ pre0) else pre0).
  assert (Hpre : positive_blocks pre /\ sumZ pre = Z.of_nat (Nat.min m N - start)).
  { unfold pre. destruct (len temp =? 1); [|done]. rewrite <- Hs0.
    apply createBlock_shape. lia. }
  assert (Hsec0 : (fun s : rows Line => py_slice s (Z.of_nat start) (Z.of_nat m)) <$> temp
                  = (fun s => take (Nat.min m N - start) (drop start s)) <$> temp).
  { apply Forall_fmap_ext_1. eapply Forall_impl; [exact Hlen|].
    intros s Hs. cbv beta in *. rewrite py_slice_min by lia. by rewrite Hs. }
  rewrite Hsec0.
  destruct (Z.ltb_spec (Z.of_nat m) (Z.of_nat N)) as [HmN|HmN].
  - assert (Hmin : Nat.min m N = m) by lia.
    assert (Hone : Nat.min 1 (N - m) = 1%nat) by lia.
    rewrite Hmin, Hone in *.
    rewrite (single_rows temp m) by (eapply Forall_impl; [exact Hlen|]; intros s Hs;
                                     cbv beta in *; lia).
    cbn [mbind result_bind app].
    destruct (cutBlocks_shape 1 post Hq0) as (b1 & b2 & -> & Hb1 & Hb2 & Hsb & Hsb1).
    set (b2' := if len temp =? 1 then createBlock (sumZ b2) else b2).
    assert (Hb2' : positive_blocks b2' /\ sumZ b2' = Z.of_nat (E - m - 1)).
    { rewrite Hsb1 in Hsb by lia.
      unfold b2'. destruct (len temp =? 1); [|split; [done|lia]].
      replace (Z.of_nat (E - m - 1)) with (sumZ b2) by lia.
      apply createBlock_shape. by apply sumZ_nonneg. }
    exists pre, b1, b2'.
    assert (Hsec2 : (fun s : rows Line => py_slice s (Z.of_nat m + 1) (Z.of_nat E)) <$> temp
                    = (fun s => take (E - m - 1) (drop (m + 1) s)) <$> temp).
    { apply Forall_fmap_ext_1. eapply Forall_impl; [exact Hlen|].
      intros s Hs. cbv beta in *.
      replace (Z.of_nat m + 1) with (Z.of_nat (m + 1)) by lia.
      rewrite py_slice_nat by lia. f_equal. lia. }
    rewrite Hsec2. split; [done|].
    destruct Hpre, Hb2'. rewrite Hsb1 by lia. by repeat split.
  - assert (Hmin : Nat.min m N = N) by lia.
    assert (Hone : Nat.min 1 (N - m) = 0%nat) by lia.
    assert (HEN : E = N) by lia.
    rewrite Hmin, Hone in *. subst E. cbn [mbind result_bind].
    exists pre, [], []. replace (N - N - 0)%nat with 0%nat by lia.
    destruct Hpre. split; [reflexivity|].
    repeat (split; [done || by constructor|]). done.
Qed.

Lemma section_lengths (temp : list (rows Line)) (a k N : nat) :
  Forall (fun s => length s = N) temp -> (a + k <= N)%nat ->
  Forall (fun l => len l = Z.of_nat k) ((fun s => take k (drop a s)) <$> temp).
Proof.
  intros Hlen Hk. apply Forall_fmap. eapply Forall_impl; [exact Hlen|].
  intros s Hs. cbv beta in Hs. unfold compose, len.
  rewrite length_take, length_drop, Hs. lia.
Qed.

Lemma length_extend_each {A} (dsts srcs : list (list A)) :
  length (extend_each dsts srcs) = length dsts.
Proof.
  revert srcs. induction dsts as [|d dsts IH]; intros [|s srcs]; cbn; by rewrite ?IH.
Qed.

Lemma extend_each_lookup {A} (dsts srcs : list (list A)) (k : nat) d s :
  dsts !! k = Some d -> srcs !! k = Some s ->
  extend_each dsts srcs !! k = Some (d ++ s).
Proof.
  revert srcs k. induction dsts as [|d0 dsts IH]; intros [|s0 srcs] [|k] Hd Hs;
    try done; cbn in *.
  - congruence.
  - by apply IH.
Qed.

(** The three sections of a sequence, as [align] cuts them, make up its
    rows from [start] to [E]. *)
Lemma sections_concat (s : rows Line) (m start E N : nat) :
  length s = N -> (start <= m)%nat -> (start <= E <= N)%nat ->
  (m < N -> m < E)%nat -> (N <= m -> E = N)%nat ->
  take (Nat.min m N - start) (drop start s) ++
  take (Nat.min 1 (N - m)) (drop (Nat.min m N) s) ++
  take (E - Nat.min m N - Nat.min 1 (N - m))
       (drop (Nat.min m N + Nat.min 1 (N - m)) s)
  = take (E - start) (drop start s).
Proof.
  intros Hs Hm HE Hlt Hge.
  assert (exists a b c, (Nat.min m N - start = a /\ Nat.min 1 (N - m) = b /\
            E - Nat.min m N - Nat.min 1 (N - m) = c /\
            Nat.min m N = start + a /\ E - start = a + (b + c))%nat)
    as (a & b & c & -> & -> & -> & -> & ->).
  { eexists _, _, _. repeat split; lia. }
  rewrite <- Nat.add_assoc, <- !drop_drop.
  generalize (drop start s). intros l.
  by rewrite !take_take_drop.
Qed.

Lemma align_sections_nat (l : rows Line) (m start E N : nat) :
  length l = N -> (start <= m)%nat -> (start <= E <= N)%nat ->
  (m < N -> m < E)%nat ->
  align_sections (Z.of_nat start) (Z.of_nat E) (Z.of_nat m) l
  = [take (Nat.min m N - start) (drop start l);
     take (Nat.min 1 (N - m)) (drop (Nat.min m N) l);
     take (E - Nat.min m N - Nat.min 1 (N - m))
          (drop (Nat.min m N + Nat.min 1 (N - m)) l)].
Proof.
  intros Hl Hm HE Hlt. unfold align_sections, len.
  rewrite py_slice_min by lia. rewrite Hl.
  destruct (Z.ltb_spec (Z.of_nat m) (Z.of_nat N)) as [HmN|HmN].
  - replace (Z.of_nat m + 1) with (Z.of_nat (m + 1)) by lia.
    rewrite !py_slice_nat by lia.
    replace (Nat.min m N) with m by lia.
    replace (Nat.min 1 (N - m)) with 1%nat by lia.
    replace (m + 1 - m)%nat with 1%nat by lia.
    by replace (E - (m + 1))%nat with (E - m - 1)%nat by lia.
  - replace (Nat.min 1 (N - m)) with 0%nat by lia.
    replace (E - Nat.min m N - 0)%nat with 0%nat by lia. done.
Qed.

Lemma side_sections {A B} (rws : list A) (f : nat) (FL FR : A -> B) (k : nat) x :
  rws !! k = Some x ->
  ((FL <$> take (f + 1) rws) ++ (FR <$> drop (f + 1) rws)) !! k
  = Some (if decide (k < f + 1)%nat then FL x else FR x).
Proof.
  intros Hk. pose proof (lookup_lt_Some _ _ _ Hk) as Hlt.
  destruct (decide (k < f + 1)%nat) as [Hkf|Hkf].
  - rewrite lookup_app_l by (rewrite length_fmap, length_take; lia).
    by rewrite list_lookup_fmap, lookup_take_lt, Hk by lia.
  - rewrite lookup_app_r by (rewrite length_fmap, length_take; lia).
    rewrite length_fmap, length_take, list_lookup_fmap, lookup_drop.
    replace (f + 1 + (k - Nat.min (f + 1) (length rws)))%nat with k by lia.
    by rewrite Hk.
Qed.

Section AlignAction.
Context {K : Type} `{EqDecision K}.
Variable alignmentHash : Line -> K.

(** One of the three sections of [align]: the sequences of the two sides
    are aligned with each other. *)
Lemma align_one_section (rws : list (rows Line)) (f N : nat)
    (aL kL aR kR : nat) (lb rb : list Z) :
  Forall (fun s => length s = N) rws -> (f + 1 < length rws)%nat ->
  (aL + kL <= N)%nat -> (aR + kR <= N)%nat ->
  positive_blocks lb -> sumZ lb = Z.of_nat kL ->
  positive_blocks rb -> sumZ rb = Z.of_nat kR ->
  (forall l r, rws !! f = Some l -> rws !! (f + 1)%nat = Some r ->
     matcher_returns alignmentHash (take kL (drop aL l)) (take kR (drop aR r))) ->
  exists merged lines' n,
    align_section alignmentHash
      ((fun s => take kL (drop aL s)) <$> take (f + 1) rws, lb)
      ((fun s => take kR (drop aR s)) <$> drop (f + 1) rws, rb)
    = Ok (merged, lines') /\
    side_ok merged lines' n /\
    same_real_lines (((fun s => take kL (drop aL s)) <$> take (f + 1) rws) ++
                     ((fun s => take kR (drop aR s)) <$> drop (f + 1) rws)) lines'.
Proof.
  intros Hlen Hf HL HR Hlb Hslb Hrb Hsrb Hmatch.
  destruct (lookup_lt_is_Some_2 rws f ltac:(lia)) as [l Hl].
  destruct (lookup_lt_is_Some_2 rws (f + 1) ltac:(lia)) as [r Hr].
  apply (align_section_shape alignmentHash lb _ rb _ (Z.of_nat kL) (Z.of_nat kR)
           (take kL (drop aL l)) (take kR (drop aR r))).
  - split; [done|]. split; [done|]. apply (section_lengths _ aL kL N); [|done].
    eapply Forall_forall. intros s Hs. apply (subseteq_take (f + 1)) in Hs.
    by apply (proj1 (Forall_forall _ _) Hlen).
  - split; [done|]. split; [done|]. apply (section_lengths _ aR kR N); [|done].
    eapply Forall_forall. intros s Hs. apply (subseteq_drop (f + 1)) in Hs.
    by apply (proj1 (Forall_forall _ _) Hlen).
  - rewrite fmap_last, last_take by lia.
    replace (f + 1 - 1)%nat with f by lia. by rewrite Hl.
  - rewrite head_lookup, list_lookup_fmap, lookup_drop, Nat.add_0_r. by rewrite Hr.
  - by apply Hmatch.
Qed.

(** The rows that [align] hands to [updateAlignment]: for every pane the
    three aligned sections one after the other. *)
Lemma final_rows (rws X0 X1 X2 t0 t1 t2 : list (rows Line)) (i n : nat)
    (n0 n1 n2 : Z) :
  (forall k ls, rws !! k = Some ls ->
     exists x0 x1 x2, X0 !! k = Some x0 /\ X1 !! k = Some x1 /\ X2 !! k = Some x2 /\
       x0 ++ x1 ++ x2 = take n (drop i ls) /\ (i + n <= length ls)%nat) ->
  same_real_lines X0 t0 -> same_real_lines X1 t1 -> same_real_lines X2 t2 ->
  Forall (fun l => len l = n0) t0 -> Forall (fun l => len l = n1) t1 ->
  Forall (fun l => len l = n2) t2 ->
  Forall2 (fits_section i n (Z.to_nat (n0 + n1 + n2))) rws
    (extend_each (extend_each (extend_each ((fun _ => []) <$> rws) t0) t1) t2).
Proof.
  intros HX Hs0 Hs1 Hs2 Hl0 Hl1 Hl2.
  apply Forall2_same_length_lookup. split.
  { by rewrite !length_extend_each, length_fmap. }
  intros k ls y Hk Hy.
  destruct (HX k ls Hk) as (x0 & x1 & x2 & Hx0 & Hx1 & Hx2 & Hcat & Hin).
  destruct (same_real_lines_lookup _ _ k x0 Hs0 Hx0) as (y0 & Hy0 & Hr0).
  destruct (same_real_lines_lookup _ _ k x1 Hs1 Hx1) as (y1 & Hy1 & Hr1).
  destruct (same_real_lines_lookup _ _ k x2 Hs2 Hx2) as (y2 & Hy2 & Hr2).
  assert (Hnil : ((fun _ : rows Line => @nil (option Line)) <$> rws) !! k = Some [])
    by (by rewrite list_lookup_fmap, Hk).
  pose proof (extend_each_lookup _ _ k _ _ Hnil Hy0) as H0.
  pose proof (extend_each_lookup _ _ k _ _ H0 Hy1) as H1.
  pose proof (extend_each_lookup _ _ k _ _ H1 Hy2) as H2.
  rewrite Hy in H2. injection H2 as ->. cbn [app].
  pose proof (Forall_lookup_1 _ _ _ _ Hl0 Hy0) as Hn0.
  pose proof (Forall_lookup_1 _ _ _ _ Hl1 Hy1) as Hn1.
  pose proof (Forall_lookup_1 _ _ _ _ Hl2 Hy2) as Hn2.
  cbv beta in Hn0, Hn1, Hn2. unfold len in *.
  split; [done|]. split.
  - rewrite !length_app. lia.
  - rewrite <- Hcat, !real_lines_app, Hr0, Hr1, Hr2. by rewrite <- app_assoc.
Qed.

(** [align(f, line1, line2)] *)
Lemma align_ok (f line1 line2 : nat) v :
  partition_ok v -> (f + 1 < length (panes v))%nat ->
  sections_match alignmentHash (Z.of_nat f) (Z.of_nat line1) (Z.of_nat line2) v ->
  exists v',
    align alignmentHash (Z.of_nat f) (Z.of_nat line1) (Z.of_nat line2) v = Ok v' /\
    partition_ok v' /\ length (panes v') = length (panes v).
Proof.
  intros Hok Hf Hmatch. apply partition_ok_contents in Hok as [Hlen Hpos].
  unfold align.
  destruct (recordEditMode_keeps v) as (v1 & -> & Hc1 & _).
  cbn [mbind result_bind].
  assert (Hb1 : blocks v1 = blocks v) by (apply (f_equal snd) in Hc1; exact Hc1).
  assert (Hr1 : lines <$> panes v1 = lines <$> panes v)
    by (apply (f_equal fst) in Hc1; exact Hc1).
  rewrite Hb1, Hr1. clear Hb1 Hr1.
  unfold sections_match, align_span in Hmatch.
  assert (Hnp : length (lines <$> panes v) = length (panes v))
    by (by rewrite length_fmap).
  assert (Hcv : (contents v1).1 = lines <$> panes v) by (by rewrite Hc1).
  change (contents v).1 with (lines <$> panes v) in Hlen.
  change (contents v).2 with (blocks v) in Hlen, Hpos.
  remember (lines <$> panes v) as rws eqn:Hrd in *. clear Hrd.
  remember (blocks v) as bs eqn:Hbd in *. clear Hbd.
  assert (Hf' : (f + 1 < length rws)%nat) by (clear -Hf Hnp; lia).
  remember (Z.min (Z.of_nat line1) (Z.of_nat line2)) as lo eqn:Hlo in *.
  remember (Z.max (Z.of_nat line1) (Z.of_nat line2)) as hi eqn:Hhi in *.
  destruct (span_fold lo hi bs Hpos ltac:(clear -Hlo Hhi; lia) [] [] [])
    as (pre_b & mid & post_b & n' & Hfold & Happ & Hpre & Hpost);
    [cbn; clear -Hlo; lia|done|done|done|].
  cbn [sumZ foldr app] in Hfold, Happ. change (0 + 0 + 0) with 0 in Hfold.
  rewrite Hfold in Hmatch |- *. cbn [fst snd] in Hmatch. clear Hfold.
  pose proof Hpos as Hpos3. rewrite <- Happ in Hpos3.
  apply positive_blocks_app in Hpos3 as [Hp_pre Hpos3].
  apply positive_blocks_app in Hpos3 as [Hp_mid Hp_post].
  pose proof (sumZ_nonneg _ Hp_pre) as H0pre.
  pose proof (sumZ_nonneg _ Hp_mid) as H0mid.
  pose proof (sumZ_nonneg _ Hp_post) as H0post.
  assert (Hsum : sumZ bs = sumZ pre_b + sumZ mid + sumZ post_b)
    by (rewrite <- Happ, !sumZ_app; clear; lia).
  assert (Hnum : exists S0 E N : nat,
            sumZ pre_b = Z.of_nat S0 /\ sumZ pre_b + sumZ mid = Z.of_nat E /\
            sumZ bs = Z.of_nat N /\ (S0 <= E <= N)%nat /\
            sumZ mid = Z.of_nat E - Z.of_nat S0 /\
            sumZ post_b = Z.of_nat (N - E) /\
            (forall m : nat, lo <= Z.of_nat m <= hi ->
               (S0 <= m)%nat /\ (m < N -> m < E)%nat /\ (N <= m -> E = N)%nat)).
  { exists (Z.to_nat (sumZ pre_b)), (Z.to_nat (sumZ pre_b + sumZ mid)),
      (Z.to_nat (sumZ bs)).
    split; [clear -H0pre; lia|]. split; [clear -H0pre H0mid; lia|].
    split; [clear -H0pre H0mid H0post Hsum; lia|].
    split; [clear -H0pre H0mid H0post Hsum; lia|].
    split; [clear -H0pre H0mid; lia|].
    split; [clear -H0pre H0mid H0post Hsum; lia|].
    intros m Hmm. split; [clear -Hmm Hpre H0pre; lia|].
    destruct Hpost as [->|Hh].
    - cbn [sumZ foldr] in Hsum. clear -Hsum H0pre H0mid. lia.
    - clear -Hh Hmm Hsum H0pre H0mid H0post. lia. }
  destruct Hnum as (S0 & E & N & HS & HE & HN & HSE & HmidS & HpostS & Hm).
  destruct (Hm line1 ltac:(clear -Hlo Hhi; lia)) as (HS1 & Hlt1 & Hge1).
  destruct (Hm line2 ltac:(clear -Hlo Hhi; lia)) as (HS2 & Hlt2 & Hge2).
  clear Hm Hpre Hpost Hlo Hhi Hsum H0pre H0mid H0post.
  rewrite HE, HS in *.
  assert (HlenN : Forall (fun s : rows Line => length s = N) rws).
  { eapply Forall_impl; [exact Hlen|]. intros s Hs. cbv beta in Hs.
    unfold len in Hs. clear -Hs HN. lia. }
  clear Hlen.
  destruct (lookup_lt_is_Some_2 rws 0 ltac:(clear -Hf'; lia)) as [first Hfirst0].
  assert (Hfirst : py_get rws 0 = Ok first).
  { change 0 with (Z.of_nat 0). by rewrite py_get_nat, Hfirst0. }
  rewrite Hfirst. cbn [mbind result_bind].
  assert (Hlf : len first = Z.of_nat N).
  { unfold len. f_equal. apply (proj1 (Forall_forall _ _) HlenN).
    by eapply list_elem_of_lookup_2. }
  rewrite Hlf.
  replace (Z.of_nat f + 1) with (Z.of_nat (f + 1)) by (clear; lia).
  rewrite py_slice_take, py_slice_from_drop by (clear -Hf'; lia).
  destruct (lookup_lt_is_Some_2 rws f ltac:(clear -Hf'; lia)) as [l Hl].
  destruct (lookup_lt_is_Some_2 rws (f + 1) ltac:(clear -Hf'; lia)) as [r Hr].
  specialize (Hmatch l r).
  rewrite Nat2Z.id in Hmatch.
  replace (Z.to_nat (Z.of_nat f + 1)) with (f + 1)%nat in Hmatch by (clear; lia).
  specialize (Hmatch Hl Hr).
  assert (Hll : length l = N)
    by (apply (proj1 (Forall_forall _ _) HlenN); by eapply list_elem_of_lookup_2).
  assert (Hlr : length r = N)
    by (apply (proj1 (Forall_forall _ _) HlenN); by eapply list_elem_of_lookup_2).
  rewrite (align_sections_nat l line1 S0 E N), (align_sections_nat r line2 S0 E N)
    in Hmatch by done.
  apply Forall2_cons in Hmatch as [Hm0 Hmatch].
  apply Forall2_cons in Hmatch as [Hm1 Hmatch].
  apply Forall2_cons in Hmatch as [Hm2 _].
  destruct (cut_side_shape (take (f + 1) rws) line1 S0 E N mid)
    as (lpre & lb1 & lb2 & -> & Hlp & Hlps & Hlb1 & Hlb1s & Hlb2 & Hlb2s);
    try done.
  { eapply Forall_forall. intros s Hs. apply (subseteq_take (f + 1)) in Hs.
    by apply (proj1 (Forall_forall _ _) HlenN). }
  cbn [mbind result_bind].
  destruct (cut_side_shape (drop (f + 1) rws) line2 S0 E N mid)
    as (rpre & rb1 & rb2 & -> & Hrp & Hrps & Hrb1 & Hrb1s & Hrb2 & Hrb2s);
    try done.
  { eapply Forall_forall. intros s Hs. apply (subseteq_drop (f + 1)) in Hs.
    by apply (proj1 (Forall_forall _ _) HlenN). }
  cbn [mbind result_bind].
  assert (Hcat1 : forall ls : rows Line, length ls = N ->
            take (Nat.min line1 N - S0) (drop S0 ls) ++
            take (Nat.min 1 (N - line1)) (drop (Nat.min line1 N) ls) ++
            take (E - Nat.min line1 N - Nat.min 1 (N - line1))
                 (drop (Nat.min line1 N + Nat.min 1 (N - line1)) ls)
            = take (E - S0) (drop S0 ls))
    by (intros ls Hls; by apply (sections_concat _ _ _ _ N)).
  assert (Hcat2 : forall ls : rows Line, length ls = N ->
            take (Nat.min line2 N - S0) (drop S0 ls) ++
            take (Nat.min 1 (N - line2)) (drop (Nat.min line2 N) ls) ++
            take (E - Nat.min line2 N - Nat.min 1 (N - line2))
                 (drop (Nat.min line2 N + Nat.min 1 (N - line2)) ls)
            = take (E - S0) (drop S0 ls))
    by (intros ls Hls; by apply (sections_concat _ _ _ _ N)).
  assert (Hin1 : (S0 + (Nat.min line1 N - S0) <= N /\
                  Nat.min line1 N + Nat.min 1 (N - line1) <= N /\
                  Nat.min line1 N + Nat.min 1 (N - line1) +
                  (E - Nat.min line1 N - Nat.min 1 (N - line1)) <= N)%nat)
    by (clear -HSE HS1 Hlt1 Hge1; lia).
  assert (Hin2 : (S0 + (Nat.min line2 N - S0) <= N /\
                  Nat.min line2 N + Nat.min 1 (N - line2) <= N /\
                  Nat.min line2 N + Nat.min 1 (N - line2) +
                  (E - Nat.min line2 N - Nat.min 1 (N - line2)) <= N)%nat)
    by (clear -HSE HS2 Hlt2 Hge2; lia).
  clear HS1 Hlt1 Hge1 HS2 Hlt2 Hge2.
  remember (Nat.min line1 N - S0)%nat as k10 eqn:Hk10 in *.
  remember (Nat.min 1 (N - line1)) as k11 eqn:Hk11 in *.
  remember (E - Nat.min line1 N - k11)%nat as k12 eqn:Hk12 in *.
  remember (Nat.min line1 N) as a11 eqn:Ha11 in *.
  remember (Nat.min line2 N - S0)%nat as k20 eqn:Hk20 in *.
  remember (Nat.min 1 (N - line2)) as k21 eqn:Hk21 in *.
  remember (E - Nat.min line2 N - k21)%nat as k22 eqn:Hk22 in *.
  remember (Nat.min line2 N) as a21 eqn:Ha21 in *.
  clear Hk10 Hk11 Hk12 Ha11 Hk20 Hk21 Hk22 Ha21.
  destruct Hin1 as (Hi10 & Hi11 & Hi12). destruct Hin2 as (Hi20 & Hi21 & Hi22).
  assert (Hsame_lr : forall (P : rows Line -> rows Line -> Prop), P l r ->
            forall l' r', rws !! f = Some l' -> rws !! (f + 1)%nat = Some r' -> P l' r').
  { intros P HP l' r' Hl' Hr'. congruence. }
  destruct (align_one_section rws f N S0 k10 S0 k20 lpre rpre)
    as (b0 & t0 & n0 & -> & Hok0 & Hs0); try done.
  { by apply (Hsame_lr (fun l r => matcher_returns alignmentHash
                          (take k10 (drop S0 l)) (take k20 (drop S0 r)))). }
  cbn [mbind result_bind].
  destruct (align_one_section rws f N a11 k11 a21 k21 lb1 rb1)
    as (b1 & t1 & n1 & -> & Hok1 & Hs1); try done.
  { by apply (Hsame_lr (fun l r => matcher_returns alignmentHash
                          (take k11 (drop a11 l)) (take k21 (drop a21 r)))). }
  cbn [mbind result_bind].
  destruct (align_one_section rws f N (a11 + k11) k12 (a21 + k21) k22 lb2 rb2)
    as (b2 & t2 & n2 & -> & Hok2 & Hs2); try done.
  { by apply (Hsame_lr (fun l r => matcher_returns alignmentHash
                          (take k12 (drop (a11 + k11) l))
                          (take k22 (drop (a21 + k21) r)))). }
  cbn [mbind result_bind].
  clear Hsame_lr Hm0 Hm1 Hm2.
  destruct Hok0 as (Hbp0 & Hbs0 & Hbl0). destruct Hok1 as (Hbp1 & Hbs1 & Hbl1).
  destruct Hok2 as (Hbp2 & Hbs2 & Hbl2).
  pose proof (sumZ_nonneg _ Hbp0) as Hn0. pose proof (sumZ_nonneg _ Hbp1) as Hn1.
  pose proof (sumZ_nonneg _ Hbp2) as Hn2.
  assert (Hnum : exists newn n0n : nat,
            Z.of_nat newn = n0 + n1 + n2 /\ n0 = Z.of_nat n0n /\ (n0n <= newn)%nat).
  { exists (Z.to_nat (n0 + n1 + n2)), (Z.to_nat n0).
    clear -Hn0 Hn1 Hn2 Hbs0 Hbs1 Hbs2. lia. }
  destruct Hnum as (newn & n0n & Hnewn' & Hn0n & Hnewn).
  assert (Hfit : Forall2 (fits_section S0 (E - S0) newn) rws
                   (extend_each
                      (extend_each
                         (extend_each ((fun _ : rows Line => []) <$> rws) t0) t1) t2)).
  { replace newn with (Z.to_nat (n0 + n1 + n2)) by (clear -Hnewn'; lia).
    eapply final_rows; [|exact Hs0|exact Hs1|exact Hs2|done|done|done].
    intros k ls Hk.
    assert (Hls : length ls = N)
      by (apply (proj1 (Forall_forall _ _) HlenN); by eapply list_elem_of_lookup_2).
    eexists _, _, _.
    split; [by apply side_sections|]. split; [by apply side_sections|].
    split; [by apply side_sections|]. split; [|clear -HSE Hls; lia].
    destruct (decide (k < f + 1)%nat); [by apply Hcat1|by apply Hcat2]. }
  clear Hcat1 Hcat2.
  assert (Hlt0 : length t0 = length rws).
  { apply Forall2_length in Hs0. rewrite <- Hs0, length_app, !length_fmap.
    by rewrite <- length_app, take_drop. }
  clear Hs0 Hs1 Hs2.
  remember (extend_each
              (extend_each (extend_each ((fun _ : rows Line => []) <$> rws) t0) t1)
              t2) as final eqn:Hfd in *.
  clear Hfd.
  replace (Z.of_nat E - Z.of_nat S0) with (Z.of_nat (E - S0)) by (clear -HSE; lia).
  destruct (updateAlignment_shape S0 (E - S0) newn final v1)
    as (v2 & -> & Hb2 & Hl2).
  { rewrite Hcv. intros Hnil. rewrite Hnil in Hf'. cbn in Hf'. clear -Hf'. lia. }
  { by rewrite Hcv. }
  cbn [mbind result_bind].
  destruct (updateBlocks_sets (pre_b ++ b0 ++ b1 ++ b2 ++ post_b) v2)
    as (v3 & -> & Hc3).
  cbn [mbind result_bind].
  destruct (lookup_lt_is_Some_2 t0 0 ltac:(clear -Hlt0 Hf'; lia)) as [first0 Hf0].
  assert (Hget0 : py_get t0 0 = Ok first0).
  { change 0 with (Z.of_nat 0). by rewrite py_get_nat, Hf0. }
  rewrite Hget0. cbn [mbind result_bind].
  assert (Hlf0 : len first0 = Z.of_nat n0n).
  { rewrite <- Hn0n. apply (proj1 (Forall_forall _ _) Hbl0).
    by eapply list_elem_of_lookup_2. }
  destruct (Forall2_lookup_l _ _ _ 0%nat _ Hfit Hfirst0) as (final0 & Hff & _ & Hlff & _).
  assert (Hgetf : py_get final 0 = Ok final0).
  { change 0 with (Z.of_nat 0). by rewrite py_get_nat, Hff. }
  rewrite Hgetf. cbn [mbind result_bind].
  replace (Z.of_nat S0 + len first0) with (Z.of_nat (S0 + n0n))
    by (clear -Hlf0; lia).
  replace (len final0 - len first0) with (Z.of_nat (newn - n0n))
    by (unfold len in *; clear -Hlf0 Hlff Hnewn; lia).
  replace (len first0) with (Z.of_nat n0n) by (clear -Hlf0; lia).
  assert (HNum : exists N' : nat,
            (N' = N - (E - S0) + newn /\ S0 + n0n + (newn - n0n) <= N')%nat).
  { eexists. split; [reflexivity|]. clear -HSE Hnewn. lia. }
  destruct HNum as (N' & HN' & HN'1).
  assert (HlenN' : Forall (fun ls : rows Line => length ls = N') (contents v3).1).
  { rewrite Hc3. cbn [fst]. rewrite Hcv in Hl2.
    clear -Hl2 HlenN HSE HN'. induction Hl2 as [|ls ls' ? ? Hll _ IH]; [done|].
    apply Forall_cons in HlenN as [Hh Ht]. constructor; [|by apply IH].
    unfold len in Hll. lia. }
  assert (Hpos3' : positive_blocks (contents v3).2).
  { rewrite Hc3. cbn [snd]. repeat (apply Forall_app; split); done. }
  assert (Hsum3 : sumZ (contents v3).2 = Z.of_nat N').
  { rewrite Hc3. cbn [snd]. rewrite !sumZ_app.
    clear -HS Hbs0 Hbs1 Hbs2 Hnewn' HpostS HSE HN'. lia. }
  destruct (removeSpacerLines_shape (-1) (S0 + n0n) (newn - n0n) N' v3)
    as (v4 & k1 & -> & Hk1 & Hnp4 & Hlen4 & Hpos4 & Hsum4); try done.
  cbn [mbind result_bind].
  destruct (removeSpacerLines_shape (-1) S0 n0n (N' - k1) v4)
    as (v5 & k2 & -> & Hk2 & Hnp5 & Hlen5 & Hpos5 & Hsum5); try done.
  { clear -HN'1 Hk1 Hnewn. lia. }
  cbn [mbind result_bind].
  assert (Hnp5' : length (contents v5).1 = length (panes v)).
  { rewrite Hnp5, Hnp4, Hc3. cbn [fst]. apply Forall2_length in Hl2.
    rewrite <- Hl2, Hcv. exact Hnp. }
  destruct (setCurrentLine_keeps (current_pane v5)
              (Z.of_nat S0 + (Z.of_nat n0n - Z.min (Z.of_nat k2) (Z.of_nat n0n - 1)))
              None v5) as (v6 & -> & Hc6).
  { apply panes_nonempty. intros Hnil. rewrite Hnil in Hnp5'. cbn in Hnp5'.
    clear -Hnp5' Hf. lia. }
  cbn [mbind result_bind].
  destruct (recordEditMode_keeps v6) as (v7 & -> & Hc7 & _).
  exists v7. split; [done|]. split.
  - apply (partition_ok_intro _ (Z.of_nat (N' - k1 - k2))); rewrite Hc7, Hc6;
      [|done|done].
    eapply Forall_impl; [exact Hlen5|]. intros ls Hls. cbv beta in Hls.
    unfold len. by rewrite Hls.
  - rewrite <- Hnp5', <- Hc6, <- Hc7. unfold contents. cbn [fst].
    by rewrite length_fmap.
Qed.
End AlignAction.

(** X14.  [align(f, line1, line2)] on a viewer that satisfies the
    partition invariant, for a pane [f] that has a right neighbour and two
    line indices that are not negative (they may lie after the last row),
    when the matcher returns on each of the three pairs of sections that
    [align] cuts out of pane [f] and pane [f + 1]: the call returns, the
    number of panes is unchanged and the partition invariant holds again:
    every pane has [sum(blocks)] rows and no block is empty. *)
Theorem align_keeps_partition {K : Type} `{EqDecision K}
    (alignmentHash : Line -> K) (f line1 line2 : Z) (v : Viewer) :
  partition_ok v -> 0 <= f -> f + 1 < len (panes v) ->
  0 <= line1 -> 0 <= line2 ->
  sections_match alignmentHash f line1 line2 v ->
  exists v',
    align alignmentHash f line1 line2 v = Ok v' /\
    partition_ok v' /\ len (panes v') = len (panes v).
Proof.
  intros Hok Hf0 Hf H1 H2 Hmatch.
  assert (Hnat : exists f' l1 l2 : nat,
            f = Z.of_nat f' /\ line1 = Z.of_nat l1 /\ line2 = Z.of_nat l2).
  { exists (Z.to_nat f), (Z.to_nat line1), (Z.to_nat line2). lia. }
  destruct Hnat as (f' & l1 & l2 & -> & -> & ->).
  unfold len in Hf.
  destruct (align_ok alignmentHash f' l1 l2 v Hok ltac:(lia) Hmatch)
    as (v' & Hrun & Hok' & Hnp).
  exists v'. split; [exact Hrun|]. split; [exact Hok'|].
  unfold len. by rewrite Hnp.
Qed.

Lemma align_keeps_partition_witness :
  exists v',
    align getText 0 0 1 two_pane_viewer_edited = Ok v' /\
    partition_ok v' /\ len (panes v') = len (panes two_pane_viewer_edited).
Proof.
  apply (align_keeps_partition getText 0 0 1 two_pane_viewer_edited).
  - split; by repeat constructor.
  - lia.
  - unfold len. simpl. lia.
  - lia.
  - lia.
  - intros l r Hl Hr. vm_compute in Hl, Hr.
    injection Hl as <-. injection Hr as <-.
    repeat (constructor; [vm_compute; exact I|]). constructor.
Defined.

(** ** The [isolate] action *)

(** The rows of the selected section of pane [f] change places with the
    spacers that face them: [lines[f], space[f] = space[f], lines[f]]. *)
Lemma isolate_sides (rws : list (rows Line)) (f start n N : nat) (sec : rows Line) :
  Forall (fun s => length s = N) rws -> (start + n <= N)%nat ->
  rws !! f = Some sec ->
  let slices := (fun s : rows Line => take n (drop start s)) <$> rws in
  let nones := (fun _ : rows Line => replicate n (@None Line)) <$> rws in
  Forall (fun l => len l = Z.of_nat n) (<[f := replicate n None]> slices) /\
  Forall (fun l => len l = Z.of_nat n) (<[f := take n (drop start sec)]> nones) /\
  forall k ls, rws !! k = Some ls ->
    exists x y, (<[f := take n (drop start sec)]> nones) !! k = Some x /\
                (<[f := replicate n None]> slices) !! k = Some y /\
                real_lines (x ++ y) = real_lines (take n (drop start ls)).
Proof.
  intros Hlen Hn Hf slices nones.
  assert (Hsl : Forall (fun l : rows Line => len l = Z.of_nat n) slices)
    by (by apply (section_lengths _ start n N)).
  assert (Hno : Forall (fun l : rows Line => len l = Z.of_nat n) nones).
  { apply Forall_fmap, Forall_forall. intros s _. cbn. unfold len.
    by rewrite length_replicate. }
  assert (Hsec : len (take n (drop start sec)) = Z.of_nat n).
  { unfold len. rewrite length_take, length_drop.
    rewrite (proj1 (Forall_forall _ _) Hlen sec) by (by eapply list_elem_of_lookup_2).
    lia. }
  split; [|split].
  - apply Forall_insert; [done|]. unfold len. by rewrite length_replicate.
  - by apply Forall_insert.
  - intros k ls Hk. pose proof (lookup_lt_Some _ _ _ Hk) as Hlt.
    destruct (decide (k = f)) as [->|Hkf].
    + assert (ls = sec) as -> by congruence.
      exists (take n (drop start sec)), (replicate n None).
      rewrite !list_lookup_insert_eq by (unfold nones, slices; by rewrite length_fmap).
      split; [done|]. split; [done|].
      by rewrite real_lines_app, real_lines_nones, app_nil_r.
    + exists (replicate n None), (take n (drop start ls)).
      rewrite !list_lookup_insert_ne by done.
      unfold nones, slices. rewrite !list_lookup_fmap, Hk.
      split; [done|]. split; [done|].
      by rewrite real_lines_app, real_lines_nones.
Qed.

Lemma isolate_rows (rws X Y tX tY : list (rows Line)) (i n : nat) (nb n2 : Z) :
  length X = length rws ->
  (forall k ls, rws !! k = Some ls ->
     exists x y, X !! k = Some x /\ Y !! k = Some y /\
       real_lines (x ++ y) = real_lines (take n (drop i ls)) /\
       (i + n <= length ls)%nat) ->
  same_real_lines X tX -> same_real_lines Y tY ->
  Forall (fun l => len l = nb) tX -> Forall (fun l => len l = n2) tY ->
  Forall2 (fits_section i n (Z.to_nat (nb + n2))) rws (extend_each tX tY).
Proof.
  intros HlX HX HsX HsY HlX' HlY'.
  apply Forall2_same_length_lookup. split.
  { rewrite length_extend_each. apply Forall2_length in HsX. congruence. }
  intros k ls z Hk Hz.
  destruct (HX k ls Hk) as (x & y & Hx & Hy & Hreal & Hin).
  destruct (same_real_lines_lookup _ _ k x HsX Hx) as (x' & Hx' & Hrx).
  destruct (same_real_lines_lookup _ _ k y HsY Hy) as (y' & Hy' & Hry).
  pose proof (extend_each_lookup _ _ k _ _ Hx' Hy') as Hz'.
  rewrite Hz in Hz'. injection Hz' as ->.
  pose proof (Forall_lookup_1 _ _ _ _ HlX' Hx') as Hnx.
  pose proof (Forall_lookup_1 _ _ _ _ HlY' Hy') as Hny.
  cbv beta in Hnx, Hny. unfold len in *.
  split; [done|]. split.
  - rewrite length_app. lia.
  - rewrite <- Hreal, !real_lines_app, Hrx, Hry. done.
Qed.

(** X15.  [isolate()] on a viewer that satisfies the partition invariant,
    whose current pane exists and whose cursor and selection lines are not
    negative: the call returns (no matcher is involved), the number of
    panes is unchanged and the partition invariant holds again: every pane
    has [sum(blocks)] rows and no block is empty. *)
Theorem isolate_keeps_partition (v : Viewer) :
  partition_ok v -> 0 <= current_pane v < len (panes v) ->
  0 <= selection_line v -> 0 <= current_line v ->
  exists v',
    isolate v = Ok v' /\ partition_ok v' /\ len (panes v') = len (panes v).
Proof.
  intros Hok Hf Hsl Hcl. apply partition_ok_contents in Hok as [Hlen Hpos].
  unfold isolate.
  destruct (setLineMode_keeps v) as (Hc0 & Hf0 & Hcl0 & Hsl0).
  remember (setLineMode v) as v0 eqn:Hv0. clear Hv0.
  destruct (recordEditMode_keeps v0) as (v1 & -> & Hc1 & Hf1 & Hcl1 & Hsl1).
  cbn [mbind result_bind].
  rewrite Hf1, Hcl1, Hsl1, Hf0, Hcl0, Hsl0.
  assert (Hc : contents v1 = contents v) by congruence.
  clear Hc0 Hc1 Hf0 Hf1 Hcl0 Hcl1 Hsl0 Hsl1 v0.
  assert (Hnp1 : len (panes v1) = len (panes v)) by (by rewrite !len_panes, Hc).
  destruct (py_get_pane v1 (current_pane v) ltac:(clear -Hf Hnp1; lia))
    as (pane & sec & -> & Hpl & Hsec).
  cbn [mbind result_bind].
  rewrite Hpl. clear Hpl pane.
  rewrite Hc in Hsec.
  change (contents v).1 with (lines <$> panes v) in Hlen, Hsec.
  change (contents v).2 with (blocks v) in Hlen, Hpos.
  assert (Hrows1 : lines <$> panes v1 = lines <$> panes v)
    by (apply (f_equal fst) in Hc; exact Hc).
  assert (Hblocks1 : blocks v1 = blocks v)
    by (apply (f_equal snd) in Hc; exact Hc).
  assert (Hcv : (contents v1).1 = lines <$> panes v) by (by rewrite Hc).
  assert (Hnpv : length (lines <$> panes v) = length (panes v))
    by (by rewrite length_fmap).
  assert (Hnum : exists fn N st en : nat,
            current_pane v = Z.of_nat fn /\ (fn < length (panes v))%nat /\
            sumZ (blocks v) = Z.of_nat N /\
            Z.min (selection_line v) (current_line v) = Z.of_nat st /\
            Z.min (Z.max (selection_line v) (current_line v) + 1) (Z.of_nat N)
            = Z.of_nat en /\ (en <= N)%nat).
  { pose proof (sumZ_nonneg _ Hpos) as H0.
    exists (Z.to_nat (current_pane v)), (Z.to_nat (sumZ (blocks v))),
      (Z.to_nat (Z.min (selection_line v) (current_line v))),
      (Z.to_nat (Z.min (Z.max (selection_line v) (current_line v) + 1)
                       (sumZ (blocks v)))).
    unfold len in Hf. clear -Hf Hsl Hcl H0.
    rewrite !Z2Nat.id by lia. repeat split; lia. }
  destruct Hnum as (fn & N & st & en & Hfn & Hfnlt & HN & Hst & Hen & HenN).
  assert (HlenN : Forall (fun s : rows Line => length s = N) (lines <$> panes v)).
  { eapply Forall_impl; [exact Hlen|]. intros s Hs. cbv beta in Hs.
    unfold len in Hs. clear -Hs HN. lia. }
  rewrite Hfn, Nat2Z.id in Hsec.
  assert (HsecN : len sec = Z.of_nat N).
  { unfold len. f_equal. apply (proj1 (Forall_forall _ _) HlenN).
    by eapply list_elem_of_lookup_2. }
  rewrite HsecN, Hst, Hen, Hfn.
  clear Hf Hsl Hcl Hst Hen Hfn Hlen.
  remember (lines <$> panes v) as rws eqn:Hrd in *.
  remember (blocks v) as bs eqn:Hbd in *.
  destruct (Z.ltb_spec 0 (Z.of_nat en - Z.of_nat st)) as [Hpos_n|Hno].
  2:{ cbn [mbind result_bind].
      destruct (recordEditMode_keeps v1) as (v2 & -> & Hc2 & _).
      exists v2. split; [done|]. split.
      - apply partition_ok_contents. rewrite Hc2, Hc. unfold contents.
        cbn [fst snd]. rewrite <- Hrd, <- Hbd. split; [|done].
        eapply Forall_impl; [exact HlenN|]. intros s Hs. cbv beta in Hs.
        unfold len. rewrite Hs. clear -HN. lia.
      - rewrite !len_panes. by rewrite Hc2, Hc. }
  assert (Hn : exists n : nat, (n = en - st /\ 0 < n /\ st + n = en)%nat).
  { exists (en - st)%nat. clear -Hpos_n. lia. }
  destruct Hn as (n & Hn & Hn0 & Hstn).
  replace (Z.of_nat en - Z.of_nat st) with (Z.of_nat n) by (clear -Hstn; lia).
  clear Hpos_n.
  assert (Hslices : (fun pane : Pane => py_slice (lines pane) (Z.of_nat st) (Z.of_nat en))
                      <$> panes v1
                    = (fun s : rows Line => take n (drop st s)) <$> rws).
  { rewrite <- Hrows1, <- list_fmap_compose. apply Forall_fmap_ext_1.
    rewrite <- Hrows1 in HlenN. apply Forall_fmap in HlenN.
    eapply Forall_impl; [exact HlenN|]. intros p Hp. cbn in Hp |- *.
    rewrite py_slice_nat by (clear -Hp HenN Hstn; lia). by rewrite Hn. }
  assert (Hnones : (fun _ : Pane => py_repeat (Z.of_nat n) (@None Line)) <$> panes v1
                   = (fun _ : rows Line => replicate n (@None Line)) <$> rws).
  { rewrite <- Hrows1, <- list_fmap_compose. unfold py_repeat.
    by rewrite Nat2Z.id. }
  rewrite Hslices, Hnones. clear Hslices Hnones.
  assert (Hfr : (fn < length rws)%nat) by (clear -Hfnlt Hnpv; lia).
  rewrite !py_get_nat, !list_lookup_fmap, Hsec. cbn [fmap option_fmap option_map].
  cbn [mbind result_bind].
  rewrite !py_set_nat by (by rewrite length_fmap).
  cbn [mbind result_bind]. rewrite Hblocks1.
  destruct (isolate_sides rws fn st n N sec HlenN ltac:(clear -Hstn HenN; lia) Hsec)
    as (Hll & Hls & Hpair).
  destruct (cutBlocks_shape (Z.of_nat en) bs Hpos)
    as (pre & post & -> & Hp_pre & Hp_post & Hs_pp & Hs_pre).
  rewrite Hs_pre in Hs_pp by (clear -HenN HN; lia).
  destruct (cutBlocks_shape (Z.of_nat st) pre Hp_pre)
    as (pre0 & middle & -> & Hp_pre0 & Hp_mid & Hs_pm & Hs_pre0).
  rewrite Hs_pre in Hs_pm, Hs_pre0 by (clear -HenN HN; lia).
  rewrite Hs_pre0 in Hs_pm by (clear -Hstn; lia).
  specialize (Hs_pre0 ltac:(clear -Hstn; lia)). clear Hs_pre.
  destruct (createBlock_shape (Z.of_nat n) ltac:(clear; lia)) as [Hp_cb Hs_cb].
  destruct (removeNullLines_shape (createBlock (Z.of_nat n))
              (<[fn := take n (drop st sec)]>
                 ((fun _ : rows Line => replicate n (@None Line)) <$> rws))
              (Z.of_nat n))
    as (b & space' & nb & -> & (Hp_b & Hs_b & Hl_b) & Hsame_b); [done|].
  cbn [mbind result_bind].
  destruct (removeNullLines_shape middle
              (<[fn := replicate n (@None Line)]>
                 ((fun s : rows Line => take n (drop st s)) <$> rws))
              (Z.of_nat n))
    as (middle' & lines' & n2 & -> & (Hp_m & Hs_m & Hl_m) & Hsame_m).
  { split; [done|]. split; [clear -Hs_pm Hstn; lia|done]. }
  cbn [mbind result_bind].
  pose proof (sumZ_nonneg _ Hp_b) as H0b. pose proof (sumZ_nonneg _ Hp_m) as H0m.
  assert (Hnum : exists nbn n2n endn : nat,
            nb = Z.of_nat nbn /\ n2 = Z.of_nat n2n /\
            (if Z.of_nat st <? Z.of_nat st + nb then Z.of_nat st + nb - 1
             else Z.of_nat st + nb) = Z.of_nat endn /\
            (endn <= st + nbn)%nat).
  { exists (Z.to_nat nb), (Z.to_nat n2).
    destruct (Z.ltb_spec (Z.of_nat st) (Z.of_nat st + nb)).
    - exists (Z.to_nat (Z.of_nat st + nb - 1)). clear -H0b H0m Hs_b Hs_m H. lia.
    - exists (Z.to_nat (Z.of_nat st + nb)). clear -H0b H0m Hs_b Hs_m H. lia. }
  destruct Hnum as (nbn & n2n & endn & Hnb & Hn2 & Hend & Hendle).
  rewrite Hs_b, Hs_m, Hend, Hnb, Hn2. clear Hend H0b H0m.
  assert (Hfit : Forall2 (fits_section st n (nbn + n2n)) rws (extend_each space' lines')).
  { replace (nbn + n2n)%nat with (Z.to_nat (nb + n2)) by (clear -Hnb Hn2; lia).
    eapply isolate_rows; [| |exact Hsame_b|exact Hsame_m|done|done].
    - by rewrite length_insert, length_fmap.
    - intros k ls Hk. destruct (Hpair k ls Hk) as (x & y & Hx & Hy & Hreal).
      exists x, y. split; [done|]. split; [done|]. split; [done|].
      rewrite (proj1 (Forall_forall _ _) HlenN ls) by (by eapply list_elem_of_lookup_2).
      clear -Hstn HenN. lia. }
  clear Hpair Hsame_b Hsame_m Hll Hls.
  destruct (updateAlignment_shape st n (nbn + n2n) (extend_each space' lines') v1)
    as (v2 & -> & Hb2 & Hl2).
  { rewrite Hcv. intros Hnil. rewrite Hnil in Hfr. cbn in Hfr. clear -Hfr. lia. }
  { by rewrite Hcv. }
  cbn [mbind result_bind].
  destruct (updateBlocks_sets (pre0 ++ b ++ middle' ++ post) v2) as (v3 & -> & Hc3).
  cbn [mbind result_bind].
  assert (HNum : exists N' : nat, (N' = N - n + (nbn + n2n))%nat).
  { by eexists. }
  destruct HNum as (N' & HN').
  assert (HlenN' : Forall (fun ls : rows Line => length ls = N') (contents v3).1).
  { rewrite Hc3. cbn [fst]. rewrite Hcv in Hl2.
    clear -Hl2 HlenN HenN Hstn HN'. induction Hl2 as [|ls ls' ? ? Hll _ IH]; [done|].
    apply Forall_cons in HlenN as [Hh Ht]. constructor; [|by apply IH].
    unfold len in Hll. lia. }
  assert (Hpos3 : positive_blocks (contents v3).2).
  { rewrite Hc3. cbn [snd]. repeat (apply Forall_app; split); done. }
  assert (Hsum3 : sumZ (contents v3).2 = Z.of_nat N').
  { rewrite Hc3. cbn [snd]. rewrite !sumZ_app.
    clear -Hs_pre0 Hs_b Hs_m Hnb Hn2 Hs_pp HN HN' HenN Hstn. lia. }
  destruct (removeSpacerLines_shape (-1) endn n2n N' v3)
    as (v4 & k1 & -> & Hk1 & Hnp4 & Hlen4 & Hpos4 & Hsum4); try done.
  { clear -Hendle HN' HenN Hstn. lia. }
  cbn [mbind result_bind].
  destruct (removeSpacerLines_shape (-1) st nbn (N' - k1) v4)
    as (v5 & k2 & -> & Hk2 & Hnp5 & Hlen5 & Hpos5 & Hsum5); try done.
  { clear -Hk1 HN' HenN Hstn. lia. }
  cbn [mbind result_bind].
  assert (Hnp5' : length (contents v5).1 = length (panes v)).
  { rewrite Hnp5, Hnp4, Hc3. cbn [fst]. apply Forall2_length in Hl2.
    rewrite <- Hl2, Hcv. exact Hnpv. }
  destruct (setCurrentLine_keeps (Z.of_nat fn) (Z.of_nat endn - Z.of_nat k2)
              (Some (Z.of_nat st)) v5) as (v6 & -> & Hc6).
  { apply panes_nonempty. intros Hnil. rewrite Hnil in Hnp5'. cbn in Hnp5'.
    clear -Hnp5' Hfnlt. lia. }
  cbn [mbind result_bind].
  destruct (recordEditMode_keeps v6) as (v7 & -> & Hc7 & _).
  exists v7. split; [done|]. split.
  - apply (partition_ok_intro _ (Z.of_nat (N' - k1 - k2))); rewrite Hc7, Hc6;
      [|done|done].
    eapply Forall_impl; [exact Hlen5|]. intros ls Hls. cbv beta in Hls.
    unfold len. by rewrite Hls.
  - rewrite !len_panes, Hc7, Hc6, Hnp5'. unfold contents. cbn [fst].
    by rewrite length_fmap.
Qed.

Lemma isolate_keeps_partition_witness :
  exists v',
    isolate two_pane_viewer_edited = Ok v' /\ partition_ok v' /\
    len (panes v') = len (panes two_pane_viewer_edited).
Proof.
  apply (isolate_keeps_partition two_pane_viewer_edited).
  - split; by repeat constructor.
  - unfold len. simpl. lia.
  - simpl. lia.
  - simpl. lia.
Defined.
